(** * wootrico: the reconciliation engine between WhatsApp providers and the helpdesk

    A shallow embedding of the parts of the bridge that carry invariants:
    the phone normaliser ([src/utils/phone.js]), the credit ledger and the
    message-id mapping cache ([src/utils/messageCache.js]), the provider
    deletion dialects ([src/services/whatsapp.js]), contact creation and the
    message send functions ([src/services/chatwoot.js]) and the
    classification step of the two queue processors
    ([src/services/webhookConsumer.js]).

    JavaScript data is modelled as follows.
    - A JS string is a [string]; a value that may be [null]/[undefined] is an
      [option]; [x || d] on such a value is [truthy]-based defaulting.
    - A [Map] whose iteration order is observed (the mapping cache) is an
      association list in insertion order; a [Map] or object that is only
      indexed (the credit ledger) is a [gmap].
    - Counters are JS numbers holding integers; they are [Z].
    - Calls to the helpdesk and provider REST surfaces are answered by an
      explicit outcome given as an argument, and recorded in a trace. *)

From Stdlib Require Import ZArith String Ascii List Bool Lia.
From stdpp Require Import base decidable option list gmap strings fin_maps.

Local Open Scope string_scope.
Local Open Scope Z_scope.

(** ** JavaScript string primitives *)

Module Js.

Definition chars (s : string) : list ascii := list_ascii_of_string s.
Definition of_chars (l : list ascii) : string := string_of_list_ascii l.

(** [!s] is false exactly for the non-empty strings. *)
Definition truthy (s : string) : bool :=
  match s with EmptyString => false | String _ _ => true end.

(** [v || d] for a value that is a string, [null] or [undefined]. *)
Definition or_str (v : option string) (d : string) : string :=
  match v with
  | Some s => if truthy s then s else d
  | None => d
  end.

(** [v || null]: a falsy string collapses to [null]. *)
Definition or_null (v : option string) : option string :=
  match v with
  | Some s => if truthy s then Some s else None
  | None => None
  end.

(** [a || b] on two nullable strings. *)
Definition or_else (a b : option string) : option string :=
  match or_null a with
  | Some s => Some s
  | None => b
  end.

Definition truthy_opt (v : option string) : bool :=
  match v with Some s => truthy s | None => false end.

(** [\d] without the unicode flag: the ten ASCII digits. *)
Definition isDigit (c : ascii) : bool :=
  let n := nat_of_ascii c in (48 <=? n)%nat && (n <=? 57)%nat.

(** [[1-9]] *)
Definition isDigit19 (c : ascii) : bool :=
  let n := nat_of_ascii c in (49 <=? n)%nat && (n <=? 57)%nat.

(** [s.replace(/\D/g, '')] *)
Definition stripNonDigits (s : string) : string :=
  of_chars (List.filter isDigit (chars s)).

(** [s.startsWith(p)] *)
Fixpoint startsWithChars (p s : list ascii) : bool :=
  match p, s with
  | [], _ => true
  | _ :: _, [] => false
  | a :: p', b :: s' => bool_decide (a = b) && startsWithChars p' s'
  end.

Definition startsWith (s p : string) : bool :=
  startsWithChars (chars p) (chars s).

(** [s.endsWith(suf)] *)
Definition endsWith (s suf : string) : bool :=
  startsWithChars (List.rev (chars suf)) (List.rev (chars s)).

(** [s.replace(pat, '')] for a string pattern: the first occurrence is
    removed. *)
Fixpoint removeFirstChars (pat s : list ascii) : list ascii :=
  match s with
  | [] => []
  | c :: s' =>
    if startsWithChars pat s then List.skipn (length pat) s
    else c :: removeFirstChars pat s'
  end.

Definition removeFirst (s pat : string) : string :=
  of_chars (removeFirstChars (chars pat) (chars s)).

(** [s.slice(n)] for [0 <= n] *)
Definition sliceFrom (n : nat) (s : string) : string :=
  of_chars (List.skipn n (chars s)).

(** [s.toUpperCase()] on ASCII letters; other bytes are kept. *)
Definition upperChar (c : ascii) : ascii :=
  let n := nat_of_ascii c in
  if (97 <=? n)%nat && (n <=? 122)%nat then ascii_of_nat (n - 32) else c.

Definition toUpperCase (s : string) : string :=
  of_chars (List.map upperChar (chars s)).

(** [s.slice(a, b)] for [0 <= a <= b] *)
Definition sliceBetween (a b : nat) (s : string) : string :=
  of_chars (List.firstn (b - a) (List.skipn a (chars s))).

(** [s.toLowerCase()] on ASCII letters; other bytes are kept. *)
Definition lowerChar (c : ascii) : ascii :=
  let n := nat_of_ascii c in
  if (65 <=? n)%nat && (n <=? 90)%nat then ascii_of_nat (n + 32) else c.

Definition toLowerCase (s : string) : string :=
  of_chars (List.map lowerChar (chars s)).

(** [s.trim().length > 0] is false exactly when every character of [s] is
    white space or a line terminator. Strings hold UTF-8, so the characters
    beyond ASCII that [trim] removes are recognised by their byte sequences:
    U+00A0, U+1680, U+2000 to U+200A, U+2028, U+2029, U+202F, U+205F, U+3000
    and U+FEFF. *)
Definition isAsciiSpace (c : ascii) : bool :=
  let n := nat_of_ascii c in
  ((9 <=? n)%nat && (n <=? 13)%nat) || (n =? 32)%nat.

Definition isSpace2 (a b : ascii) : bool :=
  (nat_of_ascii a =? 194)%nat && (nat_of_ascii b =? 160)%nat.

Definition isSpace3 (a b c : ascii) : bool :=
  let a := nat_of_ascii a in
  let b := nat_of_ascii b in
  let c := nat_of_ascii c in
  ((a =? 225) && (b =? 154) && (c =? 128)
   || (a =? 226) && (b =? 128)
      && (((128 <=? c) && (c <=? 138)) || (c =? 168) || (c =? 169) || (c =? 175))
   || (a =? 226) && (b =? 129) && (c =? 159)
   || (a =? 227) && (b =? 128) && (c =? 128)
   || (a =? 239) && (b =? 187) && (c =? 191))%nat.

Fixpoint blankChars (s : list ascii) : bool :=
  match s with
  | [] => true
  | a :: s1 =>
    if isAsciiSpace a then blankChars s1
    else match s1 with
         | b :: s2 =>
           if isSpace2 a b then blankChars s2
           else match s2 with
                | c :: s3 => if isSpace3 a b c then blankChars s3 else false
                | [] => false
                end
         | [] => false
         end
  end.

Definition trimIsEmpty (s : string) : bool := blankChars (chars s).

(** [s.includes(sub)] *)
Fixpoint includesChars (sub s : list ascii) : bool :=
  startsWithChars sub s
  || match s with
     | [] => false
     | _ :: s' => includesChars sub s'
     end.

Definition includes (s sub : string) : bool := includesChars (chars sub) (chars s).

(** [s.replace(/\s+/g, '')]: the characters [\s] matches are those [trim]
    removes. *)
Fixpoint removeSpaces (s : list ascii) : list ascii :=
  match s with
  | [] => []
  | a :: s1 =>
    if isAsciiSpace a then removeSpaces s1
    else match s1 with
         | b :: s2 =>
           if isSpace2 a b then removeSpaces s2
           else match s2 with
                | c :: s3 =>
                  if isSpace3 a b c then removeSpaces s3 else a :: removeSpaces s1
                | [] => a :: removeSpaces s1
                end
         | [] => [a]
         end
  end.

(** [s.replace(/x/g, y)] for single characters [x] and [y] *)
Definition replaceChar (x y : ascii) (s : list ascii) : list ascii :=
  List.map (fun c => if bool_decide (c = x) then y else c) s.

(** [s.length], the number of UTF-16 code units of a string held as UTF-8:
    one for every byte that starts a character, and one more for every
    character of four bytes. *)
Definition utf16Length (s : list ascii) : nat :=
  length (List.filter (fun c => let n := nat_of_ascii c in
                                negb ((128 <=? n)%nat && (n <? 192)%nat)) s)
  + length (List.filter (fun c => (240 <=? nat_of_ascii c)%nat) s).

End Js.

(** ** [src/utils/phone.js] *)

Module Phone.

(** [COUNTRY_CODES], in the order the object literal lists its keys, which
    is the order [Object.entries] enumerates them. *)
Definition COUNTRY_CODES : list (string * string) :=
  [ ("BR", "55"); ("US", "1"); ("CA", "1"); ("MX", "52"); ("AR", "54");
    ("CL", "56"); ("CO", "57"); ("PE", "51"); ("VE", "58"); ("UY", "598");
    ("PY", "595"); ("BO", "591"); ("EC", "593"); ("GY", "592"); ("SR", "597");
    ("PT", "351"); ("ES", "34"); ("FR", "33"); ("DE", "49"); ("IT", "39");
    ("GB", "44"); ("AU", "61"); ("NZ", "64"); ("JP", "81"); ("CN", "86");
    ("IN", "91"); ("RU", "7"); ("ZA", "27"); ("EG", "20"); ("NG", "234");
    ("KE", "254"); ("MA", "212"); ("DZ", "213"); ("TN", "216"); ("LY", "218");
    ("SD", "249"); ("ET", "251"); ("SO", "252"); ("DJ", "253"); ("SS", "211");
    ("CF", "236"); ("CM", "237"); ("TD", "235"); ("GA", "241"); ("CG", "242");
    ("CD", "243"); ("AO", "244"); ("GW", "245"); ("IO", "246"); ("AC", "247");
    ("SC", "248"); ("ST", "250"); ("GQ", "240"); ("GM", "220"); ("GN", "224");
    ("SL", "232"); ("LR", "231"); ("CI", "225"); ("GH", "233"); ("TG", "228");
    ("BJ", "229"); ("BF", "226"); ("ML", "223"); ("NE", "227"); ("SN", "221");
    ("MR", "222"); ("CV", "238") ].

(** [COUNTRY_CODES[key]] *)
Fixpoint lookupCode (tbl : list (string * string)) (key : string) : option string :=
  match tbl with
  | [] => None
  | (c, code) :: rest => if bool_decide (c = key) then Some code else lookupCode rest key
  end.

(** The [for (const [country, code] of Object.entries(COUNTRY_CODES))] loop
    of [normalizeToE164]: true as soon as one code prefixes the digits. *)
Definition startsWithKnownCode (cleanPhone : string) : bool :=
  existsb (fun e => Js.startsWith cleanPhone (snd e)) COUNTRY_CODES.

(** [normalizeToE164(phone, defaultCountry)]; [None] is [null]. *)
Definition normalizeToE164 (phone : option string) (defaultCountry : string)
  : option string :=
  match phone with
  | None => None
  | Some phone =>
    if negb (Js.truthy phone) then None else
    let cleanPhone := Js.stripNonDigits phone in
    if Js.startsWith phone "+" then Some phone
    else if Js.startsWith cleanPhone "00" then Some ("+" ++ Js.sliceFrom 2 cleanPhone)
    else if startsWithKnownCode cleanPhone then Some ("+" ++ cleanPhone)
    else match lookupCode COUNTRY_CODES (Js.toUpperCase defaultCountry) with
         | Some defaultCode =>
           if Js.truthy defaultCode then Some ("+" ++ defaultCode ++ cleanPhone)
           else Some ("+" ++ cleanPhone)
         | None => Some ("+" ++ cleanPhone)
         end
  end.

(** The pattern [/^\+[1-9]\d{1,14}$/], used by [isValidE164] and by the
    helpdesk client. *)
Definition matchesE164 (s : string) : bool :=
  match Js.chars s with
  | plus :: d :: rest =>
    bool_decide (plus = "+"%char) && Js.isDigit19 d
    && forallb Js.isDigit rest
    && (1 <=? length rest)%nat && (length rest <=? 14)%nat
  | _ => false
  end.

(** [isValidE164(phone)] *)
Definition isValidE164 (phone : option string) : bool :=
  match phone with
  | None => false
  | Some p => Js.truthy p && matchesE164 p
  end.

(** [extractDigits(phone)] *)
Definition extractDigits (phone : option string) : string :=
  match phone with
  | None => ""
  | Some p => if Js.truthy p then Js.stripNonDigits p else ""
  end.

(** [detectCountryCode(phone)]: the country of the first table entry whose
    code prefixes the digits. *)
Definition detectCountryCode (phone : option string) : option string :=
  match phone with
  | None => None
  | Some phone =>
    if negb (Js.truthy phone) then None else
    let cleanPhone := Js.stripNonDigits phone in
    fst <$> List.find (fun e => Js.startsWith cleanPhone (snd e)) COUNTRY_CODES
  end.

(** [getCountryCode(country)] *)
Definition getCountryCode (country : string) : option string :=
  Js.or_null (lookupCode COUNTRY_CODES (Js.toUpperCase country)).

(** The loop of [formatForDisplay] that drops the first table code prefixing
    the digits. *)
Definition nationalNumber (digits : string) : string :=
  match List.find (fun e => Js.startsWith digits (snd e)) COUNTRY_CODES with
  | Some (_, code) => Js.sliceFrom (String.length code) digits
  | None => digits
  end.

(** [formatForDisplay(phone, country)] *)
Definition formatForDisplay (phone : option string) (country : string) : string :=
  match phone with
  | None => ""
  | Some phone =>
    if negb (Js.truthy phone) then "" else
    let digits := extractDigits (Some phone) in
    let nationalNumber := nationalNumber digits in
    let len := String.length nationalNumber in
    let part a b := Js.sliceBetween a b nationalNumber in
    let rest a := Js.sliceFrom a nationalNumber in
    let country := Js.toUpperCase country in
    (if bool_decide (country = "BR") then
       if len =? 11 then "(" ++ part 0 2 ++ ") " ++ part 2 7 ++ "-" ++ rest 7
       else if len =? 10 then "(" ++ part 0 2 ++ ") " ++ part 2 6 ++ "-" ++ rest 6
       else phone
     else if bool_decide (country = "US") || bool_decide (country = "CA") then
       if len =? 10 then "(" ++ part 0 3 ++ ") " ++ part 3 6 ++ "-" ++ rest 6
       else phone
     else if bool_decide (country = "MX") || bool_decide (country = "AR") then
       if len =? 10 then part 0 2 ++ " " ++ part 2 6 ++ " " ++ rest 6
       else phone
     else phone)%nat
  end.

End Phone.

(** ** [src/utils/messageCache.js]: credit ledger and mapping cache *)

Module MessageCache.

(** [MESSAGE_TYPES] *)
Inductive MessageType := TEXT | IMAGE | AUDIO | VIDEO | DOCUMENT.

Definition messageTypeName (k : MessageType) : string :=
  match k with
  | TEXT => "text" | IMAGE => "image" | AUDIO => "audio"
  | VIDEO => "video" | DOCUMENT => "document"
  end.

#[global] Instance MessageType_eq_dec : EqDecision MessageType.
Proof. solve_decision. Defined.

#[global] Instance MessageType_countable : Countable MessageType.
Proof.
  refine (inj_countable'
    (fun k => match k with
              | TEXT => 0 | IMAGE => 1 | AUDIO => 2 | VIDEO => 3 | DOCUMENT => 4
              end%nat)
    (fun n => match n with
              | 0 => TEXT | 1 => IMAGE | 2 => AUDIO | 3 => VIDEO | _ => DOCUMENT
              end%nat) _).
  intros []; reflexivity.
Defined.

(** One element of a helpdesk callback's [attachments] array. *)
Record Attachment := {
  file_type : option string;
  data_url : option string;
  extension : option string
}.

(** [getMessageType(content, attachments = [])]. [None] is a [null]
    attachment list; an omitted one has already become [[]]. *)
Definition getMessageType (content : string) (attachments : option (list Attachment))
  : MessageType :=
  match attachments with
  | Some (firstAttachment :: _) =>
    let t := file_type firstAttachment in
    if bool_decide (t = Some "audio") then AUDIO
    else if bool_decide (t = Some "image") then IMAGE
    else if bool_decide (t = Some "video") then VIDEO
    else if bool_decide (t = Some "file") then DOCUMENT
    else TEXT
  | _ => TEXT
  end.

(** *** Credit ledger

    [messageTickets] and [messageTicketsChatwoot] are
    [Map<phone, { [messageType]: count }>]. The key is whatever the caller
    passes as [phone]: a string or [null]. *)

Abbreviation Recipient := (option string) (only parsing).
Abbreviation PhoneTickets := (gmap MessageType Z) (only parsing).
Abbreviation Tickets := (gmap (option string) (gmap MessageType Z)) (only parsing).

(** [phoneTickets[messageType] || 0] *)
Definition ticketsOf (phoneTickets : PhoneTickets) (messageType : MessageType) : Z :=
  match phoneTickets !! messageType with
  | Some c => if c =? 0 then 0 else c
  | None => 0
  end.

(** [Object.values(phoneTickets).some(count => count > 0)] *)
Definition hasAnyTickets (phoneTickets : PhoneTickets) : bool :=
  existsb (fun kc => 0 <? snd kc) (map_to_list phoneTickets).

(** The body shared by [addOutgoingTicket] and [addOutgoingTicketChatwoot]
    (the two differ in the map they act on and in logging only). *)
Definition addTicket (phone : Recipient) (messageType : MessageType)
    (tickets : Tickets) : Tickets :=
  let tickets :=
    match tickets !! phone with
    | None => <[phone := ∅]> tickets
    | Some _ => tickets
    end in
  let phoneTickets := default ∅ (tickets !! phone) in
  <[phone := <[messageType := ticketsOf phoneTickets messageType + 1]> phoneTickets]> tickets.

(** [addOutgoingTicket(phone, messageType)] on [messageTickets] *)
Definition addOutgoingTicket (phone : Recipient) (messageType : MessageType)
    (messageTickets : Tickets) : Tickets :=
  addTicket phone messageType messageTickets.

(** [consumeOutgoingTicket(phone, messageType)] on [messageTickets]:
    the returned boolean and the map afterwards. *)
Definition consumeOutgoingTicket (phone : Recipient) (messageType : MessageType)
    (messageTickets : Tickets) : bool * Tickets :=
  match messageTickets !! phone with
  | None => (false, messageTickets)
  | Some phoneTickets =>
    let currentTickets := ticketsOf phoneTickets messageType in
    if 0 <? currentTickets then
      let phoneTickets := <[messageType := currentTickets - 1]> phoneTickets in
      if hasAnyTickets phoneTickets
      then (true, <[phone := phoneTickets]> messageTickets)
      else (true, delete phone messageTickets)
    else (false, messageTickets)
  end.

(** [addOutgoingTicketChatwoot(phone, messageType)] on [messageTicketsChatwoot] *)
Definition addOutgoingTicketChatwoot (phone : Recipient) (messageType : MessageType)
    (messageTicketsChatwoot : Tickets) : Tickets :=
  addTicket phone messageType messageTicketsChatwoot.

(** [consumeOutgoingTicketChatwoot(phone, messageType)] on
    [messageTicketsChatwoot]; the boolean is inverted with respect to
    [consumeOutgoingTicket]. *)
Definition consumeOutgoingTicketChatwoot (phone : Recipient) (messageType : MessageType)
    (messageTicketsChatwoot : Tickets) : bool * Tickets :=
  match messageTicketsChatwoot !! phone with
  | None => (true, messageTicketsChatwoot)
  | Some phoneTickets =>
    let currentTickets := ticketsOf phoneTickets messageType in
    if 0 <? currentTickets then
      let phoneTickets := <[messageType := currentTickets - 1]> phoneTickets in
      if hasAnyTickets phoneTickets
      then (false, <[phone := phoneTickets]> messageTicketsChatwoot)
      else (false, delete phone messageTicketsChatwoot)
    else (true, messageTicketsChatwoot)
  end.

(** The counter the ledger holds for a pair: what
    [(tickets.get(phone) || {})[messageType] || 0] reads. *)
Definition ticketCount (tickets : Tickets) (phone : Recipient)
    (messageType : MessageType) : Z :=
  match tickets !! phone with
  | Some phoneTickets => ticketsOf phoneTickets messageType
  | None => 0
  end.

(** The counter stored for the pair, if any: the recipient key is present
    and its object has the kind as an own property. *)
Definition storedCounter (tickets : Tickets) (phone : Recipient)
    (messageType : MessageType) : option Z :=
  match tickets !! phone with
  | Some phoneTickets => phoneTickets !! messageType
  | None => None
  end.

(** *** Mapping cache

    [messageIdCache] is a [Map] keyed by [String(chatwootMessageId)]; the
    reverse lookups iterate it, so it is kept in insertion order. Helpdesk
    ids are taken after the [String(...)] coercion. *)

Record CacheEntry := {
  apiMessageId : string;
  conversationId : option string;
  inboxId : option string;
  provider : option string;
  integrationId : option string
}.

Abbreviation Cache := (list (string * CacheEntry)) (only parsing).

(** [Map.prototype.get] *)
Fixpoint mapGet (key : string) (m : Cache) : option CacheEntry :=
  match m with
  | [] => None
  | (k, v) :: rest => if bool_decide (k = key) then Some v else mapGet key rest
  end.

(** [Map.prototype.set]: an existing key keeps its position, a new key is
    appended. *)
Fixpoint mapSet (key : string) (value : CacheEntry) (m : Cache) : Cache :=
  match m with
  | [] => [(key, value)]
  | (k, v) :: rest =>
    if bool_decide (k = key) then (k, value) :: rest
    else (k, v) :: mapSet key value rest
  end.

(** [Map.prototype.delete] *)
Fixpoint mapDelete (key : string) (m : Cache) : Cache :=
  match m with
  | [] => []
  | (k, v) :: rest =>
    if bool_decide (k = key) then rest else (k, v) :: mapDelete key rest
  end.

(** [storeMessageIdMapping(chatwootMessageId, apiMessageId, conversationId,
    inboxId, provider, integrationId)] *)
Definition storeMessageIdMapping (chatwootMessageId apiMessageId : string)
    (conversationId inboxId provider integrationId : option string)
    (messageIdCache : Cache) : Cache :=
  let entry := {|
    apiMessageId := apiMessageId;
    conversationId := Js.or_null conversationId;
    inboxId := Js.or_null inboxId;
    provider := Js.or_null provider;
    integrationId := Js.or_null integrationId
  |} in
  mapSet chatwootMessageId entry messageIdCache.

(** [getApiMessageId(chatwootMessageId)] *)
Definition getApiMessageId (chatwootMessageId : string) (messageIdCache : Cache)
  : option string :=
  let entry := mapGet chatwootMessageId messageIdCache in
  Js.or_null (apiMessageId <$> entry).

(** [getChatwootMessageId(apiMessageId)]: the first key, in iteration order,
    whose entry carries that provider id. *)
Fixpoint getChatwootMessageId (apiId : string) (messageIdCache : Cache)
  : option string :=
  match messageIdCache with
  | [] => None
  | (key, value) :: rest =>
    if bool_decide (apiMessageId value = apiId) then Some key
    else getChatwootMessageId apiId rest
  end.

(** [removeMessageIdMapping(chatwootMessageId)] *)
Definition removeMessageIdMapping (chatwootMessageId : string)
    (messageIdCache : Cache) : Cache :=
  mapDelete chatwootMessageId messageIdCache.

(** [getMessageMappingByChatwootId(chatwootMessageId)] *)
Definition getMessageMappingByChatwootId (chatwootMessageId : string)
    (messageIdCache : Cache) : option CacheEntry :=
  mapGet chatwootMessageId messageIdCache.

(** [getChatwootMessageMappingByApiId(apiMessageId)]:
    [{chatwootMessageId, conversationId, inboxId}] of the first match. *)
Fixpoint getChatwootMessageMappingByApiId (apiId : string) (messageIdCache : Cache)
  : option (string * option string * option string) :=
  match messageIdCache with
  | [] => None
  | (key, value) :: rest =>
    if bool_decide (apiMessageId value = apiId)
    then Some (key, Js.or_null (conversationId value), Js.or_null (inboxId value))
    else getChatwootMessageMappingByApiId apiId rest
  end.

(** *** The module's state and the eviction timer *)

Record Store := {
  messageTickets : gmap (option string) (gmap MessageType Z);
  messageTicketsChatwoot : gmap (option string) (gmap MessageType Z);
  messageIdCache : list (string * CacheEntry)
}.

Definition initialStore : Store :=
  {| messageTickets := ∅; messageTicketsChatwoot := ∅; messageIdCache := [] |}.

(** The delay [cleanupOldTickets] hands to [setTimeout], in milliseconds. *)
Definition cleanupDelayMs : Z := 60 * 60 * 5000.

(** One firing of the callback scheduled by [cleanupOldTickets]: it clears
    [messageTickets] and [messageIdCache]; the line clearing
    [messageTicketsChatwoot] is commented out in the source. The callback
    ends by scheduling itself again with the same delay. *)
Definition cleanupFire (st : Store) : Store :=
  {| messageTickets := ∅;
     messageTicketsChatwoot := messageTicketsChatwoot st;
     messageIdCache := [] |}.

(** The exported operations as transitions of the store. *)
Inductive Op :=
| OpAddOutgoingTicket (phone : option string) (k : MessageType)
| OpConsumeOutgoingTicket (phone : option string) (k : MessageType)
| OpAddOutgoingTicketChatwoot (phone : option string) (k : MessageType)
| OpConsumeOutgoingTicketChatwoot (phone : option string) (k : MessageType)
| OpStoreMessageIdMapping (h p : string) (conv inbox prov integ : option string)
| OpRemoveMessageIdMapping (h : string)
| OpGetApiMessageId (h : string)
| OpGetChatwootMessageId (p : string)
| OpCleanupFire.

Definition step (st : Store) (op : Op) : Store :=
  match op with
  | OpAddOutgoingTicket phone k =>
    {| messageTickets := addOutgoingTicket phone k (messageTickets st);
       messageTicketsChatwoot := messageTicketsChatwoot st;
       messageIdCache := messageIdCache st |}
  | OpConsumeOutgoingTicket phone k =>
    {| messageTickets := snd (consumeOutgoingTicket phone k (messageTickets st));
       messageTicketsChatwoot := messageTicketsChatwoot st;
       messageIdCache := messageIdCache st |}
  | OpAddOutgoingTicketChatwoot phone k =>
    {| messageTickets := messageTickets st;
       messageTicketsChatwoot :=
         addOutgoingTicketChatwoot phone k (messageTicketsChatwoot st);
       messageIdCache := messageIdCache st |}
  | OpConsumeOutgoingTicketChatwoot phone k =>
    {| messageTickets := messageTickets st;
       messageTicketsChatwoot :=
         snd (consumeOutgoingTicketChatwoot phone k (messageTicketsChatwoot st));
       messageIdCache := messageIdCache st |}
  | OpStoreMessageIdMapping h p conv inbox prov integ =>
    {| messageTickets := messageTickets st;
       messageTicketsChatwoot := messageTicketsChatwoot st;
       messageIdCache :=
         storeMessageIdMapping h p conv inbox prov integ (messageIdCache st) |}
  | OpRemoveMessageIdMapping h =>
    {| messageTickets := messageTickets st;
       messageTicketsChatwoot := messageTicketsChatwoot st;
       messageIdCache := removeMessageIdMapping h (messageIdCache st) |}
  | OpGetApiMessageId _ | OpGetChatwootMessageId _ => st
  | OpCleanupFire => cleanupFire st
  end.

Definition run (ops : list Op) (st : Store) : Store := fold_left step ops st.

End MessageCache.

(** ** [src/services/whatsapp.js]: deleting a message at the provider *)

Module WhatsApp.

(** [this.provider]; the constructor rejects every other value. *)
Inductive Provider := zapi | uazapi | wuzapi.

Definition providerName (p : Provider) : string :=
  match p with zapi => "zapi" | uazapi => "uazapi" | wuzapi => "wuzapi" end.

(** The [options] argument of [deleteMessage]: [{ recipient, owner }], each
    possibly absent. *)
Record DeleteOptions := {
  recipient : option string;
  owner : option bool
}.

(** [options = {}] *)
Definition noOptions : DeleteOptions := {| recipient := None; owner := None |}.

Inductive HttpMethod := POST | DELETE.

Inductive JsValue := JStr (s : string) | JBool (b : bool).

(** A request handed to the axios client: verb, path, query parameters and
    JSON body, field by field. *)
Record Request := {
  method : HttpMethod;
  path : string;
  params : list (string * JsValue);
  body : list (string * JsValue)
}.

(** What the provider answers: [data], or the [message] of the error axios
    throws. *)
Inductive HttpOutcome := HttpData (data : string) | HttpError (message : string).

(** The causes wrapped by the [Falha ao deletar mensagem ...] errors:
    the missing-recipient error, the digitless-recipient error, and a failed
    HTTP call. *)
Inductive Cause :=
| RecipientRequired
| RecipientInvalid (recipient : string)
| Transport (message : string).

Inductive DeleteError := Falha (api : Provider) (cause : Cause).

(** [{ api, result: data }] or the error thrown. *)
Inductive DeleteResult :=
| Deleted (api : Provider) (data : string)
| Threw (e : DeleteError).

(** Each function returns the requests it issued and its result. *)
Definition send (http : Request -> HttpOutcome) (api : Provider) (rq : Request)
  : list Request * DeleteResult :=
  match http rq with
  | HttpData data => ([rq], Deleted api data)
  | HttpError m => ([rq], Threw (Falha api (Transport m)))
  end.

(** [deleteViaUAZAPI(messageId)] *)
Definition deleteViaUAZAPI (http : Request -> HttpOutcome) (messageId : string)
  : list Request * DeleteResult :=
  let payload := [("id", JStr messageId)] in
  send http uazapi
    {| method := POST; path := "/message/delete"; params := []; body := payload |}.

(** [deleteViaZAPI(messageId, options = {})] *)
Definition deleteViaZAPI (http : Request -> HttpOutcome) (messageId : string)
    (options : DeleteOptions) : list Request * DeleteResult :=
  let recipient := Js.or_str (recipient options) "" in
  let owner := match owner options with Some false => false | _ => true end in
  if negb (Js.truthy recipient) then ([], Threw (Falha zapi RecipientRequired))
  else
    let phoneParam :=
      if Js.endsWith recipient "@g.us" then Some recipient
      else if Js.endsWith recipient "-group" then Some recipient
      else
        let digitsOnly := Js.stripNonDigits recipient in
        if negb (Js.truthy digitsOnly) then None else Some digitsOnly in
    match phoneParam with
    | None => ([], Threw (Falha zapi (RecipientInvalid recipient)))
    | Some phoneParam =>
      let params := [("messageId", JStr messageId);
                     ("phone", JStr phoneParam);
                     ("owner", JBool owner)] in
      send http zapi
        {| method := DELETE; path := "/messages"; params := params; body := [] |}
    end.

(** [deleteViaWuzapi(messageId)] *)
Definition deleteViaWuzapi (http : Request -> HttpOutcome) (messageId : string)
  : list Request * DeleteResult :=
  let payload := [("MessageId", JStr messageId)] in
  send http wuzapi
    {| method := POST; path := "/chat/delete"; params := []; body := payload |}.

(** [deleteMessage(messageId, options = {})]: the dialect switch; the extra
    [options] argument passed to the UAZAPI and Wuzapi functions is not among
    their parameters. *)
Definition deleteMessage (provider : Provider) (http : Request -> HttpOutcome)
    (messageId : string) (options : DeleteOptions) : list Request * DeleteResult :=
  match provider with
  | zapi => deleteViaZAPI http messageId options
  | uazapi => deleteViaUAZAPI http messageId
  | wuzapi => deleteViaWuzapi http messageId
  end.

End WhatsApp.

(** ** [src/services/chatwoot.js]: creating a contact *)

Module Chatwoot.

(** [contactData], the fields every POST of [createContact] carries. *)
Record ContactData := {
  name : string;
  identifier : string;
  phone_number : option string;
  avatar_url : option string
}.

(** What happens to the avatar: no [senderPhoto]; the download produced a
    payload (multipart POST with an [avatar] part); or it produced nothing
    ([avatar_url] is set and the JSON body posted). *)
Inductive AvatarOutcome := NoPhoto | Downloaded | NotDownloaded.

(** The body of the POST to [/contacts]. *)
Record ContactPost := {
  data : ContactData;
  multipartAvatar : bool
}.

(** [createContact(client, phone, senderPhoto, name, lid, jid)] up to its
    first POST; [None] is the [Nenhum identificador ...] error. *)
Definition createContact (phone senderPhoto name lid jid : option string)
    (avatar : AvatarOutcome) : option ContactPost :=
  let chosen :=
    if Js.truthy_opt lid then lid
    else if Js.truthy_opt jid then jid
    else if Js.truthy_opt phone then phone
    else None in
  match chosen with
  | None => None
  | Some identifier =>
    let contactName := Js.or_str name ("Contato " ++ identifier) in
    let phone_number :=
      match phone with
      | Some p => if Js.truthy p && Phone.matchesE164 p then Some p else None
      | None => None
      end in
    let contactData avatar_url :=
      {| name := contactName; identifier := identifier;
         phone_number := phone_number; avatar_url := avatar_url |} in
    if Js.truthy_opt senderPhoto then
      match avatar with
      | Downloaded => Some {| data := contactData None; multipartAvatar := true |}
      | _ => Some {| data := contactData senderPhoto; multipartAvatar := false |}
      end
    else Some {| data := contactData None; multipartAvatar := false |}
  end.

(** The arguments [processIncomingMessage] and [processOutgoingMessage] give
    to [findOrCreateContact], hence to [createContact], for a contact that is
    not found: a group with a name is created under the group name and
    without lid/jid. *)
Definition createContactFor (phone senderPhoto contactName lid jid : option string)
    (isGroup : bool) (groupName : option string) (avatar : AvatarOutcome)
  : option ContactPost :=
  if isGroup && Js.truthy_opt groupName
  then createContact phone senderPhoto groupName None None avatar
  else createContact phone senderPhoto contactName lid jid avatar.

(** The [message_type] of a helpdesk message. *)
Inductive Direction := incoming | outgoing.

(** The media object an event carries: its URL, inline base64 and caption
    (the remaining fields are passed along untouched). *)
Record Media := {
  mediaUrl : string;
  mediaBase64 : string;
  mediaCaption : string
}.

(** The field of the media object a placeholder text quotes. *)
Inductive MediaField := seconds | fileName.

(** The [content] of a POST to the messages endpoint: a text, or one of the
    placeholders the media functions make up when there is no text, kept as
    the template literal around the quoted field
    (as in [`Áudio de ${audio.seconds}s recebido`]). *)
Inductive Body :=
| Text (text : string)
| Template (before : string) (field : MediaField) (after : string).

(** [content || fallback] *)
Definition contentOr (content : string) (fallback : Body) : Body :=
  if Js.truthy content then Text content else fallback.

(** One POST to [/conversations/:id/messages]: direction, the contact the
    conversation belongs to, the [content], the kind of the attachment of a
    multipart request ([None] for the JSON request of [sendMessage]) and the
    reply pointer of the request body. *)
Record HelpdeskPost := {
  direction : Direction;
  toPhone : option string;
  content : Body;
  attachment : option MessageCache.MessageType;
  in_reply_to : option string
}.

(** What one such POST comes to: a response body, of which [data.id] and
    the truthiness of [data.payload?.id || data.payload?.message?.id] are
    kept; an empty response body; or an error. *)
Inductive PostAnswer :=
| Answered (id : option string) (payloadId : bool)
| AnsweredEmpty
| PostThrows.

(** How the helpdesk and the media host answer one [processIncomingMessage]
    or [processOutgoingMessage] call: [o_conversation] is the id of the
    conversation [findOrCreateContact] and [findOrCreateConversation] come
    to ([None] when one of them throws), [o_download n] says whether the
    download of the media for attempt [n], from the provider's download
    endpoint or from the URL, yields a buffer (it throws otherwise), and
    [o_post n] is what the call's POST number [n] to the messages endpoint
    comes to. *)
Record Outcome := {
  o_conversation : option string;
  o_download : nat -> bool;
  o_post : nat -> PostAnswer
}.

(** Two outcomes: every request succeeds and every POST answers with
    [messageId] in the conversation [conversationId]; and an error before
    any message is posted. *)
Definition Created (messageId : option string) (conversationId : string) : Outcome :=
  {| o_conversation := Some conversationId;
     o_download := fun _ => true;
     o_post := fun _ => Answered messageId false |}.

Definition Throws : Outcome :=
  {| o_conversation := None;
     o_download := fun _ => true;
     o_post := fun _ => PostThrows |}.

(** The send function both [process...Message] functions pick:
    video, then document, then audio, then image, else text. *)
Definition sendOverload (image audio document video : option Media)
  : MessageCache.MessageType :=
  if bool_decide (is_Some video) then MessageCache.VIDEO
  else if bool_decide (is_Some document) then MessageCache.DOCUMENT
  else if bool_decide (is_Some audio) then MessageCache.AUDIO
  else if bool_decide (is_Some image) then MessageCache.IMAGE
  else MessageCache.TEXT.

(** [sendMessage(client, conversationId, content, messageType, replyId)]:
    the request and what the function returns, [Some] of [data?.id] or
    [None] when the POST throws. *)
Definition sendMessage (dir : Direction) (phone : option string) (content : Body)
    (replyId : option string) (answer : PostAnswer)
  : HelpdeskPost * option (option string) :=
  ({| direction := dir; toPhone := phone; content := content;
      attachment := None; in_reply_to := Js.or_null replyId |},
   match answer with
   | Answered id _ => Some id
   | AnsweredEmpty => Some None
   | PostThrows => None
   end).

(** Where the media functions take the bytes from:
    [media.url && media.url.trim() !== ''], else the same test on
    [media.base64], else nowhere. *)
Inductive MediaSource := FromUrl | FromBase64 | NoSource.

Definition mediaSource (media : Media) : MediaSource :=
  if Js.truthy (mediaUrl media) && negb (Js.trimIsEmpty (mediaUrl media)) then FromUrl
  else if Js.truthy (mediaBase64 media) && negb (Js.trimIsEmpty (mediaBase64 media))
  then FromBase64
  else NoSource.

(** The multipart request of the media functions. The form carries
    [content], [message_type] and [attachments[]]; the reply pointer is not
    part of it (the image function leaves it out, the others put it in the
    request configuration). *)
Definition mediaPost (dir : Direction) (phone : option string) (content : Body)
    (kind : MessageCache.MessageType) : HelpdeskPost :=
  {| direction := dir; toPhone := phone; content := content;
     attachment := Some kind; in_reply_to := None |}.

(** The [for (let attempt = 1; attempt <= maxRetries; attempt++)] loop of
    [sendMessageWithImage] with [remaining] attempts to go, [n] POSTs and [d]
    downloads made so far. An attempt that fails goes to the next one (after
    a delay when the error is a timeout, a network error, a 5xx or a 429,
    at once otherwise); the last one falls back to a text message and, when
    that fails too, throws. *)
Fixpoint imageAttempts (remaining : nat) (dir : Direction) (phone : option string)
    (content : string) (image : Media) (outcome : Outcome) (n d : nat)
  : list HelpdeskPost * option (option string) :=
  match remaining with
  | O => ([], Some None)
  | S remaining =>
    let caught (posts : list HelpdeskPost) (n d : nat) :=
      match remaining with
      | O =>
        let '(post, r) :=
          sendMessage dir phone
            (contentOr content
               (contentOr (mediaCaption image) (Text "Imagem recebida")))
            None (o_post outcome n) in
        ((posts ++ [post])%list, r)
      | S _ =>
        let '(more, r) :=
          imageAttempts remaining dir phone content image outcome n d in
        ((posts ++ more)%list, r)
      end in
    let upload (d : nat) :=
      let post :=
        mediaPost dir phone
          (contentOr content (contentOr (mediaCaption image) (Text "")))
          MessageCache.IMAGE in
      match o_post outcome n with
      | Answered id payloadId =>
        if Js.truthy_opt id || payloadId then ([post], Some id)
        else caught [post] (S n) d
      | _ => caught [post] (S n) d
      end in
    match mediaSource image with
    | FromUrl => if o_download outcome d then upload (S d) else caught [] n (S d)
    | FromBase64 => upload d
    | NoSource =>
      let '(post, r) :=
        sendMessage dir phone
          (contentOr content
             (contentOr (mediaCaption image)
                (Text "Imagem recebida sem URL ou Base 64")))
          None (o_post outcome n) in
      match r with
      | Some id => ([post], Some id)
      | None => caught [post] (S n) d
      end
    end
  end.

(** [sendMessageWithImage(client, conversationId, content, image,
    messageType, origin, messageId, replyId)] *)
Definition sendMessageWithImage (dir : Direction) (phone : option string)
    (content : string) (image : Media) (outcome : Outcome)
  : list HelpdeskPost * option (option string) :=
  imageAttempts 3 dir phone content image outcome 0 0.

(** The body shared by [sendMessageWithAudio], [sendMessageWithDocument]
    and [sendMessageWithVideo]: one [try] around the download and the upload
    (or the text message of a media object without source), and a [catch]
    that returns a text message. The three placeholders are the function's
    own. *)
Definition sendWithFallback (kind : MessageCache.MessageType)
    (uploaded missing fallback : Body)
    (dir : Direction) (phone : option string) (content : string) (media : Media)
    (outcome : Outcome) : list HelpdeskPost * option (option string) :=
  let caught (posts : list HelpdeskPost) (n : nat) :=
    let '(post, r) :=
      sendMessage dir phone (contentOr content fallback) None (o_post outcome n) in
    ((posts ++ [post])%list, r) in
  let upload :=
    let post := mediaPost dir phone (contentOr content uploaded) kind in
    match o_post outcome 0 with
    | Answered id _ => ([post], Some id)
    | AnsweredEmpty => ([post], Some None)
    | PostThrows => caught [post] 1%nat
    end in
  match mediaSource media with
  | FromUrl => if o_download outcome 0 then upload else caught [] 0%nat
  | FromBase64 => upload
  | NoSource =>
    let '(post, r) :=
      sendMessage dir phone (contentOr content missing) None (o_post outcome 0) in
    match r with
    | Some id => ([post], Some id)
    | None => caught [post] 1%nat
    end
  end.

(** [sendMessageWithAudio(...)] *)
Definition sendMessageWithAudio :=
  sendWithFallback MessageCache.AUDIO
    (Template "Áudio de " seconds "s")
    (Template "Áudio de " seconds "s recebido sem URL ou Base 64")
    (Template "Áudio de " seconds "s recebido").

(** [sendMessageWithDocument(...)] *)
Definition sendMessageWithDocument :=
  sendWithFallback MessageCache.DOCUMENT
    (Template "Documento de " fileName "")
    (Template "Documento de " fileName " recebido sem URL ou Base 64")
    (Template "Documento de " fileName " recebido").

(** [sendMessageWithVideo(...)] *)
Definition sendMessageWithVideo :=
  sendWithFallback MessageCache.VIDEO
    (Template "Vídeo de " seconds "s recebido")
    (Template "Vídeo de " seconds "s recebido sem URL ou Base 64")
    (Template "Vídeo de " seconds "s recebido").

(** What [processIncomingMessage] and [processOutgoingMessage] share: the
    inbox check, the contact and its conversation, the send function picked
    by the media present and, when both the helpdesk id and the provider id
    are at hand, the mapping stored. The result is the POSTs made to the
    messages endpoint, in order, the returned [messageId] ([None] when the
    call threw) and the cache afterwards. The pause of [throttleMediaSend]
    and the pauses between retries make no request and are left out. *)
Definition processMessage (dir : Direction) (inboxId accountId : option string)
    (phone : option string) (content : string)
    (image audio document video : option Media)
    (origin messageId replyId : option string)
    (outcome : Outcome) (cache : list (string * MessageCache.CacheEntry))
  : list HelpdeskPost * option (option string) * list (string * MessageCache.CacheEntry) :=
  if negb (Js.truthy_opt inboxId) then ([], None, cache)
  else
    match o_conversation outcome with
    | None => ([], None, cache)
    | Some conversationId =>
      let '(posts, message) :=
        match video, document, audio, image with
        | Some video, _, _, _ =>
          sendMessageWithVideo dir phone content video outcome
        | None, Some document, _, _ =>
          sendMessageWithDocument dir phone content document outcome
        | None, None, Some audio, _ =>
          sendMessageWithAudio dir phone content audio outcome
        | None, None, None, Some image =>
          sendMessageWithImage dir phone content image outcome
        | None, None, None, None =>
          let '(post, r) :=
            sendMessage dir phone (Text content) replyId (o_post outcome 0) in
          ([post], r)
        end in
      match message with
      | None => (posts, None, cache)
      | Some mid =>
        let cache :=
          match Js.or_null mid, Js.or_null messageId with
          | Some mid, Some messageId =>
            MessageCache.storeMessageIdMapping mid messageId (Some conversationId)
              inboxId origin accountId cache
          | _, _ => cache
          end in
        (posts, Some mid, cache)
      end
    end.

(** [processOutgoingMessage(...)], which passes no reply pointer on. *)
Definition processOutgoingMessage := processMessage outgoing.

(** The [formattedContent] of [processIncomingMessage]: in a group, when
    the sender's name is known, the name in bold goes in front of the text.
    (The captions relabelled in the same branches are not read afterwards,
    the content being non-empty then.) *)
Definition formattedContent (content : string)
    (image audio document video : option Media)
    (isGroup : bool) (senderName : option string) : string :=
  match Js.or_null senderName with
  | Some senderName =>
    if isGroup then
      let label := "**" ++ senderName ++ ":**" in
      let labelled := label ++ String "010"%char content in
      if bool_decide (is_Some image) then
        if Js.truthy content then labelled else label
      else if bool_decide (is_Some audio) then
        if Js.truthy content then labelled
        else label ++ String "010"%char "Áudio recebido"
      else if Js.truthy content then labelled else label
    else content
  | None => content
  end.

(** [processIncomingMessage(...)] *)
Definition processIncomingMessage (inboxId accountId : option string)
    (phone : option string) (content : string)
    (image audio document video : option Media)
    (origin messageId replyId : option string)
    (isGroup : bool) (senderName : option string)
    (outcome : Outcome) (cache : list (string * MessageCache.CacheEntry))
  : list HelpdeskPost * option (option string) * list (string * MessageCache.CacheEntry) :=
  processMessage incoming inboxId accountId phone
    (formattedContent content image audio document video isGroup senderName)
    image audio document video origin messageId replyId outcome cache.

End Chatwoot.

(** ** [src/services/webhookConsumer.js]: the two queue processors *)

Module WebhookConsumer.

Import MessageCache.

(** The fields of a Z-API payload that [extractZapiData] reads. Flags hold
    the truthiness of the payload value. *)
Record ZapiBody := {
  z_fromMe : bool;
  z_fromApi : bool;
  z_phone : option string;
  z_textMessage : option string;
  z_isGroup : bool;
  z_photo : option string;
  z_senderPhoto : option string;
  z_status : option string;
  z_messageId : option string;
  z_referenceMessageId : option string;
  z_isEdit : bool;
  z_editMessageId : option string;
  z_chatName : option string;
  z_senderName : option string;
  z_image : option Chatwoot.Media;
  z_audio : option Chatwoot.Media;
  z_document : option Chatwoot.Media;
  z_video : option Chatwoot.Media
}.

(** The normalized event every extractor returns. *)
Record ExtractedData := {
  phone : option string;
  lid : option string;
  jid : option string;
  text : string;
  name : option string;
  senderPhoto : option string;
  image : option Chatwoot.Media;
  audio : option Chatwoot.Media;
  document : option Chatwoot.Media;
  video : option Chatwoot.Media;
  isGroup : bool;
  fromMe : bool;
  status : option string;
  fromApi : bool;
  messageId : option string;
  replyId : option string;
  origin : string;
  groupName : option string;
  senderName : option string;
  editedMessageId : option string
}.

(** What an extractor returns: [null], [{ ignored: true, reason, origin,
    groupName }], or the event. *)
Inductive Extraction :=
| ExtractionNull
| Ignored (reason origin : string) (groupName : option string)
| Extracted (ev : ExtractedData).

(** [extractZapiData(body, desconsiderarGrupo, defaultCountry)] *)
Definition extractZapiData (body : ZapiBody) (desconsiderarGrupo : bool)
    (defaultCountry : string) : Extraction :=
  let fromMe := z_fromMe body in
  let fromApi := z_fromApi body in
  let rawPhone := z_phone body in
  let text := Js.or_str (z_textMessage body) "" in
  let isGroup := z_isGroup body in
  let senderPhoto :=
    if isGroup then None else Js.or_else (z_photo body) (Js.or_null (z_senderPhoto body)) in
  let status := Js.or_null (z_status body) in
  let messageId := Js.or_null (z_messageId body) in
  let replyId := z_referenceMessageId body in
  let editedMessageId :=
    if z_isEdit body && Js.truthy_opt messageId then messageId else None in
  let newMessageId :=
    if z_isEdit body && Js.truthy_opt (z_editMessageId body)
    then z_editMessageId body else messageId in
  let groupName :=
    if isGroup then Some (Js.or_str (z_chatName body) "Grupo sem nome") else None in
  if isGroup && desconsiderarGrupo
  then Ignored "group_disconsidered" "zapi" groupName
  else
    let name :=
      if isGroup then
        if negb fromMe then Js.or_else (z_senderName body) groupName else groupName
      else
        if negb fromMe
        then Js.or_else (z_senderName body)
               (Js.or_else (z_chatName body) (Js.or_null rawPhone))
        else Js.or_else (z_chatName body) (Js.or_null rawPhone) in
    let rawPhone := if isGroup then Js.or_else (z_phone body) groupName else rawPhone in
    let phone := if isGroup then rawPhone else Phone.normalizeToE164 rawPhone defaultCountry in
    let senderName := if isGroup && negb fromMe then z_senderName body else None in
    let finalMessageId := Js.or_else newMessageId messageId in
    Extracted {|
      phone := phone; lid := None; jid := None; text := text; name := name;
      senderPhoto := senderPhoto;
      image := z_image body; audio := z_audio body;
      document := z_document body; video := z_video body;
      isGroup := isGroup; fromMe := fromMe; status := status; fromApi := fromApi;
      messageId := finalMessageId; replyId := replyId; origin := "zapi";
      groupName := groupName; senderName := senderName;
      editedMessageId := editedMessageId |}.

(** The fields of [body.message] in a UAZAPI payload that
    [extractUazapiData] reads; [m_contentText] is [message.content.text],
    [m_contentURL] is [message.content.URL] and [m_stanzaID] is
    [message.content.contextInfo.stanzaID]. *)
Record UazapiMessage := {
  m_contentText : option string;
  m_text : option string;
  m_fromMe : bool;
  m_sender : option string;
  m_chatid : option string;
  m_senderName : option string;
  m_isGroup : bool;
  m_groupName : option string;
  m_messageid : option string;
  m_id : option string;
  m_status : option string;
  m_wasSentByApi : bool;
  m_stanzaID : option string;
  m_edited : option string;
  m_editMessageId : option string;
  m_mediaType : option string;
  m_messageType : option string;
  m_contentURL : option string;
  m_senderProfilePic : option string
}.

(** A UAZAPI payload: [body.message], the fields of [body.chat] and the
    top-level fields the extractor falls back to. *)
Record UazapiBody := {
  u_message : option UazapiMessage;
  u_chat_name : option string;
  u_chat_wa_name : option string;
  u_chat_wa_contactName : option string;
  u_chat_wa_chatid : option string;
  u_chat_imagePreview : option string;
  u_chat_image : option string;
  u_chat_thumbnail : option string;
  u_name : option string;
  u_imagePreview : option string;
  u_image : option string
}.

(** The media object UAZAPI events get: the content URL, no inline base64,
    and the text as caption. *)
Definition uazapiMedia (message : UazapiMessage) (caption : string) : Chatwoot.Media :=
  {| Chatwoot.mediaUrl := Js.or_str (m_contentURL message) "";
     Chatwoot.mediaBase64 := "";
     Chatwoot.mediaCaption := caption |}.

(** [extractUazapiData(body, desconsiderarGrupo, defaultCountry)] *)
Definition extractUazapiData (body : UazapiBody) (desconsiderarGrupo : bool)
    (defaultCountry : string) : Extraction :=
  match u_message body with
  | None => ExtractionNull
  | Some message =>
    let text := Js.or_str (m_contentText message) (Js.or_str (m_text message) "") in
    let fromMe := m_fromMe message in
    let stripped (v : option string) :=
      (fun x => Js.removeFirst x "@s.whatsapp.net") <$> v in
    let rawPhone := Js.or_else (stripped (m_sender message)) (stripped (m_chatid message)) in
    let chatContactName :=
      Js.or_else (u_chat_name body)
        (Js.or_else (u_chat_wa_name body)
           (Js.or_else (u_chat_wa_contactName body) (Js.or_null (u_name body)))) in
    let rawPhone := if negb fromMe then rawPhone else stripped (m_chatid message) in
    let name :=
      if negb fromMe
      then Js.or_else (m_senderName message) chatContactName
      else Js.or_else chatContactName
             (Js.or_else rawPhone (Js.or_null (m_senderName message))) in
    let isGroup := m_isGroup message in
    let groupName := Js.or_str (m_groupName message) (Js.or_str (u_chat_name body) "") in
    let messageId := Js.or_else (m_messageid message) (Js.or_null (m_id message)) in
    let status := Js.or_null (m_status message) in
    let fromApi := m_wasSentByApi message in
    let replyId := Js.or_null (m_stanzaID message) in
    let editedMessageId :=
      Js.or_else (m_edited message) (Js.or_null (m_editMessageId message)) in
    let senderPhoto :=
      Js.or_else (u_chat_imagePreview body)
        (Js.or_else (u_chat_image body)
           (Js.or_else (u_chat_thumbnail body)
              (Js.or_else (u_imagePreview body)
                 (Js.or_else (u_image body) (Js.or_null (m_senderProfilePic message)))))) in
    let isKind (mediaType messageType : string) :=
      bool_decide (m_mediaType message = Some mediaType)
      || bool_decide (m_messageType message = Some messageType) in
    let media (mediaType messageType : string) (caption : string) :=
      if isKind mediaType messageType then Some (uazapiMedia message caption) else None in
    let finish (rawPhone name : option string) :=
      let phone :=
        if isGroup then rawPhone else Phone.normalizeToE164 rawPhone defaultCountry in
      let senderName := if isGroup && negb fromMe then m_senderName message else None in
      Extracted {|
        phone := phone; lid := None; jid := None; text := text; name := name;
        senderPhoto := senderPhoto;
        image := media "image" "ImageMessage" text;
        audio := media "ptt" "AudioMessage" "";
        document := media "document" "DocumentMessage" text;
        video := media "video" "VideoMessage" text;
        isGroup := isGroup; fromMe := fromMe; status := status; fromApi := fromApi;
        messageId := messageId; replyId := replyId; origin := "uazapi";
        groupName := Some groupName; senderName := senderName;
        editedMessageId := editedMessageId |} in
    if isGroup then
      if desconsiderarGrupo then Ignored "group_disconsidered" "uazapi" (Some groupName)
      else
        let waChatId := Js.or_else (u_chat_wa_chatid body) (Js.or_null (m_chatid message)) in
        match waChatId with
        | None =>
          Extracted {|
            phone := None; lid := None; jid := None; text := text;
            name := Some (Js.or_str (Some groupName) "Grupo sem nome");
            senderPhoto := None;
            image := None; audio := None; document := None; video := None;
            isGroup := isGroup; fromMe := fromMe; status := status; fromApi := fromApi;
            messageId := messageId; replyId := None; origin := "uazapi";
            groupName := Some groupName; senderName := None;
            editedMessageId := None |}
        | Some waChatId =>
          let groupLabel := Js.or_str (Some groupName) "Grupo sem nome" in
          let name :=
            if negb fromMe
            then Some (Js.or_str (m_senderName message) groupLabel)
            else Some groupLabel in
          finish (Some waChatId) name
        end
    else finish rawPhone name
  end.

(** The integration an event was routed to: its id and the helpdesk
    client's [inboxId] and [accountId]. *)
Record Integration := {
  integrationId : string;
  inboxId : option string;
  accountId : option string;
  whatsappProvider : WhatsApp.Provider
}.

(** The kind [processWebhookPrincipal] derives from the media present:
    image, then audio, then video, then document, else text. *)
Definition principalMessageType (ev : ExtractedData) : MessageType :=
  if bool_decide (is_Some (image ev)) then IMAGE
  else if bool_decide (is_Some (audio ev)) then AUDIO
  else if bool_decide (is_Some (video ev)) then VIDEO
  else if bool_decide (is_Some (document ev)) then DOCUMENT
  else TEXT.

(** What [processWebhookPrincipal] returns or throws. *)
Inductive PrincipalResult :=
| Processed (helpdeskMessageId : option (option string))
| NotProcessed (reason : string)
| PrincipalThrows.

Definition withTickets (st : Store)
    (t : gmap (option string) (gmap MessageType Z)) : Store :=
  {| messageTickets := t;
     messageTicketsChatwoot := messageTicketsChatwoot st;
     messageIdCache := messageIdCache st |}.

Definition withTicketsChatwoot (st : Store)
    (t : gmap (option string) (gmap MessageType Z)) : Store :=
  {| messageTickets := messageTickets st;
     messageTicketsChatwoot := t;
     messageIdCache := messageIdCache st |}.

Definition withCache (st : Store) (c : list (string * CacheEntry)) : Store :=
  {| messageTickets := messageTickets st;
     messageTicketsChatwoot := messageTicketsChatwoot st;
     messageIdCache := c |}.

(** The call [integration.chatwoot.processOutgoingMessage(phone, text, ...)]
    made by both agent branches, run on the store. *)
Definition callProcessOutgoing (integration : Integration) (ev : ExtractedData)
    (cw : Chatwoot.Outcome) (st : Store)
  : list Chatwoot.HelpdeskPost * option (option string) * Store :=
  let '(posts, r, cache) :=
    Chatwoot.processOutgoingMessage (inboxId integration) (accountId integration)
      (phone ev) (text ev) (image ev) (audio ev) (document ev) (video ev)
      (Some (origin ev)) (messageId ev) None cw (messageIdCache st) in
  (posts, r, withCache st cache).

(** The literal appended to an edited message. *)
Definition editMarker : string := "(*mensagem editada pelo usuário*)".

(** [!phone && !lid && !jid && !text && !image && !audio && !document && !video] *)
Definition nothingToProcess (ev : ExtractedData) : bool :=
  negb (Js.truthy_opt (phone ev)) && negb (Js.truthy_opt (lid ev))
  && negb (Js.truthy_opt (jid ev)) && negb (Js.truthy (text ev))
  && negb (bool_decide (is_Some (image ev))) && negb (bool_decide (is_Some (audio ev)))
  && negb (bool_decide (is_Some (document ev))) && negb (bool_decide (is_Some (video ev))).

(** [processWebhookPrincipal] from the point where the event has been
    extracted and is not ignored (the classification by [fromMe] and
    [fromApi]). [cw] is how the helpdesk answers the one [process...Message]
    call the branch may make. The result is the store afterwards, the POSTs
    that call made to the helpdesk's messages endpoint, and what the function
    returns. *)
Definition processExtracted (integration : Integration) (ev : ExtractedData)
    (cw : Chatwoot.Outcome) (st : Store)
  : Store * list Chatwoot.HelpdeskPost * PrincipalResult :=
  if nothingToProcess ev
  then (st, [], NotProcessed "message_ignored_by_config")
  else if fromMe ev && negb (fromApi ev) then
    let messageType := principalMessageType ev in
    let st := withTickets st (addOutgoingTicket (phone ev) messageType (messageTickets st)) in
    match callProcessOutgoing integration ev cw st with
    | (posts, Some mid, st) => (st, posts, Processed (Some mid))
    | (posts, None, st) =>
      let st := withTickets st
                  (snd (consumeOutgoingTicket (phone ev) messageType (messageTickets st))) in
      (st, posts, PrincipalThrows)
    end
  else if fromMe ev && fromApi ev then
    let messageType := principalMessageType ev in
    let '(proceed, tc) :=
      consumeOutgoingTicketChatwoot (phone ev) messageType (messageTicketsChatwoot st) in
    let st := withTicketsChatwoot st tc in
    if proceed then
      let st := withTickets st (addOutgoingTicket (phone ev) messageType (messageTickets st)) in
      match callProcessOutgoing integration ev cw st with
      | (posts, Some mid, st) => (st, posts, Processed (Some mid))
      | (posts, None, st) =>
        let st := withTickets st
                    (snd (consumeOutgoingTicket (phone ev) messageType (messageTickets st))) in
        (st, posts, PrincipalThrows)
      end
    else (st, [], Processed None)
  else
    let chatwootMessageId :=
      match Js.or_null (replyId ev) with
      | Some r => getChatwootMessageId r (messageIdCache st)
      | None => None
      end in
    let editedReplyChatwootId :=
      match Js.or_null (editedMessageId ev) with
      | Some e =>
        match getChatwootMessageMappingByApiId e (messageIdCache st) with
        | Some (h, _, _) => Js.or_null (Some h)
        | None => None
        end
      | None => None
      end in
    let replyChatwootId := Js.or_else editedReplyChatwootId chatwootMessageId in
    let '(posts, r, cache) :=
      match editedReplyChatwootId with
      | Some _ =>
        let editedContent :=
          if Js.truthy (text ev) then text ev ++ String "010"%char editMarker
          else editMarker in
        Chatwoot.processIncomingMessage (inboxId integration) (accountId integration)
          (phone ev) editedContent None None None None
          (Some (origin ev)) (messageId ev) editedReplyChatwootId
          (isGroup ev) (senderName ev) cw (messageIdCache st)
      | None =>
        Chatwoot.processIncomingMessage (inboxId integration) (accountId integration)
          (phone ev) (text ev) (image ev) (audio ev) (document ev) (video ev)
          (Some (origin ev)) (messageId ev) replyChatwootId
          (isGroup ev) (senderName ev) cw (messageIdCache st)
      end in
    match r with
    | Some mid => (withCache st cache, posts, Processed (Some mid))
    | None => (withCache st cache, posts, PrincipalThrows)
    end.

(** The contact [processIncomingMessage] or [processOutgoingMessage]
    creates for an event whose contact is not found at the helpdesk. *)
Definition contactForEvent (ev : ExtractedData) (avatar : Chatwoot.AvatarOutcome)
  : option Chatwoot.ContactPost :=
  Chatwoot.createContactFor (phone ev) (senderPhoto ev) (name ev) (lid ev) (jid ev)
    (isGroup ev) (groupName ev) avatar.

(** [processWebhookPrincipal] from the extractor's result on: a [null]
    result and an ignored event are dropped with their reason, an event is
    classified. *)
Definition processExtraction (integration : Integration) (x : Extraction)
    (cw : Chatwoot.Outcome) (st : Store)
  : Store * list Chatwoot.HelpdeskPost * PrincipalResult :=
  match x with
  | ExtractionNull => (st, [], NotProcessed "message_extraction_failed")
  | Ignored reason _ _ =>
    (st, [], NotProcessed (Js.or_str (Some reason) "message_ignored_by_config"))
  | Extracted ev => processExtracted integration ev cw st
  end.

(** [processWebhookPrincipal] for a Z-API message payload routed to
    [integration], with the integration's group policy and default country. *)
Definition processWebhookPrincipalZapi (integration : Integration)
    (desconsiderarGrupo : bool) (defaultCountry : string) (body : ZapiBody)
    (cw : Chatwoot.Outcome) (st : Store)
  : Store * list Chatwoot.HelpdeskPost * PrincipalResult :=
  processExtraction integration
    (extractZapiData body desconsiderarGrupo defaultCountry) cw st.

(** The same for a UAZAPI message payload. *)
Definition processWebhookPrincipalUazapi (integration : Integration)
    (desconsiderarGrupo : bool) (defaultCountry : string) (body : UazapiBody)
    (cw : Chatwoot.Outcome) (st : Store)
  : Store * list Chatwoot.HelpdeskPost * PrincipalResult :=
  processExtraction integration
    (extractUazapiData body desconsiderarGrupo defaultCountry) cw st.

(** The fields of a helpdesk callback that [processWebhookCallback] reads
    once the event has passed the [message_created]/outgoing/non-private
    guards. [cb_id] is [String(body.id)]. *)
Record CallbackBody := {
  cb_id : string;
  cb_content : option string;
  cb_attachments : option (list Attachment);
  cb_in_reply_to : option string;
  cb_conversationId : option string;
  cb_inbox_id : option string
}.

(** [const messageType = getMessageType(content, attachments)] with
    [content = body.content ?? ''] and [attachments = body.attachments || []]. *)
Definition callbackMessageType (body : CallbackBody) : MessageType :=
  getMessageType (default "" (cb_content body))
                 (Some (default [] (cb_attachments body))).

(** An element of [processedAttachments]. *)
Record ProcessedAttachment := {
  pa_type : MessageType;
  pa_url : option string
}.

(** The [switch (attachment.file_type)] of the callback's attachment loop;
    an unrecognized type contributes no processed attachment. *)
Definition processAttachment (a : Attachment) : option ProcessedAttachment :=
  let t := file_type a in
  if bool_decide (t = Some "audio") then Some {| pa_type := AUDIO; pa_url := data_url a |}
  else if bool_decide (t = Some "image") then Some {| pa_type := IMAGE; pa_url := data_url a |}
  else if bool_decide (t = Some "video") then Some {| pa_type := VIDEO; pa_url := data_url a |}
  else if bool_decide (t = Some "file") then Some {| pa_type := DOCUMENT; pa_url := data_url a |}
  else None.

(** One call of [integration.whatsapp.sendMessage]. *)
Record ProviderSend := {
  ps_recipient : string;
  ps_content : string;
  ps_messageType : MessageType;
  ps_attachments : list ProcessedAttachment;
  ps_replyTo : option string
}.

(** The provider's answer: the message ids found in the response, or an
    error. *)
Inductive SendOutcome := Sent (apiMessageIds : list string) | SendThrows.

Inductive CallbackResult :=
| CallbackProcessed
| CallbackNotProcessed (reason : string)
| CallbackThrows.

(** [processWebhookCallback] from the reply lookup to the end, for a callback
    that resolved to [recipient]; [content] is the body after the optional
    agent signature has been put in front. *)
Definition processCallbackSend (integration : Integration) (body : CallbackBody)
    (recipient : string) (content : string) (answer : SendOutcome) (st : Store)
  : Store * list ProviderSend * CallbackResult :=
  let attachments := default [] (cb_attachments body) in
  let apiReplyMessageId :=
    match Js.or_null (cb_in_reply_to body) with
    | Some r => getApiMessageId r (messageIdCache st)
    | None => None
    end in
  let messageType := callbackMessageType body in
  let '(consumed, t) := consumeOutgoingTicket (Some recipient) messageType (messageTickets st) in
  let st := withTickets st t in
  if consumed then (st, [], CallbackNotProcessed "ticket_consumed")
  else
    let credits := match attachments with [] => 1%nat | _ => length attachments end in
    let st := withTicketsChatwoot st
                (Nat.iter credits (addOutgoingTicketChatwoot (Some recipient) messageType)
                   (messageTicketsChatwoot st)) in
    let processedAttachments := omap processAttachment attachments in
    match answer with
    | Sent apiMessageIds =>
      let sent := {| ps_recipient := recipient; ps_content := content;
                     ps_messageType := messageType;
                     ps_attachments := processedAttachments;
                     ps_replyTo := apiReplyMessageId |} in
      let st :=
        match apiMessageIds with
        | messageId :: _ =>
          withCache st
            (storeMessageIdMapping (cb_id body) messageId (cb_conversationId body)
               (cb_inbox_id body)
               (Some (WhatsApp.providerName (whatsappProvider integration)))
               (Some (integrationId integration)) (messageIdCache st))
        | [] => st
        end in
      (st, [sent], CallbackProcessed)
    | SendThrows =>
      let st := withTicketsChatwoot st
                  (snd (consumeOutgoingTicketChatwoot (Some recipient) messageType
                          (messageTicketsChatwoot st))) in
      (st, [], CallbackThrows)
    end.

End WebhookConsumer.

(** ** [src/services/integrationManager.js]: finding an integration *)

Module IntegrationManager.

#[global] Instance Provider_eq_dec : EqDecision WhatsApp.Provider.
Proof. solve_decision. Defined.

(** One element of the array [loadIntegrations] returns, with the fields of
    its [chatwoot] and [whatsapp] services that the lookups read. An id the
    code compares through [String(...)] is held as that string, and [None]
    stands for a missing or falsy value. [assinarMensagem] and
    [desconsiderarGrupo] are the booleans [parseBoolean] produced. *)
Record Integration := {
  id : string;
  inboxId : option string;
  assinarMensagem : bool;
  desconsiderarGrupo : bool;
  defaultCountry : option string;
  provider : WhatsApp.Provider;
  normalizedNumber : option string;
  instance : option string;
  baseURL : option string
}.

(** [findIntegrationByInboxId(integrations, inboxId)] *)
Definition findIntegrationByInboxId (integrations : list Integration)
    (wanted : option string) : option Integration :=
  match wanted with
  | None => None
  | Some wanted =>
    List.find (fun integration =>
      match inboxId integration with
      | Some integrationInboxId => bool_decide (integrationInboxId = wanted)
      | None => false
      end) integrations
  end.

(** [findIntegrationById(integrations, id)] *)
Definition findIntegrationById (integrations : list Integration) (wanted : string)
  : option Integration :=
  List.find (fun integration => bool_decide (id integration = wanted)) integrations.

(** [findIntegrationByWhatsAppIdentifier(integrations, provider, identifier)] *)
Definition findIntegrationByWhatsAppIdentifier (integrations : list Integration)
    (wanted : WhatsApp.Provider) (identifier : string) : option Integration :=
  if negb (Js.truthy identifier) then None
  else
    List.find (fun integration =>
      if negb (bool_decide (provider integration = wanted)) then false
      else
        match wanted with
        | WhatsApp.uazapi =>
          let normalizedIdentifier := Js.stripNonDigits identifier in
          bool_decide (normalizedNumber integration = Some normalizedIdentifier)
        | WhatsApp.zapi => bool_decide (instance integration = Some identifier)
        | WhatsApp.wuzapi =>
          bool_decide (Js.toLowerCase (Js.or_str (baseURL integration) "")
                       = Js.toLowerCase identifier)
        end) integrations.

End IntegrationManager.

(** ** [src/services/whatsapp.js]: sending a message *)

Module WhatsAppService.

Import MessageCache.

(** One call of [sendViaZAPI], [sendViaUAZAPI] or [sendViaWuzapi], with the
    arguments [sendMessage] gives it; [lid] and [jid] are passed to
    [sendViaWuzapi] only. *)
Record SendCall := {
  sc_provider : WhatsApp.Provider;
  sc_phone : string;
  sc_content : string;
  sc_messageType : MessageType;
  sc_attachment : option WebhookConsumer.ProcessedAttachment;
  sc_lid : option string;
  sc_jid : option string;
  sc_replyToMessageId : option string
}.

(** What such a call comes to: it returns [{ api, result: data }], of which
    only the message id [extractMessageIdFromPayload] finds in the JSON
    object [data] is kept, or it throws. *)
Inductive SendAnswer := Answered (messageId : option string) | Failed.

(** What [sendMessage] returns: the answer of the one text call, the
    [results] of the attachment calls, or the error. *)
Inductive SendResult :=
| Single (messageId : option string)
| Multiple (messageIds : list (option string))
| SendFailed.

Definition viaCall (provider : WhatsApp.Provider) (phone content : string)
    (messageType : MessageType) (attachment : option WebhookConsumer.ProcessedAttachment)
    (lid jid replyToMessageId : option string) : SendCall :=
  {| sc_provider := provider; sc_phone := phone; sc_content := content;
     sc_messageType := messageType; sc_attachment := attachment;
     sc_lid := match provider with WhatsApp.wuzapi => lid | _ => None end;
     sc_jid := match provider with WhatsApp.wuzapi => jid | _ => None end;
     sc_replyToMessageId := replyToMessageId |}.

(** The [for (let i = 0; i < attachments.length; i++)] loop of
    [sendMessage], from index [i] on; [answer i] is what the call for
    attachment [i] comes to. The result is the calls made and the [results]
    array, [None] when a call threw. *)
Fixpoint sendAttachments (provider : WhatsApp.Provider) (phone content : string)
    (lid jid replyToMessageId : option string) (answer : nat -> SendAnswer)
    (i : nat) (attachments : list WebhookConsumer.ProcessedAttachment)
  : list SendCall * option (list (option string)) :=
  match attachments with
  | [] => ([], Some [])
  | attachment :: rest =>
    let hasAttachmentContent := (i =? 0)%nat && (0 <? String.length content)%nat in
    let attachmentContent := if hasAttachmentContent then content else "" in
    let call := viaCall provider phone attachmentContent
                  (WebhookConsumer.pa_type attachment) (Some attachment)
                  lid jid replyToMessageId in
    match answer i with
    | Failed => ([call], None)
    | Answered result =>
      let '(calls, results) :=
        sendAttachments provider phone content lid jid replyToMessageId answer
          (S i) rest in
      (call :: calls, (fun results => result :: results) <$> results)
    end
  end.

(** [sendMessage(phone, content, messageType, attachments, lid, jid,
    replyToMessageId)] *)
Definition sendMessage (provider : WhatsApp.Provider) (phone content : string)
    (messageType : MessageType)
    (attachments : option (list WebhookConsumer.ProcessedAttachment))
    (lid jid replyToMessageId : option string) (answer : nat -> SendAnswer)
  : list SendCall * SendResult :=
  match attachments with
  | None | Some [] =>
    let call := viaCall provider phone content TEXT None lid jid replyToMessageId in
    match answer 0%nat with
    | Answered result => ([call], Single result)
    | Failed => ([call], SendFailed)
    end
  | Some attachments =>
    match sendAttachments provider phone content lid jid replyToMessageId answer
            0%nat attachments with
    | (calls, Some results) => (calls, Multiple results)
    | (calls, None) => (calls, SendFailed)
    end
  end.

(** [addId] of [extractApiMessageIds] *)
Definition addId (ids : list string) (value : string) : list string :=
  if bool_decide (value ∈ ids) then ids else (ids ++ [value])%list.

(** [extractApiMessageIds(sendResult)] on what [sendMessage] returned. *)
Definition extractApiMessageIds (sendResult : SendResult) : list string :=
  match sendResult with
  | Single messageId => fold_left addId (option_list messageId) []
  | Multiple messageIds => fold_left addId (omap (fun x => x) messageIds) []
  | SendFailed => []
  end.

End WhatsAppService.

(** ** [src/services/webhookConsumer.js]: the helpdesk callback, whole *)

Module WebhookCallback.

Import MessageCache.

(** [body.conversation.meta.sender] *)
Record Contact := {
  identifier : option string;
  phone_number : option string;
  contact_name : option string
}.

(** [body.conversation]: its [id] and [inbox_id] (held as [String(...)] of
    a truthy value), [meta.sender], and the two names of [meta.assignee]. *)
Record Conversation := {
  conversation_id : option string;
  inbox_id : option string;
  meta_sender : option Contact;
  assignee_available_name : option string;
  assignee_name : option string
}.

(** The fields of a helpdesk callback the processor reads. [deleted] is
    [content_attributes?.deleted === true], [private] is
    [body.private === true], [id] is [String(body.id)] and [id_truthy] the
    truthiness of [body.id]. *)
Record Payload := {
  event : option string;
  deleted : bool;
  message_type : option string;
  private : bool;
  conversation : option Conversation;
  content : option string;
  attachments : option (list Attachment);
  in_reply_to : option string;
  id : string;
  id_truthy : bool;
  sender_name : option string;
  sender_available_name : option string
}.

(** What a run of the processor leaves behind: the store, the provider
    send calls and delete requests it made, and what it returned. *)
Record Run := {
  store : Store;
  sends : list WhatsAppService.SendCall;
  deletes : list WhatsApp.Request;
  result : WebhookConsumer.CallbackResult
}.

Definition returns (st : Store) (r : WebhookConsumer.CallbackResult) : Run :=
  {| store := st; sends := []; deletes := []; result := r |}.

(** [!integrations || integrations.length === 0] *)
Definition noIntegrations (integrations : list IntegrationManager.Integration) : bool :=
  match integrations with [] => true | _ :: _ => false end.

(** [integrations[0]] after the lookups by inbox failed. *)
Definition firstIntegration (integrations : list IntegrationManager.Integration)
  : option IntegrationManager.Integration :=
  head integrations.

(** The recipient [processMessageDelete] hands to [deleteMessage]. *)
Definition recipientForDeletion (contact : option Contact) : option string :=
  match contact with
  | None => None
  | Some contact =>
    let identifier := Js.or_else (identifier contact) (Js.or_null (phone_number contact)) in
    let phoneNumber := Js.or_null (phone_number contact) in
    let isGroup :=
      match identifier with
      | Some i => Js.endsWith i "@g.us" || Js.endsWith i "-group"
      | None => false
      end in
    if isGroup && Js.truthy_opt identifier then identifier
    else Js.or_else phoneNumber (Js.or_null identifier)
  end.

(** [processMessageDelete(body, integrations)] *)
Definition processMessageDelete (body : Payload)
    (integrations : list IntegrationManager.Integration)
    (http : WhatsApp.Request -> WhatsApp.HttpOutcome) (st : Store) : Run :=
  if negb (bool_decide (message_type body = Some "outgoing"))
  then returns st (WebhookConsumer.CallbackNotProcessed "message_not_outgoing")
  else if private body
  then returns st (WebhookConsumer.CallbackNotProcessed "mensagem_privada")
  else if noIntegrations integrations
  then returns st (WebhookConsumer.CallbackNotProcessed "no_integrations_configured")
  else if negb (id_truthy body)
  then returns st (WebhookConsumer.CallbackNotProcessed "chatwoot_message_id_not_found")
  else
    let chatwootMessageId := id body in
    match getApiMessageId chatwootMessageId (messageIdCache st) with
    | None =>
      returns st (WebhookConsumer.CallbackNotProcessed "whatsapp_message_id_not_found")
    | Some whatsAppMessageId =>
      let payloadInboxId := conversation body ≫= inbox_id in
      let integration :=
        IntegrationManager.findIntegrationByInboxId integrations payloadInboxId in
      let integration :=
        match integration with
        | Some i => Some i
        | None =>
          let mapping :=
            getMessageMappingByChatwootId chatwootMessageId (messageIdCache st) in
          match mapping ≫= (fun m => Js.or_null (MessageCache.inboxId m)) with
          | Some mappedInbox =>
            IntegrationManager.findIntegrationByInboxId integrations (Some mappedInbox)
          | None => None
          end
        end in
      let integration :=
        match integration with
        | Some i => Some i
        | None => firstIntegration integrations
        end in
      match integration with
      | None => returns st WebhookConsumer.CallbackThrows
      | Some integration =>
        let recipient := recipientForDeletion (conversation body ≫= meta_sender) in
        match WhatsApp.deleteMessage (IntegrationManager.provider integration) http
                whatsAppMessageId
                {| WhatsApp.recipient := recipient; WhatsApp.owner := Some true |} with
        | (requests, WhatsApp.Deleted _ _) =>
          {| store := WebhookConsumer.withCache st
                        (removeMessageIdMapping chatwootMessageId (messageIdCache st));
             sends := []; deletes := requests;
             result := WebhookConsumer.CallbackProcessed |}
        | (requests, WhatsApp.Threw _) =>
          {| store := st; sends := []; deletes := requests;
             result := WebhookConsumer.CallbackThrows |}
        end
      end
    end.

(** [lid], [jid], [isGroup] and [recipient] as the callback derives them
    from the contact's identifier and phone number. *)
Definition lidOf (identifier : string) : option string :=
  if Js.endsWith identifier "@lid" then Some identifier else None.

Definition jidOf (identifier : string) : option string :=
  if Js.endsWith identifier "@lid" then None
  else if Js.endsWith identifier "@s.whatsapp.net" then Some identifier else None.

Definition isGroupOf (identifier : string) : bool :=
  if Js.endsWith identifier "@lid" then false
  else if Js.endsWith identifier "@s.whatsapp.net" then false
  else if Js.endsWith identifier "@g.us" then true
  else if Js.endsWith identifier "-group" then true
  else false.

Definition recipientOf (contact : Contact) (identifier : string) : option string :=
  let phone := Js.or_null (phone_number contact) in
  if isGroupOf identifier then Some identifier
  else Js.or_else phone
         (Js.or_else (lidOf identifier)
            (Js.or_else (jidOf identifier) (Some identifier))).

(** The agent's name: [assignee.available_name || assignee.name ||
    body.sender.name || body.sender.available_name ||
    conversation.meta.sender.name || ''] *)
Definition senderNameOf (body : Payload) (conversation : Conversation) : string :=
  Js.or_str
    (Js.or_else (assignee_available_name conversation)
       (Js.or_else (assignee_name conversation)
          (Js.or_else (sender_name body)
             (Js.or_else (sender_available_name body)
                (meta_sender conversation ≫= contact_name)))))
    "".

(** The content after the optional signature. *)
Definition signedContent (shouldSignMessages : bool) (senderName content : string)
  : string :=
  if shouldSignMessages && Js.truthy senderName then
    let signature := "*" ++ senderName ++ ":*" in
    if negb (Js.trimIsEmpty content)
    then signature ++ String "010"%char (String "010"%char content)
    else signature
  else content.

(** The attachments loop: every attachment, recognised or not, adds one
    helpdesk credit; a [file] attachment without [extension] and without
    [data_url] makes [attachment.data_url.split] throw, which ends the loop
    before that attachment is counted. The result is the processed
    attachments, the helpdesk map, and whether the loop threw. *)
Fixpoint attachmentsLoop (recipient : option string) (messageType : MessageType)
    (attachments : list Attachment)
    (tickets : gmap (option string) (gmap MessageType Z))
  : list WebhookConsumer.ProcessedAttachment
    * gmap (option string) (gmap MessageType Z) * bool :=
  match attachments with
  | [] => ([], tickets, false)
  | attachment :: rest =>
    if bool_decide (file_type attachment = Some "file")
       && negb (Js.truthy_opt (extension attachment))
       && negb (bool_decide (is_Some (data_url attachment)))
    then ([], tickets, true)
    else
      let tickets := addOutgoingTicketChatwoot recipient messageType tickets in
      let '(processed, tickets, threw) :=
        attachmentsLoop recipient messageType rest tickets in
      (match WebhookConsumer.processAttachment attachment with
       | Some processedAttachment => processedAttachment :: processed
       | None => processed
       end, tickets, threw)
  end.

(** [processWebhookCallback] from the signature on, for a callback that
    passed the guards and resolved to [recipient] and [integration];
    [answer] is what the provider send calls come to. *)
Definition deliver (body : Payload) (conversation : Conversation)
    (recipient : string) (lid jid : option string)
    (content : string) (attachments : list Attachment)
    (apiReplyMessageId : option string) (messageType : MessageType)
    (integration : IntegrationManager.Integration)
    (answer : nat -> WhatsAppService.SendAnswer) (st : Store) : Run :=
  let content :=
    signedContent (IntegrationManager.assinarMensagem integration)
      (senderNameOf body conversation) content in
  let '(consumed, tickets) :=
    consumeOutgoingTicket (Some recipient) messageType (messageTickets st) in
  let st := WebhookConsumer.withTickets st tickets in
  if consumed
  then returns st (WebhookConsumer.CallbackNotProcessed "ticket_consumed")
  else
    let '(processedAttachments, ticketsChatwoot, threw) :=
      match attachments with
      | [] =>
        ([], addOutgoingTicketChatwoot (Some recipient) messageType
               (messageTicketsChatwoot st), false)
      | _ =>
        attachmentsLoop (Some recipient) messageType attachments
          (messageTicketsChatwoot st)
      end in
    let st := WebhookConsumer.withTicketsChatwoot st ticketsChatwoot in
    if threw then returns st WebhookConsumer.CallbackThrows
    else
      let '(calls, sendResult) :=
        WhatsAppService.sendMessage (IntegrationManager.provider integration)
          recipient content messageType (Some processedAttachments)
          lid jid apiReplyMessageId answer in
      match sendResult with
      | WhatsAppService.SendFailed =>
        {| store :=
             WebhookConsumer.withTicketsChatwoot st
               (snd (consumeOutgoingTicketChatwoot (Some recipient) messageType
                       (messageTicketsChatwoot st)));
           sends := calls; deletes := [];
           result := WebhookConsumer.CallbackThrows |}
      | _ =>
        let st :=
          match WhatsAppService.extractApiMessageIds sendResult with
          | messageId :: _ =>
            WebhookConsumer.withCache st
              (storeMessageIdMapping (id body) messageId
                 (conversation_id conversation) (inbox_id conversation)
                 (Some (WhatsApp.providerName
                          (IntegrationManager.provider integration)))
                 (Some (IntegrationManager.id integration))
                 (messageIdCache st))
          | [] => st
          end in
        {| store := st; sends := calls; deletes := [];
           result := WebhookConsumer.CallbackProcessed |}
      end.

(** [processWebhookCallback(body, integrations)]; [http] answers the
    delete request of a deletion event and [answer] the provider send
    calls. *)
Definition processWebhookCallback (body : Payload)
    (integrations : list IntegrationManager.Integration)
    (http : WhatsApp.Request -> WhatsApp.HttpOutcome)
    (answer : nat -> WhatsAppService.SendAnswer) (st : Store) : Run :=
  if bool_decide (event body = Some "message_updated") && deleted body
  then processMessageDelete body integrations http st
  else if negb (bool_decide (event body = Some "message_created"))
  then returns st (WebhookConsumer.CallbackNotProcessed "event_not_message_created")
  else if negb (bool_decide (message_type body = Some "outgoing"))
  then returns st (WebhookConsumer.CallbackNotProcessed "message_not_outgoing")
  else if private body
  then returns st (WebhookConsumer.CallbackNotProcessed "mensagem_privada")
  else if noIntegrations integrations
  then returns st (WebhookConsumer.CallbackNotProcessed "no_integrations_configured")
  else
    match conversation body with
    | None => returns st (WebhookConsumer.CallbackNotProcessed "conversation_not_found")
    | Some conversation =>
      match meta_sender conversation,
            meta_sender conversation ≫= (fun c => Js.or_null (identifier c)) with
      | Some contact, Some identifier =>
        let lid := lidOf identifier in
        let jid := jidOf identifier in
        match Js.or_null (recipientOf contact identifier) with
        | None =>
          returns st (WebhookConsumer.CallbackNotProcessed "no_valid_identifier_found")
        | Some recipient =>
          let content := default "" (content body) in
          let attachments := default [] (attachments body) in
          let apiReplyMessageId :=
            match Js.or_null (in_reply_to body) with
            | Some replyToMessageId =>
              getApiMessageId replyToMessageId (messageIdCache st)
            | None => None
            end in
          let messageType := getMessageType content (Some attachments) in
          let payloadInboxId := inbox_id conversation in
          let integration :=
            match IntegrationManager.findIntegrationByInboxId integrations
                    payloadInboxId with
            | Some i => Some i
            | None => firstIntegration integrations
            end in
          match integration with
          | None => returns st WebhookConsumer.CallbackThrows
          | Some integration =>
            deliver body conversation recipient lid jid content attachments
              apiReplyMessageId messageType integration answer st
          end
        end
      | _, _ =>
        returns st (WebhookConsumer.CallbackNotProcessed "contact_identifier_not_found")
      end
    end.

End WebhookCallback.

(** ** [src/services/webhookConsumer.js]: routing a provider payload *)

Module WebhookRouting.

(** ['zapi'], ['uazapi'], ['wuzapi'] or ['unknown'] *)
Inductive Origin := OriginZapi | OriginUazapi | OriginWuzapi | OriginUnknown.

(** What the routing reads of a provider payload: the truthiness of the
    fields [detectPayloadOrigin] tests, the payload's [type], and the two
    fields a UAZAPI payload is matched on: [body.owner || body.message.owner]
    and [body.message.chatid]. *)
Record Payload := {
  has_phone : bool;
  has_momment : bool;
  has_message_content : bool;
  has_message_sender : bool;
  has_event_Info : bool;
  has_event_Message : bool;
  payload_type : option string;
  owner : option string;
  chatid : option string
}.

(** [detectPayloadOrigin(body)] *)
Definition detectPayloadOrigin (body : Payload) : Origin :=
  if has_phone body && has_momment body then OriginZapi
  else if has_message_content body && has_message_sender body then OriginUazapi
  else if has_event_Info body && has_event_Message body
          && bool_decide (payload_type body = Some "Message")
  then OriginWuzapi
  else OriginUnknown.

(** What [findIntegrationForPayload] comes to: the error thrown, [null], or
    an integration. *)
Inductive Routed :=
| RouteThrows
| RouteNone
| RouteTo (integration : IntegrationManager.Integration).

(** The [filter(i => i.whatsapp.provider === ...)] branches: the only
    integration of the provider, or [null]. *)
Definition onlyOfProvider (integrations : list IntegrationManager.Integration)
    (wanted : WhatsApp.Provider) : Routed :=
  match List.filter (fun i => bool_decide (IntegrationManager.provider i = wanted))
          integrations with
  | [integration] => RouteTo integration
  | _ => RouteNone
  end.

(** [findIntegrationForPayload(integrations, body, origin)] *)
Definition findIntegrationForPayload
    (integrations : list IntegrationManager.Integration) (body : Payload)
    (origin : Origin) : Routed :=
  match integrations with
  | [] => RouteThrows
  | [integration] => RouteTo integration
  | _ =>
    match origin with
    | OriginUazapi =>
      let byChatId :=
        let chatId :=
          Js.or_str ((fun c => Js.removeFirst c "@s.whatsapp.net") <$> chatid body) "" in
        if Js.truthy chatId then
          let normalized := Js.stripNonDigits chatId in
          if Js.truthy normalized then
            match IntegrationManager.findIntegrationByWhatsAppIdentifier integrations
                    WhatsApp.uazapi normalized with
            | Some integration => RouteTo integration
            | None => RouteNone
            end
          else RouteNone
        else RouteNone in
      match Js.or_null (owner body) with
      | Some owner =>
        let normalized := Js.stripNonDigits owner in
        if Js.truthy normalized then
          match IntegrationManager.findIntegrationByWhatsAppIdentifier integrations
                  WhatsApp.uazapi normalized with
          | Some integration => RouteTo integration
          | None => RouteNone
          end
        else byChatId
      | None => byChatId
      end
    | OriginZapi => onlyOfProvider integrations WhatsApp.zapi
    | OriginWuzapi => onlyOfProvider integrations WhatsApp.wuzapi
    | OriginUnknown => RouteNone
    end
  end.

End WebhookRouting.

(** ** [src/services/chatwoot.js]: finding a conversation, downloading media *)

Module ChatwootService.

(** A conversation as the helpdesk lists it: its [id] and
    [meta.sender.id]. *)
Record Conversation := {
  conversation_id : Z;
  sender_id : option Z
}.

Inductive Status := StatusOpen | StatusResolved.

(** The requests the conversation search makes. *)
Inductive Request :=
| GetConversations (status : Status) (inbox_id : option Z) (page : nat)
| ToggleStatusOpen (conversationId : Z)
| PostConversation (contact_id inbox_id : option Z).

(** One page of [GET /conversations]: [data.data.payload || []], or the
    error the request throws. *)
Inductive PageAnswer := Page (conversations : list Conversation) | PageFails.

(** The helpdesk as the search sees it: the pages of each status, whether
    [toggle_status] is answered, and what [POST /conversations] returns
    ([None] when it throws). *)
Record Helpdesk := {
  getConversations : Status -> nat -> PageAnswer;
  toggleStatus : Z -> bool;
  postConversation : option Conversation
}.

(** The [while (true)] loop shared by [findConversationByContact] and
    [findResolvedConversationByContact], from [page] on with [pagesLeft]
    pages still allowed: it ends on an empty page, on a conversation of the
    contact, or when [page] has passed 50. The result is [None] when a
    request threw. *)
Fixpoint searchPages (helpdesk : Helpdesk) (status : Status)
    (contactId inboxId : option Z) (pagesLeft page : nat)
  : list Request * option (option Conversation) :=
  match pagesLeft with
  | O => ([], Some None)
  | S pagesLeft =>
    let request := GetConversations status inboxId page in
    match getConversations helpdesk status page with
    | PageFails => ([request], None)
    | Page [] => ([request], Some None)
    | Page conversations =>
      match List.find (fun conv => bool_decide (sender_id conv = contactId))
              conversations with
      | Some conversation => ([request], Some (Some conversation))
      | None =>
        let '(requests, r) :=
          searchPages helpdesk status contactId inboxId pagesLeft (S page) in
        (request :: requests, r)
      end
    end
  end.

(** [findResolvedConversationByContact(client, contactId, inboxId)]: an
    error is caught and answered with [null]. *)
Definition findResolvedConversationByContact (helpdesk : Helpdesk)
    (contactId inboxId : option Z) : list Request * option Conversation :=
  let '(requests, r) :=
    searchPages helpdesk StatusResolved contactId inboxId 50 1 in
  (requests, default None r).

(** [reopenConversation(client, conversationId)]: [false] when it throws. *)
Definition reopenConversation (helpdesk : Helpdesk) (conversationId : Z)
  : list Request * bool :=
  ([ToggleStatusOpen conversationId], toggleStatus helpdesk conversationId).

(** [findConversationByContact(client, contactId, inboxId)] *)
Definition findConversationByContact (helpdesk : Helpdesk) (reabrirConversa : bool)
    (contactId inboxId : option Z) : list Request * option Conversation :=
  let openSearch (before : list Request) :=
    let '(requests, r) :=
      searchPages helpdesk StatusOpen contactId inboxId 50 1 in
    ((before ++ requests)%list, default None r) in
  if reabrirConversa then
    let '(requests, resolvedConversation) :=
      findResolvedConversationByContact helpdesk contactId inboxId in
    match resolvedConversation with
    | Some resolvedConversation =>
      let '(reopen, reopened) :=
        reopenConversation helpdesk (conversation_id resolvedConversation) in
      if reopened then ((requests ++ reopen)%list, Some resolvedConversation)
      else ((requests ++ reopen)%list, None)
    | None => openSearch requests
    end
  else openSearch [].

(** [createConversation(client, contactId, inboxId)] *)
Definition createConversation (helpdesk : Helpdesk) (contactId inboxId : option Z)
  : list Request * option Conversation :=
  ([PostConversation contactId inboxId], postConversation helpdesk).

(** [findOrCreateConversation(client, contactId, inboxId)]; the result is
    [None] when it throws. *)
Definition findOrCreateConversation (helpdesk : Helpdesk) (reabrirConversa : bool)
    (contactId inboxId : option Z) : list Request * option Conversation :=
  let '(requests, conversation) :=
    findConversationByContact helpdesk reabrirConversa contactId inboxId in
  match conversation with
  | None =>
    let '(created, conversation) := createConversation helpdesk contactId inboxId in
    ((requests ++ created)%list, conversation)
  | Some conversation => (requests, Some conversation)
  end.

(** The error axios throws, as the retry test reads it:
    [error.response.status], [error.code] and [error.message]. *)
Record AxiosError := {
  status : option Z;
  code : option string;
  message : option string
}.

(** What [axios.get(url, ...)] comes to: [response.data], or an error. *)
Inductive GetAnswer := GetData (data : string) | GetThrows (error : AxiosError).

Inductive Event := Requested (attempt : nat) | Waited (ms : Z).

(** What [downloadMediaWithRetry] comes to: the data, [undefined] when the
    loop ends without returning, or the error of the last attempt. *)
Inductive Download :=
| Returned (data : string)
| ReturnedUndefined
| Thrown (cause : AxiosError).

(** [new Error('Arquivo ainda não disponível (resposta vazia)')] *)
Definition emptyResponse : AxiosError :=
  {| status := None; code := None;
     message := Some "Arquivo ainda não disponível (resposta vazia)" |}.

(** [is404 || is503 || is502 || isTimeout || isEmptyData] *)
Definition retryable (error : AxiosError) : bool :=
  let is404 := bool_decide (status error = Some 404) in
  let is503 := bool_decide (status error = Some 503) in
  let is502 := bool_decide (status error = Some 502) in
  let messageIncludes (sub : string) :=
    match message error with
    | Some m => Js.includes m sub
    | None => false
    end in
  let isTimeout :=
    bool_decide (code error = Some "ECONNABORTED") || messageIncludes "timeout" in
  let isEmptyData := messageIncludes "não disponível" || messageIncludes "vazia" in
  is404 || is503 || is502 || isTimeout || isEmptyData.

(** The [for (let attempt = 1; attempt <= maxRetries; attempt++)] loop of
    [downloadMediaWithRetry], from [attempt] on with [attemptsLeft] attempts
    still to make. *)
Fixpoint downloadLoop (answer : nat -> GetAnswer) (maxRetries : nat) (retryDelay : Z)
    (attemptsLeft attempt : nat) : list Event * Download :=
  match attemptsLeft with
  | O => ([], ReturnedUndefined)
  | S attemptsLeft =>
    let outcome :=
      match answer attempt with
      | GetData data => if Js.truthy data then inl data else inr emptyResponse
      | GetThrows error => inr error
      end in
    match outcome with
    | inl data => ([Requested attempt], Returned data)
    | inr error =>
      let isLastAttempt := (attempt =? maxRetries)%nat in
      let shouldRetry := retryable error && negb isLastAttempt in
      if shouldRetry then
        let '(events, r) :=
          downloadLoop answer maxRetries retryDelay attemptsLeft (S attempt) in
        (Requested attempt :: Waited retryDelay :: events, r)
      else if isLastAttempt then ([Requested attempt], Thrown error)
      else
        let '(events, r) :=
          downloadLoop answer maxRetries retryDelay attemptsLeft (S attempt) in
        (Requested attempt :: events, r)
    end
  end.

(** [downloadMediaWithRetry(url, timeoutMs, maxRetries, retryDelay)];
    [answer n] is what the [n]-th request comes to. *)
Definition downloadMediaWithRetry (answer : nat -> GetAnswer) (maxRetries : nat)
    (retryDelay : Z) : list Event * Download :=
  downloadLoop answer maxRetries retryDelay maxRetries 1.

End ChatwootService.

(** ** [src/services/webhookConsumer.js]: deletions announced by a provider *)

Module WebhookDeletions.

Import MessageCache.

(** One call of [integration.chatwoot.deleteChatwootMessage(conversationId,
    chatwootMessageId)], with the id of the integration it goes through. *)
Record HelpdeskDelete := {
  hd_through : string;
  hd_conversationId : string;
  hd_messageId : string
}.

(** An element of the [results] of [processUazapiDeletedMessage]. *)
Inductive Outcome :=
| MessageNotFound
| ConversationNotFound (chatwootMessageId : string)
| Deleted (chatwootMessageId conversationId : string)
| NotDeleted (chatwootMessageId conversationId : string).

(** What either processor returns or throws. *)
Inductive Result :=
| Unprocessed (reason : string)
| ProcessedWith (results : list (string * Outcome))
| Throws.

(** The body of the [for (const apiMessageId of messageIds)] loop, run
    over the ids; [helpdesk] says whether a delete call is answered. The
    result is the cache afterwards, the calls made and the [results]. *)
Fixpoint deleteEach (integrations : list IntegrationManager.Integration)
    (helpdesk : HelpdeskDelete -> bool) (messageIds : list string)
    (cache : list (string * CacheEntry))
  : list (string * CacheEntry) * list HelpdeskDelete * list (string * Outcome) :=
  match messageIds with
  | [] => (cache, [], [])
  | apiMessageId :: rest =>
    if negb (Js.truthy apiMessageId)
    then deleteEach integrations helpdesk rest cache
    else
      let continue (cache : list (string * CacheEntry)) (calls : list HelpdeskDelete)
                   (outcome : Outcome) :=
        let '(cache, more, results) := deleteEach integrations helpdesk rest cache in
        (cache, (calls ++ more)%list, (apiMessageId, outcome) :: results) in
      match getChatwootMessageMappingByApiId apiMessageId cache with
      | Some (chatwootMessageId, conversationId, mappedInboxId) =>
        if negb (Js.truthy chatwootMessageId) then continue cache [] MessageNotFound
        else
          match conversationId with
          | None => continue cache [] (ConversationNotFound chatwootMessageId)
          | Some conversationId =>
            let integration :=
              match mappedInboxId with
              | Some mappedInboxId =>
                IntegrationManager.findIntegrationByInboxId integrations
                  (Some mappedInboxId)
              | None => None
              end in
            let integration :=
              match integration with
              | Some i => Some i
              | None => head integrations
              end in
            match integration with
            | None => continue cache [] (NotDeleted chatwootMessageId conversationId)
            | Some integration =>
              let call := {| hd_through := IntegrationManager.id integration;
                             hd_conversationId := conversationId;
                             hd_messageId := chatwootMessageId |} in
              if helpdesk call
              then continue (removeMessageIdMapping chatwootMessageId cache) [call]
                     (Deleted chatwootMessageId conversationId)
              else continue cache [call] (NotDeleted chatwootMessageId conversationId)
            end
          end
      | None => continue cache [] MessageNotFound
      end
  end.

(** [processUazapiDeletedMessage(body, integrations)]; [messageIds] is
    [body.event.MessageIDs] when it is an array. *)
Definition processUazapiDeletedMessage (messageIds : option (list string))
    (integrations : list IntegrationManager.Integration)
    (helpdesk : HelpdeskDelete -> bool) (cache : list (string * CacheEntry))
  : list (string * CacheEntry) * list HelpdeskDelete * Result :=
  match messageIds with
  | None | Some [] => (cache, [], Unprocessed "no_message_ids")
  | Some messageIds =>
    let '(cache, calls, results) := deleteEach integrations helpdesk messageIds cache in
    (cache, calls, ProcessedWith results)
  end.

(** [processZapiDeletedMessage(body, integrations)]; [apiMessageId] is
    [body.messageId || body.message.messageId] and [instanceId] is
    [body.instanceId || body.instance_id || body.instance]. *)
Definition processZapiDeletedMessage (apiMessageId instanceId : option string)
    (integrations : list IntegrationManager.Integration)
    (helpdesk : HelpdeskDelete -> bool) (cache : list (string * CacheEntry))
  : list (string * CacheEntry) * list HelpdeskDelete * Result :=
  match Js.or_null apiMessageId with
  | None => (cache, [], Unprocessed "zapi_message_id_not_found")
  | Some apiMessageId =>
    match getChatwootMessageMappingByApiId apiMessageId cache with
    | Some (chatwootMessageId, conversationId, mappedInboxId) =>
      if negb (Js.truthy chatwootMessageId)
      then (cache, [], Unprocessed "chatwoot_message_not_found")
      else
        match conversationId with
        | None => (cache, [], Unprocessed "conversation_id_not_found")
        | Some conversationId =>
          let integration :=
            match mappedInboxId with
            | Some mappedInboxId =>
              IntegrationManager.findIntegrationByInboxId integrations
                (Some mappedInboxId)
            | None => None
            end in
          let integration :=
            match integration with
            | Some i => Some i
            | None =>
              match Js.or_null instanceId with
              | Some instanceId =>
                IntegrationManager.findIntegrationByWhatsAppIdentifier integrations
                  WhatsApp.zapi instanceId
              | None => None
              end
            end in
          let integration :=
            match integration with
            | Some i => Some i
            | None =>
              List.find (fun i => bool_decide (IntegrationManager.provider i
                                               = WhatsApp.zapi)) integrations
            end in
          match integration with
          | None => (cache, [], Throws)
          | Some integration =>
            let call := {| hd_through := IntegrationManager.id integration;
                           hd_conversationId := conversationId;
                           hd_messageId := chatwootMessageId |} in
            if helpdesk call
            then (removeMessageIdMapping chatwootMessageId cache, [call],
                  ProcessedWith [(apiMessageId, Deleted chatwootMessageId conversationId)])
            else (cache, [call], Throws)
          end
        end
    | None => (cache, [], Unprocessed "chatwoot_message_not_found")
    end
  end.

End WebhookDeletions.

(** ** [src/services/webhookConsumer.js]: reading a Wuzapi payload *)

Module WuzapiExtractor.

(** The cleaning every [base64] of a Wuzapi media goes through: white
    space is removed, the URL-safe alphabet is mapped back, and the text is
    padded with [=] to a multiple of four. *)
Definition sanitizeBase64 (base64 : string) : string :=
  let b64 := Js.chars base64 in
  let b64 :=
    Js.replaceChar "_" "/"
      (Js.replaceChar "-" "+" (Js.replaceChar " " "+" (Js.removeSpaces b64))) in
  let pad := (Js.utf16Length b64 mod 4)%nat in
  Js.of_chars (if (pad =? 0)%nat then b64
               else (b64 ++ List.repeat "="%char (4 - pad))%list).

(** [body.base64 || ''], cleaned when it is not empty. *)
Definition mediaBase64 (base64 : option string) : string :=
  let base64 := Js.or_str base64 "" in
  if Js.truthy base64 then sanitizeBase64 base64 else base64.

(** The fields of a Wuzapi payload that [extractWuzapiData] reads:
    [body.event.Info], the text and captions of [body.event.Message], which
    media messages are present (with their caption), and [body.base64]. *)
Record WuzapiBody := {
  w_Chat : option string;
  w_IsFromMe : bool;
  w_IsGroup : bool;
  w_PushName : option string;
  w_Sender : option string;
  w_ID : option string;
  w_GroupName : option string;
  w_ChatName : option string;
  w_conversation : option string;
  w_extendedText : option string;
  w_imageMessage : option (option string);
  w_videoMessage : option (option string);
  w_documentMessage : option (option string);
  w_audioMessage : option (option string);
  w_base64 : option string
}.

(** [extractWuzapiData(body, desconsiderarGrupo, defaultCountry)] *)
Definition extractWuzapiData (body : WuzapiBody) (desconsiderarGrupo : bool)
    (defaultCountry : string) : WebhookConsumer.Extraction :=
  let rawChatId := Js.or_str (w_Chat body) "" in
  let '(phone, lid, jid) :=
    if Js.endsWith rawChatId "@lid" then (None, Some rawChatId, None)
    else if Js.endsWith rawChatId "@s.whatsapp.net" then
      (Phone.normalizeToE164 (Some (Js.removeFirst rawChatId "@s.whatsapp.net"))
         defaultCountry,
       None, Some rawChatId)
    else (Some rawChatId, None, None) in
  let caption (m : option (option string)) : option string := m ≫= (fun c => c) in
  let text :=
    Js.or_str
      (Js.or_else (w_conversation body)
         (Js.or_else (w_extendedText body)
            (Js.or_else (caption (w_imageMessage body))
               (Js.or_else (caption (w_videoMessage body))
                  (Js.or_else (caption (w_documentMessage body))
                     (caption (w_audioMessage body)))))))
      "" in
  let fromMe := w_IsFromMe body in
  let strippedSender :=
    (fun x => Js.removeFirst x "@s.whatsapp.net") <$> w_Sender body in
  let name :=
    if negb fromMe then Js.or_else (w_PushName body) (Js.or_null strippedSender)
    else Js.or_null (Some rawChatId) in
  let isGroup := w_IsGroup body in
  let messageId := Js.or_null (w_ID body) in
  let media (m : option (option string)) (withCaption : bool) : option Chatwoot.Media :=
    match m with
    | Some c =>
      Some {| Chatwoot.mediaUrl := "";
              Chatwoot.mediaBase64 := mediaBase64 (w_base64 body);
              Chatwoot.mediaCaption := if withCaption then Js.or_str c "" else "" |}
    | None => None
    end in
  let finish (phone lid jid name groupName : option string) :=
    let senderName :=
      if isGroup && negb fromMe
      then Js.or_else (w_PushName body) strippedSender else None in
    WebhookConsumer.Extracted {|
      WebhookConsumer.phone := phone; WebhookConsumer.lid := lid;
      WebhookConsumer.jid := jid; WebhookConsumer.text := text;
      WebhookConsumer.name := name; WebhookConsumer.senderPhoto := None;
      WebhookConsumer.image := media (w_imageMessage body) true;
      WebhookConsumer.audio := media (w_audioMessage body) false;
      WebhookConsumer.document := media (w_documentMessage body) true;
      WebhookConsumer.video := media (w_videoMessage body) true;
      WebhookConsumer.isGroup := isGroup; WebhookConsumer.fromMe := fromMe;
      WebhookConsumer.status := None; WebhookConsumer.fromApi := false;
      WebhookConsumer.messageId := messageId; WebhookConsumer.replyId := None;
      WebhookConsumer.origin := "wuzapi"; WebhookConsumer.groupName := groupName;
      WebhookConsumer.senderName := senderName;
      WebhookConsumer.editedMessageId := None |} in
  if isGroup then
    let groupName :=
      Js.or_str
        (Js.or_else (w_GroupName body)
           (Js.or_else (w_ChatName body)
              ((fun c => Js.removeFirst (Js.removeFirst c "@lid") "@g.us")
                 <$> w_Chat body)))
        "Grupo sem nome" in
    if desconsiderarGrupo
    then WebhookConsumer.Ignored "group_disconsidered" "wuzapi" (Some groupName)
    else
      let '(phone, lid, jid) :=
        if negb (Js.truthy_opt lid) then (Some groupName, None, None)
        else (phone, lid, jid) in
      let name :=
        if negb fromMe then Some (Js.or_str (w_PushName body) groupName)
        else Some groupName in
      finish phone lid jid name (Some groupName)
  else finish phone lid jid name None.

End WuzapiExtractor.

Import MessageCache.

(** ** What the claim about [getMessageType] says, in its own words *)

(** ['audio'], ['image'] and ['video'] map to themselves. *)
Definition kindNamed (fileType : string) : option MessageType :=
  List.find (fun k => bool_decide (messageTypeName k = fileType)) [AUDIO; IMAGE; VIDEO].

(** The kind the first attachment's [file_type] stands for: itself for the
    three media names, [document] for ['file'], [text] otherwise. *)
Definition kindOfFileType (fileType : option string) : MessageType :=
  match fileType with
  | Some t => if bool_decide (t = "file") then DOCUMENT else default TEXT (kindNamed t)
  | None => TEXT
  end.

(** The [file_type] of the first attachment, when there is one. *)
Definition firstFileType (attachments : option (list Attachment)) : option string :=
  match attachments with
  | Some l => match head l with Some a => file_type a | None => None end
  | None => None
  end.

(** ** Well-formed credit maps *)

(** Every stored counter is non-negative. *)
Definition nonnegTickets (m : gmap (option string) (gmap MessageType Z)) : Prop :=
  forall phone phoneTickets k c,
    m !! phone = Some phoneTickets -> phoneTickets !! k = Some c -> 0 <= c.

(** Every stored recipient holds a positive counter for some kind. *)
Definition liveTickets (m : gmap (option string) (gmap MessageType Z)) : Prop :=
  forall phone phoneTickets,
    m !! phone = Some phoneTickets -> exists k c, phoneTickets !! k = Some c /\ 0 < c.

(** ** Side conditions of the mapping round trip *)

(** No helpdesk id other than [h] carries the provider id [p]. *)
Definition onlyUnder (h p : string) (cache : list (string * CacheEntry)) : bool :=
  forallb (fun he => bool_decide (fst he = h)
                     || negb (bool_decide (apiMessageId (snd he) = p))) cache.

(** An operation that neither stores or removes the helpdesk id [h], nor
    stores the provider id [p] under another id, nor is the eviction. *)
Definition leavesAlone (h p : string) (op : Op) : bool :=
  match op with
  | OpStoreMessageIdMapping h' p' _ _ _ _ =>
    negb (bool_decide (h' = h)) && negb (bool_decide (p' = p))
  | OpRemoveMessageIdMapping h' => negb (bool_decide (h' = h))
  | OpCleanupFire => false
  | _ => true
  end.

(** What the round trip relies on: keys are unique, [h] carries [p], and no
    other id carries [p]. *)
Definition mapped (h p : string) (m : list (string * CacheEntry)) : Prop :=
  NoDup m.*1
  /\ (exists e, mapGet h m = Some e /\ apiMessageId e = p)
  /\ onlyUnder h p m = true.

(** ** The words of the deletion and group-identifier claims *)

(** A group identifier: a string ending in [@g.us] or [-group]. *)
Definition isGroupIdentifier (s : string) : bool :=
  Js.endsWith s "@g.us" || Js.endsWith s "-group".

(** The [phone] query parameter of a Z-API deletion: the recipient verbatim
    for a group identifier, otherwise the recipient's digits only. *)
Definition zapiPhoneParam (recipient : string) : string :=
  if isGroupIdentifier recipient then recipient else Js.stripNonDigits recipient.

(** [DELETE /messages?messageId=&phone=&owner=], with [owner] defaulting to
    [true]. *)
Definition zapiDeleteRequest (messageId recipient : string) (own : option bool)
  : WhatsApp.Request :=
  {| WhatsApp.method := WhatsApp.DELETE; WhatsApp.path := "/messages";
     WhatsApp.params :=
       [("messageId", WhatsApp.JStr messageId);
        ("phone", WhatsApp.JStr (zapiPhoneParam recipient));
        ("owner", WhatsApp.JBool (match own with Some false => false | _ => true end))];
     WhatsApp.body := [] |}.

(** [POST /message/delete {id}] *)
Definition uazapiDeleteRequest (messageId : string) : WhatsApp.Request :=
  {| WhatsApp.method := WhatsApp.POST; WhatsApp.path := "/message/delete";
     WhatsApp.params := []; WhatsApp.body := [("id", WhatsApp.JStr messageId)] |}.

(** [POST /chat/delete {MessageId}] *)
Definition wuzapiDeleteRequest (messageId : string) : WhatsApp.Request :=
  {| WhatsApp.method := WhatsApp.POST; WhatsApp.path := "/chat/delete";
     WhatsApp.params := []; WhatsApp.body := [("MessageId", WhatsApp.JStr messageId)] |}.

(** [detectCountryCode(phone) === country] *)
Definition detectCountryCode_is (phone : option string) (country : string) : bool :=
  bool_decide (Phone.detectCountryCode phone = Some country).

(** The empty credit map is well formed: a lookup in it finds nothing. *)
Ltac empty_lookup :=
  unfold nonnegTickets, liveTickets; intros;
  match goal with
  | H : ∅ !! _ = Some _ |- _ => rewrite lookup_empty in H; discriminate
  end.

(** ** Reading the traces of the helpdesk client *)

(** The attempts a download made, in order, and the pauses it took. *)
Definition requestedAttempts (events : list ChatwootService.Event) : list nat :=
  omap (fun e => match e with
                 | ChatwootService.Requested attempt => Some attempt
                 | ChatwootService.Waited _ => None
                 end) events.

Definition waits (events : list ChatwootService.Event) : list Z :=
  omap (fun e => match e with
                 | ChatwootService.Requested _ => None
                 | ChatwootService.Waited ms => Some ms
                 end) events.

(** An attempt that gives the loop nothing to return: an error, or an
    empty response. *)
Definition attemptFailed (a : ChatwootService.GetAnswer) : Prop :=
  match a with
  | ChatwootService.GetData data => Js.truthy data = false
  | ChatwootService.GetThrows _ => True
  end.

(** A request of the conversation search that asks for a page of the
    given status. *)
Definition asksPage (status : ChatwootService.Status) (rq : ChatwootService.Request)
  : Prop :=
  match rq with
  | ChatwootService.GetConversations status' _ _ => status' = status
  | _ => False
  end.

(** A delete call that the helpdesk answered and that names the helpdesk
    message [h]. *)
Definition deletedBy (helpdesk : WebhookDeletions.HelpdeskDelete -> bool) (h : string)
    (calls : list WebhookDeletions.HelpdeskDelete) : bool :=
  existsb (fun call => helpdesk call
                       && bool_decide (WebhookDeletions.hd_messageId call = h)) calls.

(** ** The words of the base64 cleaning *)

(** Every character of the string is ASCII, as base64 text is. *)
Definition asciiOnly (s : list ascii) : bool :=
  forallb (fun c => (nat_of_ascii c <? 128)%nat) s.

(** The URL-safe alphabet mapped back to the standard one. *)
Definition standardAlphabet (c : ascii) : ascii :=
  if bool_decide (c = "-"%char) then "+"%char
  else if bool_decide (c = "_"%char) then "/"%char
  else c.

(** A character the cleaning leaves alone. *)
Definition cleanChar (c : ascii) : bool :=
  (nat_of_ascii c <? 128)%nat && negb (Js.isAsciiSpace c)
  && negb (bool_decide (c = "-"%char)) && negb (bool_decide (c = "_"%char)).

(** Proof steps shared by the callback lemmas: a goal whose premise says
    that an empty trace is not empty, and a case split on a decidable
    proposition that rewrites its [bool_decide]. *)
Ltac no_effect :=
  let H := fresh in intros H; exfalso; apply H; reflexivity.

Ltac decide_prop P H :=
  destruct (decide P) as [H|H];
  [rewrite (bool_decide_eq_true_2 P H) | rewrite (bool_decide_eq_false_2 P H)].

(** * Phone normalisation *)

(** C5 (as stated, refuted): the first boundary example does not come out
    as [+5511999998888]. *)
Lemma normalizeToE164_sao_paulo_not_prefixed :
  Phone.normalizeToE164 (Some "11999998888") "BR" <> Some "+5511999998888".
Proof. vm_compute. discriminate. Qed.

(** The digits of the first example already begin with a listed country
    code (the one-digit code of US and CA), which is why the loop over
    [COUNTRY_CODES] fires before the default country is consulted. *)
Lemma sao_paulo_digits_start_with_known_code :
  Phone.startsWithKnownCode (Js.stripNonDigits "11999998888") = true
  /\ Js.startsWith "11999998888" "1" = true
  /\ In ("US", "1") Phone.COUNTRY_CODES.
Proof. vm_compute. intuition. Qed.

(** C5 (amended): [normalizeToE164("11999998888", "BR")] is
    ["+11999998888"]: the digits start with a known country code, so only the
    plus sign is added; the two other boundary examples are as the
    specification gives them. *)
Theorem normalizeToE164_boundary_examples :
  Phone.normalizeToE164 (Some "11999998888") "BR" = Some "+11999998888"
  /\ Phone.normalizeToE164 (Some "+14155550000") "BR" = Some "+14155550000"
  /\ Phone.normalizeToE164 (Some "0014155550000") "BR" = Some "+14155550000".
Proof. vm_compute. repeat split. Qed.

(** * The message kind of a helpdesk callback *)

Lemma kindOfFileType_cases (t : option string) :
  kindOfFileType t =
    if bool_decide (t = Some "audio") then AUDIO
    else if bool_decide (t = Some "image") then IMAGE
    else if bool_decide (t = Some "video") then VIDEO
    else if bool_decide (t = Some "file") then DOCUMENT
    else TEXT.
Proof.
  destruct t as [t|]; [|reflexivity].
  unfold kindOfFileType, kindNamed. simpl.
  repeat case_bool_decide; simplify_eq; try reflexivity; try congruence.
Qed.

Lemma getMessageType_head (content : string) (attachments : option (list Attachment)) :
  getMessageType content attachments
  = kindOfFileType (firstFileType attachments).
Proof.
  destruct attachments as [[|a rest]|]; try reflexivity.
  simpl. rewrite kindOfFileType_cases. reflexivity.
Qed.

(** C10: the kind is a function of the first attachment's [file_type]
    alone. Two callbacks whose first attachments agree on [file_type] (or
    that both have none) get the same kind whatever their contents and
    remaining attachments; the kind is the media name itself for audio, image
    and video, [document] for [file], and [text] for anything else, for an
    empty list and for a missing list; and it is the kind under which the
    callback books its credits and sends. *)
Theorem getMessageType_first_file_type
    (content content' : string) (attachments attachments' : option (list Attachment))
    (Hfirst : firstFileType attachments = firstFileType attachments') :
  getMessageType content attachments = getMessageType content' attachments'
  /\ getMessageType content attachments
     = kindOfFileType (firstFileType attachments)
  /\ getMessageType content (Some []) = TEXT
  /\ getMessageType content None = TEXT
  /\ (forall body,
        WebhookConsumer.callbackMessageType body
        = kindOfFileType (firstFileType (WebhookConsumer.cb_attachments body)))
  /\ (forall integration body recipient sent answer st,
        Forall (fun s => WebhookConsumer.ps_messageType s
                         = WebhookConsumer.callbackMessageType body)
               (snd (fst (WebhookConsumer.processCallbackSend
                            integration body recipient sent answer st)))).
Proof.
  split; [|split; [|split; [|split; [|split]]]].
  - rewrite !getMessageType_head, Hfirst. reflexivity.
  - apply getMessageType_head.
  - reflexivity.
  - reflexivity.
  - intros body. unfold WebhookConsumer.callbackMessageType.
    rewrite getMessageType_head.
    destruct (WebhookConsumer.cb_attachments body) as [[|a r]|]; reflexivity.
  - intros integration body recipient sent answer st.
    unfold WebhookConsumer.processCallbackSend.
    destruct (consumeOutgoingTicket _ _ _) as [[] t]; simpl; [constructor|].
    destruct answer; simpl; repeat constructor.
Qed.

Lemma getMessageType_first_file_type_witness :
  getMessageType "see attached"
    (Some [ {| file_type := Some "image"; data_url := Some "https://cdn/a.png";
               extension := None |};
            {| file_type := Some "file"; data_url := Some "https://cdn/b.pdf";
               extension := Some "pdf" |} ])
  = getMessageType ""
      (Some [ {| file_type := Some "image"; data_url := None; extension := None |} ]).
Proof.
  apply (getMessageType_first_file_type "see attached" ""
           (Some [ {| file_type := Some "image"; data_url := Some "https://cdn/a.png";
                      extension := None |};
                   {| file_type := Some "file"; data_url := Some "https://cdn/b.pdf";
                      extension := Some "pdf" |} ])
           (Some [ {| file_type := Some "image"; data_url := None;
                      extension := None |} ])).
  reflexivity.
Defined.

(** * The credit ledger *)

Lemma ticketsOf_default (phoneTickets : gmap MessageType Z) (k : MessageType) :
  ticketsOf phoneTickets k = default 0 (phoneTickets !! k).
Proof.
  unfold ticketsOf. destruct (phoneTickets !! k) as [c|]; simpl; [|reflexivity].
  destruct (Z.eqb_spec c 0); congruence.
Qed.

Lemma hasAnyTickets_true (phoneTickets : gmap MessageType Z) :
  hasAnyTickets phoneTickets = true
  <-> exists k c, phoneTickets !! k = Some c /\ 0 < c.
Proof.
  unfold hasAnyTickets. rewrite existsb_exists. split.
  - intros [[k c] [Hin Hpos]]. exists k, c. split.
    + apply elem_of_map_to_list, list_elem_of_In, Hin.
    + simpl in Hpos. lia.
  - intros (k & c & Hk & Hpos). exists (k, c). split.
    + apply list_elem_of_In, elem_of_map_to_list, Hk.
    + simpl. lia.
Qed.

Lemma hasAnyTickets_false (phoneTickets : gmap MessageType Z) :
  hasAnyTickets phoneTickets = false
  -> forall k c, phoneTickets !! k = Some c -> c <= 0.
Proof.
  intros Hf k c Hk. destruct (Z.le_gt_cases c 0) as [|Hpos]; [assumption|].
  assert (hasAnyTickets phoneTickets = true) as Ht
    by (apply hasAnyTickets_true; exists k, c; split; [assumption | lia]).
  congruence.
Qed.

Section LedgerFacts.

(** The recipient and kind the operation under study acts on. *)
Context (phone : option string) (k : MessageType).

Lemma addTicket_insert (m : gmap (option string) (gmap MessageType Z)) :
  addTicket phone k m
  = <[phone := <[k := ticketsOf (default ∅ (m !! phone)) k + 1]> (default ∅ (m !! phone))]> m.
Proof.
  unfold addTicket. destruct (m !! phone) as [obj|] eqn:Hm; simpl.
  - rewrite Hm. reflexivity.
  - rewrite lookup_insert_eq. simpl. rewrite insert_insert_eq. reflexivity.
Qed.

Lemma consumeChatwoot_snd (m : gmap (option string) (gmap MessageType Z)) :
  snd (consumeOutgoingTicketChatwoot phone k m) = snd (consumeOutgoingTicket phone k m).
Proof.
  unfold consumeOutgoingTicketChatwoot, consumeOutgoingTicket.
  destruct (m !! phone); [|reflexivity].
  destruct (0 <? _); [|reflexivity]. destruct (hasAnyTickets _); reflexivity.
Qed.

Lemma consumeChatwoot_fst (m : gmap (option string) (gmap MessageType Z)) :
  fst (consumeOutgoingTicketChatwoot phone k m) = negb (fst (consumeOutgoingTicket phone k m)).
Proof.
  unfold consumeOutgoingTicketChatwoot, consumeOutgoingTicket.
  destruct (m !! phone); [|reflexivity].
  destruct (0 <? _); [|reflexivity]. destruct (hasAnyTickets _); reflexivity.
Qed.

(** [consumeOutgoingTicket] says whether the pair's counter was positive. *)
Lemma consume_fst_count (m : gmap (option string) (gmap MessageType Z)) :
  fst (consumeOutgoingTicket phone k m) = (0 <? ticketCount m phone k).
Proof.
  unfold consumeOutgoingTicket, ticketCount.
  destruct (m !! phone); [|reflexivity].
  destruct (0 <? _); [|reflexivity]. destruct (hasAnyTickets _); reflexivity.
Qed.

Lemma nonneg_add (m : gmap (option string) (gmap MessageType Z)) :
  nonnegTickets m -> nonnegTickets (addTicket phone k m).
Proof.
  intros Hnn phone' obj' k' c'. rewrite addTicket_insert.
  destruct (decide (phone = phone')) as [<-|Hne].
  - rewrite lookup_insert_eq. intros [= <-].
    destruct (decide (k = k')) as [<-|Hk].
    + rewrite lookup_insert_eq. intros [= <-]. rewrite ticketsOf_default.
      destruct (m !! phone) as [obj|] eqn:Hm; simpl.
      * destruct (obj !! k) as [c|] eqn:Hc; simpl; [|lia].
        specialize (Hnn _ _ _ _ Hm Hc). lia.
      * rewrite lookup_empty. simpl. lia.
    + rewrite lookup_insert_ne by assumption.
      destruct (m !! phone) as [obj|] eqn:Hm; simpl.
      * apply (Hnn _ _ _ _ Hm).
      * rewrite lookup_empty. discriminate.
  - rewrite lookup_insert_ne by assumption. apply Hnn.
Qed.

Lemma live_add (m : gmap (option string) (gmap MessageType Z)) :
  nonnegTickets m -> liveTickets m -> liveTickets (addTicket phone k m).
Proof.
  intros Hnn Hlive phone' obj'. rewrite addTicket_insert.
  destruct (decide (phone = phone')) as [<-|Hne].
  - rewrite lookup_insert_eq. intros [= <-].
    exists k, (ticketsOf (default ∅ (m !! phone)) k + 1). split.
    + apply lookup_insert_eq.
    + rewrite ticketsOf_default.
      destruct (m !! phone) as [obj|] eqn:Hm; simpl.
      * destruct (obj !! k) as [c|] eqn:Hc; simpl; [|lia].
        specialize (Hnn _ _ _ _ Hm Hc). lia.
      * rewrite lookup_empty. simpl. lia.
  - rewrite lookup_insert_ne by assumption. apply Hlive.
Qed.

Lemma nonneg_consume (m : gmap (option string) (gmap MessageType Z)) :
  nonnegTickets m -> nonnegTickets (snd (consumeOutgoingTicket phone k m)).
Proof.
  intros Hnn. unfold consumeOutgoingTicket.
  destruct (m !! phone) as [obj|] eqn:Hm; [|exact Hnn].
  destruct (Z.ltb_spec 0 (ticketsOf obj k)) as [Hpos|]; [|exact Hnn].
  destruct (hasAnyTickets _); simpl.
  - intros phone' obj' k' c'. destruct (decide (phone = phone')) as [<-|Hne].
    + rewrite lookup_insert_eq. intros [= <-].
      destruct (decide (k = k')) as [<-|Hk].
      * rewrite lookup_insert_eq. intros [= <-]. lia.
      * rewrite lookup_insert_ne by assumption. apply (Hnn _ _ _ _ Hm).
    + rewrite lookup_insert_ne by assumption. apply Hnn.
  - intros phone' obj' k' c'. destruct (decide (phone = phone')) as [<-|Hne].
    + rewrite lookup_delete_eq. discriminate.
    + rewrite lookup_delete_ne by assumption. apply Hnn.
Qed.

Lemma live_consume (m : gmap (option string) (gmap MessageType Z)) :
  liveTickets m -> liveTickets (snd (consumeOutgoingTicket phone k m)).
Proof.
  intros Hlive. unfold consumeOutgoingTicket.
  destruct (m !! phone) as [obj|] eqn:Hm; [|exact Hlive].
  destruct (0 <? ticketsOf obj k); [|exact Hlive].
  destruct (hasAnyTickets _) eqn:Hany; simpl.
  - intros phone' obj'. destruct (decide (phone = phone')) as [<-|Hne].
    + rewrite lookup_insert_eq. intros [= <-]. apply hasAnyTickets_true, Hany.
    + rewrite lookup_insert_ne by assumption. apply Hlive.
  - intros phone' obj'. destruct (decide (phone = phone')) as [<-|Hne].
    + rewrite lookup_delete_eq. discriminate.
    + rewrite lookup_delete_ne by assumption. apply Hlive.
Qed.

Lemma add_consume_counts (m : gmap (option string) (gmap MessageType Z)) :
  nonnegTickets m ->
  fst (consumeOutgoingTicket phone k (addTicket phone k m)) = true
  /\ forall phone' k',
       ticketCount (snd (consumeOutgoingTicket phone k (addTicket phone k m))) phone' k'
       = ticketCount m phone' k'.
Proof.
  intros Hnn. rewrite addTicket_insert.
  set (obj := default ∅ (m !! phone)).
  assert (Hobj : forall k' c, obj !! k' = Some c -> 0 <= c).
  { intros k' c. unfold obj. destruct (m !! phone) as [o|] eqn:Hm; simpl.
    - apply (Hnn _ _ _ _ Hm).
    - rewrite lookup_empty. discriminate. }
  assert (Hc : 0 <= ticketsOf obj k).
  { rewrite ticketsOf_default. destruct (obj !! k) as [c|] eqn:Hk; simpl; [|lia].
    apply (Hobj _ _ Hk). }
  assert (Hcount : forall k', ticketCount m phone k' = ticketsOf obj k').
  { intros k'. unfold ticketCount, obj. destruct (m !! phone); simpl; [reflexivity|].
    rewrite ticketsOf_default, lookup_empty. reflexivity. }
  unfold consumeOutgoingTicket. rewrite lookup_insert_eq.
  assert (Hnew : ticketsOf (<[k := ticketsOf obj k + 1]> obj) k = ticketsOf obj k + 1).
  { rewrite (ticketsOf_default (<[_ := _]> _)), lookup_insert_eq. reflexivity. }
  rewrite Hnew.
  destruct (Z.ltb_spec 0 (ticketsOf obj k + 1)) as [_|]; [|lia].
  replace (ticketsOf obj k + 1 - 1) with (ticketsOf obj k) by lia.
  rewrite insert_insert_eq.
  destruct (hasAnyTickets _) eqn:Hany; simpl; (split; [reflexivity|]).
  - intros phone' k'. rewrite insert_insert_eq.
    destruct (decide (phone = phone')) as [<-|Hne].
    + rewrite Hcount. unfold ticketCount. rewrite lookup_insert_eq.
      rewrite !ticketsOf_default.
      destruct (decide (k = k')) as [<-|Hk].
      * rewrite lookup_insert_eq. reflexivity.
      * rewrite lookup_insert_ne by assumption. reflexivity.
    + unfold ticketCount. rewrite lookup_insert_ne by assumption. reflexivity.
  - intros phone' k'. rewrite delete_insert_eq.
    destruct (decide (phone = phone')) as [<-|Hne].
    + rewrite Hcount. unfold ticketCount. rewrite lookup_delete_eq.
      pose proof (hasAnyTickets_false _ Hany) as Hz.
      rewrite ticketsOf_default.
      destruct (decide (k = k')) as [<-|Hk].
      * specialize (Hz k (ticketsOf obj k) (lookup_insert_eq _ _ _)).
        rewrite <- ticketsOf_default. lia.
      * destruct (obj !! k') as [c|] eqn:Hk'; simpl; [|reflexivity].
        specialize (Hz k' c). rewrite lookup_insert_ne in Hz by assumption.
        specialize (Hz Hk'). specialize (Hobj _ _ Hk'). lia.
    + unfold ticketCount. rewrite lookup_delete_ne by assumption. reflexivity.
Qed.

Lemma consume_absent (m : gmap (option string) (gmap MessageType Z)) :
  storedCounter m phone k = None ->
  consumeOutgoingTicket phone k m = (false, m)
  /\ consumeOutgoingTicketChatwoot phone k m = (true, m).
Proof.
  unfold storedCounter, consumeOutgoingTicket, consumeOutgoingTicketChatwoot.
  destruct (m !! phone) as [obj|]; [|split; reflexivity].
  intros Hk. rewrite ticketsOf_default, Hk. simpl. split; reflexivity.
Qed.

End LedgerFacts.

(** Both maps of every store the exported operations can reach are
    well formed. *)
Lemma run_wellformed (ops : list Op) (st : Store) :
  nonnegTickets (messageTickets st) /\ liveTickets (messageTickets st)
  /\ nonnegTickets (messageTicketsChatwoot st) /\ liveTickets (messageTicketsChatwoot st)
  -> nonnegTickets (messageTickets (run ops st))
     /\ liveTickets (messageTickets (run ops st))
     /\ nonnegTickets (messageTicketsChatwoot (run ops st))
     /\ liveTickets (messageTicketsChatwoot (run ops st)).
Proof.
  revert st. induction ops as [|op ops IH]; intros st Hst; [exact Hst|].
  simpl. apply IH. destruct Hst as (Hn & Hl & Hnc & Hlc).
  destruct op; simpl; repeat split;
    try assumption;
    try (apply nonneg_add; assumption);
    try (apply live_add; assumption);
    try (apply nonneg_consume; assumption);
    try (apply live_consume; assumption);
    try (rewrite consumeChatwoot_snd; apply nonneg_consume; assumption);
    try (rewrite consumeChatwoot_snd; apply live_consume; assumption);
    empty_lookup.
Qed.

Lemma initial_wellformed :
  nonnegTickets (messageTickets initialStore) /\ liveTickets (messageTickets initialStore)
  /\ nonnegTickets (messageTicketsChatwoot initialStore)
  /\ liveTickets (messageTicketsChatwoot initialStore).
Proof.
  repeat split; simpl; empty_lookup.
Qed.

Lemma reachable_wellformed (ops : list Op) :
  nonnegTickets (messageTickets (run ops initialStore))
  /\ liveTickets (messageTickets (run ops initialStore))
  /\ nonnegTickets (messageTicketsChatwoot (run ops initialStore))
  /\ liveTickets (messageTicketsChatwoot (run ops initialStore)).
Proof. apply run_wellformed, initial_wellformed. Qed.

(** C3: in every store the operations reach, and for every recipient and
    kind, [add] followed by [consume] succeeds and leaves the counter of
    every pair of that map as it was, on the provider echo map (where the
    consume answers [true]) and on the helpdesk echo map (where it answers
    [false], the inverted encoding of a consumed credit); on any map that
    stores no counter for the pair, the provider [consume] answers [false]
    and the helpdesk [consume] answers [true], both leaving the map as it
    is. *)
Theorem add_consume_net_zero (ops : list Op) (phone : option string) (k : MessageType)
    (m : gmap (option string) (gmap MessageType Z))
    (Habsent : storedCounter m phone k = None) :
  let provider := messageTickets (run ops initialStore) in
  let helpdesk := messageTicketsChatwoot (run ops initialStore) in
  fst (consumeOutgoingTicket phone k (addOutgoingTicket phone k provider)) = true
  /\ (forall phone' k',
        ticketCount (snd (consumeOutgoingTicket phone k (addOutgoingTicket phone k provider)))
                    phone' k'
        = ticketCount provider phone' k')
  /\ fst (consumeOutgoingTicketChatwoot phone k (addOutgoingTicketChatwoot phone k helpdesk))
     = false
  /\ (forall phone' k',
        ticketCount
          (snd (consumeOutgoingTicketChatwoot phone k
                  (addOutgoingTicketChatwoot phone k helpdesk))) phone' k'
        = ticketCount helpdesk phone' k')
  /\ consumeOutgoingTicket phone k m = (false, m)
  /\ consumeOutgoingTicketChatwoot phone k m = (true, m).
Proof.
  intros provider helpdesk.
  destruct (reachable_wellformed ops) as (Hn & _ & Hnc & _).
  destruct (add_consume_counts phone k provider Hn) as [Hp1 Hp2].
  destruct (add_consume_counts phone k helpdesk Hnc) as [Hh1 Hh2].
  destruct (consume_absent phone k m Habsent) as [Ha1 Ha2].
  unfold addOutgoingTicket, addOutgoingTicketChatwoot.
  repeat split; try assumption.
  - rewrite consumeChatwoot_fst, Hh1. reflexivity.
  - intros phone' k'. rewrite consumeChatwoot_snd. apply Hh2.
Qed.

(** A concrete instance: a recipient holding one image credit has no text
    counter. *)
Lemma add_consume_net_zero_witness :
  let m : gmap (option string) (gmap MessageType Z) :=
    {[ Some "+5511999998888" := {[ IMAGE := 1 ]} ]} in
  consumeOutgoingTicket (Some "+5511999998888") TEXT m = (false, m)
  /\ consumeOutgoingTicketChatwoot (Some "+5511999998888") TEXT m = (true, m).
Proof.
  intros m.
  apply (add_consume_net_zero
           [OpAddOutgoingTicket (Some "+5511999998888") TEXT]
           (Some "+5511999998888") TEXT m).
  vm_compute. reflexivity.
Defined.

(** C6 (as stated, refuted): after add(text), add(image), consume(text) the
    recipient's text counter has dropped to zero and is still stored. *)
Lemma zero_counter_kept_counterexample :
  let st := run [OpAddOutgoingTicket (Some "+5511999998888") TEXT;
                 OpAddOutgoingTicket (Some "+5511999998888") IMAGE;
                 OpConsumeOutgoingTicket (Some "+5511999998888") TEXT] initialStore in
  storedCounter (messageTickets st) (Some "+5511999998888") TEXT = Some 0.
Proof. vm_compute. reflexivity. Qed.

(** C6 (amended): after any sequence of operations, on either map, every
    stored counter is non-negative and every stored recipient has a positive
    counter for at least one kind (a recipient whose kinds are all zero is
    not in the map). A kind whose counter dropped to zero may remain stored
    with value 0 under a recipient that still has another positive kind. *)
Theorem ledger_invariant (ops : list Op) (phone : option string)
    (phoneTickets : gmap MessageType Z)
    (Hstored : messageTickets (run ops initialStore) !! phone = Some phoneTickets
               \/ messageTicketsChatwoot (run ops initialStore) !! phone = Some phoneTickets) :
  (forall k c, phoneTickets !! k = Some c -> 0 <= c)
  /\ (exists k c, phoneTickets !! k = Some c /\ 0 < c).
Proof.
  destruct (reachable_wellformed ops) as (Hn & Hl & Hnc & Hlc).
  destruct Hstored as [H|H].
  - split; [intros k c; apply (Hn _ _ _ _ H) | apply (Hl _ _ H)].
  - split; [intros k c; apply (Hnc _ _ _ _ H) | apply (Hlc _ _ H)].
Qed.

Lemma ledger_invariant_witness :
  exists k c, ({[ TEXT := 0; IMAGE := 1 ]} : gmap MessageType Z) !! k = Some c /\ 0 < c.
Proof.
  apply (ledger_invariant
           [OpAddOutgoingTicket (Some "+5511999998888") TEXT;
            OpAddOutgoingTicket (Some "+5511999998888") IMAGE;
            OpConsumeOutgoingTicket (Some "+5511999998888") TEXT]
           (Some "+5511999998888") {[ TEXT := 0; IMAGE := 1 ]}).
  left. vm_compute. reflexivity.
Defined.

(** * The eviction timer *)

(** C4 (as stated, refuted): a helpdesk echo credit survives a firing. *)
Lemma cleanup_keeps_helpdesk_credits :
  let st := run [OpAddOutgoingTicketChatwoot (Some "+5511999998888") TEXT; OpCleanupFire]
                initialStore in
  ticketCount (messageTicketsChatwoot st) (Some "+5511999998888") TEXT = 1
  /\ messageTicketsChatwoot st <> ∅.
Proof.
  split; [vm_compute; reflexivity|].
  intros H. apply (f_equal (fun m => m !! Some "+5511999998888")) in H.
  vm_compute in H. discriminate.
Qed.

(** C4 (amended): every firing of the eviction task, which is scheduled
    five hours ahead, empties the mapping cache and the provider echo map
    ([messageTickets]); the helpdesk echo map ([messageTicketsChatwoot]) is
    left as it was. *)
Theorem cleanupFire_wipes (st : Store) :
  messageIdCache (cleanupFire st) = []
  /\ messageTickets (cleanupFire st) = ∅
  /\ messageTicketsChatwoot (cleanupFire st) = messageTicketsChatwoot st
  /\ cleanupDelayMs = 5 * (60 * 60 * 1000).
Proof. repeat split. Qed.

(** * The mapping cache *)

Lemma mapGet_In (k : string) (e : CacheEntry) (m : list (string * CacheEntry)) :
  mapGet k m = Some e -> In (k, e) m.
Proof.
  induction m as [|[k' e'] m IH]; simpl; [discriminate|].
  case_bool_decide; [intros [= <-]; subst; left; reflexivity | right; auto].
Qed.

Lemma In_mapGet (k : string) (e : CacheEntry) (m : list (string * CacheEntry)) :
  NoDup m.*1 -> In (k, e) m -> mapGet k m = Some e.
Proof.
  induction m as [|[k' e'] m IH]; simpl; [contradiction|].
  intros [Hnotin Hnd]%NoDup_cons [Heq|Hin].
  - inversion Heq; subst. rewrite bool_decide_eq_true_2; reflexivity.
  - case_bool_decide as Hk; [|auto].
    subst. exfalso. apply Hnotin. apply list_elem_of_fmap.
    exists (k, e). split; [reflexivity | apply list_elem_of_In, Hin].
Qed.

Lemma mapSet_keys (k : string) (v : CacheEntry) (m : list (string * CacheEntry)) :
  (mapSet k v m).*1 = if bool_decide (k ∈ m.*1) then m.*1 else (m.*1 ++ [k])%list.
Proof.
  induction m as [|[k' e'] m IH].
  - rewrite bool_decide_eq_false_2; [reflexivity | apply not_elem_of_nil].
  - cbn [mapSet]. destruct (decide (k' = k)) as [->|Hk].
    + rewrite (bool_decide_eq_true_2 (k = k)) by reflexivity.
      rewrite bool_decide_eq_true_2; [reflexivity | left].
    + rewrite (bool_decide_eq_false_2 (k' = k)) by assumption.
      rewrite !fmap_cons, IH. cbn [fst].
      destruct (decide (k ∈ m.*1)) as [Hin|Hin].
      * rewrite (bool_decide_eq_true_2 _ Hin).
        rewrite bool_decide_eq_true_2; [reflexivity | right; assumption].
      * rewrite (bool_decide_eq_false_2 _ Hin).
        rewrite bool_decide_eq_false_2; [reflexivity|].
        intros [?|?]%elem_of_cons; [congruence | contradiction].
Qed.

Lemma mapSet_NoDup (k : string) (v : CacheEntry) (m : list (string * CacheEntry)) :
  NoDup m.*1 -> NoDup (mapSet k v m).*1.
Proof.
  intros Hnd. rewrite mapSet_keys. case_bool_decide as Hin; [assumption|].
  apply NoDup_app. split; [assumption|]. split.
  - intros x Hx [->|[]%elem_of_nil]%elem_of_cons. contradiction.
  - apply NoDup_singleton.
Qed.

Lemma mapGet_mapSet (k k' : string) (v : CacheEntry) (m : list (string * CacheEntry)) :
  mapGet k' (mapSet k v m) = if bool_decide (k = k') then Some v else mapGet k' m.
Proof.
  induction m as [|[k0 e0] m IH]; simpl.
  - reflexivity.
  - destruct (decide (k0 = k)) as [->|Hk0].
    + rewrite (bool_decide_eq_true_2 (k = k)) by reflexivity. simpl.
      case_bool_decide; reflexivity.
    + rewrite (bool_decide_eq_false_2 (k0 = k)) by assumption. simpl. rewrite IH.
      repeat case_bool_decide; subst; try reflexivity; congruence.
Qed.

Lemma mapDelete_keys_subset (k k' : string) (m : list (string * CacheEntry)) :
  k' ∈ (mapDelete k m).*1 -> k' ∈ m.*1.
Proof.
  induction m as [|[k0 e0] m IH]; simpl; [auto|].
  case_bool_decide; simpl.
  - intros ?. right. assumption.
  - intros [->|?]%elem_of_cons; [left | right; auto].
Qed.

Lemma mapDelete_NoDup (k : string) (m : list (string * CacheEntry)) :
  NoDup m.*1 -> NoDup (mapDelete k m).*1.
Proof.
  induction m as [|[k0 e0] m IH]; simpl; [auto|].
  intros [Hnotin Hnd]%NoDup_cons. case_bool_decide; simpl; [assumption|].
  apply NoDup_cons. split; [|auto].
  intros Hin. apply Hnotin. eapply mapDelete_keys_subset, Hin.
Qed.

Lemma mapGet_None_keys (k : string) (m : list (string * CacheEntry)) :
  k ∉ m.*1 -> mapGet k m = None.
Proof.
  induction m as [|[k0 e0] m IH]; simpl; [reflexivity|].
  intros Hnotin. case_bool_decide as Hk.
  - subst. exfalso. apply Hnotin. left.
  - apply IH. intros Hin. apply Hnotin. right. assumption.
Qed.

Lemma mapGet_mapDelete (k k' : string) (m : list (string * CacheEntry)) :
  NoDup m.*1 ->
  mapGet k' (mapDelete k m) = if bool_decide (k = k') then None else mapGet k' m.
Proof.
  induction m as [|[k0 e0] m IH]; simpl.
  - intros _. case_bool_decide; reflexivity.
  - intros [Hnotin Hnd]%NoDup_cons.
    destruct (decide (k0 = k)) as [->|Hk0].
    + rewrite (bool_decide_eq_true_2 (k = k)) by reflexivity.
      case_bool_decide as Hk; [|reflexivity].
      subst. apply mapGet_None_keys, Hnotin.
    + rewrite (bool_decide_eq_false_2 (k0 = k)) by assumption. simpl.
      rewrite (IH Hnd). repeat case_bool_decide; subst; try reflexivity; congruence.
Qed.

(** The key set of the cache is duplicate-free in every reachable store. *)
Lemma run_cache_NoDup (ops : list Op) (st : Store) :
  NoDup (messageIdCache st).*1 -> NoDup (messageIdCache (run ops st)).*1.
Proof.
  revert st. induction ops as [|op ops IH]; intros st Hnd; [exact Hnd|].
  simpl. apply IH. destruct op; simpl; try assumption.
  - apply mapSet_NoDup, Hnd.
  - apply mapDelete_NoDup, Hnd.
  - apply NoDup_nil_2.
Qed.

Lemma reachable_cache_NoDup (ops : list Op) :
  NoDup (messageIdCache (run ops initialStore)).*1.
Proof. apply run_cache_NoDup. simpl. apply NoDup_nil_2. Qed.

(** The reverse lookup answers with an id that does carry the provider id,
    and answers [null] only if no entry carries it. *)
Lemma getChatwootMessageId_Some (p h : string) (m : list (string * CacheEntry)) :
  getChatwootMessageId p m = Some h -> exists e, In (h, e) m /\ apiMessageId e = p.
Proof.
  induction m as [|[k0 e0] m IH]; simpl; [discriminate|].
  case_bool_decide as Hp.
  - intros [= <-]. exists e0. split; [left; reflexivity | assumption].
  - intros H. destruct (IH H) as (e & Hin & He). exists e. split; [right|]; assumption.
Qed.

Lemma getChatwootMessageId_None (p : string) (m : list (string * CacheEntry)) :
  getChatwootMessageId p m = None -> forall h e, In (h, e) m -> apiMessageId e <> p.
Proof.
  induction m as [|[k0 e0] m IH]; simpl; [contradiction|].
  case_bool_decide as Hp; [discriminate|].
  intros H h e [Heq|Hin]; [inversion Heq; subst; assumption | eapply IH; eassumption].
Qed.

Lemma In_mapSet (k k' : string) (v e : CacheEntry) (m : list (string * CacheEntry)) :
  In (k', e) (mapSet k v m) -> (k' = k /\ e = v) \/ In (k', e) m.
Proof.
  induction m as [|[k0 e0] m IH]; cbn [mapSet].
  - intros [Heq|[]]. inversion Heq; subst. left; split; reflexivity.
  - case_bool_decide as Hk.
    + intros [Heq|Hin]; [inversion Heq; subst; left; split; reflexivity|].
      right. right. assumption.
    + intros [Heq|Hin]; [right; left; assumption|].
      destruct (IH Hin) as [?|?]; [left | right; right]; assumption.
Qed.

Lemma In_mapDelete (k k' : string) (e : CacheEntry) (m : list (string * CacheEntry)) :
  In (k', e) (mapDelete k m) -> In (k', e) m.
Proof.
  induction m as [|[k0 e0] m IH]; cbn [mapDelete]; [auto|].
  case_bool_decide; [intros ?; right; assumption|].
  intros [?|?]; [left | right; auto]; assumption.
Qed.

Lemma onlyUnder_spec (h p : string) (m : list (string * CacheEntry)) :
  onlyUnder h p m = true
  <-> forall h' e, In (h', e) m -> h' = h \/ apiMessageId e <> p.
Proof.
  unfold onlyUnder. rewrite forallb_forall. split.
  - intros H h' e Hin. specialize (H _ Hin). simpl in H.
    apply orb_true_iff in H as [H|H].
    + left. apply bool_decide_eq_true in H. assumption.
    + right. apply negb_true_iff, bool_decide_eq_false in H. assumption.
  - intros H [h' e] Hin. simpl. destruct (H _ _ Hin) as [->|Hne].
    + rewrite bool_decide_eq_true_2; reflexivity.
    + rewrite (bool_decide_eq_false_2 _ Hne). apply orb_true_r.
Qed.

Lemma mapped_step (h p : string) (op : Op) (st : Store) :
  leavesAlone h p op = true ->
  mapped h p (messageIdCache st) -> mapped h p (messageIdCache (step st op)).
Proof.
  intros Hop (Hnd & (e & Hget & He) & Honly).
  destruct op; simpl in *; try (repeat split; eauto; fail); try discriminate.
  - apply andb_true_iff in Hop as [Hh Hp].
    apply negb_true_iff, bool_decide_eq_false in Hh, Hp.
    unfold storeMessageIdMapping. split; [apply mapSet_NoDup, Hnd|]. split.
    + exists e. rewrite mapGet_mapSet, (bool_decide_eq_false_2 _ Hh). auto.
    + apply onlyUnder_spec. intros h' e' [[-> ->]|Hin]%In_mapSet.
      * right. simpl. assumption.
      * eapply onlyUnder_spec; eassumption.
  - apply negb_true_iff, bool_decide_eq_false in Hop.
    unfold removeMessageIdMapping. split; [apply mapDelete_NoDup, Hnd|]. split.
    + exists e. rewrite (mapGet_mapDelete _ _ _ Hnd), (bool_decide_eq_false_2 _ Hop). auto.
    + apply onlyUnder_spec. intros h' e' Hin%In_mapDelete.
      eapply onlyUnder_spec; eassumption.
Qed.

Lemma mapped_run (h p : string) (ops : list Op) (st : Store) :
  forallb (leavesAlone h p) ops = true ->
  mapped h p (messageIdCache st) -> mapped h p (messageIdCache (run ops st)).
Proof.
  revert st. induction ops as [|op ops IH]; intros st Hops Hm; [exact Hm|].
  simpl in Hops. apply andb_true_iff in Hops as [Hop Hops].
  simpl. apply IH; [assumption|]. apply mapped_step; assumption.
Qed.

Lemma mapped_lookups (h p : string) (m : list (string * CacheEntry)) :
  Js.truthy p = true -> mapped h p m ->
  getApiMessageId h m = Some p
  /\ getChatwootMessageId p m = Some h
  /\ getApiMessageId h (removeMessageIdMapping h m) = None
  /\ getChatwootMessageId p (removeMessageIdMapping h m) = None.
Proof.
  intros Hp (Hnd & (e & Hget & He) & Honly).
  pose proof (proj1 (onlyUnder_spec h p m) Honly) as Hu.
  assert (Hgone : mapGet h (mapDelete h m) = None).
  { rewrite (mapGet_mapDelete _ _ _ Hnd), bool_decide_eq_true_2; reflexivity. }
  repeat split.
  - unfold getApiMessageId. rewrite Hget. simpl. rewrite He, Hp. reflexivity.
  - destruct (getChatwootMessageId p m) as [h'|] eqn:Hrev.
    + destruct (getChatwootMessageId_Some _ _ _ Hrev) as (e' & Hin & He').
      destruct (Hu _ _ Hin) as [->|Hne]; [reflexivity | contradiction].
    + exfalso. eapply (getChatwootMessageId_None _ _ Hrev); [|exact He].
      apply mapGet_In, Hget.
  - unfold getApiMessageId, removeMessageIdMapping. rewrite Hgone. reflexivity.
  - unfold removeMessageIdMapping.
    destruct (getChatwootMessageId p (mapDelete h m)) as [h'|] eqn:Hrev; [|reflexivity].
    exfalso. destruct (getChatwootMessageId_Some _ _ _ Hrev) as (e' & Hin & He').
    destruct (Hu _ _ (In_mapDelete _ _ _ _ Hin)) as [->|Hne]; [|contradiction].
    rewrite (In_mapGet _ _ _ (mapDelete_NoDup _ _ Hnd) Hin) in Hgone. discriminate.
Qed.

(** C2 (as stated, refuted): when the provider id is already stored under
    an earlier helpdesk id, the reverse lookup after [store(h, p)] answers
    with that earlier id, and still does after [remove(h)]. *)
Lemma mapping_roundtrip_counterexample :
  let c := storeMessageIdMapping "43" "3EB0A1" None None None None
             (storeMessageIdMapping "42" "3EB0A1" None None None None []) in
  getApiMessageId "43" c = Some "3EB0A1"
  /\ getChatwootMessageId "3EB0A1" c = Some "42"
  /\ getChatwootMessageId "3EB0A1" c <> Some "43"
  /\ getChatwootMessageId "3EB0A1" (removeMessageIdMapping "43" c) <> None.
Proof. vm_compute. repeat split; discriminate. Qed.

(** C2 (amended): for a helpdesk id [h] (the key [String(h)]) and a
    non-empty provider id [p] that no other helpdesk id in the cache carries,
    after [storeMessageIdMapping(h, p)] and any further operations that
    neither store or remove [h], nor store [p] under another id, nor fire the
    eviction, [getApiMessageId(h)] returns [p] and [getChatwootMessageId(p)]
    returns [h]; after [removeMessageIdMapping(h)] both return [null]. *)
Theorem mapping_roundtrip (before others : list Op) (h p : string)
    (conv inbox prov integ : option string)
    (Hp : Js.truthy p = true)
    (Hunique : onlyUnder h p (messageIdCache (run before initialStore)) = true)
    (Hothers : forallb (leavesAlone h p) others = true) :
  let st := run others (step (run before initialStore)
                             (OpStoreMessageIdMapping h p conv inbox prov integ)) in
  getApiMessageId h (messageIdCache st) = Some p
  /\ getChatwootMessageId p (messageIdCache st) = Some h
  /\ getApiMessageId h (removeMessageIdMapping h (messageIdCache st)) = None
  /\ getChatwootMessageId p (removeMessageIdMapping h (messageIdCache st)) = None.
Proof.
  intros st. apply mapped_lookups; [assumption|].
  apply mapped_run; [assumption|].
  simpl. unfold storeMessageIdMapping. split; [|split].
  - apply mapSet_NoDup, reachable_cache_NoDup.
  - eexists. rewrite mapGet_mapSet, bool_decide_eq_true_2 by reflexivity.
    split; reflexivity.
  - apply onlyUnder_spec. intros h' e' [[-> ->]|Hin]%In_mapSet; [left; reflexivity|].
    eapply onlyUnder_spec; eassumption.
Qed.

Lemma mapping_roundtrip_witness :
  let st := run [OpStoreMessageIdMapping "44" "3EB0C3" None None None None;
                 OpRemoveMessageIdMapping "41"; OpGetChatwootMessageId "3EB0B2"]
              (step (run [OpStoreMessageIdMapping "41" "3EB0A1" None None None None]
                         initialStore)
                    (OpStoreMessageIdMapping "42" "3EB0B2" (Some "7") (Some "1")
                                             (Some "zapi") (Some "1"))) in
  getApiMessageId "42" (messageIdCache st) = Some "3EB0B2"
  /\ getChatwootMessageId "3EB0B2" (messageIdCache st) = Some "42"
  /\ getApiMessageId "42" (removeMessageIdMapping "42" (messageIdCache st)) = None
  /\ getChatwootMessageId "3EB0B2" (removeMessageIdMapping "42" (messageIdCache st)) = None.
Proof.
  apply (mapping_roundtrip
           [OpStoreMessageIdMapping "41" "3EB0A1" None None None None]
           [OpStoreMessageIdMapping "44" "3EB0C3" None None None None;
            OpRemoveMessageIdMapping "41"; OpGetChatwootMessageId "3EB0B2"]
           "42" "3EB0B2" (Some "7") (Some "1") (Some "zapi") (Some "1"));
    vm_compute; reflexivity.
Defined.




(** * Deleting at the provider *)

Lemma send_requests (http : WhatsApp.Request -> WhatsApp.HttpOutcome)
    (api : WhatsApp.Provider) (rq : WhatsApp.Request) :
  fst (WhatsApp.send http api rq) = [rq]
  /\ forall data, http rq = WhatsApp.HttpData data ->
       snd (WhatsApp.send http api rq) = WhatsApp.Deleted api data.
Proof.
  unfold WhatsApp.send. split.
  - destruct (http rq); reflexivity.
  - intros data ->. reflexivity.
Qed.

(** Z-API deletion either throws before sending or sends the one request
    built from the recipient. *)
Lemma deleteViaZAPI_cases (http : WhatsApp.Request -> WhatsApp.HttpOutcome)
    (messageId : string) (options : WhatsApp.DeleteOptions) :
  (Js.truthy_opt (WhatsApp.recipient options) = false
   /\ WhatsApp.deleteViaZAPI http messageId options
      = ([], WhatsApp.Threw (WhatsApp.Falha WhatsApp.zapi WhatsApp.RecipientRequired)))
  \/ (exists r, WhatsApp.recipient options = Some r /\ Js.truthy r = true
        /\ Js.truthy (zapiPhoneParam r) = false
        /\ WhatsApp.deleteViaZAPI http messageId options
           = ([], WhatsApp.Threw
                    (WhatsApp.Falha WhatsApp.zapi (WhatsApp.RecipientInvalid r))))
  \/ (exists r, WhatsApp.recipient options = Some r /\ Js.truthy r = true
        /\ Js.truthy (zapiPhoneParam r) = true
        /\ WhatsApp.deleteViaZAPI http messageId options
           = WhatsApp.send http WhatsApp.zapi
               (zapiDeleteRequest messageId r (WhatsApp.owner options))).
Proof.
  unfold WhatsApp.deleteViaZAPI.
  destruct (WhatsApp.recipient options) as [r|] eqn:Hrec; simpl;
    [|left; split; reflexivity].
  destruct (Js.truthy r) eqn:Hr; simpl; [|left; split; reflexivity].
  rewrite Hr. simpl. right.
  unfold zapiDeleteRequest, zapiPhoneParam, isGroupIdentifier.
  destruct (Js.endsWith r "@g.us") eqn:Hg; simpl.
  { right. exists r. rewrite Hg. simpl. repeat split; assumption. }
  destruct (Js.endsWith r "-group") eqn:Hz; simpl.
  { right. exists r. rewrite Hg, Hz. simpl. repeat split; assumption. }
  destruct (Js.truthy (Js.stripNonDigits r)) eqn:Hd; simpl.
  - right. exists r. rewrite Hg, Hz. simpl. repeat split; assumption.
  - left. exists r. rewrite Hg, Hz. simpl. repeat split; assumption.
Qed.

(** C9: whatever Z-API deletion sends is [DELETE /messages] with the query
    parameters [messageId], [phone] and [owner], where [phone] is the
    recipient verbatim when it ends with [@g.us] or [-group] and otherwise
    its digits only; and it does send exactly that request for a recipient
    whose [phone] parameter is not empty. With the recipient missing
    ([null], [undefined] or empty) Z-API deletion throws and sends nothing,
    whereas UAZAPI sends [POST /message/delete {id}] and Wuzapi sends
    [POST /chat/delete {MessageId}] whatever the options, and each returns
    the provider's answer. *)
Theorem deleteMessage_dialects (http : WhatsApp.Request -> WhatsApp.HttpOutcome)
    (messageId r : string) (own : option bool)
    (Hphone : Js.truthy (zapiPhoneParam r) = true) :
  fst (WhatsApp.deleteMessage WhatsApp.zapi http messageId
         {| WhatsApp.recipient := Some r; WhatsApp.owner := own |})
  = [zapiDeleteRequest messageId r own]
  /\ (forall data, http (zapiDeleteRequest messageId r own) = WhatsApp.HttpData data ->
        snd (WhatsApp.deleteMessage WhatsApp.zapi http messageId
               {| WhatsApp.recipient := Some r; WhatsApp.owner := own |})
        = WhatsApp.Deleted WhatsApp.zapi data)
  /\ (forall options rq,
        In rq (fst (WhatsApp.deleteMessage WhatsApp.zapi http messageId options)) ->
        exists r', WhatsApp.recipient options = Some r'
                   /\ rq = zapiDeleteRequest messageId r' (WhatsApp.owner options))
  /\ (forall options, Js.truthy_opt (WhatsApp.recipient options) = false ->
        WhatsApp.deleteMessage WhatsApp.zapi http messageId options
        = ([], WhatsApp.Threw (WhatsApp.Falha WhatsApp.zapi WhatsApp.RecipientRequired)))
  /\ (forall options,
        fst (WhatsApp.deleteMessage WhatsApp.uazapi http messageId options)
        = [uazapiDeleteRequest messageId]
        /\ fst (WhatsApp.deleteMessage WhatsApp.wuzapi http messageId options)
           = [wuzapiDeleteRequest messageId]
        /\ (forall data, http (uazapiDeleteRequest messageId) = WhatsApp.HttpData data ->
              snd (WhatsApp.deleteMessage WhatsApp.uazapi http messageId options)
              = WhatsApp.Deleted WhatsApp.uazapi data)
        /\ (forall data, http (wuzapiDeleteRequest messageId) = WhatsApp.HttpData data ->
              snd (WhatsApp.deleteMessage WhatsApp.wuzapi http messageId options)
              = WhatsApp.Deleted WhatsApp.wuzapi data)).
Proof.
  split; [|split; [|split; [|split]]].
  - destruct (deleteViaZAPI_cases http messageId
                {| WhatsApp.recipient := Some r; WhatsApp.owner := own |})
      as [[Hm _]|[(r' & Hr' & _ & Hd & _)|(r' & Hr' & _ & _ & Heq)]]; simpl in *.
    + destruct r; [vm_compute in Hphone|]; discriminate.
    + injection Hr' as <-. congruence.
    + injection Hr' as <-. rewrite Heq. apply send_requests.
  - intros data Hdata.
    destruct (deleteViaZAPI_cases http messageId
                {| WhatsApp.recipient := Some r; WhatsApp.owner := own |})
      as [[Hm _]|[(r' & Hr' & _ & Hd & _)|(r' & Hr' & _ & _ & Heq)]]; simpl in *.
    + destruct r; [vm_compute in Hphone|]; discriminate.
    + injection Hr' as <-. congruence.
    + injection Hr' as <-. rewrite Heq. apply send_requests, Hdata.
  - intros options rq. simpl.
    destruct (deleteViaZAPI_cases http messageId options)
      as [[_ Heq]|[(r' & _ & _ & _ & Heq)|(r' & Hr' & _ & _ & Heq)]];
      rewrite Heq; simpl; try contradiction.
    rewrite (proj1 (send_requests _ _ _)). intros [<-|[]].
    exists r'. split; [assumption|reflexivity].
  - intros options Hmissing. simpl.
    destruct (deleteViaZAPI_cases http messageId options)
      as [[_ Heq]|[(r' & Hr' & Ht & _)|(r' & Hr' & Ht & _)]]; [exact Heq| |];
      rewrite Hr' in Hmissing; simpl in Hmissing; congruence.
  - intros options. simpl.
    unfold WhatsApp.deleteViaUAZAPI, WhatsApp.deleteViaWuzapi.
    fold (uazapiDeleteRequest messageId). fold (wuzapiDeleteRequest messageId).
    repeat split; apply send_requests.
Qed.

Lemma deleteMessage_dialects_witness :
  fst (WhatsApp.deleteMessage WhatsApp.zapi (fun _ => WhatsApp.HttpData "ok") "3EB0A1"
         {| WhatsApp.recipient := Some "+55 (11) 99999-8888"; WhatsApp.owner := Some true |})
  = [ {| WhatsApp.method := WhatsApp.DELETE; WhatsApp.path := "/messages";
         WhatsApp.params :=
           [("messageId", WhatsApp.JStr "3EB0A1");
            ("phone", WhatsApp.JStr "5511999998888");
            ("owner", WhatsApp.JBool true)];
         WhatsApp.body := [] |} ].
Proof.
  apply (deleteMessage_dialects (fun _ => WhatsApp.HttpData "ok") "3EB0A1"
           "+55 (11) 99999-8888" (Some true)); vm_compute; reflexivity.
Defined.

(** * Group identifiers and contact creation *)

Lemma startsWithChars_app (p s : list ascii) :
  Js.startsWithChars p s = true -> exists t, s = (p ++ t)%list.
Proof.
  revert s. induction p as [|a p IH]; intros s; simpl.
  - intros _. exists s. reflexivity.
  - destruct s as [|b s]; [discriminate|].
    intros [Hab Hrest]%andb_true_iff. apply bool_decide_eq_true in Hab. subst.
    destruct (IH _ Hrest) as [t ->]. exists t. reflexivity.
Qed.

Lemma endsWith_chars (s suf : string) :
  Js.endsWith s suf = true -> exists l, Js.chars s = (l ++ Js.chars suf)%list.
Proof.
  unfold Js.endsWith. intros [t Ht]%startsWithChars_app.
  exists (List.rev t). apply (f_equal (@List.rev ascii)) in Ht.
  rewrite List.rev_involutive, List.rev_app_distr, List.rev_involutive in Ht.
  exact Ht.
Qed.

Lemma matchesE164_last_digit (s : string) :
  Phone.matchesE164 s = true ->
  exists l c, Js.chars s = (l ++ [c])%list /\ Js.isDigit c = true.
Proof.
  unfold Phone.matchesE164. destruct (Js.chars s) as [|plus [|d rest]]; try discriminate.
  intros H. repeat (apply andb_true_iff in H as [H ?]).
  destruct (exists_last (l := rest)) as (rest' & c & ->).
  { intros ->. simpl in *. discriminate. }
  exists (plus :: d :: rest'), c. split; [reflexivity|].
  match goal with Hall : forallb _ _ = true |- _ =>
    rewrite forallb_app in Hall; apply andb_true_iff in Hall as [_ Hc];
    simpl in Hc; rewrite andb_true_r in Hc; exact Hc
  end.
Qed.

(** No string ending in [@g.us] or [-group] matches the E.164 pattern. *)
Lemma group_identifier_not_e164 (s : string) :
  isGroupIdentifier s = true -> Phone.matchesE164 s = false.
Proof.
  intros Hg. destruct (Phone.matchesE164 s) eqn:He; [exfalso | reflexivity].
  destruct (matchesE164_last_digit _ He) as (l & c & Hs & Hc).
  apply orb_true_iff in Hg as [Hg|Hg]; apply endsWith_chars in Hg as [l' Hl'];
    rewrite Hs in Hl'; vm_compute (Js.chars _) in Hl'.
  - change (l ++ [c] = l' ++ ["@"; "g"; "."; "u"] ++ ["s"])%list%char in Hl'.
    rewrite app_assoc in Hl'. apply app_inj_tail in Hl' as [_ ->]. discriminate.
  - change (l ++ [c] = l' ++ ["-"; "g"; "r"; "o"; "u"] ++ ["p"])%list%char in Hl'.
    rewrite app_assoc in Hl'. apply app_inj_tail in Hl' as [_ ->]. discriminate.
Qed.

(** [createContact] sets [phone_number] exactly when the phone matches the
    E.164 pattern, and then to the phone itself. *)
Lemma createContact_phone_number (phone senderPhoto name lid jid : option string)
    (avatar : Chatwoot.AvatarOutcome) (post : Chatwoot.ContactPost) :
  Chatwoot.createContact phone senderPhoto name lid jid avatar = Some post ->
  Chatwoot.phone_number (Chatwoot.data post)
  = match phone with
    | Some p => if Phone.matchesE164 p then Some p else None
    | None => None
    end.
Proof.
  unfold Chatwoot.createContact.
  destruct (if Js.truthy_opt lid then _ else _) as [identifier|]; [|discriminate].
  assert (Hpn : match phone with
                | Some p => if Js.truthy p && Phone.matchesE164 p then Some p else None
                | None => None
                end
                = match phone with
                  | Some p => if Phone.matchesE164 p then Some p else None
                  | None => None
                  end).
  { destruct phone as [[|a p]|]; reflexivity. }
  destruct (Js.truthy_opt senderPhoto); [destruct avatar|];
    intros [= <-]; simpl; exact Hpn.
Qed.

Lemma isGroupIdentifier_truthy (s : string) :
  isGroupIdentifier s = true -> Js.truthy s = true.
Proof. destruct s; [vm_compute; discriminate | reflexivity]. Qed.

Lemma or_str_default_truthy (v : option string) (a : ascii) (d : string) :
  Js.truthy (Js.or_str v (String a d)) = true.
Proof. destruct v as [[|b s]|]; reflexivity. Qed.

Lemma or_else_truthy (s : string) (b : option string) :
  Js.truthy s = true -> Js.or_else (Some s) b = Some s.
Proof. intros H. unfold Js.or_else, Js.or_null. rewrite H. reflexivity. Qed.

Lemma createContact_group_identifier (ident : string)
    (senderPhoto name : option string) (avatar : Chatwoot.AvatarOutcome) :
  isGroupIdentifier ident = true ->
  exists post,
    Chatwoot.createContact (Some ident) senderPhoto name None None avatar = Some post
    /\ Chatwoot.identifier (Chatwoot.data post) = ident
    /\ Chatwoot.phone_number (Chatwoot.data post) = None.
Proof.
  intros Hident.
  pose proof (isGroupIdentifier_truthy _ Hident) as Htruthy.
  pose proof (group_identifier_not_e164 _ Hident) as Hnot.
  unfold Chatwoot.createContact. simpl. rewrite Htruthy, Hnot. simpl.
  destruct (Js.truthy_opt senderPhoto); [destruct avatar|];
    eexists; (split; [reflexivity|]); split; reflexivity.
Qed.

Lemma createContactFor_group_identifier (ident : string)
    (senderPhoto name groupName : option string) (isGroup : bool)
    (avatar : Chatwoot.AvatarOutcome) :
  isGroupIdentifier ident = true ->
  exists post,
    Chatwoot.createContactFor (Some ident) senderPhoto name None None isGroup groupName avatar
    = Some post
    /\ Chatwoot.identifier (Chatwoot.data post) = ident
    /\ Chatwoot.phone_number (Chatwoot.data post) = None.
Proof.
  intros Hident. unfold Chatwoot.createContactFor.
  destruct (isGroup && Js.truthy_opt groupName);
    apply createContact_group_identifier; assumption.
Qed.

(** C8 (as stated, refuted): a Z-API payload whose [phone] ends in
    [-group] but which is not flagged [isGroup] has its identifier run
    through [normalizeToE164], and the contact created for it carries a
    [phone_number]. *)
Lemma unflagged_group_identifier_is_normalized :
  let body :=
    {| WebhookConsumer.z_fromMe := false; WebhookConsumer.z_fromApi := false;
       WebhookConsumer.z_phone := Some "551199999888-group";
       WebhookConsumer.z_textMessage := Some "oi";
       WebhookConsumer.z_isGroup := false;
       WebhookConsumer.z_photo := None; WebhookConsumer.z_senderPhoto := None;
       WebhookConsumer.z_status := None; WebhookConsumer.z_messageId := Some "3EB0A1";
       WebhookConsumer.z_referenceMessageId := None; WebhookConsumer.z_isEdit := false;
       WebhookConsumer.z_editMessageId := None; WebhookConsumer.z_chatName := None;
       WebhookConsumer.z_senderName := None;
       WebhookConsumer.z_image := None; WebhookConsumer.z_audio := None;
       WebhookConsumer.z_document := None; WebhookConsumer.z_video := None |} in
  isGroupIdentifier "551199999888-group" = true
  /\ exists ev post,
       WebhookConsumer.extractZapiData body false "BR" = WebhookConsumer.Extracted ev
       /\ WebhookConsumer.phone ev = Some "+551199999888"
       /\ WebhookConsumer.phone ev
          = Phone.normalizeToE164 (Some "551199999888-group") "BR"
       /\ WebhookConsumer.contactForEvent ev Chatwoot.NoPhoto = Some post
       /\ Chatwoot.phone_number (Chatwoot.data post) = Some "+551199999888".
Proof.
  intros body. split; [vm_compute; reflexivity|].
  eexists. eexists. split; [vm_compute; reflexivity|].
  repeat split; vm_compute; reflexivity.
Qed.

(** C8 (amended): for every Z-API or UAZAPI event that the payload flags
    as a group ([isGroup]) and that is not dropped by the ignore-groups
    policy, the payload's group identifier (the Z-API [phone], the UAZAPI
    [chat.wa_chatid]) becomes the contact identifier verbatim, without
    passing through E.164 normalization; and when that identifier ends in
    [@g.us] or [-group] the contact created for it carries no
    [phone_number]. In general [createContact] attaches [phone_number] only
    when the phone matches [^\+[1-9]\d{1,14}$], which no string ending in
    [@g.us] or [-group] does. *)
Theorem group_event_identifier_verbatim
    (zbody : WebhookConsumer.ZapiBody) (ubody : WebhookConsumer.UazapiBody)
    (message : WebhookConsumer.UazapiMessage) (defaultCountry zident uident : string)
    (Hzident : isGroupIdentifier zident = true)
    (Hzgroup : WebhookConsumer.z_isGroup zbody = true)
    (Hzphone : WebhookConsumer.z_phone zbody = Some zident)
    (Huident : isGroupIdentifier uident = true)
    (Humessage : WebhookConsumer.u_message ubody = Some message)
    (Hugroup : WebhookConsumer.m_isGroup message = true)
    (Huchat : WebhookConsumer.u_chat_wa_chatid ubody = Some uident) :
  (exists ev,
     WebhookConsumer.extractZapiData zbody false defaultCountry
     = WebhookConsumer.Extracted ev
     /\ WebhookConsumer.phone ev = Some zident
     /\ forall avatar, exists post,
          WebhookConsumer.contactForEvent ev avatar = Some post
          /\ Chatwoot.identifier (Chatwoot.data post) = zident
          /\ Chatwoot.phone_number (Chatwoot.data post) = None)
  /\ (exists ev,
        WebhookConsumer.extractUazapiData ubody false defaultCountry
        = WebhookConsumer.Extracted ev
        /\ WebhookConsumer.phone ev = Some uident
        /\ forall avatar, exists post,
             WebhookConsumer.contactForEvent ev avatar = Some post
             /\ Chatwoot.identifier (Chatwoot.data post) = uident
             /\ Chatwoot.phone_number (Chatwoot.data post) = None)
  /\ (forall phone senderPhoto name lid jid avatar post x,
        Chatwoot.createContact phone senderPhoto name lid jid avatar = Some post ->
        Chatwoot.phone_number (Chatwoot.data post) = Some x ->
        phone = Some x /\ Phone.matchesE164 x = true /\ isGroupIdentifier x = false).
Proof.
  pose proof (isGroupIdentifier_truthy _ Hzident) as Hztruthy.
  pose proof (isGroupIdentifier_truthy _ Huident) as Hutruthy.
  split; [|split].
  - unfold WebhookConsumer.extractZapiData. rewrite Hzgroup, Hzphone. simpl.
    eexists. split; [reflexivity|]. simpl.
    rewrite ?(or_else_truthy zident) by assumption.
    split; [reflexivity|]. intros avatar.
    unfold WebhookConsumer.contactForEvent. simpl.
    rewrite ?(or_else_truthy zident) by assumption.
    apply createContactFor_group_identifier, Hzident.
  - unfold WebhookConsumer.extractUazapiData. rewrite Humessage, Hugroup, Huchat. simpl.
    rewrite ?(or_else_truthy uident) by assumption.
    eexists. split; [reflexivity|]. simpl.
    split; [reflexivity|]. intros avatar.
    unfold WebhookConsumer.contactForEvent. simpl.
    apply createContactFor_group_identifier, Huident.
  - intros phone senderPhoto name lid jid avatar post x Hpost Hx.
    rewrite (createContact_phone_number _ _ _ _ _ _ _ Hpost) in Hx.
    destruct phone as [p|]; [|discriminate].
    destruct (Phone.matchesE164 p) eqn:Hm; [|discriminate].
    injection Hx as ->. repeat split; [assumption|].
    destruct (isGroupIdentifier x) eqn:Hg; [|reflexivity].
    rewrite (group_identifier_not_e164 _ Hg) in Hm. discriminate.
Qed.

Lemma group_event_identifier_verbatim_witness :
  exists ev,
    WebhookConsumer.extractZapiData
      {| WebhookConsumer.z_fromMe := false; WebhookConsumer.z_fromApi := false;
         WebhookConsumer.z_phone := Some "120363407124580783-group";
         WebhookConsumer.z_textMessage := Some "oi";
         WebhookConsumer.z_isGroup := true;
         WebhookConsumer.z_photo := None; WebhookConsumer.z_senderPhoto := None;
         WebhookConsumer.z_status := None; WebhookConsumer.z_messageId := Some "3EB0A1";
         WebhookConsumer.z_referenceMessageId := None; WebhookConsumer.z_isEdit := false;
         WebhookConsumer.z_editMessageId := None;
         WebhookConsumer.z_chatName := Some "Suporte";
         WebhookConsumer.z_senderName := Some "Ana";
         WebhookConsumer.z_image := None; WebhookConsumer.z_audio := None;
         WebhookConsumer.z_document := None; WebhookConsumer.z_video := None |}
      false "BR" = WebhookConsumer.Extracted ev
    /\ WebhookConsumer.phone ev = Some "120363407124580783-group".
Proof.
  pose (message :=
    {| WebhookConsumer.m_contentText := Some "oi"; WebhookConsumer.m_text := None;
       WebhookConsumer.m_fromMe := false;
       WebhookConsumer.m_sender := Some "5511999998888@s.whatsapp.net";
       WebhookConsumer.m_chatid := Some "120363378985956346@g.us";
       WebhookConsumer.m_senderName := Some "Ana"; WebhookConsumer.m_isGroup := true;
       WebhookConsumer.m_groupName := Some "Suporte";
       WebhookConsumer.m_messageid := Some "3EB0A1"; WebhookConsumer.m_id := None;
       WebhookConsumer.m_status := None; WebhookConsumer.m_wasSentByApi := false;
       WebhookConsumer.m_stanzaID := None; WebhookConsumer.m_edited := None;
       WebhookConsumer.m_editMessageId := None; WebhookConsumer.m_mediaType := None;
       WebhookConsumer.m_messageType := None; WebhookConsumer.m_contentURL := None;
       WebhookConsumer.m_senderProfilePic := None |}).
  destruct (group_event_identifier_verbatim
              {| WebhookConsumer.z_fromMe := false; WebhookConsumer.z_fromApi := false;
                 WebhookConsumer.z_phone := Some "120363407124580783-group";
                 WebhookConsumer.z_textMessage := Some "oi";
                 WebhookConsumer.z_isGroup := true;
                 WebhookConsumer.z_photo := None; WebhookConsumer.z_senderPhoto := None;
                 WebhookConsumer.z_status := None;
                 WebhookConsumer.z_messageId := Some "3EB0A1";
                 WebhookConsumer.z_referenceMessageId := None;
                 WebhookConsumer.z_isEdit := false;
                 WebhookConsumer.z_editMessageId := None;
                 WebhookConsumer.z_chatName := Some "Suporte";
                 WebhookConsumer.z_senderName := Some "Ana";
                 WebhookConsumer.z_image := None; WebhookConsumer.z_audio := None;
                 WebhookConsumer.z_document := None; WebhookConsumer.z_video := None |}
              {| WebhookConsumer.u_message := Some message;
                 WebhookConsumer.u_chat_name := Some "Suporte";
                 WebhookConsumer.u_chat_wa_name := None;
                 WebhookConsumer.u_chat_wa_contactName := None;
                 WebhookConsumer.u_chat_wa_chatid := Some "120363378985956346@g.us";
                 WebhookConsumer.u_chat_imagePreview := None;
                 WebhookConsumer.u_chat_image := None;
                 WebhookConsumer.u_chat_thumbnail := None;
                 WebhookConsumer.u_name := None; WebhookConsumer.u_imagePreview := None;
                 WebhookConsumer.u_image := None |}
              message "BR" "120363407124580783-group" "120363378985956346@g.us"
              ltac:(vm_compute; reflexivity) ltac:(reflexivity) ltac:(reflexivity)
              ltac:(vm_compute; reflexivity) ltac:(reflexivity) ltac:(reflexivity)
              ltac:(reflexivity))
    as [(ev & Hev & Hph & _) _].
  exists ev. split; assumption.
Defined.

(** * The provider's echo of an API-sent message *)

(** A successful [consume] lowers the pair's counter by one. *)
Lemma consume_count_pred (phone : option string) (k : MessageType)
    (m : gmap (option string) (gmap MessageType Z)) :
  0 < ticketCount m phone k ->
  ticketCount (snd (consumeOutgoingTicket phone k m)) phone k = ticketCount m phone k - 1.
Proof.
  unfold ticketCount, consumeOutgoingTicket.
  destruct (m !! phone) as [obj|] eqn:Hm; [|simpl; rewrite Hm; lia].
  intros Hpos. destruct (Z.ltb_spec 0 (ticketsOf obj k)) as [_|]; [|lia].
  destruct (hasAnyTickets _) eqn:Hany; simpl.
  - rewrite lookup_insert_eq, ticketsOf_default, lookup_insert_eq. reflexivity.
  - rewrite lookup_delete_eq.
    pose proof (hasAnyTickets_false _ Hany k _ (lookup_insert_eq _ _ _)). lia.
Qed.

Lemma consume_unchanged (phone : option string) (k : MessageType)
    (m : gmap (option string) (gmap MessageType Z)) :
  ticketCount m phone k <= 0 -> snd (consumeOutgoingTicket phone k m) = m.
Proof.
  unfold ticketCount, consumeOutgoingTicket.
  destruct (m !! phone) as [obj|]; [|reflexivity].
  intros Hle. destruct (Z.ltb_spec 0 (ticketsOf obj k)); [lia | reflexivity].
Qed.

(** C1 (as stated, refuted): with a helpdesk credit for the pair the echo
    is skipped (nothing is posted, the provider map gets no credit); without
    one it is posted as outgoing and the provider map is pre-credited. *)
Lemma api_echo_counterexample :
  let ev :=
    {| WebhookConsumer.phone := Some "+5511999998888"; WebhookConsumer.lid := None;
       WebhookConsumer.jid := None; WebhookConsumer.text := "hi";
       WebhookConsumer.name := None; WebhookConsumer.senderPhoto := None;
       WebhookConsumer.image := None; WebhookConsumer.audio := None;
       WebhookConsumer.document := None; WebhookConsumer.video := None;
       WebhookConsumer.isGroup := false; WebhookConsumer.fromMe := true;
       WebhookConsumer.status := None; WebhookConsumer.fromApi := true;
       WebhookConsumer.messageId := Some "3EB0A1"; WebhookConsumer.replyId := None;
       WebhookConsumer.origin := "zapi"; WebhookConsumer.groupName := None;
       WebhookConsumer.senderName := None; WebhookConsumer.editedMessageId := None |} in
  let integration :=
    {| WebhookConsumer.integrationId := "1"; WebhookConsumer.inboxId := Some "7";
       WebhookConsumer.accountId := Some "1";
       WebhookConsumer.whatsappProvider := WhatsApp.zapi |} in
  let credited :=
    run [OpAddOutgoingTicketChatwoot (Some "+5511999998888") TEXT] initialStore in
  let answer := Chatwoot.Created (Some "101") "55" in
  let with_credit := WebhookConsumer.processExtracted integration ev answer credited in
  let without_credit := WebhookConsumer.processExtracted integration ev answer initialStore in
  ticketCount (messageTicketsChatwoot credited) (Some "+5511999998888") TEXT = 1
  /\ snd (fst with_credit) = []
  /\ ticketCount (messageTickets (fst (fst with_credit))) (Some "+5511999998888") TEXT = 0
  /\ ticketCount (messageTicketsChatwoot initialStore) (Some "+5511999998888") TEXT = 0
  /\ Chatwoot.direction <$> snd (fst without_credit) = [Chatwoot.outgoing]
  /\ ticketCount (messageTickets (fst (fst without_credit))) (Some "+5511999998888") TEXT = 1.
Proof. vm_compute. repeat split. Qed.

(** What the helpdesk send functions request. *)
Lemma imageAttempts_shape (remaining : nat) (dir : Chatwoot.Direction)
    (phone : option string) (content : string) (image : Chatwoot.Media)
    (outcome : Chatwoot.Outcome) (n d : nat) :
  let '(posts, r) :=
    Chatwoot.imageAttempts remaining dir phone content image outcome n d in
  Forall (fun post => Chatwoot.direction post = dir /\ Chatwoot.toPhone post = phone)
    posts
  /\ (length posts <= S remaining)%nat
  /\ (remaining <> 0%nat -> posts <> []).
Proof.
  revert n d. induction remaining as [|remaining IH]; intros n d.
  { simpl. split; [constructor|]. split; [lia | congruence]. }
  cbn [Chatwoot.imageAttempts]. cbv zeta.
  destruct (Chatwoot.mediaSource image);
    try destruct (Chatwoot.o_download outcome d);
    cbn [Chatwoot.sendMessage];
    try destruct (Chatwoot.o_post outcome n) as [id payloadId| |];
    try destruct (Js.truthy_opt id || payloadId);
    first
      [ split; [repeat constructor|]; split; [simpl; lia | discriminate]
      | destruct remaining as [|remaining'];
        [ cbn [Chatwoot.sendMessage app];
          split; [repeat constructor|]; split; [simpl; lia | discriminate]
        | match goal with
          | |- context [Chatwoot.imageAttempts ?r ?a ?b ?c ?i ?o ?n' ?d'] =>
            specialize (IH n' d');
            destruct (Chatwoot.imageAttempts r a b c i o n' d') as [more r0]
          end;
          destruct IH as (Hmore & Hmlen & Hne);
          split; [apply Forall_app; split; [repeat constructor | exact Hmore]|];
          split; [rewrite length_app; simpl in *; lia|];
          intros _ Happ; apply app_eq_nil in Happ as [Hp Hnil];
          first [discriminate Hp | apply Hne; [lia | exact Hnil]] ] ].
Qed.

Lemma sendWithFallback_shape (kind : MessageType)
    (uploaded missing fallback : Chatwoot.Body) (dir : Chatwoot.Direction)
    (phone : option string) (content : string) (media : Chatwoot.Media)
    (outcome : Chatwoot.Outcome) :
  let '(posts, r) :=
    Chatwoot.sendWithFallback kind uploaded missing fallback dir phone content media
      outcome in
  Forall (fun post => Chatwoot.direction post = dir /\ Chatwoot.toPhone post = phone)
    posts
  /\ (length posts <= 2)%nat
  /\ posts <> [].
Proof.
  unfold Chatwoot.sendWithFallback, Chatwoot.sendMessage, Chatwoot.mediaPost.
  destruct (Chatwoot.mediaSource media);
    try destruct (Chatwoot.o_download outcome 0);
    try destruct (Chatwoot.o_post outcome 0);
    cbn; (split; [repeat constructor|]); (split; [lia | discriminate]).
Qed.

Lemma principalMessageType_TEXT (ev : WebhookConsumer.ExtractedData) :
  WebhookConsumer.principalMessageType ev = TEXT ->
  WebhookConsumer.image ev = None /\ WebhookConsumer.audio ev = None
  /\ WebhookConsumer.document ev = None /\ WebhookConsumer.video ev = None.
Proof.
  unfold WebhookConsumer.principalMessageType.
  destruct (WebhookConsumer.image ev); [discriminate|].
  destruct (WebhookConsumer.audio ev); [discriminate|].
  destruct (WebhookConsumer.video ev); [discriminate|].
  destruct (WebhookConsumer.document ev); [discriminate|]. auto.
Qed.

(** What one [process...Message] call requests and returns: every POST has
    the call's direction and contact; there are at most four of them and at
    least one when the call returns; the cache is only touched by a call
    that returns; and a call without media makes the one request of
    [sendMessage]. *)
Lemma processMessage_shape (dir : Chatwoot.Direction) (inboxId accountId : option string)
    (phone : option string) (content : string)
    (image audio document video : option Chatwoot.Media)
    (origin messageId replyId : option string)
    (outcome : Chatwoot.Outcome) (cache : list (string * CacheEntry)) :
  let '(posts, r, cache') :=
    Chatwoot.processMessage dir inboxId accountId phone content image audio document
      video origin messageId replyId outcome cache in
  Forall (fun post => Chatwoot.direction post = dir /\ Chatwoot.toPhone post = phone)
    posts
  /\ (length posts <= 4)%nat
  /\ match r with
     | None => cache' = cache
     | Some _ => posts <> []
     end
  /\ (image = None -> audio = None -> document = None -> video = None ->
      (length posts <= 1)%nat
      /\ (Js.truthy_opt inboxId = true ->
          forall conversationId,
            Chatwoot.o_conversation outcome = Some conversationId ->
            posts = [ {| Chatwoot.direction := dir; Chatwoot.toPhone := phone;
                         Chatwoot.content := Chatwoot.Text content;
                         Chatwoot.attachment := None;
                         Chatwoot.in_reply_to := Js.or_null replyId |} ]
            /\ r = match Chatwoot.o_post outcome 0 with
                   | Chatwoot.Answered id _ => Some id
                   | Chatwoot.AnsweredEmpty => Some None
                   | Chatwoot.PostThrows => None
                   end)).
Proof.
  unfold Chatwoot.processMessage.
  destruct (Js.truthy_opt inboxId); cbn [negb].
  2:{ split; [constructor|]. split; [simpl; lia|]. split; [reflexivity|].
      intros _ _ _ _. split; [simpl; lia | discriminate]. }
  destruct (Chatwoot.o_conversation outcome) as [conversationId|].
  2:{ split; [constructor|]. split; [simpl; lia|]. split; [reflexivity|].
      intros _ _ _ _. split; [simpl; lia | discriminate]. }
  destruct video as [video|].
  { pose proof (sendWithFallback_shape VIDEO
      (Chatwoot.Template "Vídeo de " Chatwoot.seconds "s recebido")
      (Chatwoot.Template "Vídeo de " Chatwoot.seconds "s recebido sem URL ou Base 64")
      (Chatwoot.Template "Vídeo de " Chatwoot.seconds "s recebido")
      dir phone content video outcome) as H.
    unfold Chatwoot.sendMessageWithVideo.
    destruct (Chatwoot.sendWithFallback _ _ _ _ _ _ _ _ _) as [posts [mid|]];
      destruct H as (Hall & Hlen & Hne);
      (split; [exact Hall|]); (split; [lia|]);
      (split; [first [exact Hne | reflexivity]|]); discriminate. }
  destruct document as [document|].
  { pose proof (sendWithFallback_shape DOCUMENT
      (Chatwoot.Template "Documento de " Chatwoot.fileName "")
      (Chatwoot.Template "Documento de " Chatwoot.fileName " recebido sem URL ou Base 64")
      (Chatwoot.Template "Documento de " Chatwoot.fileName " recebido")
      dir phone content document outcome) as H.
    unfold Chatwoot.sendMessageWithDocument.
    destruct (Chatwoot.sendWithFallback _ _ _ _ _ _ _ _ _) as [posts [mid|]];
      destruct H as (Hall & Hlen & Hne);
      (split; [exact Hall|]); (split; [lia|]);
      (split; [first [exact Hne | reflexivity]|]); discriminate. }
  destruct audio as [audio|].
  { pose proof (sendWithFallback_shape AUDIO
      (Chatwoot.Template "Áudio de " Chatwoot.seconds "s")
      (Chatwoot.Template "Áudio de " Chatwoot.seconds "s recebido sem URL ou Base 64")
      (Chatwoot.Template "Áudio de " Chatwoot.seconds "s recebido")
      dir phone content audio outcome) as H.
    unfold Chatwoot.sendMessageWithAudio.
    destruct (Chatwoot.sendWithFallback _ _ _ _ _ _ _ _ _) as [posts [mid|]];
      destruct H as (Hall & Hlen & Hne);
      (split; [exact Hall|]); (split; [lia|]);
      (split; [first [exact Hne | reflexivity]|]); discriminate. }
  destruct image as [image|].
  { pose proof (imageAttempts_shape 3 dir phone content image outcome 0 0) as H.
    unfold Chatwoot.sendMessageWithImage.
    destruct (Chatwoot.imageAttempts _ _ _ _ _ _ _ _) as [posts [mid|]];
      destruct H as (Hall & Hlen & Hne);
      (split; [exact Hall|]); (split; [lia|]);
      (split; [first [apply Hne; lia | reflexivity]|]); discriminate. }
  unfold Chatwoot.sendMessage.
  destruct (Chatwoot.o_post outcome 0) as [id payloadId| |];
    (split; [repeat constructor|]); (split; [simpl; lia|]);
    (split; [first [discriminate | reflexivity]|]);
    intros _ _ _ _; (split; [simpl; lia|]); intros _ c _; split; reflexivity.
Qed.

(** The call [processOutgoingMessage] of both agent branches: the credit
    maps are not touched, and the requests are those of the helpdesk call. *)
Lemma callProcessOutgoing_shape (integration : WebhookConsumer.Integration)
    (ev : WebhookConsumer.ExtractedData) (cw : Chatwoot.Outcome) (st : Store) :
  let '(posts, r, st') := WebhookConsumer.callProcessOutgoing integration ev cw st in
  messageTickets st' = messageTickets st
  /\ messageTicketsChatwoot st' = messageTicketsChatwoot st
  /\ Forall (fun post => Chatwoot.direction post = Chatwoot.outgoing
                         /\ Chatwoot.toPhone post = WebhookConsumer.phone ev) posts
  /\ (length posts <= 4)%nat
  /\ match r with
     | None => messageIdCache st' = messageIdCache st
     | Some _ => posts <> []
     end
  /\ (WebhookConsumer.principalMessageType ev = TEXT ->
      (length posts <= 1)%nat
      /\ (Js.truthy_opt (WebhookConsumer.inboxId integration) = true ->
          forall conversationId,
            Chatwoot.o_conversation cw = Some conversationId ->
            posts = [ {| Chatwoot.direction := Chatwoot.outgoing;
                         Chatwoot.toPhone := WebhookConsumer.phone ev;
                         Chatwoot.content := Chatwoot.Text (WebhookConsumer.text ev);
                         Chatwoot.attachment := None;
                         Chatwoot.in_reply_to := None |} ]
            /\ r = match Chatwoot.o_post cw 0 with
                   | Chatwoot.Answered id _ => Some id
                   | Chatwoot.AnsweredEmpty => Some None
                   | Chatwoot.PostThrows => None
                   end)).
Proof.
  unfold WebhookConsumer.callProcessOutgoing, Chatwoot.processOutgoingMessage.
  pose proof (processMessage_shape Chatwoot.outgoing
    (WebhookConsumer.inboxId integration) (WebhookConsumer.accountId integration)
    (WebhookConsumer.phone ev) (WebhookConsumer.text ev) (WebhookConsumer.image ev)
    (WebhookConsumer.audio ev) (WebhookConsumer.document ev) (WebhookConsumer.video ev)
    (Some (WebhookConsumer.origin ev)) (WebhookConsumer.messageId ev) None cw
    (messageIdCache st)) as H.
  destruct (Chatwoot.processMessage _ _ _ _ _ _ _ _ _ _ _ _ _ _) as [[posts r] cache].
  destruct H as (Hall & Hlen & Hr & Htext).
  cbn [WebhookConsumer.withCache messageTickets messageTicketsChatwoot messageIdCache].
  split; [reflexivity|]. split; [reflexivity|]. split; [exact Hall|].
  split; [exact Hlen|]. split; [exact Hr|].
  intros Hk. destruct (principalMessageType_TEXT ev Hk) as (Hi & Ha & Hd & Hv).
  exact (Htext Hi Ha Hd Hv).
Qed.

(** C1 (amended): for every provider event with [fromMe] and [fromApi]
    set that carries something to process (a recipient, a text or a medium),
    the processor consumes one credit from the helpdesk echo map for
    (recipient, kind). If a credit existed, the event is the echo of a send
    the bridge made itself: it is skipped, nothing is posted and the provider
    echo map is untouched. If no credit existed, the processor pre-credits
    the provider echo map and calls the helpdesk to post the message as
    outgoing: every request of that call is outgoing and addressed to the
    recipient, there are at most four of them (the retries and the text
    fallback of a media message) and at least one when the call returns; when
    the call fails the pre-credit is taken back. For an event without media,
    once the inbox is configured and the conversation found, the call is
    the one request carrying the event's text. *)
Theorem api_echo_classification (integration : WebhookConsumer.Integration)
    (ev : WebhookConsumer.ExtractedData) (cw : Chatwoot.Outcome) (st : Store)
    (HfromMe : WebhookConsumer.fromMe ev = true)
    (HfromApi : WebhookConsumer.fromApi ev = true)
    (Hsome : WebhookConsumer.nothingToProcess ev = false) :
  let phone := WebhookConsumer.phone ev in
  let k := WebhookConsumer.principalMessageType ev in
  let credit := ticketCount (messageTicketsChatwoot st) phone k in
  let out := WebhookConsumer.processExtracted integration ev cw st in
  messageTicketsChatwoot (fst (fst out))
  = snd (consumeOutgoingTicketChatwoot phone k (messageTicketsChatwoot st))
  /\ (0 < credit ->
        snd (fst out) = []
        /\ snd out = WebhookConsumer.Processed None
        /\ messageTickets (fst (fst out)) = messageTickets st
        /\ messageIdCache (fst (fst out)) = messageIdCache st
        /\ ticketCount (messageTicketsChatwoot (fst (fst out))) phone k = credit - 1)
  /\ (credit <= 0 ->
        messageTicketsChatwoot (fst (fst out)) = messageTicketsChatwoot st
        /\ Forall (fun post => Chatwoot.direction post = Chatwoot.outgoing
                               /\ Chatwoot.toPhone post = phone) (snd (fst out))
        /\ (length (snd (fst out)) <= 4)%nat
        /\ match snd out with
           | WebhookConsumer.Processed (Some _) =>
             snd (fst out) <> []
             /\ messageTickets (fst (fst out))
                = addOutgoingTicket phone k (messageTickets st)
           | WebhookConsumer.PrincipalThrows =>
             messageTickets (fst (fst out))
             = snd (consumeOutgoingTicket phone k
                      (addOutgoingTicket phone k (messageTickets st)))
             /\ messageIdCache (fst (fst out)) = messageIdCache st
           | _ => False
           end
        /\ (k = TEXT ->
            Js.truthy_opt (WebhookConsumer.inboxId integration) = true ->
            forall conversationId,
              Chatwoot.o_conversation cw = Some conversationId ->
              snd (fst out)
              = [ {| Chatwoot.direction := Chatwoot.outgoing;
                     Chatwoot.toPhone := phone;
                     Chatwoot.content := Chatwoot.Text (WebhookConsumer.text ev);
                     Chatwoot.attachment := None;
                     Chatwoot.in_reply_to := None |} ]
              /\ snd out
                 = match Chatwoot.o_post cw 0 with
                   | Chatwoot.Answered id _ => WebhookConsumer.Processed (Some id)
                   | Chatwoot.AnsweredEmpty => WebhookConsumer.Processed (Some None)
                   | Chatwoot.PostThrows => WebhookConsumer.PrincipalThrows
                   end)).
Proof.
  intros phone k credit out. subst out.
  unfold WebhookConsumer.processExtracted. rewrite Hsome, HfromMe, HfromApi.
  cbn [andb negb]. cbv zeta. fold phone. fold k.
  pose proof (consumeChatwoot_fst phone k (messageTicketsChatwoot st)) as Hfst.
  pose proof (consumeChatwoot_snd phone k (messageTicketsChatwoot st)) as Hsnd.
  rewrite consume_fst_count in Hfst. fold credit in Hfst.
  destruct (consumeOutgoingTicketChatwoot phone k (messageTicketsChatwoot st))
    as [proceed tc] eqn:Hconsume.
  cbn [fst snd] in Hfst, Hsnd. subst proceed tc.
  destruct (Z.ltb_spec 0 credit) as [Hpos|Hle]; cbn [negb].
  - cbn [fst snd WebhookConsumer.withTicketsChatwoot messageTickets
         messageTicketsChatwoot messageIdCache].
    split; [reflexivity|]. split; [|intros; lia].
    intros _. repeat split. apply consume_count_pred. exact Hpos.
  - assert (Hsame : snd (consumeOutgoingTicket phone k (messageTicketsChatwoot st))
                    = messageTicketsChatwoot st) by (apply consume_unchanged; exact Hle).
    match goal with
    | |- context [WebhookConsumer.callProcessOutgoing integration ev cw ?s] =>
      pose proof (callProcessOutgoing_shape integration ev cw s) as H;
      destruct (WebhookConsumer.callProcessOutgoing integration ev cw s)
        as [[posts r] st1]
    end.
    destruct H as (Ht & Hc & Hall & Hlen & Hr & Htext).
    cbn [WebhookConsumer.withTickets WebhookConsumer.withTicketsChatwoot messageTickets
         messageTicketsChatwoot messageIdCache] in Ht, Hc, Hr.
    destruct r as [mid|];
      cbn [fst snd WebhookConsumer.withTickets messageTickets messageTicketsChatwoot
           messageIdCache];
      (split; [exact Hc|]); (split; [intros; lia|]); intros _;
      (split; [rewrite Hc; exact Hsame|]); (split; [exact Hall|]);
      (split; [exact Hlen|]).
    + split; [split; [exact Hr | exact Ht]|].
      intros Hk Hinbox c Hconv. destruct (Htext Hk) as [_ Hone].
      destruct (Hone Hinbox c Hconv) as [-> Hres]. split; [reflexivity|].
      destruct (Chatwoot.o_post cw 0); congruence.
    + split; [split; [rewrite Ht; reflexivity | exact Hr]|].
      intros Hk Hinbox c Hconv. destruct (Htext Hk) as [_ Hone].
      destruct (Hone Hinbox c Hconv) as [-> Hres]. split; [reflexivity|].
      destruct (Chatwoot.o_post cw 0); congruence.
Qed.

Lemma api_echo_classification_witness :
  snd (fst (WebhookConsumer.processExtracted
              {| WebhookConsumer.integrationId := "1"; WebhookConsumer.inboxId := Some "7";
                 WebhookConsumer.accountId := Some "1";
                 WebhookConsumer.whatsappProvider := WhatsApp.zapi |}
              {| WebhookConsumer.phone := Some "+5511999998888";
                 WebhookConsumer.lid := None; WebhookConsumer.jid := None;
                 WebhookConsumer.text := "hi";
                 WebhookConsumer.name := None; WebhookConsumer.senderPhoto := None;
                 WebhookConsumer.image := None; WebhookConsumer.audio := None;
                 WebhookConsumer.document := None; WebhookConsumer.video := None;
                 WebhookConsumer.isGroup := false; WebhookConsumer.fromMe := true;
                 WebhookConsumer.status := None; WebhookConsumer.fromApi := true;
                 WebhookConsumer.messageId := Some "3EB0A1";
                 WebhookConsumer.replyId := None;
                 WebhookConsumer.origin := "zapi"; WebhookConsumer.groupName := None;
                 WebhookConsumer.senderName := None;
                 WebhookConsumer.editedMessageId := None |}
              (Chatwoot.Created (Some "101") "55")
              (run [OpAddOutgoingTicketChatwoot (Some "+5511999998888") TEXT]
                   initialStore))) = [].
Proof.
  destruct (api_echo_classification
              {| WebhookConsumer.integrationId := "1"; WebhookConsumer.inboxId := Some "7";
                 WebhookConsumer.accountId := Some "1";
                 WebhookConsumer.whatsappProvider := WhatsApp.zapi |}
              {| WebhookConsumer.phone := Some "+5511999998888";
                 WebhookConsumer.lid := None; WebhookConsumer.jid := None;
                 WebhookConsumer.text := "hi";
                 WebhookConsumer.name := None; WebhookConsumer.senderPhoto := None;
                 WebhookConsumer.image := None; WebhookConsumer.audio := None;
                 WebhookConsumer.document := None; WebhookConsumer.video := None;
                 WebhookConsumer.isGroup := false; WebhookConsumer.fromMe := true;
                 WebhookConsumer.status := None; WebhookConsumer.fromApi := true;
                 WebhookConsumer.messageId := Some "3EB0A1";
                 WebhookConsumer.replyId := None;
                 WebhookConsumer.origin := "zapi"; WebhookConsumer.groupName := None;
                 WebhookConsumer.senderName := None;
                 WebhookConsumer.editedMessageId := None |}
              (Chatwoot.Created (Some "101") "55")
              (run [OpAddOutgoingTicketChatwoot (Some "+5511999998888") TEXT]
                   initialStore)
              ltac:(reflexivity) ltac:(reflexivity) ltac:(reflexivity))
    as (_ & Hcredit & _).
  apply Hcredit. vm_compute. reflexivity.
Defined.

(** A media event on the model: an image without text whose upload fails
    three times is posted with its caption at every attempt and then once
    more as a text message, four requests in all; the event is reported as
    processed and the provider pre-credit stays. *)
Lemma image_echo_requests :
  let ev :=
    {| WebhookConsumer.phone := Some "+5511999998888"; WebhookConsumer.lid := None;
       WebhookConsumer.jid := None; WebhookConsumer.text := "";
       WebhookConsumer.name := None; WebhookConsumer.senderPhoto := None;
       WebhookConsumer.image :=
         Some {| Chatwoot.mediaUrl := ""; Chatwoot.mediaBase64 := "aGk=";
                 Chatwoot.mediaCaption := "legenda" |};
       WebhookConsumer.audio := None;
       WebhookConsumer.document := None; WebhookConsumer.video := None;
       WebhookConsumer.isGroup := false; WebhookConsumer.fromMe := true;
       WebhookConsumer.status := None; WebhookConsumer.fromApi := true;
       WebhookConsumer.messageId := Some "3EB0A1"; WebhookConsumer.replyId := None;
       WebhookConsumer.origin := "zapi"; WebhookConsumer.groupName := None;
       WebhookConsumer.senderName := None; WebhookConsumer.editedMessageId := None |} in
  let integration :=
    {| WebhookConsumer.integrationId := "1"; WebhookConsumer.inboxId := Some "7";
       WebhookConsumer.accountId := Some "1";
       WebhookConsumer.whatsappProvider := WhatsApp.zapi |} in
  let helpdesk :=
    {| Chatwoot.o_conversation := Some "55";
       Chatwoot.o_download := fun _ => true;
       Chatwoot.o_post := fun n => if (n <? 3)%nat then Chatwoot.PostThrows
                                   else Chatwoot.Answered (Some "101") false |} in
  let upload :=
    {| Chatwoot.direction := Chatwoot.outgoing;
       Chatwoot.toPhone := Some "+5511999998888";
       Chatwoot.content := Chatwoot.Text "legenda";
       Chatwoot.attachment := Some IMAGE; Chatwoot.in_reply_to := None |} in
  let fallback :=
    {| Chatwoot.direction := Chatwoot.outgoing;
       Chatwoot.toPhone := Some "+5511999998888";
       Chatwoot.content := Chatwoot.Text "legenda";
       Chatwoot.attachment := None; Chatwoot.in_reply_to := None |} in
  let out := WebhookConsumer.processExtracted integration ev helpdesk initialStore in
  snd (fst out) = [upload; upload; upload; fallback]
  /\ snd out = WebhookConsumer.Processed (Some (Some "101"))
  /\ ticketCount (messageTickets (fst (fst out))) (Some "+5511999998888") IMAGE = 1.
Proof. vm_compute. repeat split. Qed.

(** The two round trips of an agent message, run on the model. Typed in the
    helpdesk: the callback sends it to the provider once and books a helpdesk
    credit; the provider's echo ([fromApi]) finds the credit and is skipped,
    leaving both maps empty. *)
Lemma helpdesk_originated_round_trip :
  let integration :=
    {| WebhookConsumer.integrationId := "1"; WebhookConsumer.inboxId := Some "7";
       WebhookConsumer.accountId := Some "1";
       WebhookConsumer.whatsappProvider := WhatsApp.zapi |} in
  let callback :=
    {| WebhookConsumer.cb_id := "42"; WebhookConsumer.cb_content := Some "hi";
       WebhookConsumer.cb_attachments := None; WebhookConsumer.cb_in_reply_to := None;
       WebhookConsumer.cb_conversationId := Some "55";
       WebhookConsumer.cb_inbox_id := Some "7" |} in
  let echo :=
    {| WebhookConsumer.phone := Some "+5511999998888"; WebhookConsumer.lid := None;
       WebhookConsumer.jid := None; WebhookConsumer.text := "hi";
       WebhookConsumer.name := None; WebhookConsumer.senderPhoto := None;
       WebhookConsumer.image := None; WebhookConsumer.audio := None;
       WebhookConsumer.document := None; WebhookConsumer.video := None;
       WebhookConsumer.isGroup := false; WebhookConsumer.fromMe := true;
       WebhookConsumer.status := None; WebhookConsumer.fromApi := true;
       WebhookConsumer.messageId := Some "3EB0A1"; WebhookConsumer.replyId := None;
       WebhookConsumer.origin := "zapi"; WebhookConsumer.groupName := None;
       WebhookConsumer.senderName := None; WebhookConsumer.editedMessageId := None |} in
  let step1 :=
    WebhookConsumer.processCallbackSend integration callback "+5511999998888" "hi"
      (WebhookConsumer.Sent ["3EB0A1"]) initialStore in
  let step2 :=
    WebhookConsumer.processExtracted integration echo
      (Chatwoot.Created (Some "43") "55") (fst (fst step1)) in
  length (snd (fst step1)) = 1%nat
  /\ ticketCount (messageTicketsChatwoot (fst (fst step1))) (Some "+5511999998888") TEXT = 1
  /\ snd (fst step2) = []
  /\ messageTickets (fst (fst step2)) = ∅
  /\ messageTicketsChatwoot (fst (fst step2)) = ∅
  /\ getChatwootMessageId "3EB0A1" (messageIdCache (fst (fst step2))) = Some "42".
Proof. vm_compute. repeat split. Qed.

(** Typed on the phone ([fromMe] without [fromApi]): the event is posted to
    the helpdesk as outgoing under a provider credit, and the helpdesk's
    callback for that post finds the credit and sends nothing. *)
Lemma phone_originated_round_trip :
  let integration :=
    {| WebhookConsumer.integrationId := "1"; WebhookConsumer.inboxId := Some "7";
       WebhookConsumer.accountId := Some "1";
       WebhookConsumer.whatsappProvider := WhatsApp.zapi |} in
  let event :=
    {| WebhookConsumer.phone := Some "+5511999998888"; WebhookConsumer.lid := None;
       WebhookConsumer.jid := None; WebhookConsumer.text := "ok";
       WebhookConsumer.name := None; WebhookConsumer.senderPhoto := None;
       WebhookConsumer.image := None; WebhookConsumer.audio := None;
       WebhookConsumer.document := None; WebhookConsumer.video := None;
       WebhookConsumer.isGroup := false; WebhookConsumer.fromMe := true;
       WebhookConsumer.status := None; WebhookConsumer.fromApi := false;
       WebhookConsumer.messageId := Some "3EB0B2"; WebhookConsumer.replyId := None;
       WebhookConsumer.origin := "zapi"; WebhookConsumer.groupName := None;
       WebhookConsumer.senderName := None; WebhookConsumer.editedMessageId := None |} in
  let callback :=
    {| WebhookConsumer.cb_id := "44"; WebhookConsumer.cb_content := Some "ok";
       WebhookConsumer.cb_attachments := None; WebhookConsumer.cb_in_reply_to := None;
       WebhookConsumer.cb_conversationId := Some "55";
       WebhookConsumer.cb_inbox_id := Some "7" |} in
  let step1 :=
    WebhookConsumer.processExtracted integration event
      (Chatwoot.Created (Some "44") "55") initialStore in
  let step2 :=
    WebhookConsumer.processCallbackSend integration callback "+5511999998888" "ok"
      (WebhookConsumer.Sent ["3EB0C3"]) (fst (fst step1)) in
  Chatwoot.direction <$> snd (fst step1) = [Chatwoot.outgoing]
  /\ ticketCount (messageTickets (fst (fst step1))) (Some "+5511999998888") TEXT = 1
  /\ snd (fst step2) = []
  /\ snd step2 = WebhookConsumer.CallbackNotProcessed "ticket_consumed"
  /\ messageTickets (fst (fst step2)) = ∅
  /\ messageTicketsChatwoot (fst (fst step2)) = ∅.
Proof. vm_compute. repeat split. Qed.

(** * More on phone numbers *)

Lemma chars_app (s1 s2 : string) :
  Js.chars (s1 ++ s2) = (Js.chars s1 ++ Js.chars s2)%list.
Proof. induction s1 as [|a s1 IH]; simpl; [reflexivity|]. f_equal. exact IH. Qed.

Lemma chars_of_chars (l : list ascii) : Js.chars (Js.of_chars l) = l.
Proof. apply list_ascii_of_string_of_list_ascii. Qed.

Lemma of_chars_chars (s : string) : Js.of_chars (Js.chars s) = s.
Proof. apply string_of_list_ascii_of_string. Qed.

Lemma length_chars (s : string) : String.length s = length (Js.chars s).
Proof. induction s as [|a s IH]; simpl; [reflexivity | f_equal; exact IH]. Qed.

Lemma length_of_chars (l : list ascii) : String.length (Js.of_chars l) = length l.
Proof. rewrite length_chars, chars_of_chars. reflexivity. Qed.

Lemma startsWith_plus (s : string) : Js.startsWith ("+" ++ s) "+" = true.
Proof. reflexivity. Qed.

Lemma startsWith_truthy (s : string) (a : ascii) (p : string) :
  Js.startsWith s (String a p) = true -> Js.truthy s = true.
Proof. destruct s; [discriminate | reflexivity]. Qed.

Lemma normalized_phone_plus (raw : option string) (c : string) (p : string) :
  Phone.normalizeToE164 raw c = Some p -> Js.startsWith p "+" = true.
Proof.
  unfold Phone.normalizeToE164.
  destruct raw as [ph|]; [|discriminate].
  destruct (Js.truthy ph); cbn [negb]; [|discriminate].
  destruct (Js.startsWith ph "+") eqn:Hplus; [intros [= <-]; exact Hplus|].
  destruct (Js.startsWith (Js.stripNonDigits ph) "00"); [intros [= <-]; reflexivity|].
  destruct (Phone.startsWithKnownCode (Js.stripNonDigits ph));
    [intros [= <-]; reflexivity|].
  destruct (Phone.lookupCode Phone.COUNTRY_CODES (Js.toUpperCase c)) as [code|];
    [destruct (Js.truthy code)|]; intros [= <-]; reflexivity.
Qed.

(** [normalizeToE164] answers [null] exactly on a missing or empty phone,
    and otherwise a string that begins with a plus sign. *)
Theorem normalizeToE164_plus (phone : option string) (defaultCountry : string) :
  (Phone.normalizeToE164 phone defaultCountry = None <-> Js.truthy_opt phone = false)
  /\ forall r, Phone.normalizeToE164 phone defaultCountry = Some r ->
       Js.startsWith r "+" = true.
Proof.
  split; [|apply normalized_phone_plus].
  unfold Phone.normalizeToE164, Js.truthy_opt.
  destruct phone as [ph|]; [|tauto].
  destruct (Js.truthy ph) eqn:Ht; cbn [negb]; [|tauto].
  destruct (Js.startsWith ph "+"); [split; discriminate|].
  destruct (Js.startsWith (Js.stripNonDigits ph) "00"); [split; discriminate|].
  destruct (Phone.startsWithKnownCode (Js.stripNonDigits ph)); [split; discriminate|].
  destruct (Phone.lookupCode Phone.COUNTRY_CODES (Js.toUpperCase defaultCountry))
    as [code|];
    [destruct (Js.truthy code)|]; split; discriminate.
Qed.

(** Normalizing twice is the same as normalizing once, whatever the default
    countries: a normalized number is returned as it is. *)
Theorem normalizeToE164_idempotent (phone : option string) (c1 c2 : string) :
  Phone.normalizeToE164 (Phone.normalizeToE164 phone c1) c2
  = Phone.normalizeToE164 phone c1.
Proof.
  destruct (Phone.normalizeToE164 phone c1) as [r|] eqn:Hr; [|reflexivity].
  pose proof (normalized_phone_plus phone c1 r Hr) as Hplus.
  unfold Phone.normalizeToE164.
  rewrite (startsWith_truthy _ _ _ Hplus). cbn [negb]. rewrite Hplus. reflexivity.
Qed.

Lemma find_cons_eq {A : Type} (f : A -> bool) (x : A) (l : list A) :
  List.find f (x :: l) = if f x then Some x else List.find f l.
Proof. reflexivity. Qed.

Lemma country_table_head :
  Phone.COUNTRY_CODES
  = ("BR", "55") :: ("US", "1") :: ("CA", "1") :: List.skipn 3 Phone.COUNTRY_CODES.
Proof. reflexivity. Qed.

Lemma starts_with_one_not_55 (d : string) :
  Js.startsWith d "1" = true -> Js.startsWith d "55" = false.
Proof.
  unfold Js.startsWith. destruct (Js.chars d) as [|c l]; [discriminate|].
  cbn. case_bool_decide as H1; [|discriminate]. subst c. intros _. reflexivity.
Qed.

Lemma existsb_find_none {A : Type} (f : A -> bool) (l : list A) :
  List.find f l = None <-> existsb f l = false.
Proof.
  induction l as [|x l IH]; simpl; [tauto|].
  destruct (f x); simpl; [split; discriminate | exact IH].
Qed.

(** [detectCountryCode] reports the first table entry whose code prefixes
    the digits. Canada shares its code with the United States, listed
    before it, so ['CA'] is never the answer and every number whose digits
    begin with 1 is reported as ['US']; and the answer is [null] exactly when
    the phone is empty or no listed code prefixes its digits, which is when
    [normalizeToE164] falls back on the default country. *)
Theorem detectCountryCode_first_match (phone : option string) :
  (detectCountryCode_is phone "CA" = false)
  /\ (Js.truthy_opt phone = true ->
      Js.startsWith (Phone.extractDigits phone) "1" = true ->
      Phone.detectCountryCode phone = Some "US")
  /\ (Phone.detectCountryCode phone = None
      <-> Js.truthy_opt phone = false
          \/ Phone.startsWithKnownCode (Phone.extractDigits phone) = false).
Proof.
  unfold detectCountryCode_is, Phone.detectCountryCode, Phone.extractDigits, Js.truthy_opt.
  destruct phone as [ph|].
  2:{ split; [reflexivity|]. split; [discriminate | tauto]. }
  destruct (Js.truthy ph) eqn:Ht; cbn [negb].
  2:{ split; [reflexivity|]. split; [discriminate | tauto]. }
  set (d := Js.stripNonDigits ph).
  split; [|split].
  - rewrite country_table_head, !find_cons_eq. cbn [snd].
    destruct (Js.startsWith d "55"); [reflexivity|].
    destruct (Js.startsWith d "1"); [reflexivity|].
    destruct (List.find _ _) as [[c code]|] eqn:Hf; [|reflexivity].
    apply find_some in Hf as [Hin _]. cbn [fmap option_fmap option_map fst].
    apply bool_decide_eq_false. intros [= ->].
    assert (Hall : forallb (fun e => negb (bool_decide (fst e = "CA")))
                     (List.skipn 3 Phone.COUNTRY_CODES) = true)
      by (vm_compute; reflexivity).
    rewrite forallb_forall in Hall. specialize (Hall _ Hin). discriminate.
  - intros _ H1. rewrite country_table_head, !find_cons_eq. cbn [snd].
    rewrite (starts_with_one_not_55 _ H1), H1. reflexivity.
  - unfold Phone.startsWithKnownCode. rewrite <- existsb_find_none.
    destruct (List.find _ _); cbn; split; try tauto; try discriminate.
    intros [?|?]; discriminate.
Qed.

(** For a phone that carries no [+] and whose digits do not begin with
    [00], [normalizeToE164] and [detectCountryCode] agree on whether a
    country code is present: when [detectCountryCode] finds one the result is
    the plus sign and the digits; when it finds none the result is the plus
    sign, the code [getCountryCode] gives for the default country, and the
    digits (or just the digits when the default country is not listed). *)
Theorem normalizeToE164_default_country (ph defaultCountry : string)
    (Htruthy : Js.truthy ph = true)
    (Hplus : Js.startsWith ph "+" = false)
    (Hzero : Js.startsWith (Js.stripNonDigits ph) "00" = false) :
  Phone.normalizeToE164 (Some ph) defaultCountry
  = match Phone.detectCountryCode (Some ph), Phone.getCountryCode defaultCountry with
    | Some _, _ => Some ("+" ++ Js.stripNonDigits ph)
    | None, Some code => Some ("+" ++ code ++ Js.stripNonDigits ph)
    | None, None => Some ("+" ++ Js.stripNonDigits ph)
    end.
Proof.
  unfold Phone.normalizeToE164, Phone.detectCountryCode, Phone.getCountryCode.
  rewrite Htruthy. cbn [negb]. rewrite Hplus, Hzero.
  unfold Phone.startsWithKnownCode.
  destruct (List.find _ _) as [e|] eqn:Hf.
  - destruct (existsb _ _) eqn:Hex; [reflexivity|].
    apply existsb_find_none in Hex. congruence.
  - apply existsb_find_none in Hf. rewrite Hf. cbn [fmap option_fmap option_map].
    destruct (Phone.lookupCode _ _) as [code|]; [|reflexivity].
    unfold Js.or_null. destruct (Js.truthy code); reflexivity.
Qed.

Lemma normalizeToE164_default_country_witness :
  Phone.normalizeToE164 (Some "(21) 98888-7777") "br"
  = match Phone.detectCountryCode (Some "(21) 98888-7777"), Phone.getCountryCode "br" with
    | Some _, _ => Some ("+" ++ Js.stripNonDigits "(21) 98888-7777")
    | None, Some code => Some ("+" ++ code ++ Js.stripNonDigits "(21) 98888-7777")
    | None, None => Some ("+" ++ Js.stripNonDigits "(21) 98888-7777")
    end.
Proof.
  apply (normalizeToE164_default_country "(21) 98888-7777" "br"); reflexivity.
Defined.

Lemma filter_all {A : Type} (f : A -> bool) (l : list A) :
  forallb f l = true -> List.filter f l = l.
Proof.
  induction l as [|x l IH]; simpl; [reflexivity|].
  intros [Hx Hl]%andb_true_iff. rewrite Hx, (IH Hl). reflexivity.
Qed.

Lemma isDigit19_isDigit (c : ascii) : Js.isDigit19 c = true -> Js.isDigit c = true.
Proof.
  unfold Js.isDigit19, Js.isDigit. cbv zeta.
  intros [H1 H2]%andb_true_iff. apply andb_true_iff. split; [|exact H2].
  apply Nat.leb_le. apply Nat.leb_le in H1. lia.
Qed.

(** A number that [isValidE164] accepts is the plus sign followed by its own
    digits, of which there are between 2 and 15, and [normalizeToE164]
    returns it unchanged. *)
Theorem isValidE164_fixed_point (ph defaultCountry : string)
    (Hvalid : Phone.isValidE164 (Some ph) = true) :
  Phone.normalizeToE164 (Some ph) defaultCountry = Some ph
  /\ ph = "+" ++ Phone.extractDigits (Some ph)
  /\ (2 <= String.length (Phone.extractDigits (Some ph)) <= 15)%nat.
Proof.
  unfold Phone.isValidE164 in Hvalid.
  apply andb_true_iff in Hvalid as [Htruthy Hm].
  unfold Phone.matchesE164 in Hm.
  destruct (Js.chars ph) as [|plus [|d rest]] eqn:Hchars; try discriminate.
  repeat (apply andb_true_iff in Hm as [Hm ?]).
  apply bool_decide_eq_true in Hm. subst plus.
  assert (Hph : ph = String "+" (Js.of_chars (d :: rest))).
  { rewrite <- (of_chars_chars ph), Hchars. reflexivity. }
  assert (Hdigits : Js.stripNonDigits ph = Js.of_chars (d :: rest)).
  { unfold Js.stripNonDigits. rewrite Hchars. cbn [List.filter].
    replace (Js.isDigit "+") with false by reflexivity.
    rewrite (isDigit19_isDigit d) by assumption.
    rewrite filter_all by assumption. reflexivity. }
  split; [|split].
  - unfold Phone.normalizeToE164. rewrite Htruthy. cbn [negb].
    replace (Js.startsWith ph "+") with true; [reflexivity|].
    rewrite Hph. reflexivity.
  - unfold Phone.extractDigits. rewrite Htruthy, Hdigits. exact Hph.
  - unfold Phone.extractDigits. rewrite Htruthy, Hdigits.
    rewrite length_of_chars. cbn [length].
    repeat match goal with H : (_ <=? _)%nat = true |- _ => apply Nat.leb_le in H end.
    lia.
Qed.

Lemma isValidE164_fixed_point_witness :
  Phone.normalizeToE164 (Some "+5511999998888") "US" = Some "+5511999998888"
  /\ "+5511999998888" = "+" ++ Phone.extractDigits (Some "+5511999998888")
  /\ (2 <= String.length (Phone.extractDigits (Some "+5511999998888")) <= 15)%nat.
Proof. apply (isValidE164_fixed_point "+5511999998888" "US"). reflexivity. Defined.

Lemma of_chars_app (l1 l2 : list ascii) :
  Js.of_chars (l1 ++ l2) = Js.of_chars l1 ++ Js.of_chars l2.
Proof. induction l1 as [|a l1 IH]; simpl; [reflexivity | rewrite IH; reflexivity]. Qed.

Lemma append_empty_l (s : string) : "" ++ s = s.
Proof. reflexivity. Qed.

Lemma stripNonDigits_app (s1 s2 : string) :
  Js.stripNonDigits (s1 ++ s2) = Js.stripNonDigits s1 ++ Js.stripNonDigits s2.
Proof.
  unfold Js.stripNonDigits. rewrite chars_app, List.filter_app. apply of_chars_app.
Qed.

Lemma stripNonDigits_digits (l : list ascii) :
  forallb Js.isDigit l = true -> Js.stripNonDigits (Js.of_chars l) = Js.of_chars l.
Proof.
  intros H. unfold Js.stripNonDigits. rewrite chars_of_chars, filter_all by assumption.
  reflexivity.
Qed.

Lemma forallb_filter_id {A : Type} (f : A -> bool) (l : list A) :
  forallb f (List.filter f l) = true.
Proof.
  induction l as [|x l IH]; simpl; [reflexivity|].
  destruct (f x) eqn:Hx; simpl; [rewrite Hx|]; exact IH.
Qed.

Lemma forallb_skipn {A : Type} (f : A -> bool) (n : nat) (l : list A) :
  forallb f l = true -> forallb f (List.skipn n l) = true.
Proof.
  revert l. induction n as [|n IH]; intros [|x l]; simpl; auto.
  intros [_ Hl]%andb_true_iff. auto.
Qed.

Lemma forallb_firstn {A : Type} (f : A -> bool) (n : nat) (l : list A) :
  forallb f l = true -> forallb f (List.firstn n l) = true.
Proof.
  revert l. induction n as [|n IH]; intros [|x l]; simpl; auto.
  intros [Hx Hl]%andb_true_iff. rewrite Hx. simpl. auto.
Qed.

Lemma extractDigits_Some (s : string) :
  Phone.extractDigits (Some s) = Js.stripNonDigits s.
Proof. destruct s; reflexivity. Qed.

(** The three slices a display format is built from give back the digits
    they were cut from, whatever punctuation goes between them. *)
Lemma formatted_digits (l : list ascii) (a b c : nat) (pre mid1 mid2 : string) :
  c = (a + b)%nat ->
  forallb Js.isDigit l = true ->
  Js.stripNonDigits pre = "" -> Js.stripNonDigits mid1 = "" ->
  Js.stripNonDigits mid2 = "" ->
  Js.stripNonDigits
    (pre ++ Js.of_chars (List.firstn a l) ++ mid1
         ++ Js.of_chars (List.firstn b (List.skipn a l)) ++ mid2
         ++ Js.of_chars (List.skipn c l))
  = Js.of_chars l.
Proof.
  intros -> Hl Hpre Hmid1 Hmid2.
  rewrite !stripNonDigits_app, Hpre, Hmid1, Hmid2.
  rewrite !stripNonDigits_digits
    by auto using forallb_firstn, forallb_skipn.
  rewrite !append_empty_l.
  rewrite <- !of_chars_app. f_equal.
  rewrite (Nat.add_comm a b), <- List.skipn_skipn.
  rewrite (List.firstn_skipn b (List.skipn a l)). apply List.firstn_skipn.
Qed.

Lemma nationalNumber_suffix (digits : string) :
  exists dropped,
    Js.chars digits = (dropped ++ Js.chars (Phone.nationalNumber digits))%list.
Proof.
  unfold Phone.nationalNumber.
  destruct (List.find _ _) as [[c code]|]; [|exists []; reflexivity].
  exists (List.firstn (String.length code) (Js.chars digits)).
  unfold Js.sliceFrom. rewrite chars_of_chars. symmetry. apply List.firstn_skipn.
Qed.

Lemma nationalNumber_digits (ph : string) :
  forallb Js.isDigit (Js.chars (Phone.nationalNumber (Js.stripNonDigits ph))) = true.
Proof.
  assert (Hd : forallb Js.isDigit (Js.chars (Js.stripNonDigits ph)) = true).
  { unfold Js.stripNonDigits. rewrite chars_of_chars. apply forallb_filter_id. }
  unfold Phone.nationalNumber.
  destruct (List.find _ _) as [[c code]|]; [|exact Hd].
  unfold Js.sliceFrom. rewrite chars_of_chars. apply forallb_skipn, Hd.
Qed.

(** [formatForDisplay] either returns the phone as it is, or returns a
    string whose digits are exactly the national number (the digits without
    the first listed code that prefixes them); in both cases the digits of
    the result are a suffix of the digits of the phone: formatting adds
    punctuation and may drop a leading country code, and never changes,
    reorders or invents a digit. *)
Theorem formatForDisplay_keeps_digits (phone : option string) (country : string) :
  (Some (Phone.formatForDisplay phone country) = phone
   \/ Phone.extractDigits (Some (Phone.formatForDisplay phone country))
      = Phone.nationalNumber (Phone.extractDigits phone))
  /\ exists dropped,
       Js.chars (Phone.extractDigits phone)
       = (dropped
          ++ Js.chars (Phone.extractDigits (Some (Phone.formatForDisplay phone country))))%list.
Proof.
  assert (Hcases :
    Some (Phone.formatForDisplay phone country) = phone
    \/ Phone.extractDigits (Some (Phone.formatForDisplay phone country))
       = Phone.nationalNumber (Phone.extractDigits phone)
    \/ (Phone.formatForDisplay phone country = "" /\ Phone.extractDigits phone = "")).
  { unfold Phone.formatForDisplay.
    destruct phone as [ph|]; [|right; right; split; reflexivity].
    destruct (Js.truthy ph) eqn:Ht; cbn [negb];
      [|right; right; split; [reflexivity | destruct ph; [reflexivity | discriminate]]].
    rewrite !extractDigits_Some.
    pose proof (nationalNumber_digits ph) as Hnn.
    set (nn := Phone.nationalNumber (Js.stripNonDigits ph)) in *.
    unfold Js.sliceBetween, Js.sliceFrom. cbn [Nat.sub].
    change (List.skipn 0 (Js.chars nn)) with (Js.chars nn).
    repeat match goal with
           | |- context [if ?b then _ else _] => destruct b
           end;
      try (left; reflexivity); right; left.
    - transitivity (Js.of_chars (Js.chars nn)); [|apply of_chars_chars].
      apply (formatted_digits (Js.chars nn) 2 5 7 "(" ") " "-"); auto.
    - transitivity (Js.of_chars (Js.chars nn)); [|apply of_chars_chars].
      apply (formatted_digits (Js.chars nn) 2 4 6 "(" ") " "-"); auto.
    - transitivity (Js.of_chars (Js.chars nn)); [|apply of_chars_chars].
      apply (formatted_digits (Js.chars nn) 3 3 6 "(" ") " "-"); auto.
    - transitivity (Js.of_chars (Js.chars nn)); [|apply of_chars_chars].
      apply (formatted_digits (Js.chars nn) 2 4 6 "" " " " "); auto. }
  split.
  - destruct Hcases as [H|[H|[H1 H2]]]; [left; exact H | right; exact H |].
    right. rewrite H1, H2. reflexivity.
  - destruct Hcases as [H|[H|[H1 H2]]].
    + exists []. rewrite H. reflexivity.
    + rewrite H. apply nationalNumber_suffix.
    + exists []. rewrite H1, H2. reflexivity.
Qed.

(** * More on the credit ledger *)

(** [add] raises the counter of its own pair by one and leaves the counter
    of every other pair as it was, on any map. Both maps share the
    operation. *)
Theorem addOutgoingTicket_counts (m : gmap (option string) (gmap MessageType Z))
    (phone phone' : option string) (k k' : MessageType) :
  ticketCount (addOutgoingTicket phone k m) phone' k'
  = ticketCount m phone' k'
    + (if bool_decide (phone = phone' /\ k = k') then 1 else 0)
  /\ addOutgoingTicketChatwoot phone k m = addOutgoingTicket phone k m.
Proof.
  split; [|reflexivity].
  unfold addOutgoingTicket. rewrite addTicket_insert. unfold ticketCount.
  destruct (decide (phone = phone')) as [<-|Hp].
  - rewrite lookup_insert_eq.
    assert (Hdef : forall x, match m !! phone with
                             | Some phoneTickets => ticketsOf phoneTickets x
                             | None => 0
                             end = ticketsOf (default ∅ (m !! phone)) x).
    { intros x. destruct (m !! phone); simpl; [reflexivity|].
      rewrite ticketsOf_default, lookup_empty. reflexivity. }
    rewrite Hdef. rewrite (ticketsOf_default (<[_ := _]> _)).
    destruct (decide (k = k')) as [<-|Hk].
    + rewrite lookup_insert_eq, bool_decide_eq_true_2 by (split; reflexivity).
      reflexivity.
    + rewrite lookup_insert_ne by assumption.
      rewrite bool_decide_eq_false_2 by (intros [_ ?]; contradiction).
      rewrite <- ticketsOf_default. lia.
  - rewrite lookup_insert_ne by assumption.
    rewrite bool_decide_eq_false_2 by (intros [? _]; contradiction). lia.
Qed.

Lemma consume_counts (phone phone' : option string) (k k' : MessageType)
    (m : gmap (option string) (gmap MessageType Z)) :
  nonnegTickets m ->
  ticketCount (snd (consumeOutgoingTicket phone k m)) phone' k'
  = ticketCount m phone' k'
    - (if bool_decide (phone = phone' /\ k = k')
       then (if 0 <? ticketCount m phone k then 1 else 0) else 0).
Proof.
  intros Hnn.
  destruct (Z.ltb_spec 0 (ticketCount m phone k)) as [Hpos|Hle].
  2:{ rewrite (consume_unchanged _ _ _ Hle). case_bool_decide; lia. }
  case_bool_decide as Hsame.
  { destruct Hsame as [<- <-]. apply consume_count_pred, Hpos. }
  unfold ticketCount in *. unfold consumeOutgoingTicket.
  destruct (m !! phone) as [obj|] eqn:Hm; [|lia].
  destruct (Z.ltb_spec 0 (ticketsOf obj k)) as [_|]; [|lia].
  destruct (hasAnyTickets _) eqn:Hany; simpl.
  - destruct (decide (phone = phone')) as [<-|Hp].
    + rewrite lookup_insert_eq, Hm. rewrite !ticketsOf_default.
      rewrite lookup_insert_ne by (intros <-; apply Hsame; split; reflexivity). lia.
    + rewrite lookup_insert_ne by assumption. lia.
  - destruct (decide (phone = phone')) as [<-|Hp].
    + rewrite lookup_delete_eq, Hm.
      assert (Hk : k <> k') by (intros <-; apply Hsame; split; reflexivity).
      pose proof (hasAnyTickets_false _ Hany k') as Hz.
      rewrite lookup_insert_ne in Hz by assumption.
      rewrite ticketsOf_default.
      destruct (obj !! k') as [c|] eqn:Hc; simpl; [|lia].
      specialize (Hz c eq_refl). specialize (Hnn _ _ _ _ Hm Hc). lia.
    + rewrite lookup_delete_ne by assumption. lia.
Qed.

(** In every store the operations reach, [consume] answers whether the
    pair's counter is positive ([consumeOutgoingTicket] with [true],
    [consumeOutgoingTicketChatwoot] with [false]); when it is, exactly that
    counter goes down by one, and in every case the counters of all other
    pairs stay as they were. *)
Theorem consume_counts_reachable (ops : list Op)
    (phone phone' : option string) (k k' : MessageType) :
  let provider := messageTickets (run ops initialStore) in
  let helpdesk := messageTicketsChatwoot (run ops initialStore) in
  let taken (m : gmap (option string) (gmap MessageType Z)) :=
    if bool_decide (phone = phone' /\ k = k')
    then (if 0 <? ticketCount m phone k then 1 else 0) else 0 in
  fst (consumeOutgoingTicket phone k provider) = (0 <? ticketCount provider phone k)
  /\ ticketCount (snd (consumeOutgoingTicket phone k provider)) phone' k'
     = ticketCount provider phone' k' - taken provider
  /\ fst (consumeOutgoingTicketChatwoot phone k helpdesk)
     = negb (0 <? ticketCount helpdesk phone k)
  /\ ticketCount (snd (consumeOutgoingTicketChatwoot phone k helpdesk)) phone' k'
     = ticketCount helpdesk phone' k' - taken helpdesk.
Proof.
  intros provider helpdesk taken.
  destruct (reachable_wellformed ops) as (Hn & _ & Hnc & _).
  split; [apply consume_fst_count|]. split; [apply consume_counts, Hn|].
  split; [rewrite consumeChatwoot_fst, consume_fst_count; reflexivity|].
  rewrite consumeChatwoot_snd. apply consume_counts, Hnc.
Qed.

(** * More on the mapping cache *)

Lemma reverse_lookups_list (p : string) (c : list (string * CacheEntry)) :
  getChatwootMessageMappingByApiId p c
  = match getChatwootMessageId p c with
    | Some h =>
      match List.find (fun he => bool_decide (apiMessageId (snd he) = p)) c with
      | Some (_, e) => Some (h, Js.or_null (conversationId e), Js.or_null (inboxId e))
      | None => None
      end
    | None => None
    end.
Proof.
  induction c as [|[h e] c IH]; simpl; [reflexivity|].
  case_bool_decide; [reflexivity | exact IH].
Qed.

(** In every reachable cache the two reverse lookups agree:
    [getChatwootMessageMappingByApiId] finds a mapping exactly when
    [getChatwootMessageId] finds a helpdesk id, it is that id, and the
    conversation and inbox it reports are those of the entry
    [getMessageMappingByChatwootId] returns for that id. *)
Theorem reverse_lookups_agree (ops : list Op) (p : string) :
  let c := messageIdCache (run ops initialStore) in
  getChatwootMessageMappingByApiId p c
  = match getChatwootMessageId p c with
    | Some h =>
      match getMessageMappingByChatwootId h c with
      | Some e => Some (h, Js.or_null (conversationId e), Js.or_null (inboxId e))
      | None => None
      end
    | None => None
    end.
Proof.
  intros c. pose proof (reachable_cache_NoDup ops) as Hnd. fold c in Hnd.
  rewrite reverse_lookups_list.
  destruct (getChatwootMessageId p c) as [h|] eqn:Hrev; [|reflexivity].
  unfold getMessageMappingByChatwootId.
  revert Hrev Hnd. generalize c. clear c.
  induction c as [|[h0 e0] c IH]; simpl; [discriminate|].
  intros Hrev [Hnotin Hnd]%NoDup_cons.
  case_bool_decide as Hp.
  - injection Hrev as <-. rewrite bool_decide_eq_true_2 by reflexivity. reflexivity.
  - case_bool_decide as Hh; [|apply IH; assumption].
    subst h0. exfalso. apply Hnotin.
    destruct (getChatwootMessageId_Some _ _ _ Hrev) as (e & Hin & _).
    apply list_elem_of_fmap. exists (h, e). split; [reflexivity|].
    apply list_elem_of_In, Hin.
Qed.

Lemma mapDelete_absent (k : string) (m : list (string * CacheEntry)) :
  k ∉ m.*1 -> mapDelete k m = m.
Proof.
  induction m as [|[k0 v0] m IH]; simpl; [reflexivity|].
  intros Hnotin. apply not_elem_of_cons in Hnotin as [Hne Hnotin].
  rewrite bool_decide_eq_false_2 by congruence. rewrite IH by assumption. reflexivity.
Qed.

Lemma mapDelete_mapSet_absent (k : string) (v : CacheEntry)
    (m : list (string * CacheEntry)) :
  k ∉ m.*1 -> mapDelete k (mapSet k v m) = m.
Proof.
  induction m as [|[k0 v0] m IH]; simpl.
  - intros _. rewrite bool_decide_eq_true_2 by reflexivity. reflexivity.
  - intros Hnotin. apply not_elem_of_cons in Hnotin as [Hne Hnotin].
    rewrite bool_decide_eq_false_2 by congruence. simpl.
    rewrite bool_decide_eq_false_2 by congruence. rewrite IH by assumption. reflexivity.
Qed.

Lemma reverse_lookup_entry (p h : string) (m : list (string * CacheEntry)) :
  NoDup m.*1 -> getChatwootMessageId p m = Some h ->
  exists e, mapGet h m = Some e /\ apiMessageId e = p.
Proof.
  intros Hnd Hrev. destruct (getChatwootMessageId_Some _ _ _ Hrev) as (e & Hin & Hp).
  exists e. split; [apply In_mapGet; assumption | exact Hp].
Qed.

(** Storing a mapping in a reachable cache is last-write-wins: the helpdesk
    id then carries exactly the new entry, the entries of all other helpdesk
    ids are as before, the reverse lookup of any other provider id never
    answers with this helpdesk id (a provider id stored under it earlier is
    forgotten), and the key keeps its place if it was present and is appended
    at the end if it was not. *)
Theorem storeMessageIdMapping_overwrites (ops : list Op) (h p : string)
    (conv inbox prov integ : option string) :
  let c := messageIdCache (run ops initialStore) in
  let c' := storeMessageIdMapping h p conv inbox prov integ c in
  getMessageMappingByChatwootId h c'
  = Some {| apiMessageId := p; conversationId := Js.or_null conv;
            inboxId := Js.or_null inbox; provider := Js.or_null prov;
            integrationId := Js.or_null integ |}
  /\ (forall h', h' <> h ->
        getMessageMappingByChatwootId h' c' = getMessageMappingByChatwootId h' c)
  /\ (forall p', p' <> p -> getChatwootMessageId p' c' <> Some h)
  /\ c'.*1 = (if bool_decide (h ∈ c.*1) then c.*1 else (c.*1 ++ [h])%list).
Proof.
  intros c c'. pose proof (reachable_cache_NoDup ops) as Hnd. fold c in Hnd.
  assert (Hget : forall h', getMessageMappingByChatwootId h' c'
                 = if bool_decide (h = h')
                   then Some {| apiMessageId := p; conversationId := Js.or_null conv;
                                inboxId := Js.or_null inbox; provider := Js.or_null prov;
                                integrationId := Js.or_null integ |}
                   else mapGet h' c).
  { intros h'. apply mapGet_mapSet. }
  split; [rewrite Hget, bool_decide_eq_true_2 by reflexivity; reflexivity|].
  split; [intros h' Hne; rewrite Hget, bool_decide_eq_false_2 by congruence; reflexivity|].
  split; [|apply mapSet_keys].
  intros p' Hne Hrev.
  destruct (reverse_lookup_entry p' h c') as (e & He & Hp); [|exact Hrev|].
  { apply mapSet_NoDup, Hnd. }
  fold (getMessageMappingByChatwootId h c') in He.
  rewrite Hget, bool_decide_eq_true_2 in He by reflexivity.
  injection He as <-. simpl in Hp. congruence.
Qed.

(** Removing a mapping from a reachable cache forgets the helpdesk id in
    both directions and touches nothing else: the id has no provider id any
    more, no reverse lookup answers with it, the entries of the other
    helpdesk ids are as before; removing an id that is not cached changes
    nothing, and removing right after storing an id that was not cached gives
    back the cache as it was. *)
Theorem removeMessageIdMapping_forgets (ops : list Op) (h p : string)
    (conv inbox prov integ : option string) :
  let c := messageIdCache (run ops initialStore) in
  let c' := removeMessageIdMapping h c in
  getApiMessageId h c' = None
  /\ (forall p', getChatwootMessageId p' c' <> Some h)
  /\ (forall h', h' <> h ->
        getMessageMappingByChatwootId h' c' = getMessageMappingByChatwootId h' c)
  /\ (getMessageMappingByChatwootId h c = None -> c' = c)
  /\ (getMessageMappingByChatwootId h c = None ->
      removeMessageIdMapping h (storeMessageIdMapping h p conv inbox prov integ c) = c).
Proof.
  intros c c'. pose proof (reachable_cache_NoDup ops) as Hnd. fold c in Hnd.
  assert (Hget : forall h', mapGet h' c' = if bool_decide (h = h') then None else mapGet h' c).
  { intros h'. apply mapGet_mapDelete, Hnd. }
  assert (Habsent : mapGet h c = None -> h ∉ c.*1).
  { intros Hnone [[h0 e] [Heq Hin]]%list_elem_of_fmap. simpl in Heq. subst h0.
    apply list_elem_of_In in Hin. rewrite (In_mapGet _ _ _ Hnd Hin) in Hnone.
    discriminate. }
  split.
  { unfold getApiMessageId. rewrite Hget, bool_decide_eq_true_2 by reflexivity.
    reflexivity. }
  split.
  { intros p' Hrev.
    destruct (reverse_lookup_entry p' h c') as (e & He & _); [|exact Hrev|].
    { apply mapDelete_NoDup, Hnd. }
    rewrite Hget, bool_decide_eq_true_2 in He by reflexivity. discriminate. }
  split.
  { intros h' Hne. unfold getMessageMappingByChatwootId.
    rewrite Hget, bool_decide_eq_false_2 by congruence. reflexivity. }
  split; intros Hnone.
  - apply mapDelete_absent, Habsent, Hnone.
  - apply mapDelete_mapSet_absent, Habsent, Hnone.
Qed.

(** * What the extractors hand to the classification *)

(** Both extractors drop an event exactly when it comes from a group and
    the integration disregards groups (the UAZAPI one also needs a
    [message]); an event they do return carries the payload's group flag,
    comes from a group only if groups are not disregarded, and, outside
    groups, has a phone that is [null] or begins with a plus sign. *)
Theorem extractors_group_policy (zb : WebhookConsumer.ZapiBody)
    (ub : WebhookConsumer.UazapiBody) (desconsiderarGrupo : bool) (defaultCountry : string) :
  let shaped (x : WebhookConsumer.Extraction) (group present : bool) :=
    match x with
    | WebhookConsumer.ExtractionNull => present = false
    | WebhookConsumer.Ignored reason _ _ =>
      present = true /\ group = true /\ desconsiderarGrupo = true
      /\ reason = "group_disconsidered"
    | WebhookConsumer.Extracted ev =>
      present = true /\ WebhookConsumer.isGroup ev = group
      /\ (group = true -> desconsiderarGrupo = false)
      /\ (group = false ->
          forall p, WebhookConsumer.phone ev = Some p -> Js.startsWith p "+" = true)
    end in
  shaped (WebhookConsumer.extractZapiData zb desconsiderarGrupo defaultCountry)
         (WebhookConsumer.z_isGroup zb) true
  /\ shaped (WebhookConsumer.extractUazapiData ub desconsiderarGrupo defaultCountry)
            (from_option WebhookConsumer.m_isGroup false (WebhookConsumer.u_message ub))
            (bool_decide (is_Some (WebhookConsumer.u_message ub))).
Proof.
  intros shaped. split.
  - unfold WebhookConsumer.extractZapiData.
    destruct (WebhookConsumer.z_isGroup zb) eqn:Hg, desconsiderarGrupo; cbn.
    + repeat split.
    + repeat split; try assumption; discriminate.
    + repeat split; try assumption; try discriminate.
      intros _ p Hp. exact (normalized_phone_plus _ _ _ Hp).
    + repeat split; try assumption; try discriminate.
      intros _ p Hp. exact (normalized_phone_plus _ _ _ Hp).
  - unfold WebhookConsumer.extractUazapiData.
    destruct (WebhookConsumer.u_message ub) as [m|]; [|reflexivity].
    assert (Hsome : bool_decide (is_Some (Some m)) = true)
      by (apply bool_decide_eq_true_2; eexists; reflexivity).
    rewrite Hsome. cbn [from_option].
    destruct (WebhookConsumer.m_isGroup m) eqn:Hg, desconsiderarGrupo; cbn zeta.
    + cbn. repeat split.
    + destruct (Js.or_else _ _); cbn; rewrite ?Hg;
        repeat split; try assumption; discriminate.
    + cbn. rewrite ?Hg. cbn. repeat split; try discriminate.
      intros _ p Hp. exact (normalized_phone_plus _ _ _ Hp).
    + cbn. rewrite ?Hg. cbn. repeat split; try discriminate.
      intros _ p Hp. exact (normalized_phone_plus _ _ _ Hp).
Qed.

(** * What the classification does to the helpdesk and to the store *)

(** The direction of the helpdesk requests is decided by [fromMe] alone and
    they go to the conversation of the event's phone: every request made for
    an event of the business's own number is outgoing, every request for any
    other event is incoming. One event makes at most four requests (the
    retries and the text fallback of a media message) and at most one when it
    carries no media; a result that reports a created message made at least
    one request, and any other result leaves the mapping cache as it was. An
    event that is not [fromMe] leaves both credit maps as they were. *)
Theorem processExtracted_direction (integration : WebhookConsumer.Integration)
    (ev : WebhookConsumer.ExtractedData) (cw : Chatwoot.Outcome) (st : Store) :
  let '(st', posts, r) := WebhookConsumer.processExtracted integration ev cw st in
  (forall post, In post posts ->
     Chatwoot.direction post
     = (if WebhookConsumer.fromMe ev then Chatwoot.outgoing else Chatwoot.incoming)
     /\ Chatwoot.toPhone post = WebhookConsumer.phone ev)
  /\ (length posts <= 4)%nat
  /\ (WebhookConsumer.principalMessageType ev = TEXT -> (length posts <= 1)%nat)
  /\ (forall mid, r = WebhookConsumer.Processed (Some mid) -> posts <> [])
  /\ ((forall mid, r <> WebhookConsumer.Processed (Some mid)) ->
      messageIdCache st' = messageIdCache st)
  /\ (WebhookConsumer.fromMe ev = false ->
      messageTickets st' = messageTickets st
      /\ messageTicketsChatwoot st' = messageTicketsChatwoot st).
Proof.
  unfold WebhookConsumer.processExtracted.
  destruct (WebhookConsumer.nothingToProcess ev).
  { simpl. repeat split; try tauto; try lia; discriminate. }
  assert (Hout : forall st0 : Store,
    messageIdCache st0 = messageIdCache st ->
    let '(st', posts, r) :=
      match WebhookConsumer.callProcessOutgoing integration ev cw st0 with
      | (posts, Some mid, st1) => (st1, posts, WebhookConsumer.Processed (Some mid))
      | (posts, None, st1) =>
        (WebhookConsumer.withTickets st1
           (snd (consumeOutgoingTicket (WebhookConsumer.phone ev)
                   (WebhookConsumer.principalMessageType ev) (messageTickets st1))),
         posts, WebhookConsumer.PrincipalThrows)
      end in
    (forall post, In post posts ->
       Chatwoot.direction post = Chatwoot.outgoing
       /\ Chatwoot.toPhone post = WebhookConsumer.phone ev)
    /\ (length posts <= 4)%nat
    /\ (WebhookConsumer.principalMessageType ev = TEXT -> (length posts <= 1)%nat)
    /\ (forall mid, r = WebhookConsumer.Processed (Some mid) -> posts <> [])
    /\ ((forall mid, r <> WebhookConsumer.Processed (Some mid)) ->
        messageIdCache st' = messageIdCache st)).
  { intros st0 Hc.
    pose proof (callProcessOutgoing_shape integration ev cw st0) as H.
    destruct (WebhookConsumer.callProcessOutgoing integration ev cw st0)
      as [[posts r] st1].
    destruct H as (_ & _ & Hall & Hlen & Hr & Htext).
    assert (Hin : forall post, In post posts ->
              Chatwoot.direction post = Chatwoot.outgoing
              /\ Chatwoot.toPhone post = WebhookConsumer.phone ev)
      by (apply List.Forall_forall; exact Hall).
    destruct r as [mid|].
    - split; [exact Hin|]. split; [exact Hlen|].
      split; [intros Hk; apply (Htext Hk)|]. split; [intros _ _; exact Hr|].
      intros Hne. exfalso. apply (Hne mid). reflexivity.
    - split; [exact Hin|]. split; [exact Hlen|].
      split; [intros Hk; apply (Htext Hk)|]. split; [discriminate|].
      intros _. cbn [WebhookConsumer.withTickets messageIdCache]. congruence. }
  destruct (WebhookConsumer.fromMe ev) eqn:Hme; cbn [andb negb].
  - destruct (WebhookConsumer.fromApi ev); cbn [negb].
    + destruct (consumeOutgoingTicketChatwoot _ _ _) as [proceed tc].
      destruct proceed.
      * match goal with
        | |- context [WebhookConsumer.callProcessOutgoing integration ev cw ?s] =>
          pose proof (Hout s eq_refl) as H;
          destruct (WebhookConsumer.callProcessOutgoing integration ev cw s)
            as [[posts [mid|]] st1]
        end; destruct H as (H1 & H2 & H3 & H4 & H5);
          (split; [exact H1|]); (split; [exact H2|]); (split; [exact H3|]);
          (split; [exact H4|]); (split; [exact H5|]); discriminate.
      * simpl. repeat split; try tauto; try lia; discriminate.
    + match goal with
      | |- context [WebhookConsumer.callProcessOutgoing integration ev cw ?s] =>
        pose proof (Hout s eq_refl) as H;
        destruct (WebhookConsumer.callProcessOutgoing integration ev cw s)
          as [[posts [mid|]] st1]
      end; destruct H as (H1 & H2 & H3 & H4 & H5);
        (split; [exact H1|]); (split; [exact H2|]); (split; [exact H3|]);
        (split; [exact H4|]); (split; [exact H5|]); discriminate.
  - set (call := match _ with Some _ => _ | None => _ end).
    assert (Hcall : let '(posts, r, cache') := call in
      Forall (fun post => Chatwoot.direction post = Chatwoot.incoming
                          /\ Chatwoot.toPhone post = WebhookConsumer.phone ev) posts
      /\ (length posts <= 4)%nat
      /\ match r with
         | None => cache' = messageIdCache st
         | Some _ => posts <> []
         end
      /\ (WebhookConsumer.principalMessageType ev = TEXT -> (length posts <= 1)%nat)).
    { unfold call, Chatwoot.processIncomingMessage.
      destruct (match Js.or_null (WebhookConsumer.editedMessageId ev) with
                | Some _ => _ | None => _ end);
        match goal with
        | |- context [Chatwoot.processMessage ?d ?i ?a ?p ?c ?im ?au ?dc ?v ?o ?m ?r ?out ?ch] =>
          pose proof (processMessage_shape d i a p c im au dc v o m r out ch) as H;
          destruct (Chatwoot.processMessage d i a p c im au dc v o m r out ch)
            as [[posts r0] cache']
        end; destruct H as (Hall & Hlen & Hr & Htext);
        (split; [exact Hall|]); (split; [exact Hlen|]); (split; [exact Hr|]);
        intros Hk.
      - apply Htext; reflexivity.
      - destruct (principalMessageType_TEXT ev Hk) as (Hi & Ha & Hd & Hv).
        apply (Htext Hi Ha Hd Hv). }
    destruct call as [[posts [mid|]] cache']; destruct Hcall as (Hall & Hlen & Hr & Htext);
      cbn [WebhookConsumer.withCache messageTickets messageTicketsChatwoot messageIdCache];
      (split; [apply List.Forall_forall; exact Hall|]); (split; [exact Hlen|]);
      (split; [exact Htext|]).
    + split; [intros _ _; exact Hr|].
      split; [intros Hne; exfalso; apply (Hne mid); reflexivity|].
      intros _. split; reflexivity.
    + split; [discriminate|]. split; [intros _; exact Hr|].
      intros _. split; reflexivity.
Qed.

Lemma consumeChatwoot_proceed (phone : option string) (k : MessageType)
    (m tc : gmap (option string) (gmap MessageType Z)) :
  consumeOutgoingTicketChatwoot phone k m = (true, tc) -> tc = m.
Proof.
  unfold consumeOutgoingTicketChatwoot.
  destruct (m !! phone) as [obj|]; [|congruence].
  cbv zeta. destruct (0 <? ticketsOf obj k); [|congruence].
  destruct (hasAnyTickets _); discriminate.
Qed.

(** When the helpdesk call of an event fails, the credit the classification
    had put on the provider map is taken back: in every reachable store, a
    run that ends in the error leaves every counter of both credit maps as
    it was. *)
Theorem processExtracted_failure_restores_credits (ops : list Op)
    (integration : WebhookConsumer.Integration) (ev : WebhookConsumer.ExtractedData)
    (cw : Chatwoot.Outcome)
    (Hthrows : snd (WebhookConsumer.processExtracted integration ev cw
                      (run ops initialStore)) = WebhookConsumer.PrincipalThrows) :
  let st := run ops initialStore in
  let st' := fst (fst (WebhookConsumer.processExtracted integration ev cw st)) in
  forall phone k,
    ticketCount (messageTickets st') phone k = ticketCount (messageTickets st) phone k
    /\ ticketCount (messageTicketsChatwoot st') phone k
       = ticketCount (messageTicketsChatwoot st) phone k.
Proof.
  intros st st' phone k. subst st'. fold st in Hthrows.
  destruct (reachable_wellformed ops) as (Hn & _). fold st in Hn.
  assert (Hout : forall tc,
    tc = messageTicketsChatwoot st ->
    let st0 := WebhookConsumer.withTickets (WebhookConsumer.withTicketsChatwoot st tc)
                 (addOutgoingTicket (WebhookConsumer.phone ev)
                    (WebhookConsumer.principalMessageType ev) (messageTickets st)) in
    let res :=
      match WebhookConsumer.callProcessOutgoing integration ev cw st0 with
      | (posts, Some mid, st1) => (st1, posts, WebhookConsumer.Processed (Some mid))
      | (posts, None, st1) =>
        (WebhookConsumer.withTickets st1
           (snd (consumeOutgoingTicket (WebhookConsumer.phone ev)
                   (WebhookConsumer.principalMessageType ev) (messageTickets st1))),
         posts, WebhookConsumer.PrincipalThrows)
      end in
    snd res = WebhookConsumer.PrincipalThrows ->
    ticketCount (messageTickets (fst (fst res))) phone k
    = ticketCount (messageTickets st) phone k
    /\ ticketCount (messageTicketsChatwoot (fst (fst res))) phone k
       = ticketCount (messageTicketsChatwoot st) phone k).
  { intros tc -> st0 res. subst res.
    pose proof (callProcessOutgoing_shape integration ev cw st0) as H.
    destruct (WebhookConsumer.callProcessOutgoing integration ev cw st0)
      as [[posts [mid|]] st1]; [discriminate|].
    destruct H as (Ht & Hc & _). intros _. cbn. rewrite Ht, Hc. cbn. split; [|reflexivity].
    apply add_consume_counts, Hn. }
  unfold WebhookConsumer.processExtracted in *.
  destruct (WebhookConsumer.nothingToProcess ev); [discriminate|].
  destruct (WebhookConsumer.fromMe ev); cbn [andb negb] in *.
  - destruct (WebhookConsumer.fromApi ev); cbn [negb] in *.
    + destruct (consumeOutgoingTicketChatwoot _ _ _) as [[|] tc] eqn:Hcons;
        [|discriminate].
      apply consumeChatwoot_proceed in Hcons.
      apply (Hout tc Hcons). exact Hthrows.
    + assert (Hsame : WebhookConsumer.withTickets st
                (addOutgoingTicket (WebhookConsumer.phone ev)
                   (WebhookConsumer.principalMessageType ev) (messageTickets st))
              = WebhookConsumer.withTickets
                  (WebhookConsumer.withTicketsChatwoot st (messageTicketsChatwoot st))
                  (addOutgoingTicket (WebhookConsumer.phone ev)
                     (WebhookConsumer.principalMessageType ev) (messageTickets st)))
        by reflexivity.
      rewrite Hsame in *. apply (Hout _ eq_refl). exact Hthrows.
  - destruct (match Js.or_null (WebhookConsumer.editedMessageId ev) with
              | Some _ => _ | None => _ end);
      match goal with
      | |- context [Chatwoot.processIncomingMessage ?i ?a ?p ?c ?im ?au ?dc ?v ?o ?m ?r ?g ?sn ?out ?ch] =>
        destruct (Chatwoot.processIncomingMessage i a p c im au dc v o m r g sn out ch)
          as [[posts [mid|]] cache']
      end; split; reflexivity.
Qed.

Lemma processExtracted_failure_restores_credits_witness :
  let integration :=
    {| WebhookConsumer.integrationId := "1"; WebhookConsumer.inboxId := Some "7";
       WebhookConsumer.accountId := Some "1";
       WebhookConsumer.whatsappProvider := WhatsApp.zapi |} in
  let ev :=
    {| WebhookConsumer.phone := Some "+5511999998888"; WebhookConsumer.lid := None;
       WebhookConsumer.jid := None; WebhookConsumer.text := "oi";
       WebhookConsumer.name := None; WebhookConsumer.senderPhoto := None;
       WebhookConsumer.image := None; WebhookConsumer.audio := None;
       WebhookConsumer.document := None; WebhookConsumer.video := None;
       WebhookConsumer.isGroup := false; WebhookConsumer.fromMe := true;
       WebhookConsumer.status := None; WebhookConsumer.fromApi := false;
       WebhookConsumer.messageId := Some "A1"; WebhookConsumer.replyId := None;
       WebhookConsumer.origin := "zapi"; WebhookConsumer.groupName := None;
       WebhookConsumer.senderName := None; WebhookConsumer.editedMessageId := None |} in
  let ops := [OpAddOutgoingTicket (Some "+5511999998888") TEXT] in
  let st := run ops initialStore in
  let res := WebhookConsumer.processExtracted integration ev Chatwoot.Throws st in
  snd res = WebhookConsumer.PrincipalThrows
  /\ ticketCount (messageTickets (fst (fst res))) (Some "+5511999998888") TEXT = 1.
Proof.
  intros integration ev ops st res. split; [reflexivity|].
  transitivity (ticketCount (messageTickets st) (Some "+5511999998888") TEXT);
    [|vm_compute; reflexivity].
  apply (processExtracted_failure_restores_credits ops integration ev Chatwoot.Throws).
  reflexivity.
Defined.

(** An edit by the customer of a message whose helpdesk counterpart is
    cached, once the inbox is configured and the conversation found, makes
    exactly one request: an incoming text message that replies to that
    counterpart and carries no attachment, the event's media not being passed
    on. Its body is the new text followed, on a new line, by the edit marker
    (the marker alone if the text is empty); in a group whose sender's name
    is known, the name in bold and a new line go in front of that body. *)
Theorem incoming_edit_is_marked_reply (integration : WebhookConsumer.Integration)
    (ev : WebhookConsumer.ExtractedData) (cw : Chatwoot.Outcome) (st : Store)
    (e h conversationId : string)
    (Hcustomer : WebhookConsumer.fromMe ev = false)
    (Hphone : Js.truthy_opt (WebhookConsumer.phone ev) = true)
    (Hedit : Js.or_null (WebhookConsumer.editedMessageId ev) = Some e)
    (Hmapped : getChatwootMessageId e (messageIdCache st) = Some h)
    (Hh : Js.truthy h = true)
    (Hinbox : Js.truthy_opt (WebhookConsumer.inboxId integration) = true)
    (Hconversation : Chatwoot.o_conversation cw = Some conversationId) :
  let edited :=
    if Js.truthy (WebhookConsumer.text ev)
    then WebhookConsumer.text ev ++ String "010"%char "(*mensagem editada pelo usuário*)"
    else "(*mensagem editada pelo usuário*)" in
  snd (fst (WebhookConsumer.processExtracted integration ev cw st))
  = [ {| Chatwoot.direction := Chatwoot.incoming;
         Chatwoot.toPhone := WebhookConsumer.phone ev;
         Chatwoot.content :=
           Chatwoot.Text
             (match Js.or_null (WebhookConsumer.senderName ev) with
              | Some senderName =>
                if WebhookConsumer.isGroup ev
                then ("**" ++ senderName ++ ":**") ++ String "010"%char edited
                else edited
              | None => edited
              end);
         Chatwoot.attachment := None;
         Chatwoot.in_reply_to := Some h |} ].
Proof.
  intros edited.
  unfold WebhookConsumer.processExtracted.
  assert (Hsome : WebhookConsumer.nothingToProcess ev = false).
  { unfold WebhookConsumer.nothingToProcess. rewrite Hphone. reflexivity. }
  rewrite Hsome, Hcustomer, Hedit. cbn [andb negb].
  rewrite reverse_lookups_list, Hmapped.
  destruct (List.find _ (messageIdCache st)) as [[h0 e0]|] eqn:Hfind.
  2:{ exfalso. destruct (getChatwootMessageId_Some _ _ _ Hmapped) as (e1 & Hin & Hp).
      pose proof (find_none _ _ Hfind _ Hin) as Hno. simpl in Hno.
      rewrite bool_decide_eq_true_2 in Hno by exact Hp. discriminate. }
  assert (Hreply : Js.or_null (Some h) = Some h) by (simpl; rewrite Hh; reflexivity).
  rewrite Hreply.
  change (if Js.truthy (WebhookConsumer.text ev)
          then WebhookConsumer.text ev ++ String "010"%char WebhookConsumer.editMarker
          else WebhookConsumer.editMarker) with edited.
  assert (Hed : Js.truthy edited = true).
  { unfold edited. destruct (WebhookConsumer.text ev); reflexivity. }
  pose proof (processMessage_shape Chatwoot.incoming
    (WebhookConsumer.inboxId integration) (WebhookConsumer.accountId integration)
    (WebhookConsumer.phone ev)
    (Chatwoot.formattedContent edited None None None None (WebhookConsumer.isGroup ev)
       (WebhookConsumer.senderName ev))
    None None None None (Some (WebhookConsumer.origin ev)) (WebhookConsumer.messageId ev)
    (Some h) cw (messageIdCache st)) as H.
  unfold Chatwoot.processIncomingMessage.
  destruct (Chatwoot.processMessage _ _ _ _ _ _ _ _ _ _ _ _ _ _) as [[posts r] cache'].
  destruct H as (_ & _ & _ & Htext).
  destruct (Htext eq_refl eq_refl eq_refl eq_refl) as [_ Hone].
  destruct (Hone Hinbox conversationId Hconversation) as [Hposts _].
  assert (Hout : forall s, snd (fst (match r with
                                     | Some mid =>
                                       (WebhookConsumer.withCache st cache', posts,
                                        WebhookConsumer.Processed (Some mid))
                                     | None =>
                                       (WebhookConsumer.withCache st cache', posts,
                                        WebhookConsumer.PrincipalThrows)
                                     end)) = s -> s = posts)
    by (intros s <-; destruct r; reflexivity).
  rewrite (Hout _ eq_refl), Hposts, Hreply. f_equal. f_equal. f_equal.
  unfold Chatwoot.formattedContent.
  destruct (Js.or_null (WebhookConsumer.senderName ev)) as [senderName|];
    [|reflexivity].
  destruct (WebhookConsumer.isGroup ev); [|reflexivity].
  cbn. rewrite Hed. reflexivity.
Qed.

Lemma incoming_edit_is_marked_reply_witness :
  let integration :=
    {| WebhookConsumer.integrationId := "1"; WebhookConsumer.inboxId := Some "7";
       WebhookConsumer.accountId := Some "1";
       WebhookConsumer.whatsappProvider := WhatsApp.zapi |} in
  let ev :=
    {| WebhookConsumer.phone := Some "120363378985956346-group";
       WebhookConsumer.lid := None;
       WebhookConsumer.jid := None; WebhookConsumer.text := "ola";
       WebhookConsumer.name := None; WebhookConsumer.senderPhoto := None;
       WebhookConsumer.image := None; WebhookConsumer.audio := None;
       WebhookConsumer.document := None; WebhookConsumer.video := None;
       WebhookConsumer.isGroup := true; WebhookConsumer.fromMe := false;
       WebhookConsumer.status := None; WebhookConsumer.fromApi := false;
       WebhookConsumer.messageId := Some "A2"; WebhookConsumer.replyId := None;
       WebhookConsumer.origin := "zapi"; WebhookConsumer.groupName := Some "Time";
       WebhookConsumer.senderName := Some "Ana";
       WebhookConsumer.editedMessageId := Some "A1" |} in
  let st := run [OpStoreMessageIdMapping "41" "A1" None None None None] initialStore in
  exists post,
    snd (fst (WebhookConsumer.processExtracted integration ev
                (Chatwoot.Created (Some "42") "9") st)) = [post]
    /\ Chatwoot.in_reply_to post = Some "41"
    /\ Chatwoot.content post
       = Chatwoot.Text
           ("**Ana:**" ++ String "010"%char
              ("ola" ++ String "010"%char "(*mensagem editada pelo usuário*)")).
Proof.
  intros integration ev st. eexists. split.
  - apply (incoming_edit_is_marked_reply integration ev (Chatwoot.Created (Some "42") "9")
             st "A1" "41" "9");
      reflexivity.
  - split; reflexivity.
Defined.

(** * Sending through the provider *)

Section SendLoop.

Context (provider : WhatsApp.Provider) (phone content : string)
        (lid jid replyToMessageId : option string)
        (answer : nat -> WhatsAppService.SendAnswer).

Lemma sendAttachments_spec (attachments : list WebhookConsumer.ProcessedAttachment)
    (i : nat) :
  let '(calls, results) :=
    WhatsAppService.sendAttachments provider phone content lid jid replyToMessageId
      answer i attachments in
  (forall j call, calls !! j = Some call ->
     exists attachment,
       attachments !! j = Some attachment
       /\ call = WhatsAppService.viaCall provider phone
                   (if ((i + j =? 0) && (0 <? String.length content))%nat
                    then content else "")
                   (WebhookConsumer.pa_type attachment) (Some attachment)
                   lid jid replyToMessageId)
  /\ (forall j, (S j < length calls)%nat ->
        answer (i + j)%nat <> WhatsAppService.Failed)
  /\ match results with
     | Some results =>
       length calls = length attachments
       /\ length results = length attachments
       /\ forall j result, results !! j = Some result ->
            answer (i + j)%nat = WhatsAppService.Answered result
     | None =>
       exists n, length calls = S n /\ (n < length attachments)%nat
                 /\ answer (i + n)%nat = WhatsAppService.Failed
     end.
Proof.
  revert i. induction attachments as [|a rest IH]; intros i; simpl.
  { split; [intros j call; rewrite lookup_nil; discriminate|].
    split; [intros j; simpl; lia|].
    split; [reflexivity|]. split; [reflexivity|].
    intros j result. rewrite lookup_nil. discriminate. }
  destruct (answer i) as [result|] eqn:Hans.
  - specialize (IH (S i)).
    destruct (WhatsAppService.sendAttachments _ _ _ _ _ _ _ (S i) rest)
      as [calls results].
    destruct IH as (Hcalls & Hok & Hres). split; [|split].
    + intros [|j] call; simpl.
      * intros [= <-]. exists a. split; [reflexivity|].
        rewrite Nat.add_0_r. reflexivity.
      * intros Hj. destruct (Hcalls j call Hj) as (att & Hatt & ->).
        exists att. split; [exact Hatt|].
        replace (i + S j)%nat with (S i + j)%nat by lia. reflexivity.
    + intros [|j] Hlt; simpl in Hlt.
      * rewrite Nat.add_0_r, Hans. discriminate.
      * replace (i + S j)%nat with (S i + j)%nat by lia. apply Hok. lia.
    + destruct results as [results|]; simpl.
      * destruct Hres as (Hl1 & Hl2 & Hres). split; [lia|]. split; [lia|].
        intros [|j] r; simpl.
        -- intros [= <-]. rewrite Nat.add_0_r. exact Hans.
        -- intros Hj. replace (i + S j)%nat with (S i + j)%nat by lia.
           apply Hres, Hj.
      * destruct Hres as (n & Hl & Hn & Hfail). exists (S n).
        split; [lia|]. split; [lia|].
        replace (i + S n)%nat with (S i + n)%nat by lia. exact Hfail.
  - split; [|split].
    + intros [|j] call; simpl; [|rewrite lookup_nil; discriminate].
      intros [= <-]. exists a. split; [reflexivity|].
      rewrite Nat.add_0_r. reflexivity.
    + intros j. simpl. lia.
    + exists 0%nat. split; [reflexivity|]. split; [lia|].
      rewrite Nat.add_0_r. exact Hans.
Qed.

Lemma sendMessage_shape (messageType : MessageType)
    (attachments : list WebhookConsumer.ProcessedAttachment) :
  let '(calls, sendResult) :=
    WhatsAppService.sendMessage provider phone content messageType (Some attachments)
      lid jid replyToMessageId answer in
  (forall call, In call calls ->
     WhatsAppService.sc_phone call = phone
     /\ WhatsAppService.sc_provider call = provider
     /\ WhatsAppService.sc_replyToMessageId call = replyToMessageId)
  /\ calls <> []
  /\ (sendResult <> WhatsAppService.SendFailed ->
      length calls = Nat.max 1 (length attachments)).
Proof.
  unfold WhatsAppService.sendMessage.
  destruct attachments as [|a rest].
  { destruct (answer 0%nat); simpl; (split; [|split; [discriminate|]]);
      try (intros call [<-|[]]; destruct provider; repeat split);
      try reflexivity; congruence. }
  pose proof (sendAttachments_spec (a :: rest) 0) as H.
  destruct (WhatsAppService.sendAttachments _ _ _ _ _ _ _ 0 (a :: rest))
    as [calls results].
  destruct H as (Hcalls & _ & Hres).
  assert (Hshape : forall call, In call calls ->
     WhatsAppService.sc_phone call = phone
     /\ WhatsAppService.sc_provider call = provider
     /\ WhatsAppService.sc_replyToMessageId call = replyToMessageId).
  { intros call Hin. apply list_elem_of_In, list_elem_of_lookup in Hin as [j Hj].
    destruct (Hcalls j call Hj) as (att & _ & ->). repeat split. }
  destruct results as [results|].
  - destruct Hres as (Hl & _). split; [exact Hshape|]. split.
    + intros ->. discriminate.
    + intros _. cbn [length] in *. lia.
  - destruct Hres as (n & Hl & _). split; [exact Hshape|]. split.
    + intros ->. discriminate.
    + congruence.
Qed.

(** [sendMessage] makes one text call when there is no attachment, and
    otherwise one call per attachment, in order, each of the attachment's own
    kind; every call goes to the same phone with the same reply id, and the
    text rides on the first call only. It stops at the first call that
    throws: the calls before it were all answered, none is made after it, and
    the whole send fails exactly then. *)
Theorem sendMessage_calls (messageType : MessageType)
    (attachments : list WebhookConsumer.ProcessedAttachment) :
  let '(calls, sendResult) :=
    WhatsAppService.sendMessage provider phone content messageType (Some attachments)
      lid jid replyToMessageId answer in
  (forall j call, calls !! j = Some call ->
     WhatsAppService.sc_phone call = phone
     /\ WhatsAppService.sc_provider call = provider
     /\ WhatsAppService.sc_replyToMessageId call = replyToMessageId
     /\ WhatsAppService.sc_attachment call = attachments !! j
     /\ WhatsAppService.sc_messageType call
        = from_option WebhookConsumer.pa_type TEXT (attachments !! j)
     /\ WhatsAppService.sc_content call = (if (j =? 0)%nat then content else ""))
  /\ (1 <= length calls <= Nat.max 1 (length attachments))%nat
  /\ (forall j, (S j < length calls)%nat -> answer j <> WhatsAppService.Failed)
  /\ (sendResult = WhatsAppService.SendFailed
      <-> answer (length calls - 1)%nat = WhatsAppService.Failed)
  /\ (sendResult <> WhatsAppService.SendFailed ->
      length calls = Nat.max 1 (length attachments)).
Proof.
  unfold WhatsAppService.sendMessage.
  destruct attachments as [|a rest].
  { destruct (answer 0%nat) as [result|] eqn:Hans; simpl.
    - split.
      { intros [|j] call; simpl; [|rewrite lookup_nil; discriminate].
        intros [= <-]. destruct provider; repeat split. }
      split; [lia|]. split; [intros j; lia|]. rewrite Hans.
      split; [split; discriminate | reflexivity].
    - split.
      { intros [|j] call; simpl; [|rewrite lookup_nil; discriminate].
        intros [= <-]. destruct provider; repeat split. }
      split; [lia|]. split; [intros j; lia|]. rewrite Hans.
      split; [split; reflexivity | congruence]. }
  pose proof (sendAttachments_spec (a :: rest) 0) as H.
  destruct (WhatsAppService.sendAttachments _ _ _ _ _ _ _ 0 (a :: rest))
    as [calls results].
  destruct H as (Hcalls & Hok & Hres).
  assert (Hshape : forall j call, calls !! j = Some call ->
     WhatsAppService.sc_phone call = phone
     /\ WhatsAppService.sc_provider call = provider
     /\ WhatsAppService.sc_replyToMessageId call = replyToMessageId
     /\ WhatsAppService.sc_attachment call = (a :: rest) !! j
     /\ WhatsAppService.sc_messageType call
        = from_option WebhookConsumer.pa_type TEXT ((a :: rest) !! j)
     /\ WhatsAppService.sc_content call = (if (j =? 0)%nat then content else "")).
  { intros j call Hj. destruct (Hcalls j call Hj) as (att & Hatt & ->).
    rewrite Hatt. cbn [WhatsAppService.viaCall WhatsAppService.sc_phone
      WhatsAppService.sc_provider WhatsAppService.sc_replyToMessageId
      WhatsAppService.sc_attachment WhatsAppService.sc_messageType
      WhatsAppService.sc_content from_option].
    repeat split. cbn [Nat.add].
    destruct (j =? 0)%nat; [|reflexivity].
    destruct content; reflexivity. }
  destruct results as [results|].
  - destruct Hres as (Hl1 & Hl2 & Hres). split; [exact Hshape|].
    cbn [length] in *. split; [lia|]. split; [exact Hok|]. split.
    + split; [discriminate|]. intros Hfail. exfalso.
      destruct (lookup_lt_is_Some_2 results (length calls - 1)) as [r Hr]; [lia|].
      specialize (Hres _ _ Hr). cbn [Nat.add] in Hres. congruence.
    + intros _. lia.
  - destruct Hres as (n & Hl & Hn & Hfail). split; [exact Hshape|].
    cbn [length] in *. split; [lia|]. split; [exact Hok|]. split.
    + split; [intros _|reflexivity]. rewrite Hl.
      replace (S n - 1)%nat with n by lia. exact Hfail.
    + congruence.
Qed.

End SendLoop.

(** * The helpdesk callback *)

Lemma or_null_Some (v : option string) (x : string) :
  Js.or_null v = Some x -> v = Some x /\ Js.truthy x = true.
Proof.
  destruct v as [y|]; simpl; [|discriminate].
  destruct (Js.truthy y) eqn:Hy; [|discriminate]. intros [= <-]. auto.
Qed.

Lemma or_null_truthy (x : string) : Js.truthy x = true -> Js.or_null (Some x) = Some x.
Proof. intros H. simpl. rewrite H. reflexivity. Qed.

Lemma isGroupOf_spec (identifier : string) :
  WebhookCallback.isGroupOf identifier
  = Js.endsWith identifier "@g.us" || Js.endsWith identifier "-group".
Proof.
  unfold WebhookCallback.isGroupOf, Js.endsWith.
  destruct (rev (Js.chars identifier)) as [|c l]; [reflexivity|].
  change (rev (Js.chars "@lid")) with ["d"; "i"; "l"; "@"]%char.
  change (rev (Js.chars "@s.whatsapp.net"))
    with ["t"; "e"; "n"; "."; "p"; "p"; "a"; "s"; "t"; "a"; "h"; "w"; "."; "s"; "@"]%char.
  change (rev (Js.chars "@g.us")) with ["s"; "u"; "."; "g"; "@"]%char.
  change (rev (Js.chars "-group")) with ["p"; "u"; "o"; "r"; "g"; "-"]%char.
  cbn [Js.startsWithChars].
  destruct (decide ("d"%char = c)) as [<-|Hd].
  { rewrite (bool_decide_eq_false_2 ("s"%char = "d"%char)) by discriminate.
    rewrite (bool_decide_eq_false_2 ("p"%char = "d"%char)) by discriminate.
    rewrite (bool_decide_eq_false_2 ("t"%char = "d"%char)) by discriminate.
    cbn [andb orb]. destruct (bool_decide _ && _); reflexivity. }
  rewrite (bool_decide_eq_false_2 _ Hd). cbn [andb].
  destruct (decide ("t"%char = c)) as [<-|Ht].
  { rewrite (bool_decide_eq_false_2 ("s"%char = "t"%char)) by discriminate.
    rewrite (bool_decide_eq_false_2 ("p"%char = "t"%char)) by discriminate.
    cbn [andb orb]. destruct (bool_decide _ && _); reflexivity. }
  rewrite (bool_decide_eq_false_2 _ Ht). cbn [andb].
  destruct (bool_decide ("s"%char = c) && _); [reflexivity|].
  destruct (bool_decide ("p"%char = c) && _); reflexivity.
Qed.

Lemma recipientOf_truthy (contact : WebhookCallback.Contact) (identifier : string) :
  Js.truthy identifier = true ->
  Js.or_null (WebhookCallback.recipientOf contact identifier)
  = Some (if WebhookCallback.isGroupOf identifier then identifier
          else Js.or_str (WebhookCallback.phone_number contact) identifier).
Proof.
  intros Ht. unfold WebhookCallback.recipientOf.
  destruct (WebhookCallback.isGroupOf identifier); [apply or_null_truthy, Ht|].
  unfold WebhookCallback.lidOf, WebhookCallback.jidOf.
  generalize (Js.endsWith identifier "@lid") (Js.endsWith identifier "@s.whatsapp.net").
  intros isLid isJid.
  assert (Hid : Js.or_null (Some identifier) = Some identifier)
    by (apply or_null_truthy, Ht).
  assert (Htail : Js.or_else (if isLid then Some identifier else None)
            (Js.or_else (if isLid then None
                         else if isJid then Some identifier else None)
               (Some identifier)) = Some identifier).
  { unfold Js.or_else. destruct isLid, isJid; rewrite ?Hid; reflexivity. }
  rewrite Htail. unfold Js.or_else at 1.
  destruct (WebhookCallback.phone_number contact) as [ph|]; [|exact Hid].
  unfold Js.or_str. cbn [Js.or_null].
  destruct (Js.truthy ph) eqn:Hp; cbn [Js.or_null]; rewrite ?Hp; [|exact Hid].
  cbn [Js.or_null]. rewrite Hp. reflexivity.
Qed.

(** The three ways a callback goes: it is a deletion and is handed to
    [processMessageDelete]; or it is turned away with the store untouched; or
    it passes the guards and is delivered to the resolved recipient through
    the integration of its inbox, or the first one. *)
Lemma processWebhookCallback_cases (body : WebhookCallback.Payload)
    (integrations : list IntegrationManager.Integration)
    (http : WhatsApp.Request -> WhatsApp.HttpOutcome)
    (answer : nat -> WhatsAppService.SendAnswer) (st : Store) :
  let run := WebhookCallback.processWebhookCallback body integrations http answer st in
  (WebhookCallback.event body = Some "message_updated"
   /\ WebhookCallback.deleted body = true
   /\ run = WebhookCallback.processMessageDelete body integrations http st)
  \/ (exists reason,
        run = WebhookCallback.returns st (WebhookConsumer.CallbackNotProcessed reason)
        /\ reason <> "ticket_consumed"
        /\ reason <> "no_valid_identifier_found")
  \/ (WebhookCallback.event body = Some "message_created"
      /\ WebhookCallback.message_type body = Some "outgoing"
      /\ WebhookCallback.private body = false
      /\ exists conversation contact identifier integration,
           WebhookCallback.conversation body = Some conversation
           /\ WebhookCallback.meta_sender conversation = Some contact
           /\ Js.or_null (WebhookCallback.identifier contact) = Some identifier
           /\ In integration integrations
           /\ match IntegrationManager.findIntegrationByInboxId integrations
                      (WebhookCallback.inbox_id conversation) with
              | Some i => integration = i
              | None => head integrations = Some integration
              end
           /\ run = WebhookCallback.deliver body conversation
                      (if WebhookCallback.isGroupOf identifier then identifier
                       else Js.or_str (WebhookCallback.phone_number contact) identifier)
                      (WebhookCallback.lidOf identifier)
                      (WebhookCallback.jidOf identifier)
                      (default "" (WebhookCallback.content body))
                      (default [] (WebhookCallback.attachments body))
                      (match Js.or_null (WebhookCallback.in_reply_to body) with
                       | Some replyToMessageId =>
                         getApiMessageId replyToMessageId (messageIdCache st)
                       | None => None
                       end)
                      (getMessageType (default "" (WebhookCallback.content body))
                         (Some (default [] (WebhookCallback.attachments body))))
                      integration answer st).
Proof.
  intros run. subst run. unfold WebhookCallback.processWebhookCallback.
  destruct (bool_decide (WebhookCallback.event body = Some "message_updated")
            && WebhookCallback.deleted body) eqn:Hupd.
  { apply andb_true_iff in Hupd as [Hev%bool_decide_eq_true Hd]. left. auto. }
  clear Hupd. right.
  decide_prop (WebhookCallback.event body = Some "message_created") Hev; cbn [negb].
  2:{ left. eexists. split; [reflexivity|]. split; discriminate. }
  decide_prop (WebhookCallback.message_type body = Some "outgoing") Hout; cbn [negb].
  2:{ left. eexists. split; [reflexivity|]. split; discriminate. }
  destruct (WebhookCallback.private body) eqn:Hpriv.
  { left. eexists. split; [reflexivity|]. split; discriminate. }
  destruct integrations as [|i0 rest].
  { left. eexists. split; [reflexivity|]. split; discriminate. }
  cbn [WebhookCallback.noIntegrations].
  destruct (WebhookCallback.conversation body) as [conversation|] eqn:Hconv.
  2:{ left. eexists. split; [reflexivity|]. split; discriminate. }
  destruct (WebhookCallback.meta_sender conversation) as [contact|] eqn:Hcontact.
  2:{ left. eexists. split; [reflexivity|]. split; discriminate. }
  cbn [mbind option_bind].
  destruct (Js.or_null (WebhookCallback.identifier contact)) as [identifier|] eqn:Hident.
  2:{ left. eexists. split; [reflexivity|]. split; discriminate. }
  destruct (or_null_Some _ _ Hident) as [_ Htruthy].
  rewrite (recipientOf_truthy contact identifier Htruthy).
  right. split; [exact Hev|]. split; [exact Hout|]. split; [reflexivity|].
  destruct (IntegrationManager.findIntegrationByInboxId (i0 :: rest)
              (WebhookCallback.inbox_id conversation)) as [i|] eqn:Hfind.
  - exists conversation, contact, identifier, i.
    split; [reflexivity|]. split; [exact Hcontact|]. split; [exact Hident|].
    split; [|split; [rewrite Hfind; reflexivity | reflexivity]].
    unfold IntegrationManager.findIntegrationByInboxId in Hfind.
    destruct (WebhookCallback.inbox_id conversation); [|discriminate].
    apply find_some in Hfind as [Hin _]. exact Hin.
  - exists conversation, contact, identifier, i0.
    split; [reflexivity|]. split; [exact Hcontact|]. split; [exact Hident|].
    split; [left; reflexivity|]. split; [rewrite Hfind; reflexivity | reflexivity].
Qed.

Lemma addTicket_count (m : gmap (option string) (gmap MessageType Z))
    (phone phone' : option string) (k k' : MessageType) :
  ticketCount (addTicket phone k m) phone' k'
  = ticketCount m phone' k'
    + (if bool_decide (phone = phone' /\ k = k') then 1 else 0).
Proof.
  rewrite addTicket_insert. unfold ticketCount.
  destruct (decide (phone = phone')) as [<-|Hp].
  - rewrite lookup_insert_eq, (ticketsOf_default (<[_ := _]> _)).
    destruct (decide (k = k')) as [<-|Hk].
    + rewrite lookup_insert_eq, bool_decide_eq_true_2 by (split; reflexivity).
      destruct (m !! phone); reflexivity.
    + rewrite lookup_insert_ne by assumption.
      rewrite bool_decide_eq_false_2 by (intros [_ ?]; contradiction).
      rewrite <- ticketsOf_default.
      destruct (m !! phone); simpl; [lia|].
      rewrite ticketsOf_default, lookup_empty. simpl. lia.
  - rewrite lookup_insert_ne by assumption.
    rewrite bool_decide_eq_false_2 by (intros [? _]; contradiction). lia.
Qed.

Lemma attachmentsLoop_spec (recipient : option string) (messageType : MessageType)
    (attachments : list Attachment)
    (tickets : gmap (option string) (gmap MessageType Z)) :
  nonnegTickets tickets ->
  let '(processed, tickets', threw) :=
    WebhookCallback.attachmentsLoop recipient messageType attachments tickets in
  nonnegTickets tickets'
  /\ exists j : nat,
       (if threw then (j < length attachments)%nat
        else j = length attachments
             /\ processed = omap WebhookConsumer.processAttachment attachments)
       /\ forall phone k,
            ticketCount tickets' phone k
            = ticketCount tickets phone k
              + (if bool_decide (recipient = phone /\ messageType = k)
                 then Z.of_nat j else 0).
Proof.
  revert tickets. induction attachments as [|a rest IH]; intros tickets Hnn; simpl.
  { split; [exact Hnn|]. exists 0%nat. split; [split; reflexivity|].
    intros phone k. case_bool_decide; simpl; lia. }
  destruct (bool_decide (file_type a = Some "file") && _ && _).
  { split; [exact Hnn|]. exists 0%nat. split; [simpl; lia|].
    intros phone k. case_bool_decide; simpl; lia. }
  specialize (IH (addOutgoingTicketChatwoot recipient messageType tickets)
                 (nonneg_add recipient messageType tickets Hnn)).
  destruct (WebhookCallback.attachmentsLoop recipient messageType rest _)
    as [[processed tickets'] threw].
  destruct IH as (Hnn' & j & Hj & Hcount). split; [exact Hnn'|].
  exists (S j). split.
  - destruct threw; [simpl; lia|]. destruct Hj as [-> ->]. split; [reflexivity|].
    destruct (WebhookConsumer.processAttachment a); reflexivity.
  - intros phone k. rewrite Hcount. unfold addOutgoingTicketChatwoot.
    rewrite addTicket_count. case_bool_decide; lia.
Qed.

Section Deliver.

Context (body : WebhookCallback.Payload) (conversation : WebhookCallback.Conversation)
        (recipient : string) (lid jid : option string) (content : string)
        (attachments : list Attachment) (apiReplyMessageId : option string)
        (messageType : MessageType) (integration : IntegrationManager.Integration)
        (answer : nat -> WhatsAppService.SendAnswer) (st : Store).

Local Abbreviation delivered :=
  (WebhookCallback.deliver body conversation recipient lid jid content attachments
     apiReplyMessageId messageType integration answer st).

Lemma deliver_shape :
  WebhookCallback.deletes delivered = []
  /\ (forall call, In call (WebhookCallback.sends delivered) ->
        WhatsAppService.sc_phone call = recipient
        /\ WhatsAppService.sc_provider call = IntegrationManager.provider integration
        /\ WhatsAppService.sc_replyToMessageId call = apiReplyMessageId)
  /\ (WebhookCallback.result delivered = WebhookConsumer.CallbackProcessed
      \/ WebhookCallback.result delivered = WebhookConsumer.CallbackThrows
      \/ WebhookCallback.result delivered
         = WebhookConsumer.CallbackNotProcessed "ticket_consumed").
Proof.
  unfold WebhookCallback.deliver.
  destruct (consumeOutgoingTicket _ _ _) as [[|] tickets].
  { simpl. split; [reflexivity|]. split; [intros call []|]. auto. }
  destruct (match attachments with [] => _ | _ :: _ => _ end)
    as [[processed ticketsChatwoot] [|]].
  { simpl. split; [reflexivity|]. split; [intros call []|]. auto. }
  match goal with
  | |- context [WhatsAppService.sendMessage ?p ?ph ?c ?mt (Some ?a) ?l ?j ?r ?ans] =>
    pose proof (sendMessage_shape p ph c l j r ans mt a) as H;
    destruct (WhatsAppService.sendMessage p ph c mt (Some a) l j r ans)
      as [calls sendResult]
  end.
  destruct H as (Hcalls & _).
  destruct sendResult; simpl; (split; [reflexivity|]); (split; [exact Hcalls|]); auto.
Qed.

Lemma deliver_credits :
  nonnegTickets (messageTicketsChatwoot st) ->
  (0 < ticketCount (messageTickets st) (Some recipient) messageType ->
     delivered = WebhookCallback.returns
             (WebhookConsumer.withTickets st
                (snd (consumeOutgoingTicket (Some recipient) messageType
                        (messageTickets st))))
             (WebhookConsumer.CallbackNotProcessed "ticket_consumed"))
  /\ (ticketCount (messageTickets st) (Some recipient) messageType <= 0 ->
      messageTickets (WebhookCallback.store delivered) = messageTickets st
      /\ WebhookCallback.result delivered
         <> WebhookConsumer.CallbackNotProcessed "ticket_consumed"
      /\ (WebhookCallback.result delivered = WebhookConsumer.CallbackThrows ->
          messageIdCache (WebhookCallback.store delivered) = messageIdCache st)
      /\ (WebhookCallback.result delivered = WebhookConsumer.CallbackProcessed ->
          length (WebhookCallback.sends delivered)
          = Nat.max 1 (length (omap WebhookConsumer.processAttachment attachments)))
      /\ (WebhookCallback.sends delivered <> [] ->
          forall phone k,
            ticketCount (messageTicketsChatwoot (WebhookCallback.store delivered)) phone k
            = ticketCount (messageTicketsChatwoot st) phone k
              + (if bool_decide (Some recipient = phone /\ messageType = k)
                 then Z.of_nat (Nat.max 1 (length attachments))
                      - (match WebhookCallback.result delivered with
                         | WebhookConsumer.CallbackThrows => 1
                         | _ => 0
                         end)
                 else 0))).
Proof.
  intros Hnn. unfold WebhookCallback.deliver.
  pose proof (consume_fst_count (Some recipient) messageType (messageTickets st)) as Hfst.
  destruct (consumeOutgoingTicket (Some recipient) messageType (messageTickets st))
    as [consumed tickets] eqn:Hcons.
  simpl in Hfst. subst consumed.
  destruct (Z.ltb_spec 0 (ticketCount (messageTickets st) (Some recipient) messageType))
    as [Hpos|Hle].
  { split; [intros _; reflexivity | intros Hle; lia]. }
  split; [intros Hpos; lia|]. intros _.
  assert (Htickets : tickets = messageTickets st).
  { pose proof (consume_unchanged (Some recipient) messageType (messageTickets st) Hle)
      as Hu. rewrite Hcons in Hu. exact Hu. }
  subst tickets. clear Hcons.
  assert (Hloop : let '(processed, ticketsChatwoot, threw) :=
            match attachments with
            | [] =>
              ([], addOutgoingTicketChatwoot (Some recipient) messageType
                     (messageTicketsChatwoot st), false)
            | _ :: _ =>
              WebhookCallback.attachmentsLoop (Some recipient) messageType attachments
                (messageTicketsChatwoot st)
            end in
          nonnegTickets ticketsChatwoot
          /\ (threw = false ->
              processed = omap WebhookConsumer.processAttachment attachments
              /\ forall phone k,
                   ticketCount ticketsChatwoot phone k
                   = ticketCount (messageTicketsChatwoot st) phone k
                     + (if bool_decide (Some recipient = phone /\ messageType = k)
                        then Z.of_nat (Nat.max 1 (length attachments)) else 0))).
  { destruct attachments as [|a rest] eqn:Hatts.
    - split; [apply nonneg_add, Hnn|]. intros _. split; [reflexivity|].
      intros phone k. unfold addOutgoingTicketChatwoot. rewrite addTicket_count.
      case_bool_decide; simpl; lia.
    - pose proof (attachmentsLoop_spec (Some recipient) messageType (a :: rest)
                    (messageTicketsChatwoot st) Hnn) as H.
      destruct (WebhookCallback.attachmentsLoop _ _ (a :: rest) _)
        as [[processed ticketsChatwoot] threw].
      destruct H as (Hnn' & j & Hj & Hcount). split; [exact Hnn'|].
      intros ->. destruct Hj as [-> ->]. split; [reflexivity|].
      intros phone k. rewrite Hcount.
      replace (Nat.max 1 (length (a :: rest))) with (length (a :: rest))
        by (simpl; lia).
      reflexivity. }
  cbv beta iota zeta in Hloop |- *.
  change (messageTicketsChatwoot (WebhookConsumer.withTickets st (messageTickets st)))
    with (messageTicketsChatwoot st).
  destruct (match attachments with [] => _ | _ :: _ => _ end)
    as [[processed ticketsChatwoot] threw].
  destruct Hloop as (Hnn' & Hloop).
  destruct threw.
  { simpl. split; [reflexivity|]. split; [discriminate|]. split; [reflexivity|].
    split; [discriminate | no_effect]. }
  destruct (Hloop eq_refl) as [-> Hcount]. clear Hloop.
  match goal with
  | |- context [WhatsAppService.sendMessage ?p ?ph ?c ?mt (Some ?a) ?l ?j ?r ?ans] =>
    pose proof (sendMessage_shape p ph c l j r ans mt a) as H;
    destruct (WhatsAppService.sendMessage p ph c mt (Some a) l j r ans)
      as [calls sendResult]
  end.
  destruct H as (_ & Hne & Hlen).
  assert (Hok : forall cache,
    let run' := {| WebhookCallback.store :=
                     WebhookConsumer.withCache
                       (WebhookConsumer.withTicketsChatwoot
                          (WebhookConsumer.withTickets st (messageTickets st))
                          ticketsChatwoot) cache;
                   WebhookCallback.sends := calls; WebhookCallback.deletes := [];
                   WebhookCallback.result := WebhookConsumer.CallbackProcessed |} in
    sendResult <> WhatsAppService.SendFailed ->
    messageTickets (WebhookCallback.store run') = messageTickets st
    /\ WebhookCallback.result run'
       <> WebhookConsumer.CallbackNotProcessed "ticket_consumed"
    /\ (WebhookCallback.result run' = WebhookConsumer.CallbackThrows ->
        messageIdCache (WebhookCallback.store run') = messageIdCache st)
    /\ (WebhookCallback.result run' = WebhookConsumer.CallbackProcessed ->
        length (WebhookCallback.sends run')
        = Nat.max 1 (length (omap WebhookConsumer.processAttachment attachments)))
    /\ (WebhookCallback.sends run' <> [] ->
        forall phone k,
          ticketCount (messageTicketsChatwoot (WebhookCallback.store run')) phone k
          = ticketCount (messageTicketsChatwoot st) phone k
            + (if bool_decide (Some recipient = phone /\ messageType = k)
               then Z.of_nat (Nat.max 1 (length attachments))
                    - (match WebhookCallback.result run' with
                       | WebhookConsumer.CallbackThrows => 1
                       | _ => 0
                       end)
               else 0))).
  { intros cache run' Hnf. subst run'. simpl. split; [reflexivity|].
    split; [discriminate|]. split; [discriminate|]. split; [intros _; apply Hlen, Hnf|].
    intros _ phone k. rewrite Hcount. case_bool_decide; lia. }
  destruct sendResult as [mid|mids|].
  - destruct (WhatsAppService.extractApiMessageIds _) as [|m ms];
      [apply (Hok (messageIdCache st)) | apply Hok]; discriminate.
  - destruct (WhatsAppService.extractApiMessageIds _) as [|m ms];
      [apply (Hok (messageIdCache st)) | apply Hok]; discriminate.
  - simpl. split; [reflexivity|]. split; [discriminate|]. split; [reflexivity|].
    split; [discriminate|]. intros _ phone k.
    rewrite consumeChatwoot_snd, (consume_counts _ _ _ _ _ Hnn'), !Hcount.
    rewrite (bool_decide_eq_true_2 (Some recipient = Some recipient
                                    /\ messageType = messageType))
      by (split; reflexivity).
    destruct (Z.ltb_spec 0 (ticketCount (messageTicketsChatwoot st) (Some recipient)
                              messageType
                            + Z.of_nat (Nat.max 1 (length attachments)))) as [_|Hbad].
    + case_bool_decide; lia.
    + exfalso.
      assert (0 <= ticketCount (messageTicketsChatwoot st) (Some recipient) messageType).
      { unfold ticketCount.
        destruct (messageTicketsChatwoot st !! Some recipient) as [obj|] eqn:Hobj;
          [|lia].
        rewrite ticketsOf_default. destruct (obj !! messageType) as [c|] eqn:Hc;
          simpl; [|lia].
        exact (Hnn _ _ _ _ Hobj Hc). }
      lia.
Qed.

End Deliver.

Lemma deleteMessage_effects (provider : WhatsApp.Provider)
    (http : WhatsApp.Request -> WhatsApp.HttpOutcome) (messageId : string)
    (options : WhatsApp.DeleteOptions) :
  let '(requests, r) := WhatsApp.deleteMessage provider http messageId options in
  (length requests <= 1)%nat
  /\ (forall api data, r = WhatsApp.Deleted api data -> length requests = 1%nat)
  /\ forall rq, In rq requests ->
       In (WhatsApp.JStr messageId)
          (map snd (WhatsApp.params rq ++ WhatsApp.body rq)%list).
Proof.
  assert (Hsend : forall api rq,
    In (WhatsApp.JStr messageId) (map snd (WhatsApp.params rq ++ WhatsApp.body rq)%list) ->
    let '(requests, r) := WhatsApp.send http api rq in
    (length requests <= 1)%nat
    /\ (forall api data, r = WhatsApp.Deleted api data -> length requests = 1%nat)
    /\ forall rq, In rq requests ->
         In (WhatsApp.JStr messageId)
            (map snd (WhatsApp.params rq ++ WhatsApp.body rq)%list)).
  { intros api rq Hin. unfold WhatsApp.send.
    destruct (http rq); simpl; (split; [lia|]); (split; [reflexivity|]);
      intros rq' [<-|[]]; exact Hin. }
  destruct provider; simpl.
  - unfold WhatsApp.deleteViaZAPI.
    destruct (negb (Js.truthy _)).
    { simpl. split; [lia|]. split; [discriminate | intros rq []]. }
    destruct (if Js.endsWith _ "@g.us" then _ else _).
    + apply Hsend. simpl. left. reflexivity.
    + simpl. split; [lia|]. split; [discriminate | intros rq []].
  - apply Hsend. simpl. left. reflexivity.
  - apply Hsend. simpl. left. reflexivity.
Qed.

Lemma processMessageDelete_shape (body : WebhookCallback.Payload)
    (integrations : list IntegrationManager.Integration)
    (http : WhatsApp.Request -> WhatsApp.HttpOutcome) (st : Store) :
  let run := WebhookCallback.processMessageDelete body integrations http st in
  WebhookCallback.sends run = []
  /\ (length (WebhookCallback.deletes run) <= 1)%nat
  /\ (WebhookCallback.deletes run <> [] ->
        WebhookCallback.message_type body = Some "outgoing"
        /\ WebhookCallback.private body = false
        /\ WebhookCallback.id_truthy body = true
        /\ is_Some (getApiMessageId (WebhookCallback.id body) (messageIdCache st)))
  /\ (WebhookCallback.message_type body <> Some "outgoing"
      \/ WebhookCallback.private body = true \/ integrations = []
      \/ WebhookCallback.id_truthy body = false
      \/ getApiMessageId (WebhookCallback.id body) (messageIdCache st) = None ->
        WebhookCallback.store run = st
        /\ WebhookCallback.deletes run = []
        /\ exists reason,
             WebhookCallback.result run = WebhookConsumer.CallbackNotProcessed reason)
  /\ (WebhookCallback.result run = WebhookConsumer.CallbackProcessed ->
        exists p rq,
          getApiMessageId (WebhookCallback.id body) (messageIdCache st) = Some p
          /\ WebhookCallback.deletes run = [rq]
          /\ In (WhatsApp.JStr p) (map snd (WhatsApp.params rq ++ WhatsApp.body rq)%list)
          /\ WebhookCallback.store run
             = WebhookConsumer.withCache st
                 (removeMessageIdMapping (WebhookCallback.id body) (messageIdCache st)))
  /\ (WebhookCallback.result run <> WebhookConsumer.CallbackProcessed ->
        WebhookCallback.store run = st).
Proof.
  intros run. subst run. unfold WebhookCallback.processMessageDelete.
  decide_prop (WebhookCallback.message_type body = Some "outgoing") Hout; cbn [negb].
  2:{ simpl. split; [reflexivity|]. split; [lia|]. split; [no_effect|].
      split; [eauto|]. split; [discriminate | reflexivity]. }
  destruct (WebhookCallback.private body) eqn:Hpriv.
  { simpl. split; [reflexivity|]. split; [lia|]. split; [no_effect|].
    split; [eauto|]. split; [discriminate | reflexivity]. }
  destruct integrations as [|i0 rest] eqn:Hint.
  { simpl. split; [reflexivity|]. split; [lia|]. split; [no_effect|].
    split; [eauto|]. split; [discriminate | reflexivity]. }
  cbn [WebhookCallback.noIntegrations].
  destruct (WebhookCallback.id_truthy body) eqn:Hid; cbn [negb].
  2:{ simpl. split; [reflexivity|]. split; [lia|]. split; [no_effect|].
      split; [eauto|]. split; [discriminate | reflexivity]. }
  destruct (getApiMessageId _ _) as [wa|] eqn:Hwa.
  2:{ simpl. split; [reflexivity|]. split; [lia|]. split; [no_effect|].
      split; [eauto|]. split; [discriminate | reflexivity]. }
  assert (Hno : ~ (WebhookCallback.message_type body <> Some "outgoing"
                   \/ false = true \/ i0 :: rest = [] \/ true = false
                   \/ Some wa = None))
    by (intros [?|[?|[?|[?|?]]]]; congruence).
  match goal with
  | |- context [match ?x with Some i => Some i | None => WebhookCallback.firstIntegration _ end] =>
    destruct x as [i|]; cbn [WebhookCallback.firstIntegration head]
  end;
    match goal with
    | |- context [WhatsApp.deleteMessage ?p ?h ?m ?o] =>
      pose proof (deleteMessage_effects p h m o) as Heff;
      destruct (WhatsApp.deleteMessage p h m o) as [requests [api data|e]]
    end; destruct Heff as (Hlen & Hone & Hin); simpl;
      (split; [reflexivity|]); (split; [exact Hlen|]);
      (split; [intros _; repeat split; eauto|]); (split; [tauto|]).
  - split; [intros _|congruence].
    specialize (Hone _ _ eq_refl). destruct requests as [|rq [|rq' more]];
      try discriminate.
    exists wa, rq. repeat split. apply Hin. left. reflexivity.
  - split; [discriminate | reflexivity].
  - split; [intros _|congruence].
    specialize (Hone _ _ eq_refl). destruct requests as [|rq [|rq' more]];
      try discriminate.
    exists wa, rq. repeat split. apply Hin. left. reflexivity.
  - split; [discriminate | reflexivity].
Qed.

(** A helpdesk callback reaches the provider only through its guards: a
    send call is made only for a [message_created] event that is outgoing,
    not private, and whose conversation names a contact with an identifier;
    a delete request only for a deleted [message_updated] event that is
    outgoing, not private, and whose id is mapped to a provider id. A
    callback that is not outgoing, or is private, or meets no configured
    integration returns unprocessed with the store untouched, and no
    callback both sends and deletes. *)
Theorem processWebhookCallback_guards (body : WebhookCallback.Payload)
    (integrations : list IntegrationManager.Integration)
    (http : WhatsApp.Request -> WhatsApp.HttpOutcome)
    (answer : nat -> WhatsAppService.SendAnswer) (st : Store) :
  let run := WebhookCallback.processWebhookCallback body integrations http answer st in
  (WebhookCallback.sends run <> [] ->
     WebhookCallback.event body = Some "message_created"
     /\ WebhookCallback.message_type body = Some "outgoing"
     /\ WebhookCallback.private body = false
     /\ exists conversation contact identifier,
          WebhookCallback.conversation body = Some conversation
          /\ WebhookCallback.meta_sender conversation = Some contact
          /\ Js.or_null (WebhookCallback.identifier contact) = Some identifier)
  /\ (WebhookCallback.deletes run <> [] ->
        WebhookCallback.event body = Some "message_updated"
        /\ WebhookCallback.deleted body = true
        /\ WebhookCallback.message_type body = Some "outgoing"
        /\ WebhookCallback.private body = false
        /\ WebhookCallback.id_truthy body = true
        /\ is_Some (getApiMessageId (WebhookCallback.id body) (messageIdCache st)))
  /\ (WebhookCallback.message_type body <> Some "outgoing"
      \/ WebhookCallback.private body = true \/ integrations = [] ->
        WebhookCallback.store run = st
        /\ WebhookCallback.sends run = [] /\ WebhookCallback.deletes run = []
        /\ exists reason,
             WebhookCallback.result run = WebhookConsumer.CallbackNotProcessed reason)
  /\ (WebhookCallback.sends run = [] \/ WebhookCallback.deletes run = []).
Proof.
  intros run.
  destruct (processWebhookCallback_cases body integrations http answer st)
    as [(Hev & Hdel & Hrun)|[(reason & Hrun & _)|
        (Hev & Hout & Hpriv & conv & contact & ident & integ & Hconv & Hcontact
         & Hident & Hin & Hchosen & Hrun)]];
    fold run in Hrun; rewrite Hrun.
  - destruct (processMessageDelete_shape body integrations http st)
      as (Hs & _ & Hd & Hun & _).
    split; [rewrite Hs; no_effect|].
    split; [intros H; specialize (Hd H); tauto|].
    split; [|left; exact Hs].
    intros H. destruct Hun as (H1 & H2 & H3); [tauto|]. auto.
  - simpl. split; [no_effect|]. split; [no_effect|]. eauto 10.
  - match goal with
    | |- context [WebhookCallback.deliver ?b ?c ?r ?l ?j ?ct ?a ?rp ?mt ?i ?ans ?s] =>
      destruct (deliver_shape b c r l j ct a rp mt i ans s) as (Hd & _ & _)
    end.
    split; [intros _; eauto 10|]. split; [rewrite Hd; no_effect|].
    split; [|right; exact Hd].
    intros [H|[H|H]]; [congruence | congruence | subst integrations; destruct Hin].
Qed.

(** The recipient of a helpdesk callback: a contact whose identifier ends
    in [@g.us] or [-group] is addressed by that identifier, whatever its
    phone number, and any other contact by its phone number when it has one
    and by its identifier otherwise. Every send call of the run goes to that
    recipient and carries, as reply id, the provider id cached for the
    message the callback replies to; the callback never answers that no
    valid identifier was found. *)
Theorem processWebhookCallback_recipient (body : WebhookCallback.Payload)
    (integrations : list IntegrationManager.Integration)
    (http : WhatsApp.Request -> WhatsApp.HttpOutcome)
    (answer : nat -> WhatsAppService.SendAnswer) (st : Store) :
  let run := WebhookCallback.processWebhookCallback body integrations http answer st in
  (forall conversation contact identifier call,
     WebhookCallback.conversation body = Some conversation ->
     WebhookCallback.meta_sender conversation = Some contact ->
     WebhookCallback.identifier contact = Some identifier ->
     In call (WebhookCallback.sends run) ->
     WhatsAppService.sc_phone call
     = (if Js.endsWith identifier "@g.us" || Js.endsWith identifier "-group"
        then identifier
        else Js.or_str (WebhookCallback.phone_number contact) identifier)
     /\ WhatsAppService.sc_replyToMessageId call
        = match Js.or_null (WebhookCallback.in_reply_to body) with
          | Some replyToMessageId =>
            getApiMessageId replyToMessageId (messageIdCache st)
          | None => None
          end)
  /\ WebhookCallback.result run
     <> WebhookConsumer.CallbackNotProcessed "no_valid_identifier_found".
Proof.
  intros run.
  destruct (processWebhookCallback_cases body integrations http answer st)
    as [(Hev & Hdel & Hrun)|[(reason & Hrun & _ & Hreason)|
        (Hev & Hout & Hpriv & conv & contact & ident & integ & Hconv & Hcontact
         & Hident & Hin & Hchosen & Hrun)]];
    fold run in Hrun; rewrite Hrun.
  - destruct (processMessageDelete_shape body integrations http st)
      as (Hs & _ & _ & Hun & Hok & _).
    split; [rewrite Hs; intros ? ? ? ? _ _ _ []|].
    intros Hres.
    destruct (WebhookCallback.message_type body) as [mt|] eqn:Hmt.
    + revert Hres. unfold WebhookCallback.processMessageDelete. rewrite Hmt.
      destruct (negb _); [discriminate|].
      destruct (WebhookCallback.private body); [discriminate|].
      destruct (WebhookCallback.noIntegrations integrations); [discriminate|].
      destruct (negb _); [discriminate|].
      destruct (getApiMessageId _ _); [|discriminate].
      destruct (match _ with Some i => Some i | None => _ end); [|discriminate].
      destruct (WhatsApp.deleteMessage _ _ _ _) as [? []]; discriminate.
    + revert Hres. unfold WebhookCallback.processMessageDelete. rewrite Hmt.
      rewrite bool_decide_eq_false_2 by discriminate. discriminate.
  - simpl. split; [intros ? ? ? ? _ _ _ []|]. congruence.
  - match goal with
    | |- context [WebhookCallback.deliver ?b ?c ?r ?l ?j ?ct ?a ?rp ?mt ?i ?ans ?s] =>
      destruct (deliver_shape b c r l j ct a rp mt i ans s) as (_ & Hcalls & Hres)
    end.
    split.
    + intros conv' contact' ident' call Hc Hm Hi Hcall.
      rewrite Hconv in Hc. injection Hc as <-.
      rewrite Hcontact in Hm. injection Hm as <-.
      destruct (or_null_Some _ _ Hident) as [Hi' _]. rewrite Hi in Hi'.
      injection Hi' as ->.
      destruct (Hcalls call Hcall) as (Hphone & _ & Hreply).
      rewrite Hphone, Hreply, isGroupOf_spec. split; reflexivity.
    + destruct Hres as [->|[->| ->]]; discriminate.
Qed.

(** Credits of a delivered callback. When a callback makes a send call, in
    any reachable store: the provider map held no credit for the recipient
    and kind and is left as it is; the helpdesk map gains, under the
    recipient and the callback's kind, one credit per attachment of the
    payload (one for a message without attachments), less the one credit taken
    back when the send fails, and no other counter moves; and a successful
    run made one send call per attachment of a recognised type (one for a
    message with none). *)
Theorem callback_send_credits (ops : list Op) (body : WebhookCallback.Payload)
    (integrations : list IntegrationManager.Integration)
    (http : WhatsApp.Request -> WhatsApp.HttpOutcome)
    (answer : nat -> WhatsAppService.SendAnswer)
    (Hsent : WebhookCallback.sends
               (WebhookCallback.processWebhookCallback body integrations http answer
                  (run ops initialStore)) <> []) :
  let st := run ops initialStore in
  let r := WebhookCallback.processWebhookCallback body integrations http answer st in
  let attachments := default [] (WebhookCallback.attachments body) in
  let messageType :=
    getMessageType (default "" (WebhookCallback.content body)) (Some attachments) in
  exists recipient,
    (forall call, In call (WebhookCallback.sends r) ->
       WhatsAppService.sc_phone call = recipient)
    /\ ticketCount (messageTickets st) (Some recipient) messageType = 0
    /\ messageTickets (WebhookCallback.store r) = messageTickets st
    /\ (forall phone k,
          ticketCount (messageTicketsChatwoot (WebhookCallback.store r)) phone k
          = ticketCount (messageTicketsChatwoot st) phone k
            + (if bool_decide (Some recipient = phone /\ messageType = k)
               then Z.of_nat (Nat.max 1 (length attachments))
                    - (match WebhookCallback.result r with
                       | WebhookConsumer.CallbackThrows => 1
                       | _ => 0
                       end)
               else 0))
    /\ (WebhookCallback.result r = WebhookConsumer.CallbackProcessed
        \/ WebhookCallback.result r = WebhookConsumer.CallbackThrows)
    /\ (WebhookCallback.result r = WebhookConsumer.CallbackProcessed ->
        length (WebhookCallback.sends r)
        = Nat.max 1 (length (omap WebhookConsumer.processAttachment attachments))).
Proof.
  intros st r attachments messageType. fold st in Hsent. fold r in Hsent.
  destruct (reachable_wellformed ops) as (Hn & _ & Hnc & _). fold st in Hn, Hnc.
  destruct (processWebhookCallback_cases body integrations http answer st)
    as [(Hev & Hdel & Hrun)|[(reason & Hrun & _)|
        (Hev & Hout & Hpriv & conv & contact & ident & integ & Hconv & Hcontact
         & Hident & Hin & Hchosen & Hrun)]];
    fold r in Hrun.
  { exfalso. apply Hsent. rewrite Hrun.
    apply (processMessageDelete_shape body integrations http st). }
  { exfalso. apply Hsent. rewrite Hrun. reflexivity. }
  fold attachments messageType in Hrun.
  set (recipient := if WebhookCallback.isGroupOf ident then ident
                    else Js.or_str (WebhookCallback.phone_number contact) ident) in *.
  match type of Hrun with
  | r = WebhookCallback.deliver ?b ?c ?rc ?l ?j ?ct ?a ?rp ?mt ?i ?ans ?s =>
    destruct (deliver_shape b c rc l j ct a rp mt i ans s) as (_ & Hcalls & Hres);
    destruct (deliver_credits b c rc l j ct a rp mt i ans s Hnc) as (Hpos & Hzero)
  end.
  rewrite <- Hrun in Hcalls, Hres, Hpos, Hzero.
  assert (Hcount : ticketCount (messageTickets st) (Some recipient) messageType <= 0).
  { destruct (Z.ltb_spec 0 (ticketCount (messageTickets st) (Some recipient)
                              messageType)) as [Hp|Hle]; [|exact Hle].
    exfalso. apply Hsent. rewrite (Hpos Hp). reflexivity. }
  destruct (Hzero Hcount) as (Htickets & Hnot & _ & Hlen & Hcredits).
  exists recipient. split; [intros call Hc; apply (Hcalls call Hc)|].
  split.
  { assert (0 <= ticketCount (messageTickets st) (Some recipient) messageType); [|lia].
    unfold ticketCount.
    destruct (messageTickets st !! Some recipient) as [obj|] eqn:Hobj; [|lia].
    rewrite ticketsOf_default. destruct (obj !! messageType) as [c|] eqn:Hc;
      simpl; [|lia].
    exact (Hn _ _ _ _ Hobj Hc). }
  split; [exact Htickets|]. split; [exact (Hcredits Hsent)|].
  split; [|exact Hlen].
  destruct Hres as [H|[H|H]]; [left; exact H | right; exact H | contradiction].
Qed.

Lemma callback_send_credits_witness :
  let contact :=
    {| WebhookCallback.identifier := Some "5511999998888";
       WebhookCallback.phone_number := Some "+5511999998888";
       WebhookCallback.contact_name := Some "Ana" |} in
  let conversation :=
    {| WebhookCallback.conversation_id := Some "9";
       WebhookCallback.inbox_id := Some "7";
       WebhookCallback.meta_sender := Some contact;
       WebhookCallback.assignee_available_name := None;
       WebhookCallback.assignee_name := None |} in
  let body :=
    {| WebhookCallback.event := Some "message_created";
       WebhookCallback.deleted := false;
       WebhookCallback.message_type := Some "outgoing";
       WebhookCallback.private := false;
       WebhookCallback.conversation := Some conversation;
       WebhookCallback.content := Some "veja";
       WebhookCallback.attachments :=
         Some [ {| file_type := Some "image"; data_url := Some "http://h/a.png";
                   extension := None |};
                {| file_type := Some "location"; data_url := None;
                   extension := None |} ];
       WebhookCallback.in_reply_to := None;
       WebhookCallback.id := "42"; WebhookCallback.id_truthy := true;
       WebhookCallback.sender_name := None;
       WebhookCallback.sender_available_name := None |} in
  let integration :=
    {| IntegrationManager.id := "1"; IntegrationManager.inboxId := Some "7";
       IntegrationManager.assinarMensagem := false;
       IntegrationManager.desconsiderarGrupo := true;
       IntegrationManager.defaultCountry := Some "BR";
       IntegrationManager.provider := WhatsApp.uazapi;
       IntegrationManager.normalizedNumber := Some "5511988887777";
       IntegrationManager.instance := None;
       IntegrationManager.baseURL := Some "http://uaz" |} in
  let r :=
    WebhookCallback.processWebhookCallback body [integration]
      (fun _ => WhatsApp.HttpData "")
      (fun _ => WhatsAppService.Answered (Some "A1")) (run [] initialStore) in
  length (WebhookCallback.sends r) = 1%nat
  /\ exists recipient,
       ticketCount (messageTicketsChatwoot (WebhookCallback.store r))
         (Some recipient) IMAGE = 2.
Proof.
  intros contact conversation body integration r.
  split; [reflexivity|].
  assert (Hsent : WebhookCallback.sends r <> []) by (vm_compute; discriminate).
  destruct (callback_send_credits [] body [integration]
              (fun _ => WhatsApp.HttpData "")
              (fun _ => WhatsAppService.Answered (Some "A1")) Hsent)
    as (recipient & _ & _ & _ & Hcount & _).
  exists recipient. subst r.
  rewrite (Hcount (Some recipient) IMAGE).
  rewrite bool_decide_eq_true_2 by (split; reflexivity).
  unfold ticketCount at 1.
  change (messageTicketsChatwoot (run [] initialStore)) with (∅ : gmap (option string) (gmap MessageType Z)).
  rewrite lookup_empty. vm_compute. reflexivity.
Defined.

(** The echo of a message first written on the phone: when the provider
    map holds a credit for the callback's recipient and kind, the callback
    spends that one credit and stops there with [ticket_consumed]: nothing is
    sent, the helpdesk map and the mapping cache stay as they are, and no
    other counter of the provider map moves. *)
Theorem callback_echo_suppressed (ops : list Op) (body : WebhookCallback.Payload)
    (integrations : list IntegrationManager.Integration)
    (http : WhatsApp.Request -> WhatsApp.HttpOutcome)
    (answer : nat -> WhatsAppService.SendAnswer)
    (Hconsumed : WebhookCallback.result
                   (WebhookCallback.processWebhookCallback body integrations http
                      answer (run ops initialStore))
                 = WebhookConsumer.CallbackNotProcessed "ticket_consumed") :
  let st := run ops initialStore in
  let r := WebhookCallback.processWebhookCallback body integrations http answer st in
  let messageType :=
    getMessageType (default "" (WebhookCallback.content body))
      (Some (default [] (WebhookCallback.attachments body))) in
  WebhookCallback.sends r = [] /\ WebhookCallback.deletes r = []
  /\ messageTicketsChatwoot (WebhookCallback.store r) = messageTicketsChatwoot st
  /\ messageIdCache (WebhookCallback.store r) = messageIdCache st
  /\ exists recipient,
       0 < ticketCount (messageTickets st) (Some recipient) messageType
       /\ forall phone k,
            ticketCount (messageTickets (WebhookCallback.store r)) phone k
            = ticketCount (messageTickets st) phone k
              - (if bool_decide (Some recipient = phone /\ messageType = k)
                 then 1 else 0).
Proof.
  intros st r messageType. fold st in Hconsumed. fold r in Hconsumed.
  destruct (reachable_wellformed ops) as (Hn & _ & Hnc & _). fold st in Hn, Hnc.
  destruct (processWebhookCallback_cases body integrations http answer st)
    as [(Hev & Hdel & Hrun)|[(reason & Hrun & Hreason & _)|
        (Hev & Hout & Hpriv & conv & contact & ident & integ & Hconv & Hcontact
         & Hident & Hin & Hchosen & Hrun)]];
    fold r in Hrun.
  { exfalso. rewrite Hrun in Hconsumed.
    destruct (processMessageDelete_shape body integrations http st)
      as (_ & _ & _ & _ & _ & Hkeep).
    revert Hconsumed. unfold WebhookCallback.processMessageDelete.
    destruct (negb _); [discriminate|].
    destruct (WebhookCallback.private body); [discriminate|].
    destruct (WebhookCallback.noIntegrations integrations); [discriminate|].
    destruct (negb _); [discriminate|].
    destruct (getApiMessageId _ _); [|discriminate].
    destruct (match _ with Some i => Some i | None => _ end); [|discriminate].
    destruct (WhatsApp.deleteMessage _ _ _ _) as [? []]; discriminate. }
  { exfalso. rewrite Hrun in Hconsumed. simpl in Hconsumed. congruence. }
  fold messageType in Hrun.
  set (recipient := if WebhookCallback.isGroupOf ident then ident
                    else Js.or_str (WebhookCallback.phone_number contact) ident) in *.
  match type of Hrun with
  | r = WebhookCallback.deliver ?b ?c ?rc ?l ?j ?ct ?a ?rp ?mt ?i ?ans ?s =>
    destruct (deliver_credits b c rc l j ct a rp mt i ans s Hnc) as (Hpos & Hzero)
  end.
  rewrite <- Hrun in Hpos, Hzero.
  destruct (Z.ltb_spec 0 (ticketCount (messageTickets st) (Some recipient) messageType))
    as [Hp|Hle].
  2:{ exfalso. destruct (Hzero Hle) as (_ & Hnot & _). contradiction. }
  rewrite (Hpos Hp). simpl. repeat split.
  exists recipient. split; [exact Hp|]. intros phone k.
  rewrite (consume_counts _ _ _ _ _ Hn).
  destruct (Z.ltb_spec 0 (ticketCount (messageTickets st) (Some recipient) messageType));
    [reflexivity | lia].
Qed.

Lemma callback_echo_suppressed_witness :
  let contact :=
    {| WebhookCallback.identifier := Some "120363378985956346@g.us";
       WebhookCallback.phone_number := None;
       WebhookCallback.contact_name := Some "Grupo" |} in
  let conversation :=
    {| WebhookCallback.conversation_id := Some "9";
       WebhookCallback.inbox_id := Some "7";
       WebhookCallback.meta_sender := Some contact;
       WebhookCallback.assignee_available_name := None;
       WebhookCallback.assignee_name := None |} in
  let body :=
    {| WebhookCallback.event := Some "message_created";
       WebhookCallback.deleted := false;
       WebhookCallback.message_type := Some "outgoing";
       WebhookCallback.private := false;
       WebhookCallback.conversation := Some conversation;
       WebhookCallback.content := Some "oi";
       WebhookCallback.attachments := None;
       WebhookCallback.in_reply_to := None;
       WebhookCallback.id := "42"; WebhookCallback.id_truthy := true;
       WebhookCallback.sender_name := None;
       WebhookCallback.sender_available_name := None |} in
  let integration :=
    {| IntegrationManager.id := "1"; IntegrationManager.inboxId := Some "7";
       IntegrationManager.assinarMensagem := true;
       IntegrationManager.desconsiderarGrupo := false;
       IntegrationManager.defaultCountry := Some "BR";
       IntegrationManager.provider := WhatsApp.uazapi;
       IntegrationManager.normalizedNumber := Some "5511988887777";
       IntegrationManager.instance := None;
       IntegrationManager.baseURL := Some "http://uaz" |} in
  let ops := [OpAddOutgoingTicket (Some "120363378985956346@g.us") TEXT] in
  let r :=
    WebhookCallback.processWebhookCallback body [integration]
      (fun _ => WhatsApp.HttpData "")
      (fun _ => WhatsAppService.Answered (Some "A1")) (run ops initialStore) in
  WebhookCallback.sends r = []
  /\ messageTickets (WebhookCallback.store r) = ∅.
Proof.
  intros contact conversation body integration ops r.
  split; [|vm_compute; reflexivity].
  apply (callback_echo_suppressed ops body [integration]
           (fun _ => WhatsApp.HttpData "")
           (fun _ => WhatsAppService.Answered (Some "A1"))).
  vm_compute. reflexivity.
Defined.

(** Deleting from the helpdesk. [processMessageDelete] sends nothing,
    leaves both credit maps alone and makes at most one delete request. For a
    helpdesk id that is not mapped to a provider id it makes no request and
    returns unprocessed with the store untouched. When it reports success, it
    made exactly one request, which carries the provider id the cache held
    for the message, and afterwards the cache has forgotten that helpdesk id
    while the entries of all other ids are unchanged; in every other outcome,
    a failed provider call included, the store is exactly as before. *)
Theorem processMessageDelete_effects (ops : list Op) (body : WebhookCallback.Payload)
    (integrations : list IntegrationManager.Integration)
    (http : WhatsApp.Request -> WhatsApp.HttpOutcome) :
  let st := run ops initialStore in
  let r := WebhookCallback.processMessageDelete body integrations http st in
  WebhookCallback.sends r = []
  /\ messageTickets (WebhookCallback.store r) = messageTickets st
  /\ messageTicketsChatwoot (WebhookCallback.store r) = messageTicketsChatwoot st
  /\ (length (WebhookCallback.deletes r) <= 1)%nat
  /\ (getApiMessageId (WebhookCallback.id body) (messageIdCache st) = None ->
      WebhookCallback.deletes r = [] /\ WebhookCallback.store r = st
      /\ exists reason,
           WebhookCallback.result r = WebhookConsumer.CallbackNotProcessed reason)
  /\ (WebhookCallback.result r = WebhookConsumer.CallbackProcessed ->
      exists p rq,
        getApiMessageId (WebhookCallback.id body) (messageIdCache st) = Some p
        /\ WebhookCallback.deletes r = [rq]
        /\ In (WhatsApp.JStr p) (map snd (WhatsApp.params rq ++ WhatsApp.body rq)%list)
        /\ getApiMessageId (WebhookCallback.id body)
             (messageIdCache (WebhookCallback.store r)) = None
        /\ forall h, h <> WebhookCallback.id body ->
             getMessageMappingByChatwootId h (messageIdCache (WebhookCallback.store r))
             = getMessageMappingByChatwootId h (messageIdCache st))
  /\ (WebhookCallback.result r <> WebhookConsumer.CallbackProcessed ->
      WebhookCallback.store r = st).
Proof.
  intros st r. pose proof (reachable_cache_NoDup ops) as Hnd. fold st in Hnd.
  destruct (processMessageDelete_shape body integrations http st)
    as (Hs & Hlen & _ & Hun & Hok & Hkeep). fold r in Hs, Hlen, Hun, Hok, Hkeep.
  assert (Hstore : WebhookCallback.store r = st
                   \/ WebhookCallback.store r
                      = WebhookConsumer.withCache st
                          (removeMessageIdMapping (WebhookCallback.id body)
                             (messageIdCache st))).
  { destruct (WebhookCallback.result r) eqn:Hres.
    - right. destruct (Hok eq_refl) as (p & rq & _ & _ & _ & H). exact H.
    - left. apply Hkeep. discriminate.
    - left. apply Hkeep. discriminate. }
  split; [exact Hs|].
  split; [destruct Hstore as [-> | ->]; reflexivity|].
  split; [destruct Hstore as [-> | ->]; reflexivity|].
  split; [exact Hlen|].
  split.
  { intros Hnone. destruct Hun as (H1 & H2 & H3); [tauto|]. auto. }
  split; [|exact Hkeep].
  intros Hres. destruct (Hok Hres) as (p & rq & Hp & Hrq & Hin & Hst).
  exists p, rq. rewrite Hst. cbn [messageIdCache WebhookConsumer.withCache].
  split; [exact Hp|]. split; [exact Hrq|]. split; [exact Hin|].
  unfold getApiMessageId, getMessageMappingByChatwootId, removeMessageIdMapping.
  split.
  - rewrite (mapGet_mapDelete _ _ _ Hnd), bool_decide_eq_true_2 by reflexivity.
    reflexivity.
  - intros h Hne. rewrite (mapGet_mapDelete _ _ _ Hnd).
    rewrite bool_decide_eq_false_2 by congruence. reflexivity.
Qed.

(** * Routing a provider payload to an integration *)

Lemma stripNonDigits_idem (s : string) :
  Js.stripNonDigits (Js.stripNonDigits s) = Js.stripNonDigits s.
Proof.
  unfold Js.stripNonDigits at 2. apply stripNonDigits_digits, forallb_filter_id.
Qed.

Lemma findByIdentifier_Some (integrations : list IntegrationManager.Integration)
    (wanted : WhatsApp.Provider) (identifier : string)
    (i : IntegrationManager.Integration) :
  IntegrationManager.findIntegrationByWhatsAppIdentifier integrations wanted identifier
  = Some i ->
  In i integrations /\ IntegrationManager.provider i = wanted
  /\ Js.truthy identifier = true
  /\ match wanted with
     | WhatsApp.uazapi =>
       IntegrationManager.normalizedNumber i = Some (Js.stripNonDigits identifier)
     | WhatsApp.zapi => IntegrationManager.instance i = Some identifier
     | WhatsApp.wuzapi =>
       Js.toLowerCase (Js.or_str (IntegrationManager.baseURL i) "")
       = Js.toLowerCase identifier
     end.
Proof.
  unfold IntegrationManager.findIntegrationByWhatsAppIdentifier.
  destruct (Js.truthy identifier); cbn [negb]; [|discriminate].
  intros Hfind. apply find_some in Hfind as [Hin Hp]. split; [exact Hin|].
  destruct (decide (IntegrationManager.provider i = wanted)) as [Heq|Hne].
  - rewrite (bool_decide_eq_true_2 _ Heq) in Hp. cbn [negb] in Hp.
    split; [exact Heq|]. split; [reflexivity|].
    destruct wanted; apply bool_decide_eq_true in Hp; exact Hp.
  - rewrite (bool_decide_eq_false_2 _ Hne) in Hp. discriminate.
Qed.

Lemma onlyOfProvider_RouteTo (integrations : list IntegrationManager.Integration)
    (wanted : WhatsApp.Provider) (i : IntegrationManager.Integration) :
  WebhookRouting.onlyOfProvider integrations wanted = WebhookRouting.RouteTo i ->
  In i integrations /\ IntegrationManager.provider i = wanted
  /\ forall i', In i' integrations -> IntegrationManager.provider i' = wanted -> i' = i.
Proof.
  unfold WebhookRouting.onlyOfProvider.
  destruct (List.filter _ integrations) as [|x [|y more]] eqn:Hf; try discriminate.
  intros [= ->].
  assert (Hmem : forall i', In i' [i] <-> In i' integrations
                                          /\ bool_decide (IntegrationManager.provider i'
                                                          = wanted) = true).
  { intros i'. rewrite <- Hf. apply filter_In. }
  destruct (proj1 (Hmem i) (or_introl eq_refl)) as [Hin Hp%bool_decide_eq_true].
  split; [exact Hin|]. split; [exact Hp|].
  intros i' Hin' Hp'.
  destruct (proj2 (Hmem i') (conj Hin' (bool_decide_eq_true_2 _ Hp'))) as [<-|[]].
  reflexivity.
Qed.

(** Routing never crosses providers once there is a choice. Without any
    integration [findIntegrationForPayload] throws, and only then; a single
    integration receives every payload, whatever the payload's origin. With
    two or more, the integration chosen is one of them and belongs to the
    provider the payload came from: for Z-API and Wuzapi it is the only
    integration of that provider, for UAZAPI it is one whose connected number
    is the digits of the payload's owner or chat id; a payload of unknown
    origin is routed nowhere. *)
Theorem findIntegrationForPayload_routes
    (integrations : list IntegrationManager.Integration)
    (body : WebhookRouting.Payload) (origin : WebhookRouting.Origin) :
  let r := WebhookRouting.findIntegrationForPayload integrations body origin in
  (r = WebhookRouting.RouteThrows <-> integrations = [])
  /\ (forall i, integrations = [i] -> r = WebhookRouting.RouteTo i)
  /\ forall i, r = WebhookRouting.RouteTo i ->
       In i integrations
       /\ ((2 <= length integrations)%nat ->
           match origin with
           | WebhookRouting.OriginZapi =>
             IntegrationManager.provider i = WhatsApp.zapi
             /\ forall i', In i' integrations ->
                  IntegrationManager.provider i' = WhatsApp.zapi -> i' = i
           | WebhookRouting.OriginWuzapi =>
             IntegrationManager.provider i = WhatsApp.wuzapi
             /\ forall i', In i' integrations ->
                  IntegrationManager.provider i' = WhatsApp.wuzapi -> i' = i
           | WebhookRouting.OriginUazapi =>
             IntegrationManager.provider i = WhatsApp.uazapi
             /\ exists source,
                  (WebhookRouting.owner body = Some source
                   \/ (fun c => Js.removeFirst c "@s.whatsapp.net")
                        <$> WebhookRouting.chatid body = Some source)
                  /\ Js.truthy (Js.stripNonDigits source) = true
                  /\ IntegrationManager.normalizedNumber i
                     = Some (Js.stripNonDigits source)
           | WebhookRouting.OriginUnknown => False
           end).
Proof.
  intros r. subst r. unfold WebhookRouting.findIntegrationForPayload.
  destruct integrations as [|i0 [|i1 rest]].
  { split; [tauto|]. split; [discriminate | discriminate]. }
  { split; [split; discriminate|]. split; [intros i [= <-]; reflexivity|].
    intros i [= <-]. split; [left; reflexivity | simpl; lia]. }
  set (integrations := i0 :: i1 :: rest).
  assert (Hfound : forall source,
    (WebhookRouting.owner body = Some source
     \/ (fun c => Js.removeFirst c "@s.whatsapp.net")
          <$> WebhookRouting.chatid body = Some source) ->
    Js.truthy (Js.stripNonDigits source) = true ->
    forall i,
      match IntegrationManager.findIntegrationByWhatsAppIdentifier integrations
              WhatsApp.uazapi (Js.stripNonDigits source) with
      | Some integration => WebhookRouting.RouteTo integration
      | None => WebhookRouting.RouteNone
      end = WebhookRouting.RouteTo i ->
      In i integrations
      /\ IntegrationManager.provider i = WhatsApp.uazapi
      /\ exists source0,
           (WebhookRouting.owner body = Some source0
            \/ (fun c => Js.removeFirst c "@s.whatsapp.net")
                 <$> WebhookRouting.chatid body = Some source0)
           /\ Js.truthy (Js.stripNonDigits source0) = true
           /\ IntegrationManager.normalizedNumber i
              = Some (Js.stripNonDigits source0)).
  { intros source Hsrc Ht i.
    destruct (IntegrationManager.findIntegrationByWhatsAppIdentifier _ _ _)
      as [x|] eqn:Hfind; [|discriminate].
    intros [= ->].
    destruct (findByIdentifier_Some _ _ _ _ Hfind) as (Hin & Hp & _ & Hn).
    split; [exact Hin|]. split; [exact Hp|].
    exists source. split; [exact Hsrc|]. split; [exact Ht|].
    rewrite Hn. f_equal. apply stripNonDigits_idem. }
  split; [split; [|discriminate]|].
  { destruct origin; try discriminate.
    - unfold WebhookRouting.onlyOfProvider.
      destruct (List.filter _ _) as [|? [|? ?]]; discriminate.
    - destruct (Js.or_null (WebhookRouting.owner body));
        repeat (match goal with
                | |- context [if ?b then _ else _] => destruct b
                | |- context [match ?x with Some _ => _ | None => _ end] => destruct x
                end); discriminate.
    - unfold WebhookRouting.onlyOfProvider.
      destruct (List.filter _ _) as [|? [|? ?]]; discriminate. }
  split; [discriminate|].
  intros i Hr.
  assert (Hgoal : In i integrations
    /\ match origin with
       | WebhookRouting.OriginZapi =>
         IntegrationManager.provider i = WhatsApp.zapi
         /\ forall i', In i' integrations ->
              IntegrationManager.provider i' = WhatsApp.zapi -> i' = i
       | WebhookRouting.OriginWuzapi =>
         IntegrationManager.provider i = WhatsApp.wuzapi
         /\ forall i', In i' integrations ->
              IntegrationManager.provider i' = WhatsApp.wuzapi -> i' = i
       | WebhookRouting.OriginUazapi =>
         IntegrationManager.provider i = WhatsApp.uazapi
         /\ exists source,
              (WebhookRouting.owner body = Some source
               \/ (fun c => Js.removeFirst c "@s.whatsapp.net")
                    <$> WebhookRouting.chatid body = Some source)
              /\ Js.truthy (Js.stripNonDigits source) = true
              /\ IntegrationManager.normalizedNumber i
                 = Some (Js.stripNonDigits source)
       | WebhookRouting.OriginUnknown => False
       end); [|tauto].
  destruct origin.
  - apply onlyOfProvider_RouteTo in Hr. tauto.
  - assert (Hchat :
      (let chatId :=
         Js.or_str ((fun c => Js.removeFirst c "@s.whatsapp.net")
                      <$> WebhookRouting.chatid body) "" in
       if Js.truthy chatId then
         let normalized := Js.stripNonDigits chatId in
         if Js.truthy normalized then
           match IntegrationManager.findIntegrationByWhatsAppIdentifier integrations
                   WhatsApp.uazapi normalized with
           | Some integration => WebhookRouting.RouteTo integration
           | None => WebhookRouting.RouteNone
           end
         else WebhookRouting.RouteNone
       else WebhookRouting.RouteNone) = WebhookRouting.RouteTo i ->
      In i integrations
      /\ IntegrationManager.provider i = WhatsApp.uazapi
      /\ exists source,
           (WebhookRouting.owner body = Some source
            \/ (fun c => Js.removeFirst c "@s.whatsapp.net")
                 <$> WebhookRouting.chatid body = Some source)
           /\ Js.truthy (Js.stripNonDigits source) = true
           /\ IntegrationManager.normalizedNumber i
              = Some (Js.stripNonDigits source)).
    { cbv zeta. unfold Js.or_str.
      destruct ((fun c => Js.removeFirst c "@s.whatsapp.net")
                  <$> WebhookRouting.chatid body) as [c|] eqn:Hc;
        [|simpl; discriminate].
      destruct (Js.truthy c) eqn:Htc; [rewrite ?Htc | simpl; discriminate].
      destruct (Js.truthy (Js.stripNonDigits c)) eqn:Ht; [|discriminate].
      apply (Hfound c); [right; reflexivity | exact Ht]. }
    destruct (Js.or_null (WebhookRouting.owner body)) as [o|] eqn:Ho;
      [|exact (Hchat Hr)].
    destruct (or_null_Some _ _ Ho) as [Ho' _].
    destruct (Js.truthy (Js.stripNonDigits o)) eqn:Ht; [|exact (Hchat Hr)].
    apply (Hfound o); [left; exact Ho' | exact Ht | exact Hr].
  - apply onlyOfProvider_RouteTo in Hr. tauto.
  - discriminate.
Qed.

(** * Finding the conversation of a contact *)

Lemma searchPages_spec (helpdesk : ChatwootService.Helpdesk)
    (status : ChatwootService.Status) (contactId inboxId : option Z)
    (pagesLeft page : nat) :
  let '(requests, r) :=
    ChatwootService.searchPages helpdesk status contactId inboxId pagesLeft page in
  (length requests <= pagesLeft)%nat
  /\ (forall rq, In rq requests ->
        exists p, rq = ChatwootService.GetConversations status inboxId p
                  /\ (page <= p < page + pagesLeft)%nat)
  /\ forall c, r = Some (Some c) ->
       ChatwootService.sender_id c = contactId
       /\ exists p conversations,
            ChatwootService.getConversations helpdesk status p
            = ChatwootService.Page conversations
            /\ In c conversations.
Proof.
  revert page. induction pagesLeft as [|left IH]; intros page; simpl.
  { split; [lia|]. split; [intros rq []|]. discriminate. }
  destruct (ChatwootService.getConversations helpdesk status page)
    as [[|c0 cs]|] eqn:Hpage.
  - split; [simpl; lia|]. split; [|discriminate].
    intros rq [<-|[]]. exists page. split; [reflexivity | lia].
  - destruct (List.find _ (c0 :: cs)) as [c|] eqn:Hfind.
    + split; [simpl; lia|]. split.
      * intros rq [<-|[]]. exists page. split; [reflexivity | lia].
      * intros c' [= <-]. apply find_some in Hfind as [Hin Hc].
        apply bool_decide_eq_true in Hc. split; [exact Hc|].
        exists page, (c0 :: cs). split; [exact Hpage | exact Hin].
    + specialize (IH (S page)).
      destruct (ChatwootService.searchPages helpdesk status contactId inboxId left
                  (S page)) as [requests r].
      destruct IH as (Hlen & Hrqs & Hr). split; [simpl; lia|]. split.
      * intros rq [<-|Hin].
        -- exists page. split; [reflexivity | lia].
        -- destruct (Hrqs rq Hin) as (p0 & -> & Hp). exists p0.
           split; [reflexivity | lia].
      * exact Hr.
  - split; [simpl; lia|]. split; [|discriminate].
    intros rq [<-|[]]. exists page. split; [reflexivity | lia].
Qed.

(** [findOrCreateConversation] looks at no more than 50 pages per status,
    asks only for the given inbox, and looks at resolved conversations or
    reopens one only when [reabrirConversa] is set. A failing lookup never
    fails the call: it throws only when the creation it falls back on throws.
    A conversation it returns was either just created, or belongs to the
    contact and was listed by the helpdesk; one that was reopened is
    returned without any open conversation having been looked at, and a
    failure to reopen leads to the creation of a new conversation. *)
Theorem findOrCreateConversation_policy (helpdesk : ChatwootService.Helpdesk)
    (reabrirConversa : bool) (contactId inboxId : option Z) :
  let '(requests, r) :=
    ChatwootService.findOrCreateConversation helpdesk reabrirConversa contactId
      inboxId in
  let created := In (ChatwootService.PostConversation contactId inboxId) requests in
  (length requests <= 102)%nat
  /\ (forall rq, In rq requests ->
        match rq with
        | ChatwootService.GetConversations status inbox page =>
          inbox = inboxId /\ (1 <= page <= 50)%nat
          /\ (status = ChatwootService.StatusResolved -> reabrirConversa = true)
        | ChatwootService.ToggleStatusOpen _ => reabrirConversa = true
        | ChatwootService.PostConversation contact inbox =>
          contact = contactId /\ inbox = inboxId
        end)
  /\ (r = None ->
      created /\ ChatwootService.postConversation helpdesk = None)
  /\ (forall c, r = Some c ->
        (created /\ ChatwootService.postConversation helpdesk = Some c)
        \/ (ChatwootService.sender_id c = contactId
            /\ exists status page conversations,
                 ChatwootService.getConversations helpdesk status page
                 = ChatwootService.Page conversations
                 /\ In c conversations))
  /\ (forall conversationId,
        In (ChatwootService.ToggleStatusOpen conversationId) requests ->
        (forall rq, In rq requests -> ~ asksPage ChatwootService.StatusOpen rq)
        /\ (ChatwootService.toggleStatus helpdesk conversationId = false -> created)).
Proof.
  unfold ChatwootService.findOrCreateConversation,
    ChatwootService.findConversationByContact,
    ChatwootService.findResolvedConversationByContact,
    ChatwootService.createConversation, ChatwootService.reopenConversation.
  pose proof (searchPages_spec helpdesk ChatwootService.StatusResolved contactId
                inboxId 50 1) as Hres.
  pose proof (searchPages_spec helpdesk ChatwootService.StatusOpen contactId
                inboxId 50 1) as Hopen.
  destruct (ChatwootService.searchPages helpdesk ChatwootService.StatusResolved
              contactId inboxId 50 1) as [rqsR rR].
  destruct (ChatwootService.searchPages helpdesk ChatwootService.StatusOpen
              contactId inboxId 50 1) as [rqsO rO].
  destruct Hres as (HlenR & HrqsR & HrR). destruct Hopen as (HlenO & HrqsO & HrO).
  assert (HshapeR : forall rq, In rq rqsR ->
            exists p, rq = ChatwootService.GetConversations
                             ChatwootService.StatusResolved inboxId p
                      /\ (1 <= p <= 50)%nat).
  { intros rq Hin. destruct (HrqsR rq Hin) as (p0 & -> & Hp). exists p0.
    split; [reflexivity | lia]. }
  assert (HshapeO : forall rq, In rq rqsO ->
            exists p, rq = ChatwootService.GetConversations
                             ChatwootService.StatusOpen inboxId p
                      /\ (1 <= p <= 50)%nat).
  { intros rq Hin. destruct (HrqsO rq Hin) as (p0 & -> & Hp). exists p0.
    split; [reflexivity | lia]. }
  clear HrqsR HrqsO.
  assert (Hopen : forall before : list ChatwootService.Request,
    (length before <= 50)%nat ->
    (forall rq, In rq before ->
       reabrirConversa = true
       /\ exists p, rq = ChatwootService.GetConversations
                           ChatwootService.StatusResolved inboxId p
                    /\ (1 <= p <= 50)%nat) ->
    let '(requests, r) :=
      match default None rO with
      | Some conversation => ((before ++ rqsO)%list, Some conversation)
      | None =>
        (((before ++ rqsO) ++ [ChatwootService.PostConversation contactId inboxId])%list,
         ChatwootService.postConversation helpdesk)
      end in
    let created := In (ChatwootService.PostConversation contactId inboxId) requests in
    (length requests <= 102)%nat
    /\ (forall rq, In rq requests ->
          match rq with
          | ChatwootService.GetConversations status inbox page =>
            inbox = inboxId /\ (1 <= page <= 50)%nat
            /\ (status = ChatwootService.StatusResolved -> reabrirConversa = true)
          | ChatwootService.ToggleStatusOpen _ => reabrirConversa = true
          | ChatwootService.PostConversation contact inbox =>
            contact = contactId /\ inbox = inboxId
          end)
    /\ (r = None -> created /\ ChatwootService.postConversation helpdesk = None)
    /\ (forall c, r = Some c ->
          (created /\ ChatwootService.postConversation helpdesk = Some c)
          \/ (ChatwootService.sender_id c = contactId
              /\ exists status page conversations,
                   ChatwootService.getConversations helpdesk status page
                   = ChatwootService.Page conversations
                   /\ In c conversations))
    /\ (forall conversationId,
          In (ChatwootService.ToggleStatusOpen conversationId) requests ->
          (forall rq, In rq requests -> ~ asksPage ChatwootService.StatusOpen rq)
          /\ (ChatwootService.toggleStatus helpdesk conversationId = false -> created))).
  { intros before Hlen Hbefore.
    assert (Hmem : forall rq, In rq (before ++ rqsO)%list ->
              match rq with
              | ChatwootService.GetConversations status inbox page =>
                inbox = inboxId /\ (1 <= page <= 50)%nat
                /\ (status = ChatwootService.StatusResolved -> reabrirConversa = true)
              | ChatwootService.ToggleStatusOpen _ => reabrirConversa = true
              | ChatwootService.PostConversation contact inbox =>
                contact = contactId /\ inbox = inboxId
              end).
    { intros rq [Hin|Hin]%in_app_or.
      - destruct (Hbefore rq Hin) as (Hre & p0 & -> & Hp). repeat split; auto; lia.
      - destruct (HshapeO rq Hin) as (p0 & -> & Hp). repeat split; try lia.
        discriminate. }
    assert (Hnotoggle : forall conversationId,
              ~ In (ChatwootService.ToggleStatusOpen conversationId)
                   (before ++ rqsO)%list).
    { intros cid [Hin|Hin]%in_app_or.
      - destruct (Hbefore _ Hin) as (_ & p0 & Heq & _). discriminate.
      - destruct (HshapeO _ Hin) as (p0 & Heq & _). discriminate. }
    destruct rO as [[c|]|]; cbn [default].
    - split; [rewrite length_app; lia|]. split; [exact Hmem|].
      split; [discriminate|]. split.
      + intros c' [= <-]. right. destruct (HrO c eq_refl) as (Hs & p0 & cs & Hp & Hin).
        split; [exact Hs|]. exists ChatwootService.StatusOpen, p0, cs. auto.
      + intros cid Hin. destruct (Hnotoggle cid Hin).
    - split; [rewrite !length_app; simpl; lia|]. split.
      { intros rq [Hin|[<-|[]]]%in_app_or; [apply Hmem, Hin | split; reflexivity]. }
      split; [intros Hnone; split; [apply in_or_app; right; left; reflexivity
                                    | exact Hnone]|].
      split.
      + intros c Hc. left. split; [apply in_or_app; right; left; reflexivity|exact Hc].
      + intros cid [Hin|[Heq|[]]]%in_app_or; [destruct (Hnotoggle cid Hin)|discriminate].
    - split; [rewrite !length_app; simpl; lia|]. split.
      { intros rq [Hin|[<-|[]]]%in_app_or; [apply Hmem, Hin | split; reflexivity]. }
      split; [intros Hnone; split; [apply in_or_app; right; left; reflexivity
                                    | exact Hnone]|].
      split.
      + intros c Hc. left. split; [apply in_or_app; right; left; reflexivity|exact Hc].
      + intros cid [Hin|[Heq|[]]]%in_app_or; [destruct (Hnotoggle cid Hin)|discriminate]. }
  destruct reabrirConversa.
  2:{ specialize (Hopen [] ltac:(simpl; lia) ltac:(intros rq [])).
      cbn [app] in Hopen.
      destruct rO as [[c|]|]; cbn [default] in *; exact Hopen. }
  destruct rR as [[c|]|]; cbn [default from_option id]; cbv beta iota zeta.
  - destruct (ChatwootService.toggleStatus helpdesk (ChatwootService.conversation_id c))
      eqn:Htoggle; cbv beta iota zeta.
    + split; [rewrite length_app; simpl; lia|]. split.
      { intros rq [Hin|[<-|[]]]%in_app_or; [|reflexivity].
        destruct (HshapeR rq Hin) as (p0 & -> & Hp). repeat split; lia. }
      split; [discriminate|]. split.
      * intros c' [= <-]. right. destruct (HrR c eq_refl) as (Hs & p0 & cs & Hp & Hin).
        split; [exact Hs|]. exists ChatwootService.StatusResolved, p0, cs. auto.
      * intros cid [Hin|[[= <-]|[]]]%in_app_or.
        { destruct (HshapeR _ Hin) as (p0 & Heq & _). discriminate. }
        split; [|congruence].
        intros rq [Hin|[<-|[]]]%in_app_or; [|simpl; tauto].
        destruct (HshapeR rq Hin) as (p0 & -> & _). simpl. discriminate.
    + split; [rewrite !length_app; simpl; lia|]. split.
      { intros rq [[Hin|[<-|[]]]%in_app_or|[<-|[]]]%in_app_or;
          [|reflexivity|split; reflexivity].
        destruct (HshapeR rq Hin) as (p0 & -> & Hp). repeat split; lia. }
      split; [intros Hnone; split; [apply in_or_app; right; left; reflexivity
                                    | exact Hnone]|].
      split.
      * intros c' Hc. left. split; [apply in_or_app; right; left; reflexivity|exact Hc].
      * intros cid _. split.
        -- intros rq [[Hin|[<-|[]]]%in_app_or|[<-|[]]]%in_app_or; simpl; try tauto.
           destruct (HshapeR rq Hin) as (p0 & -> & _). simpl. discriminate.
        -- intros _. apply in_or_app. right. left. reflexivity.
  - specialize (Hopen rqsR HlenR).
    destruct rO as [[c|]|]; cbn [default] in *; apply Hopen;
      intros rq Hin; (split; [reflexivity | apply HshapeR, Hin]).
  - specialize (Hopen rqsR HlenR).
    destruct rO as [[c|]|]; cbn [default] in *; apply Hopen;
      intros rq Hin; (split; [reflexivity | apply HshapeR, Hin]).
Qed.

(** * Downloading media with retries *)

Lemma downloadLoop_spec (answer : nat -> ChatwootService.GetAnswer) (maxRetries : nat)
    (retryDelay : Z) (attemptsLeft attempt : nat) :
  (attempt + attemptsLeft = S maxRetries)%nat ->
  let '(events, r) :=
    ChatwootService.downloadLoop answer maxRetries retryDelay attemptsLeft attempt in
  let n := length (requestedAttempts events) in
  requestedAttempts events = seq attempt n
  /\ (n <= attemptsLeft)%nat
  /\ (forall ms, In ms (waits events) -> ms = retryDelay)
  /\ (S (length (waits events)) <= n \/ events = [])%nat
  /\ (forall j, (attempt <= j)%nat -> (S j < attempt + n)%nat -> attemptFailed (answer j))
  /\ match r with
     | ChatwootService.Returned data =>
       (1 <= n)%nat /\ Js.truthy data = true
       /\ answer (attempt + n - 1)%nat = ChatwootService.GetData data
     | ChatwootService.Thrown _ =>
       (1 <= n)%nat /\ n = attemptsLeft
       /\ attemptFailed (answer (attempt + n - 1)%nat)
     | ChatwootService.ReturnedUndefined => attemptsLeft = 0%nat
     end.
Proof.
  revert attempt. induction attemptsLeft as [|left IH]; intros attempt Hinv; simpl.
  { split; [reflexivity|]. split; [lia|]. split; [intros ms []|].
    split; [right; reflexivity|]. split; [intros j; lia | reflexivity]. }
  assert (Hnext : forall pause : list ChatwootService.Event,
    (pause = [] \/ pause = [ChatwootService.Waited retryDelay]) ->
    attemptFailed (answer attempt) -> (attempt <> maxRetries)%nat ->
    let '(events, r) :=
      (let '(events, r) :=
         ChatwootService.downloadLoop answer maxRetries retryDelay left (S attempt) in
       (ChatwootService.Requested attempt :: (pause ++ events)%list, r)) in
    let n := length (requestedAttempts events) in
    requestedAttempts events = seq attempt n
    /\ (n <= S left)%nat
    /\ (forall ms, In ms (waits events) -> ms = retryDelay)
    /\ (S (length (waits events)) <= n \/ events = [])%nat
    /\ (forall j, (attempt <= j)%nat -> (S j < attempt + n)%nat ->
          attemptFailed (answer j))
    /\ match r with
       | ChatwootService.Returned data =>
         (1 <= n)%nat /\ Js.truthy data = true
         /\ answer (attempt + n - 1)%nat = ChatwootService.GetData data
       | ChatwootService.Thrown _ =>
         (1 <= n)%nat /\ n = S left
         /\ attemptFailed (answer (attempt + n - 1)%nat)
       | ChatwootService.ReturnedUndefined => S left = 0%nat
       end).
  { intros pause Hpause Hfail Hnotlast.
    specialize (IH (S attempt) ltac:(lia)).
    destruct (ChatwootService.downloadLoop answer maxRetries retryDelay left (S attempt))
      as [events r].
    cbv zeta in IH. destruct IH as (Hseq & Hle & Hw & Hcount & Hfailed & Hr).
    assert (Hreq : requestedAttempts
                     (ChatwootService.Requested attempt :: (pause ++ events)%list)
                   = attempt :: requestedAttempts events).
    { destruct Hpause as [-> | ->]; reflexivity. }
    assert (Hwaits : waits (ChatwootService.Requested attempt :: (pause ++ events)%list)
                     = (waits pause ++ waits events)%list
                     /\ (length (waits pause) <= 1)%nat
                     /\ forall ms, In ms (waits pause) -> ms = retryDelay).
    { destruct Hpause as [-> | ->]; simpl; (split; [reflexivity|]);
        (split; [lia|]); [intros ms [] | intros ms [<-|[]]; reflexivity]. }
    destruct Hwaits as (Hwaits & Hwlen & Hwpause).
    cbv zeta. rewrite Hreq, Hwaits. cbn [length].
    assert (Hleft : left <> 0%nat) by lia.
    assert (Hn : (1 <= length (requestedAttempts events))%nat).
    { destruct r.
      - destruct Hr as (H1 & _). exact H1.
      - lia.
      - destruct Hr as (H1 & _). exact H1. }
    split; [cbn [seq]; f_equal; exact Hseq|].
    split; [lia|].
    split; [intros ms [Hin|Hin]%in_app_or; [apply Hwpause, Hin | apply Hw, Hin]|].
    split.
    { left. rewrite length_app.
      destruct Hcount as [Hc|Hc]; [lia|]. subst events. simpl in Hn. lia. }
    split.
    { intros j Hj1 Hj2. destruct (decide (j = attempt)) as [->|Hne]; [exact Hfail|].
      apply Hfailed; lia. }
    destruct r.
    - destruct Hr as (H1 & H2 & H3). split; [lia|]. split; [exact H2|].
      replace (attempt + S (length (requestedAttempts events)) - 1)%nat
        with (S attempt + length (requestedAttempts events) - 1)%nat by lia.
      exact H3.
    - lia.
    - destruct Hr as (H1 & H2 & H3). split; [lia|]. split; [lia|].
      replace (attempt + S (length (requestedAttempts events)) - 1)%nat
        with (S attempt + length (requestedAttempts events) - 1)%nat by lia.
      exact H3. }
  assert (Hfailcase : forall error,
    attemptFailed (answer attempt) ->
    let '(events, r) :=
      (if ChatwootService.retryable error && negb (attempt =? maxRetries)%nat
       then
         let '(events, r) :=
           ChatwootService.downloadLoop answer maxRetries retryDelay left (S attempt) in
         (ChatwootService.Requested attempt
            :: ChatwootService.Waited retryDelay :: events, r)
       else if (attempt =? maxRetries)%nat
       then ([ChatwootService.Requested attempt], ChatwootService.Thrown error)
       else
         let '(events, r) :=
           ChatwootService.downloadLoop answer maxRetries retryDelay left (S attempt) in
         (ChatwootService.Requested attempt :: events, r)) in
    let n := length (requestedAttempts events) in
    requestedAttempts events = seq attempt n
    /\ (n <= S left)%nat
    /\ (forall ms, In ms (waits events) -> ms = retryDelay)
    /\ (S (length (waits events)) <= n \/ events = [])%nat
    /\ (forall j, (attempt <= j)%nat -> (S j < attempt + n)%nat ->
          attemptFailed (answer j))
    /\ match r with
       | ChatwootService.Returned data =>
         (1 <= n)%nat /\ Js.truthy data = true
         /\ answer (attempt + n - 1)%nat = ChatwootService.GetData data
       | ChatwootService.Thrown _ =>
         (1 <= n)%nat /\ n = S left
         /\ attemptFailed (answer (attempt + n - 1)%nat)
       | ChatwootService.ReturnedUndefined => S left = 0%nat
       end).
  { intros error Hfail.
    destruct (Nat.eqb_spec attempt maxRetries) as [Hlast|Hnotlast].
    - rewrite andb_false_r. simpl.
      split; [reflexivity|]. split; [lia|]. split; [intros ms []|].
      split; [left; lia|]. split; [intros j; lia|].
      split; [lia|]. split; [lia|].
      replace (attempt + 1 - 1)%nat with attempt by lia. exact Hfail.
    - rewrite andb_true_r.
      destruct (ChatwootService.retryable error).
      + apply (Hnext [ChatwootService.Waited retryDelay]); auto.
      + apply (Hnext []); auto. }
  destruct (answer attempt) as [data|error] eqn:Hans.
  - destruct (Js.truthy data) eqn:Hdata.
    + simpl. split; [reflexivity|]. split; [lia|]. split; [intros ms []|].
      split; [left; lia|]. split; [intros j; lia|].
      split; [lia|]. split; [exact Hdata|].
      replace (attempt + 1 - 1)%nat with attempt by lia. exact Hans.
    + apply Hfailcase. exact Hdata.
  - apply Hfailcase. exact I.
Qed.

(** [downloadMediaWithRetry] never gives up before its last attempt,
    whatever the error: it makes the attempts 1, 2, ... in order, at most
    [maxRetries] of them, and returns the data of the first attempt that
    answers with a non-empty body, if there is one among them; it throws only
    when every one of the [maxRetries] attempts failed, and comes back with
    [undefined] only when [maxRetries] is 0. It pauses only between attempts,
    each time for [retryDelay]. *)
Theorem downloadMediaWithRetry_attempts (answer : nat -> ChatwootService.GetAnswer)
    (maxRetries : nat) (retryDelay : Z) :
  let '(events, r) :=
    ChatwootService.downloadMediaWithRetry answer maxRetries retryDelay in
  let n := length (requestedAttempts events) in
  requestedAttempts events = seq 1 n
  /\ (n <= maxRetries)%nat
  /\ (forall ms, In ms (waits events) -> ms = retryDelay)
  /\ (length (waits events) <= n - 1)%nat
  /\ (forall j, (1 <= j < n)%nat -> attemptFailed (answer j))
  /\ (forall data,
        r = ChatwootService.Returned data
        <-> exists k, (1 <= k <= maxRetries)%nat
                      /\ answer k = ChatwootService.GetData data
                      /\ Js.truthy data = true
                      /\ forall j, (1 <= j < k)%nat -> attemptFailed (answer j))
  /\ (forall cause,
        r = ChatwootService.Thrown cause ->
        (1 <= maxRetries)%nat /\ n = maxRetries
        /\ forall j, (1 <= j <= maxRetries)%nat -> attemptFailed (answer j))
  /\ (r = ChatwootService.ReturnedUndefined <-> maxRetries = 0%nat).
Proof.
  unfold ChatwootService.downloadMediaWithRetry.
  pose proof (downloadLoop_spec answer maxRetries retryDelay maxRetries 1
                ltac:(lia)) as H.
  destruct (ChatwootService.downloadLoop answer maxRetries retryDelay maxRetries 1)
    as [events r].
  cbv zeta in H |- *. destruct H as (Hseq & Hle & Hw & Hcount & Hfailed & Hr).
  set (n := length (requestedAttempts events)) in *.
  assert (Hfailed' : forall j, (1 <= j < n)%nat -> attemptFailed (answer j)).
  { intros j Hj. apply Hfailed; lia. }
  split; [exact Hseq|]. split; [exact Hle|]. split; [exact Hw|].
  split.
  { destruct Hcount as [Hc|Hc]; [lia|]. subst events. simpl. lia. }
  split; [exact Hfailed'|].
  assert (Hfirst : forall k data,
    (1 <= k <= maxRetries)%nat -> answer k = ChatwootService.GetData data ->
    Js.truthy data = true ->
    (forall j, (1 <= j < k)%nat -> attemptFailed (answer j)) ->
    r = ChatwootService.Returned data).
  { intros k data Hk Hans Hdata Hbefore.
    assert (Hnotfailed : ~ attemptFailed (answer k)).
    { rewrite Hans. simpl. congruence. }
    destruct r as [data'| |cause].
    - destruct Hr as (Hn & Hdata' & Hans').
      replace (1 + n - 1)%nat with n in Hans' by lia.
      destruct (lt_eq_lt_dec k n) as [[Hlt|Heq]|Hgt].
      + exfalso. apply Hnotfailed, Hfailed'. lia.
      + subst k. congruence.
      + exfalso. specialize (Hbefore n ltac:(lia)). rewrite Hans' in Hbefore.
        simpl in Hbefore. congruence.
    - lia.
    - destruct Hr as (Hn & Hnl & Hlast).
      replace (1 + n - 1)%nat with n in Hlast by lia.
      exfalso. apply Hnotfailed.
      destruct (decide (k = n)) as [->|Hne]; [exact Hlast | apply Hfailed'; lia]. }
  split.
  { intros data. split.
    - intros ->. destruct Hr as (Hn & Hdata & Hans).
      replace (1 + n - 1)%nat with n in Hans by lia.
      exists n. split; [lia|]. split; [exact Hans|]. split; [exact Hdata|].
      exact Hfailed'.
    - intros (k & Hk & Hans & Hdata & Hbefore). exact (Hfirst k data Hk Hans Hdata Hbefore). }
  split.
  { intros cause ->. destruct Hr as (Hn & Hnl & Hlast).
    replace (1 + n - 1)%nat with n in Hlast by lia.
    split; [lia|]. split; [exact Hnl|].
    intros j Hj. destruct (decide (j = n)) as [->|Hne]; [exact Hlast|].
    apply Hfailed'. lia. }
  destruct r; split; try discriminate; try reflexivity.
  - intros ->. destruct Hr as (Hn & _). lia.
  - intros _. exact Hr.
  - intros ->. destruct Hr as (Hn & _). lia.
Qed.

(** * Deletions announced by a provider *)

Lemma mappingByApiId_Some (p h : string) (conv inbox : option string)
    (m : list (string * CacheEntry)) :
  getChatwootMessageMappingByApiId p m = Some (h, conv, inbox) ->
  exists e, In (h, e) m /\ apiMessageId e = p
            /\ conv = Js.or_null (conversationId e)
            /\ inbox = Js.or_null (inboxId e).
Proof.
  induction m as [|[h0 e0] m IH]; simpl; [discriminate|].
  case_bool_decide as Hp.
  - intros [= <- <- <-]. exists e0. repeat split; auto.
  - intros H. destruct (IH H) as (e & Hin & He). exists e. split; [right; exact Hin|].
    exact He.
Qed.

Lemma deleteEach_spec (integrations : list IntegrationManager.Integration)
    (helpdesk : WebhookDeletions.HelpdeskDelete -> bool) (messageIds : list string)
    (cache : list (string * CacheEntry)) :
  NoDup cache.*1 ->
  let '(cache', calls, results) :=
    WebhookDeletions.deleteEach integrations helpdesk messageIds cache in
  NoDup cache'.*1
  /\ map fst results = List.filter Js.truthy messageIds
  /\ (length calls <= length results)%nat
  /\ (forall call, In call calls ->
        exists e, mapGet (WebhookDeletions.hd_messageId call) cache = Some e
                  /\ Js.or_null (conversationId e)
                     = Some (WebhookDeletions.hd_conversationId call))
  /\ forall h, mapGet h cache'
               = if deletedBy helpdesk h calls then None else mapGet h cache.
Proof.
  revert cache. induction messageIds as [|api rest IH]; intros cache Hnd; simpl.
  { split; [exact Hnd|]. split; [reflexivity|]. split; [lia|].
    split; [intros call []|]. intros h. reflexivity. }
  destruct (Js.truthy api) eqn:Hapi; cbn [negb]; [|apply IH, Hnd].
  assert (Hkeep : forall outcome,
    let '(cache', calls, results) :=
      (let '(cache0, more, results) :=
         WebhookDeletions.deleteEach integrations helpdesk rest cache in
       (cache0, ([] ++ more)%list, (api, outcome) :: results)) in
    NoDup cache'.*1
    /\ map fst results = api :: List.filter Js.truthy rest
    /\ (length calls <= length results)%nat
    /\ (forall call, In call calls ->
          exists e, mapGet (WebhookDeletions.hd_messageId call) cache = Some e
                    /\ Js.or_null (conversationId e)
                       = Some (WebhookDeletions.hd_conversationId call))
    /\ forall h, mapGet h cache'
                 = if deletedBy helpdesk h calls then None else mapGet h cache).
  { intros outcome. specialize (IH cache Hnd).
    destruct (WebhookDeletions.deleteEach integrations helpdesk rest cache)
      as [[cache' more] results].
    destruct IH as (H1 & H2 & H3 & H4 & H5). cbn [app].
    split; [exact H1|]. split; [simpl; rewrite H2; reflexivity|].
    split; [simpl; lia|]. split; [exact H4 | exact H5]. }
  destruct (getChatwootMessageMappingByApiId api cache) as [[[h conv] inbox]|] eqn:Hmap;
    [|apply Hkeep].
  destruct (Js.truthy h) eqn:Hh; cbn [negb]; [|apply Hkeep].
  destruct conv as [conv|]; [|apply Hkeep].
  destruct (mappingByApiId_Some _ _ _ _ _ Hmap) as (e & Hin & Hp & Hconv & Hinbox).
  pose proof (In_mapGet _ _ _ Hnd Hin) as Hget.
  match goal with
  | |- context [match ?x with Some i => Some i | None => head integrations end] =>
    set (chosen := match x with Some i => Some i | None => head integrations end)
  end.
  destruct chosen as [i|]; [|apply Hkeep].
  set (call := {| WebhookDeletions.hd_through := IntegrationManager.id i;
                  WebhookDeletions.hd_conversationId := conv;
                  WebhookDeletions.hd_messageId := h |}).
  destruct (helpdesk call) eqn:Hok.
  - specialize (IH (removeMessageIdMapping h cache) (mapDelete_NoDup _ _ Hnd)).
    destruct (WebhookDeletions.deleteEach integrations helpdesk rest
                (removeMessageIdMapping h cache)) as [[cache' more] results].
    destruct IH as (H1 & H2 & H3 & H4 & H5).
    split; [exact H1|]. split; [simpl; rewrite H2; reflexivity|].
    split; [simpl; lia|]. split.
    + intros c [<-|Hc].
      * exists e. split; [exact Hget | symmetry; exact Hconv].
      * destruct (H4 c Hc) as (e' & He' & Hc'). exists e'. split; [|exact Hc'].
        unfold removeMessageIdMapping in He'.
        rewrite (mapGet_mapDelete _ _ _ Hnd) in He'.
        case_bool_decide; [discriminate | exact He'].
    + intros h'. rewrite H5. unfold deletedBy. cbn [app existsb].
      fold (deletedBy helpdesk h' more). rewrite Hok. cbn [andb]. cbn [WebhookDeletions.hd_messageId call].
      unfold removeMessageIdMapping. rewrite (mapGet_mapDelete _ _ _ Hnd).
      destruct (deletedBy helpdesk h' more); [rewrite orb_true_r; reflexivity|].
      rewrite orb_false_r. reflexivity.
  - specialize (IH cache Hnd).
    destruct (WebhookDeletions.deleteEach integrations helpdesk rest cache)
      as [[cache' more] results].
    destruct IH as (H1 & H2 & H3 & H4 & H5).
    split; [exact H1|]. split; [simpl; rewrite H2; reflexivity|].
    split; [simpl; lia|]. split.
    + intros c [<-|Hc]; [|apply H4, Hc].
      exists e. split; [exact Hget | symmetry; exact Hconv].
    + intros h'. rewrite H5. unfold deletedBy. cbn [app existsb].
      rewrite Hok. reflexivity.
Qed.

(** A UAZAPI deletion event is worked through id by id and one failure
    does not stop the others: the processor never throws, reports one result
    per non-empty id of the event, in order, and makes at most one helpdesk
    delete call per id. Every call names a helpdesk message the cache mapped,
    with the conversation cached for it; afterwards the cache has forgotten
    exactly the helpdesk messages whose delete call was answered, and holds
    every other entry as before. *)
Theorem processUazapiDeletedMessage_isolated (ops : list Op)
    (messageIds : option (list string))
    (integrations : list IntegrationManager.Integration)
    (helpdesk : WebhookDeletions.HelpdeskDelete -> bool) :
  let cache := messageIdCache (run ops initialStore) in
  let '(cache', calls, r) :=
    WebhookDeletions.processUazapiDeletedMessage messageIds integrations helpdesk
      cache in
  r <> WebhookDeletions.Throws
  /\ (r = WebhookDeletions.Unprocessed "no_message_ids"
      <-> default [] messageIds = [])
  /\ (forall results, r = WebhookDeletions.ProcessedWith results ->
        map fst results = List.filter Js.truthy (default [] messageIds)
        /\ (length calls <= length results)%nat)
  /\ (forall call, In call calls ->
        exists e,
          getMessageMappingByChatwootId (WebhookDeletions.hd_messageId call) cache
          = Some e
          /\ Js.or_null (conversationId e)
             = Some (WebhookDeletions.hd_conversationId call))
  /\ forall h,
       getMessageMappingByChatwootId h cache'
       = if deletedBy helpdesk h calls then None
         else getMessageMappingByChatwootId h cache.
Proof.
  intros cache. pose proof (reachable_cache_NoDup ops) as Hnd. fold cache in Hnd.
  unfold WebhookDeletions.processUazapiDeletedMessage.
  destruct messageIds as [[|api rest]|]; cbn [default].
  - split; [discriminate|]. split; [tauto|]. split; [discriminate|].
    split; [intros call []|]. intros h. reflexivity.
  - pose proof (deleteEach_spec integrations helpdesk (api :: rest) cache Hnd) as H.
    destruct (WebhookDeletions.deleteEach integrations helpdesk (api :: rest) cache)
      as [[cache' calls] results].
    destruct H as (_ & H2 & H3 & H4 & H5).
    split; [discriminate|]. split; [split; discriminate|].
    split; [intros results' [= <-]; split; assumption|].
    split; [exact H4 | exact H5].
  - split; [discriminate|]. split; [tauto|]. split; [discriminate|].
    split; [intros call []|]. intros h. reflexivity.
Qed.

(** A Z-API revocation deletes at most one helpdesk message: the one the
    cache maps the revoked provider id to, in the conversation cached for it,
    through one of the configured integrations. When the helpdesk answers,
    the cache forgets that helpdesk message and keeps every other entry; in
    every other case (no id, no mapping, no conversation, no Z-API
    integration to fall back on, or a failing helpdesk, the last two
    throwing) the cache is exactly as before. *)
Theorem processZapiDeletedMessage_effects (ops : list Op)
    (apiMessageId instanceId : option string)
    (integrations : list IntegrationManager.Integration)
    (helpdesk : WebhookDeletions.HelpdeskDelete -> bool) :
  let cache := messageIdCache (run ops initialStore) in
  let '(cache', calls, r) :=
    WebhookDeletions.processZapiDeletedMessage apiMessageId instanceId integrations
      helpdesk cache in
  (length calls <= 1)%nat
  /\ (forall call, In call calls ->
        exists a e i,
          Js.or_null apiMessageId = Some a
          /\ getChatwootMessageId a cache = Some (WebhookDeletions.hd_messageId call)
          /\ getMessageMappingByChatwootId (WebhookDeletions.hd_messageId call) cache
             = Some e
          /\ Js.or_null (conversationId e)
             = Some (WebhookDeletions.hd_conversationId call)
          /\ In i integrations
          /\ IntegrationManager.id i = WebhookDeletions.hd_through call
          /\ (IntegrationManager.inboxId i = Js.or_null (inboxId e)
              \/ IntegrationManager.provider i = WhatsApp.zapi))
  /\ (forall results, r = WebhookDeletions.ProcessedWith results ->
        exists call,
          calls = [call] /\ helpdesk call = true
          /\ getApiMessageId (WebhookDeletions.hd_messageId call) cache' = None
          /\ forall h, h <> WebhookDeletions.hd_messageId call ->
               getMessageMappingByChatwootId h cache'
               = getMessageMappingByChatwootId h cache)
  /\ ((forall results, r <> WebhookDeletions.ProcessedWith results) -> cache' = cache)
  /\ (r = WebhookDeletions.Throws ->
      forall call, In call calls -> helpdesk call = false).
Proof.
  intros cache. pose proof (reachable_cache_NoDup ops) as Hnd. fold cache in Hnd.
  unfold WebhookDeletions.processZapiDeletedMessage.
  assert (Hnone : forall reason,
    (length (@nil WebhookDeletions.HelpdeskDelete) <= 1)%nat
    /\ (forall call, In call [] ->
          exists a e i,
            Js.or_null apiMessageId = Some a
            /\ getChatwootMessageId a cache = Some (WebhookDeletions.hd_messageId call)
            /\ getMessageMappingByChatwootId (WebhookDeletions.hd_messageId call) cache
               = Some e
            /\ Js.or_null (conversationId e)
               = Some (WebhookDeletions.hd_conversationId call)
            /\ In i integrations
            /\ IntegrationManager.id i = WebhookDeletions.hd_through call
            /\ (IntegrationManager.inboxId i = Js.or_null (inboxId e)
                \/ IntegrationManager.provider i = WhatsApp.zapi))
    /\ (forall results, reason = WebhookDeletions.ProcessedWith results ->
          exists call,
            [] = [call] /\ helpdesk call = true
            /\ getApiMessageId (WebhookDeletions.hd_messageId call) cache = None
            /\ forall h, h <> WebhookDeletions.hd_messageId call ->
                 getMessageMappingByChatwootId h cache
                 = getMessageMappingByChatwootId h cache)
    /\ ((forall results, reason <> WebhookDeletions.ProcessedWith results) ->
        cache = cache)
    /\ (reason = WebhookDeletions.Throws ->
        forall call, In call [] -> helpdesk call = false) \/ exists results,
          reason = WebhookDeletions.ProcessedWith results).
  { intros reason. destruct reason as [x|results|]; [left|right; eauto|left];
      (split; [simpl; lia|]); (split; [intros call []|]);
      (split; [discriminate|]); (split; [reflexivity|]); intros _ call []. }
  destruct (Js.or_null apiMessageId) as [a|] eqn:Hapi.
  2:{ destruct (Hnone (WebhookDeletions.Unprocessed "zapi_message_id_not_found"))
        as [H|[? H]]; [exact H | discriminate]. }
  destruct (getChatwootMessageMappingByApiId a cache) as [[[h conv] inbox]|] eqn:Hmap.
  2:{ destruct (Hnone (WebhookDeletions.Unprocessed "chatwoot_message_not_found"))
        as [H|[? H]]; [exact H | discriminate]. }
  destruct (Js.truthy h) eqn:Hh; cbn [negb].
  2:{ destruct (Hnone (WebhookDeletions.Unprocessed "chatwoot_message_not_found"))
        as [H|[? H]]; [exact H | discriminate]. }
  destruct conv as [conv|].
  2:{ destruct (Hnone (WebhookDeletions.Unprocessed "conversation_id_not_found"))
        as [H|[? H]]; [exact H | discriminate]. }
  destruct (mappingByApiId_Some _ _ _ _ _ Hmap) as (e & Hin & Hp & Hconv & Hinbox).
  pose proof (In_mapGet _ _ _ Hnd Hin) as Hget.
  assert (Hrev : getChatwootMessageId a cache = Some h).
  { pose proof (reverse_lookups_list a cache) as Hl. rewrite Hmap in Hl.
    destruct (getChatwootMessageId a cache) as [h'|]; [|discriminate].
    destruct (List.find _ cache) as [[h0 e0]|]; [|discriminate].
    injection Hl as -> _ _. reflexivity. }
  set (chosen :=
    match
      match
        match inbox with
        | Some mappedInboxId =>
          IntegrationManager.findIntegrationByInboxId integrations (Some mappedInboxId)
        | None => None
        end
      with
      | Some i => Some i
      | None =>
        match Js.or_null instanceId with
        | Some instanceId0 =>
          IntegrationManager.findIntegrationByWhatsAppIdentifier integrations
            WhatsApp.zapi instanceId0
        | None => None
        end
      end
    with
    | Some i => Some i
    | None =>
      List.find (fun i => bool_decide (IntegrationManager.provider i = WhatsApp.zapi))
        integrations
    end).
  assert (Hchosen : forall i, chosen = Some i ->
            In i integrations
            /\ (IntegrationManager.inboxId i = Js.or_null (inboxId e)
                \/ IntegrationManager.provider i = WhatsApp.zapi)).
  { intros i. unfold chosen.
    destruct (match inbox with Some _ => _ | None => _ end) as [i1|] eqn:H1.
    { intros [= <-]. destruct inbox as [ib|]; [|discriminate].
      unfold IntegrationManager.findIntegrationByInboxId in H1.
      apply find_some in H1 as [Hin1 Hp1]. split; [exact Hin1|]. left.
      destruct (IntegrationManager.inboxId i1) as [x|]; [|discriminate].
      apply bool_decide_eq_true in Hp1. subst x. exact Hinbox. }
    destruct (match Js.or_null instanceId with Some _ => _ | None => _ end)
      as [i2|] eqn:H2.
    { intros [= <-]. destruct (Js.or_null instanceId) as [inst|]; [|discriminate].
      destruct (findByIdentifier_Some _ _ _ _ H2) as (Hin2 & Hp2 & _).
      split; [exact Hin2 | right; exact Hp2]. }
    intros H3. apply find_some in H3 as [Hin3 Hp3%bool_decide_eq_true].
    split; [exact Hin3 | right; exact Hp3]. }
  destruct chosen as [i|].
  2:{ destruct (Hnone WebhookDeletions.Throws) as [H|[? H]]; [exact H | discriminate]. }
  destruct (Hchosen i eq_refl) as [Hini Hwhy].
  set (call := {| WebhookDeletions.hd_through := IntegrationManager.id i;
                  WebhookDeletions.hd_conversationId := conv;
                  WebhookDeletions.hd_messageId := h |}).
  assert (Hcall : forall c, In c [call] ->
            exists a0 e0 i0,
              Some a = Some a0
              /\ getChatwootMessageId a0 cache = Some (WebhookDeletions.hd_messageId c)
              /\ getMessageMappingByChatwootId (WebhookDeletions.hd_messageId c) cache
                 = Some e0
              /\ Js.or_null (conversationId e0)
                 = Some (WebhookDeletions.hd_conversationId c)
              /\ In i0 integrations
              /\ IntegrationManager.id i0 = WebhookDeletions.hd_through c
              /\ (IntegrationManager.inboxId i0 = Js.or_null (inboxId e0)
                  \/ IntegrationManager.provider i0 = WhatsApp.zapi)).
  { intros c [<-|[]]. exists a, e, i. repeat split; auto. }
  destruct (helpdesk call) eqn:Hok.
  - split; [simpl; lia|]. split; [exact Hcall|]. split.
    + intros results _. exists call. split; [reflexivity|]. split; [exact Hok|].
      unfold getApiMessageId, getMessageMappingByChatwootId, removeMessageIdMapping.
      cbn [WebhookDeletions.hd_messageId call]. split.
      * rewrite (mapGet_mapDelete _ _ _ Hnd), bool_decide_eq_true_2 by reflexivity.
        reflexivity.
      * intros h' Hne. rewrite (mapGet_mapDelete _ _ _ Hnd).
        rewrite bool_decide_eq_false_2 by congruence. reflexivity.
    + split; [|discriminate]. intros Hno. exfalso. eapply Hno. reflexivity.
  - split; [simpl; lia|]. split; [exact Hcall|]. split; [discriminate|].
    split; [reflexivity|]. intros _ c [<-|[]]. exact Hok.
Qed.

(** * Reading a Wuzapi payload *)

Lemma removeSpaces_ascii (l : list ascii) :
  asciiOnly l = true ->
  Js.removeSpaces l = List.filter (fun c => negb (Js.isAsciiSpace c)) l.
Proof.
  induction l as [|a s1 IH]; [reflexivity|].
  intros Hl. cbn [asciiOnly forallb] in Hl. apply andb_true_iff in Hl as [Ha Hs1].
  specialize (IH Hs1). cbn [Js.removeSpaces List.filter].
  destruct (Js.isAsciiSpace a); cbn [negb]; [exact IH|].
  apply Nat.ltb_lt in Ha.
  assert (H2 : forall b, Js.isSpace2 a b = false).
  { intros b. unfold Js.isSpace2.
    destruct (Nat.eqb_spec (nat_of_ascii a) 194); [lia | reflexivity]. }
  assert (H3 : forall b c, Js.isSpace3 a b c = false).
  { intros b c. unfold Js.isSpace3. cbv zeta.
    destruct (Nat.eqb_spec (nat_of_ascii a) 225); [lia|].
    destruct (Nat.eqb_spec (nat_of_ascii a) 226); [lia|].
    destruct (Nat.eqb_spec (nat_of_ascii a) 227); [lia|].
    destruct (Nat.eqb_spec (nat_of_ascii a) 239); [lia|]. reflexivity. }
  destruct s1 as [|b s2]; [reflexivity|]. rewrite H2.
  destruct s2 as [|c s3]; [rewrite IH; reflexivity|]. rewrite H3, IH. reflexivity.
Qed.

Lemma utf16Length_ascii (l : list ascii) :
  asciiOnly l = true -> Js.utf16Length l = length l.
Proof.
  unfold Js.utf16Length. induction l as [|a l IH]; [reflexivity|].
  intros Hl. cbn [asciiOnly forallb] in Hl. apply andb_true_iff in Hl as [Ha Hl].
  specialize (IH Hl). apply Nat.ltb_lt in Ha. cbn [List.filter]. cbv zeta.
  destruct (Nat.leb_spec 128 (nat_of_ascii a)); [lia|]. cbn [andb negb].
  destruct (Nat.leb_spec 240 (nat_of_ascii a)); [lia|]. cbn [length]. lia.
Qed.

Lemma cleaned_chars (l : list ascii) :
  asciiOnly l = true ->
  let b64 := Js.replaceChar "_" "/"
               (Js.replaceChar "-" "+" (Js.replaceChar " " "+" (Js.removeSpaces l))) in
  b64 = List.map standardAlphabet (List.filter (fun c => negb (Js.isAsciiSpace c)) l)
  /\ forallb cleanChar b64 = true.
Proof.
  intros Hl. cbv zeta. rewrite (removeSpaces_ascii l Hl).
  unfold Js.replaceChar. rewrite !map_map.
  induction l as [|a l IH]; [split; reflexivity|].
  cbn [asciiOnly forallb] in Hl. apply andb_true_iff in Hl as [Ha Hl].
  specialize (IH Hl). destruct IH as [IH1 IH2]. cbn [List.filter].
  destruct (Js.isAsciiSpace a) eqn:Hsp; cbn [negb]; [split; assumption|].
  cbn [List.map forallb]. rewrite IH1, <- IH1, IH2.
  assert (Hnotspace : a <> " "%char) by (intros ->; discriminate).
  rewrite (bool_decide_eq_false_2 _ Hnotspace).
  unfold standardAlphabet, cleanChar.
  destruct (decide (a = "-"%char)) as [->|Hd].
  { split; reflexivity. }
  rewrite (bool_decide_eq_false_2 _ Hd).
  destruct (decide (a = "_"%char)) as [->|Hu].
  { split; reflexivity. }
  rewrite (bool_decide_eq_false_2 _ Hu).
  split; [reflexivity|]. rewrite Ha, Hsp.
  rewrite (bool_decide_eq_false_2 _ Hd), (bool_decide_eq_false_2 _ Hu). reflexivity.
Qed.

Lemma clean_fixed (l : list ascii) :
  forallb cleanChar l = true ->
  asciiOnly l = true
  /\ Js.replaceChar "_" "/"
       (Js.replaceChar "-" "+" (Js.replaceChar " " "+" (Js.removeSpaces l))) = l.
Proof.
  intros Hl.
  assert (Hascii : asciiOnly l = true).
  { induction l as [|a l IH]; [reflexivity|]. cbn [forallb] in Hl |- *.
    apply andb_true_iff in Hl as [Ha Hl]. unfold cleanChar in Ha.
    repeat (apply andb_true_iff in Ha as [Ha ?]).
    cbn [asciiOnly forallb]. rewrite Ha. exact (IH Hl). }
  split; [exact Hascii|].
  rewrite (removeSpaces_ascii l Hascii). unfold Js.replaceChar. rewrite !map_map.
  clear Hascii. induction l as [|a l IH]; [reflexivity|].
  cbn [forallb] in Hl. apply andb_true_iff in Hl as [Ha Hl]. unfold cleanChar in Ha.
  apply andb_true_iff in Ha as [Ha Hu]. apply andb_true_iff in Ha as [Ha Hd].
  apply andb_true_iff in Ha as [Ha Hsp].
  apply negb_true_iff in Hu, Hd, Hsp.
  cbn [List.filter]. rewrite Hsp. cbn [negb List.map]. rewrite (IH Hl). f_equal.
  assert (Hnotspace : a <> " "%char) by (intros ->; discriminate).
  rewrite (bool_decide_eq_false_2 _ Hnotspace), Hd, Hu. reflexivity.
Qed.

Lemma pad_to_four (n : nat) :
  (n mod 4 <> 0)%nat -> ((n + (4 - n mod 4)) mod 4 = 0)%nat.
Proof.
  intros Hpad. pose proof (Nat.div_mod_eq n 4) as Hdiv.
  pose proof (Nat.mod_upper_bound n 4 ltac:(lia)) as Hlt.
  replace (n + (4 - n mod 4))%nat with ((n / 4 + 1) * 4)%nat by lia.
  apply Nat.Div0.mod_mul.
Qed.

(** The base64 of a Wuzapi media, for text that is ASCII as base64 is:
    what comes out is the input without its white space, with [-] and [_]
    mapped back to [+] and [/], followed by at most three [=]; its length is
    a multiple of four, it holds no white space, [-] or [_], and cleaning it
    again changes nothing. *)
Theorem sanitizeBase64_wellformed (base64 : string)
    (Hascii : asciiOnly (Js.chars base64) = true) :
  let cleaned := Js.chars (WuzapiExtractor.sanitizeBase64 base64) in
  (exists padding,
     (padding < 4)%nat
     /\ cleaned
        = (List.map standardAlphabet
             (List.filter (fun c => negb (Js.isAsciiSpace c)) (Js.chars base64))
           ++ List.repeat "="%char padding)%list)
  /\ (length cleaned mod 4 = 0)%nat
  /\ forallb cleanChar cleaned = true
  /\ WuzapiExtractor.sanitizeBase64 (WuzapiExtractor.sanitizeBase64 base64)
     = WuzapiExtractor.sanitizeBase64 base64.
Proof.
  intros cleaned. subst cleaned.
  destruct (cleaned_chars (Js.chars base64) Hascii) as [Hb Hclean].
  cbv zeta in Hb, Hclean.
  assert (Hidem : forall l,
    forallb cleanChar l = true -> (length l mod 4 = 0)%nat ->
    WuzapiExtractor.sanitizeBase64 (Js.of_chars l) = Js.of_chars l).
  { intros l Hl Hlen. unfold WuzapiExtractor.sanitizeBase64. cbv zeta.
    rewrite chars_of_chars.
    destruct (clean_fixed l Hl) as [Hal Hfix]. rewrite Hfix.
    rewrite (utf16Length_ascii l Hal), Hlen. reflexivity. }
  set (b64 := Js.replaceChar "_" "/" _) in *.
  assert (Hb64 : asciiOnly b64 = true) by (apply clean_fixed, Hclean).
  set (final := if (length b64 mod 4 =? 0)%nat then b64
                else (b64 ++ List.repeat "="%char (4 - length b64 mod 4))%list).
  assert (Heq : WuzapiExtractor.sanitizeBase64 base64 = Js.of_chars final).
  { unfold WuzapiExtractor.sanitizeBase64. cbv zeta. fold b64.
    rewrite (utf16Length_ascii b64 Hb64). reflexivity. }
  rewrite Heq, chars_of_chars.
  assert (Hfinal : (exists padding,
                      (padding < 4)%nat
                      /\ final = (b64 ++ List.repeat "="%char padding)%list)
                   /\ (length final mod 4 = 0)%nat
                   /\ forallb cleanChar final = true).
  { unfold final. destruct (Nat.eqb_spec (length b64 mod 4) 0) as [Hz|Hnz].
    - split; [exists 0%nat; split; [lia | rewrite app_nil_r; reflexivity]|].
      split; [exact Hz | exact Hclean].
    - pose proof (Nat.mod_upper_bound (length b64) 4 ltac:(lia)) as Hlt.
      split; [exists (4 - length b64 mod 4)%nat; split; [lia | reflexivity]|].
      split.
      + rewrite length_app, repeat_length. apply pad_to_four, Hnz.
      + rewrite forallb_app, Hclean. cbn [andb].
        generalize (4 - length b64 mod 4)%nat. intros k.
        induction k as [|k IH]; [reflexivity | exact IH]. }
  destruct Hfinal as ((padding & Hpad & Hshape) & Hlen & Hcl).
  split; [exists padding; split; [exact Hpad | rewrite Hshape, Hb; reflexivity]|].
  split; [exact Hlen|]. split; [exact Hcl|].
  apply Hidem; assumption.
Qed.

Lemma sanitizeBase64_wellformed_witness :
  WuzapiExtractor.sanitizeBase64
    (WuzapiExtractor.sanitizeBase64 ("aGVs bG8_d29y" ++ String "010"%char "bGQ-IQ"))
  = "aGVsbG8/d29ybGQ+IQ==".
Proof.
  transitivity (WuzapiExtractor.sanitizeBase64
                  ("aGVs bG8_d29y" ++ String "010"%char "bGQ-IQ"));
    [|vm_compute; reflexivity].
  apply (sanitizeBase64_wellformed ("aGVs bG8_d29y" ++ String "010"%char "bGQ-IQ")).
  vm_compute. reflexivity.
Defined.

Lemma endsWith_truthy (s : string) (a : ascii) (suf : string) :
  Js.endsWith s (String a suf) = true -> Js.truthy s = true.
Proof.
  unfold Js.endsWith. destruct s as [|c s]; [|reflexivity].
  simpl. destruct (rev (Js.chars suf ++ [a])%list) eqn:Hrev.
  - apply (f_equal (@length ascii)) in Hrev. rewrite length_rev, length_app in Hrev.
    simpl in Hrev. lia.
  - change (rev (Js.chars (String a suf))) with (rev (a :: Js.chars suf)).
    cbn [rev]. destruct (rev (Js.chars suf) ++ [a])%list eqn:Hl; [|discriminate].
    apply (f_equal (@length ascii)) in Hl. rewrite length_app in Hl.
    simpl in Hl. lia.
Qed.

(** How [extractWuzapiData] names the chat. The event is dropped exactly
    when it is a group event and groups are disregarded, and is never
    [null]. Of [lid] and [jid] at most one is set: [lid] is the chat id when
    that ends in [@lid], and then there is no phone; [jid] is set only outside
    groups, is the chat id when that ends in [@s.whatsapp.net], and then the
    phone is the normalised number in front of the suffix. Outside groups any
    other chat id is passed on as the phone unchanged, without normalising;
    in a group without [lid] the phone is the group's name. *)
Theorem extractWuzapiData_identifiers (body : WuzapiExtractor.WuzapiBody)
    (desconsiderarGrupo : bool) (defaultCountry : string) :
  let chat := Js.or_str (WuzapiExtractor.w_Chat body) "" in
  match WuzapiExtractor.extractWuzapiData body desconsiderarGrupo defaultCountry with
  | WebhookConsumer.ExtractionNull => False
  | WebhookConsumer.Ignored reason origin _ =>
    WuzapiExtractor.w_IsGroup body = true /\ desconsiderarGrupo = true
    /\ reason = "group_disconsidered" /\ origin = "wuzapi"
  | WebhookConsumer.Extracted ev =>
    WebhookConsumer.isGroup ev = WuzapiExtractor.w_IsGroup body
    /\ (WebhookConsumer.isGroup ev = true -> desconsiderarGrupo = false)
    /\ (WebhookConsumer.lid ev = None \/ WebhookConsumer.jid ev = None)
    /\ (WebhookConsumer.lid ev
        = if Js.endsWith chat "@lid" then Some chat else None)
    /\ (forall l, WebhookConsumer.lid ev = Some l ->
          Js.truthy l = true /\ WebhookConsumer.phone ev = None)
    /\ (forall j, WebhookConsumer.jid ev = Some j ->
          WebhookConsumer.isGroup ev = false /\ j = chat
          /\ Js.endsWith chat "@s.whatsapp.net" = true
          /\ WebhookConsumer.phone ev
             = Phone.normalizeToE164 (Some (Js.removeFirst chat "@s.whatsapp.net"))
                 defaultCountry)
    /\ (WebhookConsumer.isGroup ev = false ->
        WebhookConsumer.lid ev = None -> WebhookConsumer.jid ev = None ->
        WebhookConsumer.phone ev = Some chat)
    /\ (WebhookConsumer.isGroup ev = true -> WebhookConsumer.lid ev = None ->
        WebhookConsumer.jid ev = None
        /\ WebhookConsumer.phone ev = WebhookConsumer.groupName ev
        /\ exists g, WebhookConsumer.groupName ev = Some g /\ Js.truthy g = true)
  end.
Proof.
  intros chat. unfold WuzapiExtractor.extractWuzapiData. fold chat.
  set (groupName := Js.or_str (Js.or_else (WuzapiExtractor.w_GroupName body) _)
                      "Grupo sem nome").
  assert (Hgroup : Js.truthy groupName = true).
  { unfold groupName, Js.or_str.
    destruct (Js.or_else _ _) as [g|]; [|reflexivity].
    destruct (Js.truthy g) eqn:Hg; [exact Hg | reflexivity]. }
  assert (Hlidcase : Js.endsWith chat "@lid" = true -> Js.truthy chat = true)
    by apply endsWith_truthy.
  destruct (Js.endsWith chat "@lid") eqn:Hlid;
    [specialize (Hlidcase eq_refl)|clear Hlidcase];
    destruct (Js.endsWith chat "@s.whatsapp.net") eqn:Hjid;
    destruct (WuzapiExtractor.w_IsGroup body) eqn:Hg;
    destruct desconsiderarGrupo;
    cbv beta iota zeta;
    cbn [Js.truthy_opt negb andb]; rewrite ?Hlidcase; cbv beta iota zeta;
    cbn [WebhookConsumer.isGroup WebhookConsumer.lid WebhookConsumer.jid
         WebhookConsumer.phone WebhookConsumer.groupName negb];
    repeat match goal with
           | H : Some _ = None |- _ => discriminate H
           | H : None = Some _ |- _ => discriminate H
           | H : true = false |- _ => discriminate H
           | H : false = true |- _ => discriminate H
           | H : Some _ = Some _ |- _ => injection H as <-
           | |- _ /\ _ => split
           | |- forall _, _ => intro
           | |- exists g, _ => exists groupName
           end; auto.
Qed.

(** * A text written in the helpdesk, end to end *)

(** The run of a callback that carries a text and no attachment, passes the
    guards and finds no provider credit. *)
Lemma callback_text_run (body : WebhookCallback.Payload)
    (integrations : list IntegrationManager.Integration)
    (http : WhatsApp.Request -> WhatsApp.HttpOutcome)
    (answer : nat -> WhatsAppService.SendAnswer) (st : Store)
    (conversation : WebhookCallback.Conversation)
    (contact : WebhookCallback.Contact) (identifier recipient : string) :
  WebhookCallback.event body = Some "message_created" ->
  WebhookCallback.message_type body = Some "outgoing" ->
  WebhookCallback.private body = false ->
  integrations <> [] ->
  WebhookCallback.conversation body = Some conversation ->
  WebhookCallback.meta_sender conversation = Some contact ->
  Js.or_null (WebhookCallback.identifier contact) = Some identifier ->
  default [] (WebhookCallback.attachments body) = [] ->
  recipient
  = (if Js.endsWith identifier "@g.us" || Js.endsWith identifier "-group"
     then identifier
     else Js.or_str (WebhookCallback.phone_number contact) identifier) ->
  ticketCount (messageTickets st) (Some recipient) TEXT <= 0 ->
  exists integration,
    In integration integrations
    /\ match IntegrationManager.findIntegrationByInboxId integrations
               (WebhookCallback.inbox_id conversation) with
       | Some i => integration = i
       | None => head integrations = Some integration
       end
    /\ let call :=
         WhatsAppService.viaCall (IntegrationManager.provider integration) recipient
           (WebhookCallback.signedContent
              (IntegrationManager.assinarMensagem integration)
              (WebhookCallback.senderNameOf body conversation)
              (default "" (WebhookCallback.content body)))
           TEXT None (WebhookCallback.lidOf identifier)
           (WebhookCallback.jidOf identifier)
           (match Js.or_null (WebhookCallback.in_reply_to body) with
            | Some replyToMessageId =>
              getApiMessageId replyToMessageId (messageIdCache st)
            | None => None
            end) in
       let credited :=
         addOutgoingTicketChatwoot (Some recipient) TEXT (messageTicketsChatwoot st) in
       WebhookCallback.processWebhookCallback body integrations http answer st
       = match answer 0%nat with
         | WhatsAppService.Answered messageId =>
           {| WebhookCallback.store :=
                {| messageTickets := messageTickets st;
                   messageTicketsChatwoot := credited;
                   messageIdCache :=
                     match messageId with
                     | Some messageId =>
                       storeMessageIdMapping (WebhookCallback.id body) messageId
                         (WebhookCallback.conversation_id conversation)
                         (WebhookCallback.inbox_id conversation)
                         (Some (WhatsApp.providerName
                                  (IntegrationManager.provider integration)))
                         (Some (IntegrationManager.id integration))
                         (messageIdCache st)
                     | None => messageIdCache st
                     end |};
              WebhookCallback.sends := [call]; WebhookCallback.deletes := [];
              WebhookCallback.result := WebhookConsumer.CallbackProcessed |}
         | WhatsAppService.Failed =>
           {| WebhookCallback.store :=
                {| messageTickets := messageTickets st;
                   messageTicketsChatwoot :=
                     snd (consumeOutgoingTicketChatwoot (Some recipient) TEXT credited);
                   messageIdCache := messageIdCache st |};
              WebhookCallback.sends := [call]; WebhookCallback.deletes := [];
              WebhookCallback.result := WebhookConsumer.CallbackThrows |}
         end.
Proof.
  intros Hevent Hout Hpriv Hints Hconv Hcontact Hident Htext Hrec Hcredit.
  destruct (or_null_Some _ _ Hident) as [_ Ht].
  pose proof (recipientOf_truthy contact identifier Ht) as Hrecipient.
  rewrite isGroupOf_spec, <- Hrec in Hrecipient.
  assert (Hchoice : exists integration,
             In integration integrations
             /\ match IntegrationManager.findIntegrationByInboxId integrations
                        (WebhookCallback.inbox_id conversation) with
                | Some i => integration = i
                | None => head integrations = Some integration
                end
             /\ match IntegrationManager.findIntegrationByInboxId integrations
                        (WebhookCallback.inbox_id conversation) with
                | Some i => Some i
                | None => WebhookCallback.firstIntegration integrations
                end = Some integration).
  { destruct integrations as [|i0 rest]; [contradiction|].
    destruct (IntegrationManager.findIntegrationByInboxId (i0 :: rest) _) as [i|] eqn:Hf.
    - exists i. split; [|split; reflexivity].
      unfold IntegrationManager.findIntegrationByInboxId in Hf.
      destruct (WebhookCallback.inbox_id conversation); [|discriminate].
      apply find_some in Hf. apply Hf.
    - exists i0. split; [left; reflexivity|]. split; reflexivity. }
  destruct Hchoice as (integration & Hin & Hchosen & Hfound).
  exists integration. split; [exact Hin|]. split; [exact Hchosen|].
  cbv zeta. unfold WebhookCallback.processWebhookCallback.
  rewrite Hevent, Hout, Hpriv, Hconv, Hcontact.
  rewrite (bool_decide_eq_false_2 (Some "message_created" = Some "message_updated"))
    by discriminate.
  rewrite !bool_decide_eq_true_2 by reflexivity. cbn [andb negb].
  assert (Hno : WebhookCallback.noIntegrations integrations = false)
    by (destruct integrations; [contradiction | reflexivity]).
  rewrite Hno. cbn [mbind option_bind]. rewrite Hident, Hrecipient.
  cbv zeta. rewrite Hfound, Htext.
  unfold WebhookCallback.deliver.
  change (getMessageType (default "" (WebhookCallback.content body)) (Some []))
    with TEXT.
  pose proof (consume_fst_count (Some recipient) TEXT (messageTickets st)) as Hfst.
  pose proof (consume_unchanged (Some recipient) TEXT (messageTickets st) Hcredit) as Hsnd.
  destruct (consumeOutgoingTicket (Some recipient) TEXT (messageTickets st))
    as [consumed tickets].
  cbn [fst snd] in Hfst, Hsnd. subst tickets.
  replace consumed with false by (rewrite Hfst; symmetry; apply Z.ltb_ge; exact Hcredit).
  cbv beta iota zeta. unfold WhatsAppService.sendMessage.
  destruct (answer 0%nat) as [messageId|]; [|reflexivity].
  destruct messageId as [messageId|]; [|reflexivity].
  unfold WhatsAppService.extractApiMessageIds, WhatsAppService.addId.
  change (option_list (Some messageId)) with [messageId]. cbn [fold_left].
  rewrite bool_decide_eq_false_2 by (apply not_elem_of_nil).
  reflexivity.
Qed.

(** A text written in the helpdesk and delivered. For a created, outgoing,
    public callback without attachments whose contact has an identifier, in a
    reachable store whose provider map holds no credit for the recipient:
    the integration is the one whose inbox is the conversation's, or the
    first one when no inbox matches; exactly one text call is made, to the
    recipient, with the content prefixed by the agent's name between
    asterisks and a blank line when that integration signs messages and a
    name is known (the prefix alone for a blank content), and untouched
    otherwise; the run succeeds exactly when that call does; and an answered
    provider id is cached under the helpdesk message id with the
    conversation, inbox, provider and integration, the cache being left as
    it is when no id is answered or the call fails. *)
Theorem callback_text_delivery (ops : list Op) (body : WebhookCallback.Payload)
    (integrations : list IntegrationManager.Integration)
    (http : WhatsApp.Request -> WhatsApp.HttpOutcome)
    (answer : nat -> WhatsAppService.SendAnswer)
    (conversation : WebhookCallback.Conversation)
    (contact : WebhookCallback.Contact) (identifier recipient : string)
    (Hevent : WebhookCallback.event body = Some "message_created")
    (Hout : WebhookCallback.message_type body = Some "outgoing")
    (Hpriv : WebhookCallback.private body = false)
    (Hints : integrations <> [])
    (Hconv : WebhookCallback.conversation body = Some conversation)
    (Hcontact : WebhookCallback.meta_sender conversation = Some contact)
    (Hident : Js.or_null (WebhookCallback.identifier contact) = Some identifier)
    (Htext : default [] (WebhookCallback.attachments body) = [])
    (Hrec : recipient
            = (if Js.endsWith identifier "@g.us" || Js.endsWith identifier "-group"
               then identifier
               else Js.or_str (WebhookCallback.phone_number contact) identifier))
    (Hcredit : ticketCount (messageTickets (run ops initialStore))
                 (Some recipient) TEXT = 0) :
  let st := run ops initialStore in
  let r := WebhookCallback.processWebhookCallback body integrations http answer st in
  let name := WebhookCallback.senderNameOf body conversation in
  let text := default "" (WebhookCallback.content body) in
  exists integration call,
    In integration integrations
    /\ match IntegrationManager.findIntegrationByInboxId integrations
               (WebhookCallback.inbox_id conversation) with
       | Some i => integration = i
       | None => head integrations = Some integration
       end
    /\ WebhookCallback.sends r = [call] /\ WebhookCallback.deletes r = []
    /\ WhatsAppService.sc_provider call = IntegrationManager.provider integration
    /\ WhatsAppService.sc_phone call = recipient
    /\ WhatsAppService.sc_messageType call = TEXT
    /\ WhatsAppService.sc_attachment call = None
    /\ WhatsAppService.sc_content call
       = (if IntegrationManager.assinarMensagem integration && Js.truthy name
          then if Js.trimIsEmpty text then "*" ++ name ++ ":*"
               else ("*" ++ name ++ ":*") ++ String "010"%char (String "010"%char text)
          else text)
    /\ WebhookCallback.result r
       = match answer 0%nat with
         | WhatsAppService.Answered _ => WebhookConsumer.CallbackProcessed
         | WhatsAppService.Failed => WebhookConsumer.CallbackThrows
         end
    /\ (forall messageId,
          answer 0%nat = WhatsAppService.Answered (Some messageId) ->
          Js.truthy messageId = true ->
          getMessageMappingByChatwootId (WebhookCallback.id body)
            (messageIdCache (WebhookCallback.store r))
          = Some {| apiMessageId := messageId;
                    conversationId :=
                      Js.or_null (WebhookCallback.conversation_id conversation);
                    inboxId := Js.or_null (WebhookCallback.inbox_id conversation);
                    provider :=
                      Some (WhatsApp.providerName
                              (IntegrationManager.provider integration));
                    integrationId :=
                      Js.or_null (Some (IntegrationManager.id integration)) |})
    /\ (answer 0%nat = WhatsAppService.Answered None
        \/ answer 0%nat = WhatsAppService.Failed ->
        messageIdCache (WebhookCallback.store r) = messageIdCache st).
Proof.
  intros st r name text.
  assert (Hle : ticketCount (messageTickets st) (Some recipient) TEXT <= 0)
    by (unfold st; lia).
  destruct (callback_text_run body integrations http answer st conversation contact
              identifier recipient Hevent Hout Hpriv Hints Hconv Hcontact Hident
              Htext Hrec Hle)
    as (integration & Hin & Hchosen & Hrun).
  cbv zeta in Hrun. fold r in Hrun.
  exists integration. eexists. split; [exact Hin|]. split; [exact Hchosen|].
  rewrite Hrun. clear Hrun.
  assert (Hprov : Js.or_null (Some (WhatsApp.providerName
                                      (IntegrationManager.provider integration)))
                  = Some (WhatsApp.providerName (IntegrationManager.provider integration)))
    by (destruct (IntegrationManager.provider integration); reflexivity).
  assert (Hsigned : WebhookCallback.signedContent
                      (IntegrationManager.assinarMensagem integration) name text
                    = (if IntegrationManager.assinarMensagem integration && Js.truthy name
                       then if Js.trimIsEmpty text then "*" ++ name ++ ":*"
                            else ("*" ++ name ++ ":*")
                                 ++ String "010"%char (String "010"%char text)
                       else text)).
  { unfold WebhookCallback.signedContent.
    destruct (_ && _); [|reflexivity]. destruct (Js.trimIsEmpty text); reflexivity. }
  destruct (answer 0%nat) as [[messageId|]|]; cbn [WebhookCallback.sends
    WebhookCallback.deletes WebhookCallback.result WebhookCallback.store messageIdCache];
    (split; [reflexivity|]); (split; [reflexivity|]);
    cbn [WhatsAppService.viaCall WhatsAppService.sc_provider WhatsAppService.sc_phone
         WhatsAppService.sc_messageType WhatsAppService.sc_attachment
         WhatsAppService.sc_content];
    repeat (split; [first [reflexivity | exact Hsigned]|]);
    (split; [intros m [= <-] Hm | intros [H|H]; first [discriminate H | reflexivity]]).
  unfold getMessageMappingByChatwootId, storeMessageIdMapping.
  rewrite mapGet_mapSet, bool_decide_eq_true_2 by reflexivity.
  rewrite Hprov. reflexivity.
Qed.

Lemma callback_text_delivery_witness :
  let contact :=
    {| WebhookCallback.identifier := Some "5511999998888@s.whatsapp.net";
       WebhookCallback.phone_number := Some "+5511999998888";
       WebhookCallback.contact_name := Some "Ana" |} in
  let conversation :=
    {| WebhookCallback.conversation_id := Some "9";
       WebhookCallback.inbox_id := Some "7";
       WebhookCallback.meta_sender := Some contact;
       WebhookCallback.assignee_available_name := Some "Bia";
       WebhookCallback.assignee_name := None |} in
  let body :=
    {| WebhookCallback.event := Some "message_created";
       WebhookCallback.deleted := false;
       WebhookCallback.message_type := Some "outgoing";
       WebhookCallback.private := false;
       WebhookCallback.conversation := Some conversation;
       WebhookCallback.content := Some "oi";
       WebhookCallback.attachments := None;
       WebhookCallback.in_reply_to := None;
       WebhookCallback.id := "42"; WebhookCallback.id_truthy := true;
       WebhookCallback.sender_name := None;
       WebhookCallback.sender_available_name := None |} in
  let integration :=
    {| IntegrationManager.id := "1"; IntegrationManager.inboxId := Some "7";
       IntegrationManager.assinarMensagem := true;
       IntegrationManager.desconsiderarGrupo := true;
       IntegrationManager.defaultCountry := Some "BR";
       IntegrationManager.provider := WhatsApp.uazapi;
       IntegrationManager.normalizedNumber := Some "5511988887777";
       IntegrationManager.instance := None;
       IntegrationManager.baseURL := Some "http://uaz" |} in
  let r :=
    WebhookCallback.processWebhookCallback body [integration]
      (fun _ => WhatsApp.HttpData "")
      (fun _ => WhatsAppService.Answered (Some "A1")) (run [] initialStore) in
  exists call,
    WebhookCallback.sends r = [call]
    /\ WhatsAppService.sc_phone call = "+5511999998888"
    /\ WhatsAppService.sc_content call = "*Bia:*" ++ String "010"%char (String "010"%char "oi").
Proof.
  intros contact conversation body integration r.
  destruct (callback_text_delivery [] body [integration]
              (fun _ => WhatsApp.HttpData "")
              (fun _ => WhatsAppService.Answered (Some "A1"))
              conversation contact "5511999998888@s.whatsapp.net" "+5511999998888")
    as (i & call & Hin & _ & Hsends & _ & _ & Hphone & _ & _ & Hcontent & _);
    try reflexivity; try discriminate.
  exists call. split; [exact Hsends|]. split; [exact Hphone|].
  destruct Hin as [<-|[]]. rewrite Hcontent. reflexivity.
Defined.

(** A text written in the helpdesk comes back from the provider as an echo
    and is not posted a second time. After the callback of the previous
    theorem has delivered its text, an event the provider reports as sent by
    the account through the API, for the same recipient and without media, is
    answered as processed without any helpdesk message being created; and
    after both steps every counter of the provider map and of the helpdesk
    map is what it was before the callback, the cache keeping what the
    callback left. *)
Theorem helpdesk_text_round_trip (ops : list Op) (body : WebhookCallback.Payload)
    (integrations : list IntegrationManager.Integration)
    (http : WhatsApp.Request -> WhatsApp.HttpOutcome)
    (answer : nat -> WhatsAppService.SendAnswer)
    (conversation : WebhookCallback.Conversation)
    (contact : WebhookCallback.Contact) (identifier recipient : string)
    (integration : WebhookConsumer.Integration) (ev : WebhookConsumer.ExtractedData)
    (cw : Chatwoot.Outcome)
    (Hevent : WebhookCallback.event body = Some "message_created")
    (Hout : WebhookCallback.message_type body = Some "outgoing")
    (Hpriv : WebhookCallback.private body = false)
    (Hints : integrations <> [])
    (Hconv : WebhookCallback.conversation body = Some conversation)
    (Hcontact : WebhookCallback.meta_sender conversation = Some contact)
    (Hident : Js.or_null (WebhookCallback.identifier contact) = Some identifier)
    (Htext : default [] (WebhookCallback.attachments body) = [])
    (Hrec : recipient
            = (if Js.endsWith identifier "@g.us" || Js.endsWith identifier "-group"
               then identifier
               else Js.or_str (WebhookCallback.phone_number contact) identifier))
    (Hcredit : ticketCount (messageTickets (run ops initialStore))
                 (Some recipient) TEXT = 0)
    (Hsent : answer 0%nat <> WhatsAppService.Failed)
    (HfromMe : WebhookConsumer.fromMe ev = true)
    (HfromApi : WebhookConsumer.fromApi ev = true)
    (Hphone : WebhookConsumer.phone ev = Some recipient)
    (Hkind : WebhookConsumer.principalMessageType ev = TEXT) :
  let st := run ops initialStore in
  let r := WebhookCallback.processWebhookCallback body integrations http answer st in
  let echo := WebhookConsumer.processExtracted integration ev cw (WebhookCallback.store r) in
  WebhookCallback.result r = WebhookConsumer.CallbackProcessed
  /\ snd (fst echo) = []
  /\ snd echo = WebhookConsumer.Processed None
  /\ (forall phone k,
        ticketCount (messageTickets (fst (fst echo))) phone k
        = ticketCount (messageTickets st) phone k
        /\ ticketCount (messageTicketsChatwoot (fst (fst echo))) phone k
           = ticketCount (messageTicketsChatwoot st) phone k)
  /\ messageIdCache (fst (fst echo)) = messageIdCache (WebhookCallback.store r).
Proof.
  intros st r echo.
  destruct (reachable_wellformed ops) as (_ & _ & Hnc & _). fold st in Hnc.
  assert (Hle : ticketCount (messageTickets st) (Some recipient) TEXT <= 0)
    by (unfold st; lia).
  destruct (callback_text_run body integrations http answer st conversation contact
              identifier recipient Hevent Hout Hpriv Hints Hconv Hcontact Hident
              Htext Hrec Hle)
    as (chosen & _ & _ & Hrun).
  cbv zeta in Hrun. fold r in Hrun.
  assert (Htruthy : Js.truthy recipient = true).
  { destruct (or_null_Some _ _ Hident) as [_ Ht].
    pose proof (recipientOf_truthy contact identifier Ht) as H.
    rewrite isGroupOf_spec, <- Hrec in H. apply or_null_Some in H. apply H. }
  destruct (answer 0%nat) as [messageId|]; [|congruence].
  assert (Hstore : messageTickets (WebhookCallback.store r) = messageTickets st
                   /\ messageTicketsChatwoot (WebhookCallback.store r)
                      = addTicket (Some recipient) TEXT (messageTicketsChatwoot st))
    by (rewrite Hrun; split; reflexivity).
  destruct Hstore as [Hprov Hhelp].
  split; [rewrite Hrun; reflexivity|].
  clear Hrun. subst echo. generalize dependent (WebhookCallback.store r).
  intros st1 Hprov Hhelp.
  unfold WebhookConsumer.processExtracted.
  assert (Hsome : WebhookConsumer.nothingToProcess ev = false)
    by (unfold WebhookConsumer.nothingToProcess; rewrite Hphone; simpl;
        rewrite Htruthy; reflexivity).
  rewrite Hsome, HfromMe, HfromApi, Hkind, Hphone, Hhelp. cbn [negb andb].
  destruct (add_consume_counts (Some recipient) TEXT (messageTicketsChatwoot st) Hnc)
    as [Hfst Hcounts].
  pose proof (consumeChatwoot_fst (Some recipient) TEXT
                (addTicket (Some recipient) TEXT (messageTicketsChatwoot st))) as Hf.
  pose proof (consumeChatwoot_snd (Some recipient) TEXT
                (addTicket (Some recipient) TEXT (messageTicketsChatwoot st))) as Hs.
  rewrite Hfst in Hf.
  destruct (consumeOutgoingTicketChatwoot (Some recipient) TEXT
              (addTicket (Some recipient) TEXT (messageTicketsChatwoot st)))
    as [proceed tc].
  cbn [fst snd negb] in Hf, Hs. subst proceed tc.
  cbn [fst snd WebhookConsumer.withTicketsChatwoot messageTickets
       messageTicketsChatwoot messageIdCache].
  split; [reflexivity|]. split; [reflexivity|]. split; [|reflexivity].
  intros phone k. rewrite Hprov. split; [reflexivity | apply Hcounts].
Qed.

Lemma helpdesk_text_round_trip_witness :
  let contact :=
    {| WebhookCallback.identifier := Some "5511999998888@s.whatsapp.net";
       WebhookCallback.phone_number := Some "5511999998888";
       WebhookCallback.contact_name := Some "Ana" |} in
  let conversation :=
    {| WebhookCallback.conversation_id := Some "9";
       WebhookCallback.inbox_id := Some "7";
       WebhookCallback.meta_sender := Some contact;
       WebhookCallback.assignee_available_name := None;
       WebhookCallback.assignee_name := None |} in
  let body :=
    {| WebhookCallback.event := Some "message_created";
       WebhookCallback.deleted := false;
       WebhookCallback.message_type := Some "outgoing";
       WebhookCallback.private := false;
       WebhookCallback.conversation := Some conversation;
       WebhookCallback.content := Some "oi";
       WebhookCallback.attachments := None;
       WebhookCallback.in_reply_to := None;
       WebhookCallback.id := "42"; WebhookCallback.id_truthy := true;
       WebhookCallback.sender_name := None;
       WebhookCallback.sender_available_name := None |} in
  let configured :=
    {| IntegrationManager.id := "1"; IntegrationManager.inboxId := Some "7";
       IntegrationManager.assinarMensagem := false;
       IntegrationManager.desconsiderarGrupo := true;
       IntegrationManager.defaultCountry := Some "BR";
       IntegrationManager.provider := WhatsApp.zapi;
       IntegrationManager.normalizedNumber := None;
       IntegrationManager.instance := Some "I1";
       IntegrationManager.baseURL := None |} in
  let integration :=
    {| WebhookConsumer.integrationId := "1"; WebhookConsumer.inboxId := Some "7";
       WebhookConsumer.accountId := Some "1";
       WebhookConsumer.whatsappProvider := WhatsApp.zapi |} in
  let ev :=
    {| WebhookConsumer.phone := Some "5511999998888"; WebhookConsumer.lid := None;
       WebhookConsumer.jid := None; WebhookConsumer.text := "oi";
       WebhookConsumer.name := None; WebhookConsumer.senderPhoto := None;
       WebhookConsumer.image := None; WebhookConsumer.audio := None;
       WebhookConsumer.document := None; WebhookConsumer.video := None;
       WebhookConsumer.isGroup := false; WebhookConsumer.fromMe := true;
       WebhookConsumer.status := None; WebhookConsumer.fromApi := true;
       WebhookConsumer.messageId := Some "A1"; WebhookConsumer.replyId := None;
       WebhookConsumer.origin := "zapi"; WebhookConsumer.groupName := None;
       WebhookConsumer.senderName := None; WebhookConsumer.editedMessageId := None |} in
  let r :=
    WebhookCallback.processWebhookCallback body [configured]
      (fun _ => WhatsApp.HttpData "")
      (fun _ => WhatsAppService.Answered (Some "A1")) (run [] initialStore) in
  let echo :=
    WebhookConsumer.processExtracted integration ev Chatwoot.Throws
      (WebhookCallback.store r) in
  snd (fst echo) = []
  /\ ticketCount (messageTicketsChatwoot (fst (fst echo))) (Some "5511999998888") TEXT
     = ticketCount (messageTicketsChatwoot (run [] initialStore))
         (Some "5511999998888") TEXT.
Proof.
  intros contact conversation body configured integration ev r echo.
  destruct (helpdesk_text_round_trip [] body [configured]
              (fun _ => WhatsApp.HttpData "")
              (fun _ => WhatsAppService.Answered (Some "A1"))
              conversation contact "5511999998888@s.whatsapp.net" "5511999998888"
              integration ev Chatwoot.Throws)
    as (_ & Hposts & _ & Hcounts & _);
    try reflexivity; try discriminate.
  split; [exact Hposts|]. apply Hcounts.
Defined.
